(** * The Todo store of qa-assignment: query engine and CRUD contract

    The repository ships two backends over the same SQLite table [todos]:
    a Go service (golang-api/internal/{models,repository,services}) and a
    Node service (nodejs-api/src/{repositories,services}).  This file embeds
    both service stacks together with the small part of SQLite they rely on
    (LIKE, WHERE, ORDER BY, LIMIT/OFFSET, AUTOINCREMENT, CURRENT_TIMESTAMP),
    and states the properties of the store's contract over that embedding. *)

From Stdlib Require Import List ZArith NArith Lia Bool String Ascii.
From Stdlib Require Import Permutation Sorted DecimalString.
Import ListNotations.

Set Implicit Arguments.
Open Scope Z_scope.

(** ** Fallible computations

    Go's [(value, error)] pairs and JavaScript's thrown exceptions are both
    rendered as a sum type with a bind. *)

Inductive result (E A : Type) : Type :=
| Ok (a : A)
| Err (e : E).

Arguments Ok {E A} a.
Arguments Err {E A} e.

Definition bind {E A B} (m : result E A) (k : A -> result E B) : result E B :=
  match m with
  | Ok a => k a
  | Err e => Err e
  end.

Notation "x <- m ;; k" := (bind m (fun x => k))
  (at level 61, m at next level, right associativity).

Definition is_ok {E A} (m : result E A) : bool :=
  match m with Ok _ => true | Err _ => false end.

(** ** Strings

    A string is a sequence of Unicode code points.  Go measures it in UTF-8
    bytes ([len]), JavaScript in UTF-16 code units ([.length]). *)

Module Str.

Definition rune := N.
Definition str := list rune.

(** An ASCII literal as a [str]. *)
Definition lit (s : string) : str := map N_of_ascii (list_ascii_of_string s).

Fixpoint eqb (a b : str) : bool :=
  match a, b with
  | [], [] => true
  | x :: a', y :: b' => (x =? y)%N && eqb a' b'
  | _, _ => false
  end.

Definition utf8_len (c : rune) : Z :=
  if (c <? 128)%N then 1
  else if (c <? 2048)%N then 2
  else if (c <? 65536)%N then 3
  else 4.

Definition utf16_len (c : rune) : Z :=
  if (c <? 65536)%N then 1 else 2.

Section Measure.
Variable width : rune -> Z.

Fixpoint measure (s : str) : Z :=
  match s with
  | [] => 0
  | c :: s' => width c + measure s'
  end.
End Measure.

(** Go: [len(s)]. *)
Definition len : str -> Z := measure utf8_len.
(** JavaScript: [s.length]. *)
Definition length : str -> Z := measure utf16_len.

(** Go: [unicode.IsSpace], the predicate behind [strings.TrimSpace]. *)
Definition IsSpace (c : rune) : bool :=
  if (c <=? 255)%N then
    ((9 <=? c) && (c <=? 13) || (c =? 32) || (c =? 133) || (c =? 160))%N
  else
    ((c =? 5760) || (8192 <=? c) && (c <=? 8202) || (c =? 8232) || (c =? 8233)
     || (c =? 8239) || (c =? 8287) || (c =? 12288))%N.

(** JavaScript: WhiteSpace and LineTerminator code points, the ones
    [String.prototype.trim] strips. *)
Definition isWhiteSpaceOrLineTerminator (c : rune) : bool :=
  ((9 <=? c) && (c <=? 13) || (c =? 32) || (c =? 160) || (c =? 5760)
   || (8192 <=? c) && (c <=? 8202) || (c =? 8232) || (c =? 8233)
   || (c =? 8239) || (c =? 8287) || (c =? 12288) || (c =? 65279))%N.

Section Trim.
Variable space : rune -> bool.

Fixpoint trim_left (s : str) : str :=
  match s with
  | [] => []
  | c :: s' => if space c then trim_left s' else s
  end.

Definition trim_right (s : str) : str := rev (trim_left (rev s)).

Definition trim_with (s : str) : str := trim_right (trim_left s).

(** No white space at either end. *)
Definition trimmed (s : str) : Prop :=
  match s with
  | [] => True
  | c :: _ => space c = false /\ space (last s c) = false
  end.
End Trim.

(** Go: [strings.TrimSpace]. *)
Definition TrimSpace : str -> str := trim_with IsSpace.
(** JavaScript: [String.prototype.trim]. *)
Definition trim : str -> str := trim_with isWhiteSpaceOrLineTerminator.

(** Go: [strings.ToUpper], on the ASCII range that matters for [asc]/[desc]
    (other code points are left alone by the model). *)
Definition upper_rune (c : rune) : rune :=
  if ((97 <=? c) && (c <=? 122))%N then (c - 32)%N else c.

Definition ToUpper (s : str) : str := map upper_rune s.

(** Lexicographic order on code points; SQLite's BINARY collation compares
    the UTF-8 bytes, which orders strings the same way. *)
Fixpoint leb (a b : str) : bool :=
  match a, b with
  | [], _ => true
  | _ :: _, [] => false
  | x :: a', y :: b' =>
      if (x <? y)%N then true
      else if (y <? x)%N then false
      else leb a' b'
  end.

(** [sub] occurs in [s] as a contiguous substring. *)
Fixpoint prefix (sub s : str) : bool :=
  match sub, s with
  | [], _ => true
  | _ :: _, [] => false
  | x :: sub', y :: s' => (x =? y)%N && prefix sub' s'
  end.

Fixpoint contains (s sub : str) : bool :=
  prefix sub s ||
  match s with
  | [] => false
  | _ :: s' => contains s' sub
  end.

End Str.

(** ** The part of SQLite the repositories use

    The [todos] table as both migrations declare it:
    [id INTEGER PRIMARY KEY AUTOINCREMENT, title TEXT NOT NULL,
     description TEXT, completed BOOLEAN DEFAULT 0,
     created_at DATETIME DEFAULT CURRENT_TIMESTAMP,
     updated_at DATETIME DEFAULT CURRENT_TIMESTAMP],
    with the trigger [update_todos_updated_at].  [CURRENT_TIMESTAMP] has a
    resolution of one second; a timestamp is the number of seconds it
    denotes, and every statement receives the clock reading [now]. *)

Module Sqlite.

Record row : Type := mkRow {
  id : Z;
  title : Str.str;
  description : option Str.str;
  completed : bool;
  created_at : Z;
  updated_at : Z
}.

(** [rows] in rowid order; [seq] is the AUTOINCREMENT counter kept in
    [sqlite_sequence]: the largest rowid ever handed out. *)
Record db : Type := mkDb {
  rows : list row;
  seq : Z
}.

Definition empty : db := mkDb [] 0.

Definition max_rowid : Z := 2 ^ 63 - 1.

(** *** LIKE

    [%] matches any sequence of characters, [_] any single character, every
    other character matches itself, ASCII letters without regard to case.
    There is no escape character unless the statement names one, and the
    repositories name none.

    SQLite's [likeFunc] takes pattern and text from [sqlite3_value_text]
    and its [patternCompare] reads both as C strings: each ends at its first
    U+0000, whatever follows it in the stored value. *)

Definition percent : Str.rune := 37%N.
Definition underscore : Str.rune := 95%N.

Definition same_nocase (a b : Str.rune) : bool :=
  (Str.upper_rune a =? Str.upper_rune b)%N.

(** The C string a value is read as: the code points before the first
    U+0000. *)
Fixpoint c_string (s : Str.str) : Str.str :=
  match s with
  | [] => []
  | c :: s' => if (c =? 0)%N then [] else c :: c_string s'
  end.

(** [rest] accepts some suffix of [s]: what is left to do after a [%]. *)
Fixpoint some_suffix (rest : Str.str -> bool) (s : Str.str) : bool :=
  rest s ||
  match s with
  | [] => false
  | _ :: s' => some_suffix rest s'
  end.

Fixpoint patternCompare (pat s : Str.str) : bool :=
  match pat with
  | [] => match s with [] => true | _ :: _ => false end
  | p :: pat' =>
      if (p =? percent)%N then some_suffix (patternCompare pat') s
      else
        match s with
        | [] => false
        | c :: s' =>
            ((p =? underscore)%N || same_nocase p c) && patternCompare pat' s'
        end
  end.

(** [s LIKE pat] for a pattern of acceptable length. *)
Definition like (pat s : Str.str) : bool :=
  patternCompare (c_string pat) (c_string s).

(** [likeFunc] refuses a pattern of more than SQLITE_MAX_LIKE_PATTERN_LENGTH
    bytes ("LIKE or GLOB pattern too complex"), measured as stored, before
    it looks at the text; and no statement can bind a text of more than
    SQLITE_MAX_LENGTH bytes ("string or blob too big").  Both limits have
    the values SQLite ships with: neither driver changes them. *)
Definition MAX_LIKE_PATTERN_LENGTH : Z := 50000.
Definition MAX_LENGTH : Z := 1000000000.

(** [x LIKE pat] where [x] may be NULL: NULL is not true. *)
Definition like_nullable (pat : Str.str) (x : option Str.str) : bool :=
  match x with
  | Some s => like pat s
  | None => false
  end.

(** *** WHERE *)

Inductive cond : Type :=
| TitleOrDescriptionLike (pat : Str.str)
    (* (title LIKE ? OR description LIKE ?), both bound to [pat] *)
| CompletedIs (b : bool).
    (* completed = ? *)

Definition holds (c : cond) (r : row) : bool :=
  match c with
  | TitleOrDescriptionLike pat =>
      like pat (title r) || like_nullable pat (description r)
  | CompletedIs b => Bool.eqb (completed r) b
  end.

Definition where_ (cs : list cond) (r : row) : bool :=
  forallb (fun c => holds c r) cs.

(** When a statement with this WHERE clause fails instead of selecting.
    Binding fails for a pattern over SQLITE_MAX_LENGTH, whatever the table
    holds.  A pattern over SQLITE_MAX_LIKE_PATTERN_LENGTH fails the
    statement when LIKE is first evaluated, that is on the first row the
    statement visits: [completed = ?] is served by [idx_todos_completed], so
    the rows visited are the ones with that value of [completed], and all
    rows when there is no such condition. *)
Definition too_big (c : cond) : bool :=
  match c with
  | TitleOrDescriptionLike pat => MAX_LENGTH <? Str.len pat
  | CompletedIs _ => false
  end.

Definition too_complex (c : cond) : bool :=
  match c with
  | TitleOrDescriptionLike pat => MAX_LIKE_PATTERN_LENGTH <? Str.len pat
  | CompletedIs _ => false
  end.

Definition indexed (c : cond) : bool :=
  match c with
  | TitleOrDescriptionLike _ => false
  | CompletedIs _ => true
  end.

Definition visited (cs : list cond) (d : db) : list row :=
  filter (where_ (filter indexed cs)) (rows d).

Definition where_fails (cs : list cond) (d : db) : bool :=
  existsb too_big cs ||
  existsb too_complex cs && negb (List.length (visited cs d) =? 0)%nat.

(** [SELECT COUNT( * ) FROM todos WHERE ...], when it does not fail. *)
Definition count (cs : list cond) (d : db) : Z :=
  Z.of_nat (List.length (filter (where_ cs) (rows d))).

(** *** ORDER BY *)

Inductive column : Type := Id | Title | Completed | CreatedAt | UpdatedAt.
Inductive direction : Type := Asc | Desc.

(** The column an interpolated name denotes; SQL names are not case
    sensitive.  Only the bare names of the sortable columns are resolved:
    any other interpolated text is reported as a failed query. *)
Definition column_of_name (s : Str.str) : option column :=
  let u := Str.ToUpper s in
  if Str.eqb u (Str.lit "ID") then Some Id
  else if Str.eqb u (Str.lit "TITLE") then Some Title
  else if Str.eqb u (Str.lit "COMPLETED") then Some Completed
  else if Str.eqb u (Str.lit "CREATED_AT") then Some CreatedAt
  else if Str.eqb u (Str.lit "UPDATED_AT") then Some UpdatedAt
  else None.

Definition direction_of_keyword (s : Str.str) : option direction :=
  let u := Str.ToUpper s in
  if Str.eqb u (Str.lit "ASC") then Some Asc
  else if Str.eqb u (Str.lit "DESC") then Some Desc
  else None.

Definition col_leb (c : column) (a b : row) : bool :=
  match c with
  | Id => id a <=? id b
  | Title => Str.leb (title a) (title b)
  | Completed => implb (completed a) (completed b)
  | CreatedAt => created_at a <=? created_at b
  | UpdatedAt => updated_at a <=? updated_at b
  end.

Definition ord_leb (c : column) (dir : direction) (a b : row) : bool :=
  match dir with
  | Asc => col_leb c a b
  | Desc => col_leb c b a
  end.

(** SQLite leaves the order of rows with equal keys open: it depends on the
    plan the statement runs with.  The model keeps them in table order (a
    stable insertion sort), one of the orders SQLite may produce.  Where rows
    cannot tie there is no other sorted order ([sorted_unique] below); what
    is stated about pages and result sets is stated so as to hold for every
    order of ties: as sortedness, as membership and up to permutation. *)
Section Sort.
Variable A : Type.
Variable le : A -> A -> bool.

Fixpoint insert (x : A) (l : list A) : list A :=
  match l with
  | [] => [x]
  | y :: l' => if le x y then x :: l else y :: insert x l'
  end.

Fixpoint sort (l : list A) : list A :=
  match l with
  | [] => []
  | x :: l' => insert x (sort l')
  end.

Definition sorted : list A -> Prop := StronglySorted (fun a b => le a b = true).
End Sort.

(** *** LIMIT ? OFFSET ?

    A negative LIMIT means no limit, a negative OFFSET means none.  Both
    must be integers: a value that is bound as a double is accepted only if
    it is the double of an integer strictly between -2^63 and 2^63
    (otherwise "datatype mismatch"). *)
Definition must_be_int (n : Z) : bool := (- 2 ^ 63 <? n) && (n <? 2 ^ 63).

Definition limit_offset (A : Type) (lim off : Z) (l : list A) : list A :=
  let l' := skipn (Z.to_nat off) l in
  if lim <? 0 then l' else firstn (Z.to_nat lim) l'.

(** [SELECT ... FROM todos WHERE ... ORDER BY c dir LIMIT lim OFFSET off] *)
Definition select (cs : list cond) (c : column) (dir : direction)
    (lim off : Z) (d : db) : list row :=
  limit_offset lim off (sort (ord_leb c dir) (filter (where_ cs) (rows d))).

(** [SELECT ... FROM todos WHERE id = ?], first row. *)
Definition select_by_id (i : Z) (d : db) : option row :=
  find (fun r => id r =? i) (rows d).

(** [SELECT EXISTS(SELECT 1 FROM todos WHERE id = ?)] *)
Definition exists_id (i : Z) (d : db) : bool :=
  existsb (fun r => id r =? i) (rows d).

(** *** INSERT

    [INSERT INTO todos (title, description, completed) VALUES (?, ?, ?)]:
    the rowid is one more than the counter, both timestamps default to the
    statement's CURRENT_TIMESTAMP.  Once the counter has reached the largest
    rowid the insert fails (SQLITE_FULL).  Returns the new table and
    [lastID]. *)
Definition insert_todo (t : Str.str) (desc : option Str.str) (c : bool)
    (now : Z) (d : db) : option (db * Z) :=
  if max_rowid <=? seq d then None
  else
    let i := seq d + 1 in
    Some (mkDb (rows d ++ [mkRow i t desc c now now]) i, i).

(** *** UPDATE

    The SET clause the repositories build: each column is either assigned
    or left out; [updated_at = CURRENT_TIMESTAMP] is always appended. *)
Record assignments : Type := mkSet {
  set_title : option Str.str;
  set_description : option (option Str.str);
  set_completed : option bool
}.

(** Number of assigned columns ([len(updates)], [updateFields.length]). *)
Definition is_some (A : Type) (o : option A) : bool :=
  match o with Some _ => true | None => false end.

Definition assigned (a : assignments) : Z :=
  (if is_some (set_title a) then 1 else 0) +
  (if is_some (set_description a) then 1 else 0) +
  (if is_some (set_completed a) then 1 else 0).

Definition or_else (A : Type) (o : option A) (x : A) : A :=
  match o with Some y => y | None => x end.

Definition apply_set (a : assignments) (now : Z) (r : row) : row :=
  mkRow (id r)
        (or_else (set_title a) (title r))
        (or_else (set_description a) (description r))
        (or_else (set_completed a) (completed r))
        (created_at r)
        now.

(** The trigger body:
    [UPDATE todos SET updated_at = CURRENT_TIMESTAMP WHERE id = NEW.id]. *)
Definition touch (now : Z) (r : row) : row :=
  mkRow (id r) (title r) (description r) (completed r) (created_at r) now.

(** [UPDATE todos SET ..., updated_at = CURRENT_TIMESTAMP WHERE id = ?],
    followed for each changed row by the AFTER UPDATE trigger.  Returns the
    new table and the number of rows changed. *)
Definition update_by_id (a : assignments) (i : Z) (now : Z) (d : db)
    : db * Z :=
  (mkDb (map (fun r => if id r =? i then touch now (apply_set a now r) else r)
             (rows d))
        (seq d),
   Z.of_nat (List.length (filter (fun r => id r =? i) (rows d)))).

(** *** DELETE *)

(** [DELETE FROM todos WHERE id = ?] *)
Definition delete_by_id (i : Z) (d : db) : db * Z :=
  (mkDb (filter (fun r => negb (id r =? i)) (rows d)) (seq d),
   Z.of_nat (List.length (filter (fun r => id r =? i) (rows d)))).

(** [DELETE FROM todos]; the AUTOINCREMENT counter survives. *)
Definition delete_all (d : db) : db * Z :=
  (mkDb [] (seq d), Z.of_nat (List.length (rows d))).

(** [DELETE FROM todos WHERE id IN (?, ..., ?)], one host parameter per
    key.  Preparing the statement fails when it has more parameters than
    SQLITE_MAX_VARIABLE_NUMBER ("too many SQL variables"), a number fixed
    when the library is built (999 before SQLite 3.32, 32766 since, unless
    the build says otherwise), or when its text, [3 * n + 30] bytes for
    [n] keys between the parentheses, is longer than SQLITE_MAX_SQL_LENGTH. *)
Definition MAX_SQL_LENGTH : Z := 1000000000.

Definition delete_in_fails (max_variable_number : Z) (keys : list Z) : bool :=
  let n := Z.of_nat (List.length keys) in
  (max_variable_number <? n) || (MAX_SQL_LENGTH <? 3 * n + 30).

Definition id_in (keys : list Z) (r : row) : bool :=
  existsb (Z.eqb (id r)) keys.

Definition delete_in (keys : list Z) (d : db) : db * Z :=
  (mkDb (filter (fun r => negb (id_in keys r)) (rows d)) (seq d),
   Z.of_nat (List.length (filter (id_in keys) (rows d)))).

(** Well-formed tables: rowids are positive, distinct and bounded by the
    counter. *)
Definition ids (d : db) : list Z := map id (rows d).

Record wf (d : db) : Prop := mkWf {
  wf_seq : 0 <= seq d <= max_rowid;
  wf_ids : Forall (fun i => 0 < i <= seq d) (ids d);
  wf_nodup : NoDup (ids d)
}.

End Sqlite.

(** ** The Go backend *)

Module Go.

(** Go's [int] on the 64-bit targets the service is built for: arithmetic
    wraps around. *)
Definition min_int : Z := - 2 ^ 63.
Definition max_int : Z := 2 ^ 63 - 1.

Definition wrap (z : Z) : Z := (z + 2 ^ 63) mod 2 ^ 64 - 2 ^ 63.

Definition int_add (a b : Z) : Z := wrap (a + b).
Definition int_sub (a b : Z) : Z := wrap (a - b).
Definition int_mul (a b : Z) : Z := wrap (a * b).
(** [a / b] truncates toward zero (and panics for [b = 0], which no caller
    below can reach). *)
Definition int_quo (a b : Z) : Z := wrap (Z.quot a b).

(** *** internal/models/todo.go *)

Module models.

Record Todo : Type := mkTodo {
  ID : Z;
  Title : Str.str;
  Description : option Str.str;        (* *string *)
  Completed : bool;
  CreatedAt : Z;
  UpdatedAt : Z
}.

Record CreateTodoRequest : Type := mkCreateTodoRequest {
  cr_Title : Str.str;
  cr_Description : option Str.str;
  cr_Completed : bool
}.

Record UpdateTodoRequest : Type := mkUpdateTodoRequest {
  ur_Title : option Str.str;
  ur_Description : option Str.str;
  ur_Completed : option bool
}.

Record PaginatedResponse : Type := mkPaginatedResponse {
  Data : list Todo;
  Total : Z;
  Page : Z;
  PerPage : Z;
  TotalPages : Z
}.

Record QueryParams : Type := mkQueryParams {
  qp_Page : Z;
  qp_PerPage : Z;
  qp_Sort : Str.str;
  qp_Order : Str.str;
  qp_Search : Str.str;
  qp_Completed : option bool          (* *bool *)
}.

Definition DefaultQueryParams : QueryParams :=
  mkQueryParams 1 20 (Str.lit "created_at") (Str.lit "desc") [] None.

End models.
Import models.

(** Errors, one constructor per message the code formats. *)
Inductive error : Type :=
| ErrInvalidSortField (s : Str.str)   (* "invalid sort field: %s" *)
| ErrInvalidOrder (s : Str.str)       (* "invalid order: %s" *)
| ErrInvalidTodoID (i : Z)            (* "invalid todo ID: %d" *)
| ErrTitleRequired                    (* "title is required" *)
| ErrTitleEmpty                       (* "title cannot be empty" *)
| ErrTitleTooLong                     (* "title cannot exceed 255 characters" *)
| ErrDescriptionTooLong               (* "description cannot exceed 1000 characters" *)
| ErrTodoNotFound (i : Z)             (* "todo with id %d not found" *)
| ErrNoTodosToDelete                  (* "no todos found to delete" *)
| ErrSql                              (* an error of the database driver *)
| ErrWrap (msg : string) (e : error)  (* fmt.Errorf("msg: %w", e) *)
| ErrNilDereference.                  (* run-time panic *)

(** *** internal/repository/todo_repository.go *)

Module repository.

(** [rows.Scan] into a [models.Todo]. *)
Definition scan (r : Sqlite.row) : Todo :=
  mkTodo (Sqlite.id r) (Sqlite.title r) (Sqlite.description r)
         (Sqlite.completed r) (Sqlite.created_at r) (Sqlite.updated_at r).

(** The WHERE clause [GetAll] assembles. *)
Definition whereClause (params : QueryParams) : list Sqlite.cond :=
  let w := [] in
  let w :=
    if negb (Str.eqb (qp_Search params) []) then
      let searchTerm := [Sqlite.percent] ++ qp_Search params ++ [Sqlite.percent] in
      w ++ [Sqlite.TitleOrDescriptionLike searchTerm]
    else w in
  let w :=
    match qp_Completed params with
    | Some b => w ++ [Sqlite.CompletedIs b]
    | None => w
    end in
  w.

Definition GetAll (params : QueryParams) (d : Sqlite.db)
    : result error (list Todo * Z) :=
  let w := whereClause params in
  if Sqlite.where_fails w d then Err (ErrWrap "failed to count todos" ErrSql)
  else
    let total := Sqlite.count w d in
    let offset := int_mul (int_sub (qp_Page params) 1) (qp_PerPage params) in
    match Sqlite.column_of_name (qp_Sort params),
          Sqlite.direction_of_keyword (Str.ToUpper (qp_Order params)) with
    | Some c, Some dir =>
        Ok (map scan (Sqlite.select w c dir (qp_PerPage params) offset d), total)
    | _, _ => Err (ErrWrap "failed to query todos" ErrSql)
    end.

(** [nil, nil] when no row has the id. *)
Definition GetByID (i : Z) (d : Sqlite.db) : result error (option Todo) :=
  Ok (option_map scan (Sqlite.select_by_id i d)).

(** Inserts title, description and completed, then reloads the row so that
    the caller's todo receives the stored id and timestamps. *)
Definition Create (todo : Todo) (now : Z) (d : Sqlite.db)
    : result error Todo * Sqlite.db :=
  match Sqlite.insert_todo (Title todo) (Description todo) (Completed todo) now d with
  | None => (Err (ErrWrap "failed to create todo" ErrSql), d)
  | Some (d', i) =>
      match GetByID i d' with
      | Err e => (Err (ErrWrap "failed to fetch created todo" e), d')
      | Ok None => (Err ErrNilDereference, d')
      | Ok (Some createdTodo) => (Ok createdTodo, d')
      end
  end.

(** [updates] is the map keyed by column name, here one optional entry per
    column the service can put in it. *)
Definition Update (i : Z) (updates : Sqlite.assignments) (now : Z)
    (d : Sqlite.db) : result error (option Todo) * Sqlite.db :=
  if Sqlite.assigned updates =? 0 then (GetByID i d, d)
  else
    let '(d', rowsAffected) := Sqlite.update_by_id updates i now d in
    if rowsAffected =? 0 then (Ok None, d')
    else (GetByID i d', d').

Definition Delete (i : Z) (d : Sqlite.db) : result error unit * Sqlite.db :=
  let '(d', rowsAffected) := Sqlite.delete_by_id i d in
  if rowsAffected =? 0 then (Err (ErrTodoNotFound i), d')
  else (Ok tt, d').

Definition DeleteAll (d : Sqlite.db) : result error unit * Sqlite.db :=
  let '(d', rowsAffected) := Sqlite.delete_all d in
  if rowsAffected =? 0 then (Err ErrNoTodosToDelete, d')
  else (Ok tt, d').

Definition Exists (i : Z) (d : Sqlite.db) : result error bool :=
  Ok (Sqlite.exists_id i d).

End repository.

(** *** internal/services/todo_service.go *)

Module services.

Fixpoint contains (slice : list Str.str) (item : Str.str) : bool :=
  match slice with
  | [] => false
  | s :: slice' => if Str.eqb s item then true else contains slice' item
  end.

Definition validSortFields : list Str.str :=
  [Str.lit "id"; Str.lit "title"; Str.lit "completed";
   Str.lit "created_at"; Str.lit "updated_at"].

(** The first half of [GetTodos]: "Validate and set defaults". *)
Definition setDefaults (params : QueryParams) : QueryParams :=
  let page := if qp_Page params <? 1 then 1 else qp_Page params in
  let perPage :=
    if (qp_PerPage params <? 1) || (100 <? qp_PerPage params) then 20
    else qp_PerPage params in
  let sort :=
    if Str.eqb (qp_Sort params) [] then Str.lit "created_at"
    else qp_Sort params in
  let order :=
    if Str.eqb (qp_Order params) [] then Str.lit "desc"
    else qp_Order params in
  mkQueryParams page perPage sort order (qp_Search params) (qp_Completed params).

Definition GetTodos (params : QueryParams) (d : Sqlite.db)
    : result error PaginatedResponse :=
  let params := setDefaults params in
  if negb (contains validSortFields (qp_Sort params)) then
    Err (ErrInvalidSortField (qp_Sort params))
  else if negb (Str.eqb (qp_Order params) (Str.lit "asc")) &&
          negb (Str.eqb (qp_Order params) (Str.lit "desc")) then
    Err (ErrInvalidOrder (qp_Order params))
  else
    match repository.GetAll params d with
    | Err e => Err (ErrWrap "failed to get todos" e)
    | Ok (todos, total) =>
        let totalPages :=
          int_quo (int_sub (int_add total (qp_PerPage params)) 1)
                  (qp_PerPage params) in
        Ok (mkPaginatedResponse todos total (qp_Page params)
                                (qp_PerPage params) totalPages)
    end.

Definition GetTodoByID (i : Z) (d : Sqlite.db) : result error (option Todo) :=
  if i <=? 0 then Err (ErrInvalidTodoID i)
  else
    match repository.GetByID i d with
    | Err e => Err (ErrWrap "failed to get todo" e)
    | Ok todo => Ok todo
    end.

Definition validateCreateRequest (req : CreateTodoRequest) : result error unit :=
  if Str.eqb (Str.TrimSpace (cr_Title req)) [] then Err ErrTitleRequired
  else if 255 <? Str.len (cr_Title req) then Err ErrTitleTooLong
  else
    match cr_Description req with
    | Some desc =>
        if 1000 <? Str.len desc then Err ErrDescriptionTooLong else Ok tt
    | None => Ok tt
    end.

Definition validateUpdateRequest (req : UpdateTodoRequest) : result error unit :=
  _ <- match ur_Title req with
       | Some t =>
           if Str.eqb (Str.TrimSpace t) [] then Err ErrTitleEmpty
           else if 255 <? Str.len t then Err ErrTitleTooLong
           else Ok tt
       | None => Ok tt
       end ;;
  match ur_Description req with
  | Some desc =>
      if 1000 <? Str.len desc then Err ErrDescriptionTooLong else Ok tt
  | None => Ok tt
  end.

(** "Trim description if provided": a description that is empty once
    trimmed becomes nil. *)
Definition trimDescription (desc : option Str.str) : option Str.str :=
  match desc with
  | Some s =>
      let trimmed := Str.TrimSpace s in
      if Str.eqb trimmed [] then None else Some trimmed
  | None => None
  end.

(** [t1] and [t2] are the two readings of [time.Now()] that fill the model
    before it is stored; [now] is the database's CURRENT_TIMESTAMP. *)
Definition CreateTodo (req : CreateTodoRequest) (t1 t2 now : Z) (d : Sqlite.db)
    : result error Todo * Sqlite.db :=
  match validateCreateRequest req with
  | Err e => (Err e, d)
  | Ok _ =>
      let todo :=
        mkTodo 0 (Str.TrimSpace (cr_Title req))
               (trimDescription (cr_Description req))
               (cr_Completed req) t1 t2 in
      match repository.Create todo now d with
      | (Err e, d') => (Err (ErrWrap "failed to create todo" e), d')
      | (Ok todo', d') => (Ok todo', d')
      end
  end.

(** The [updates] map the service builds from the request. *)
Definition buildUpdates (req : UpdateTodoRequest) : Sqlite.assignments :=
  Sqlite.mkSet
    (option_map Str.TrimSpace (ur_Title req))
    (match ur_Description req with
     | Some s =>
         let trimmed := Str.TrimSpace s in
         if Str.eqb trimmed [] then Some None else Some (Some trimmed)
     | None => None
     end)
    (ur_Completed req).

(** [Ok None] is the [nil, nil] the handler turns into 404. *)
Definition UpdateTodo (i : Z) (req : UpdateTodoRequest) (now : Z)
    (d : Sqlite.db) : result error (option Todo) * Sqlite.db :=
  if i <=? 0 then (Err (ErrInvalidTodoID i), d)
  else
    match validateUpdateRequest req with
    | Err e => (Err e, d)
    | Ok _ =>
        match repository.Exists i d with
        | Err e => (Err (ErrWrap "failed to check todo existence" e), d)
        | Ok false => (Ok None, d)
        | Ok true =>
            match repository.Update i (buildUpdates req) now d with
            | (Err e, d') => (Err (ErrWrap "failed to update todo" e), d')
            | (Ok todo, d') => (Ok todo, d')
            end
        end
    end.

Definition DeleteTodo (i : Z) (d : Sqlite.db) : result error unit * Sqlite.db :=
  if i <=? 0 then (Err (ErrInvalidTodoID i), d)
  else
    match repository.Exists i d with
    | Err e => (Err (ErrWrap "failed to check todo existence" e), d)
    | Ok false => (Err (ErrTodoNotFound i), d)
    | Ok true =>
        match repository.Delete i d with
        | (Err e, d') => (Err (ErrWrap "failed to delete todo" e), d')
        | (Ok _, d') => (Ok tt, d')
        end
    end.

Definition DeleteAllTodos (d : Sqlite.db) : result error unit * Sqlite.db :=
  match repository.DeleteAll d with
  | (Err e, d') => (Err (ErrWrap "failed to delete all todos" e), d')
  | (Ok _, d') => (Ok tt, d')
  end.

(** The three entries of the [stats] map. *)
Record Stats : Type := mkStats {
  total_todos : Z;
  completed_todos : Z;
  pending_todos : Z
}.

Definition countTodo (stats : Stats) (todo : Todo) : Stats :=
  if Completed todo then
    mkStats (total_todos stats) (int_add (completed_todos stats) 1)
            (pending_todos stats)
  else
    mkStats (total_todos stats) (completed_todos stats)
            (int_add (pending_todos stats) 1).

Definition GetTodoStats (d : Sqlite.db) : result error Stats :=
  let params :=
    mkQueryParams 1 1000 (Str.lit "created_at") (Str.lit "desc") [] None in
  match GetTodos params d with
  | Err e => Err e
  | Ok response =>
      Ok (fold_left countTodo (Data response)
                    (mkStats (Total response) 0 0))
  end.

End services.

(** [strconv.Itoa], which is also what the verb [%d] prints. *)
Definition Itoa (i : Z) : Str.str :=
  Str.lit (NilZero.string_of_int (Z.to_int i)).

(** [err.Error()].  The text of an error of the database driver is not
    written in this code: it is the parameter [driver]. *)
Section Messages.
Variable driver : Str.str.

Fixpoint Error (e : error) : Str.str :=
  match e with
  | ErrInvalidSortField s => Str.lit "invalid sort field: " ++ s
  | ErrInvalidOrder s => Str.lit "invalid order: " ++ s
  | ErrInvalidTodoID i => Str.lit "invalid todo ID: " ++ Itoa i
  | ErrTitleRequired => Str.lit "title is required"
  | ErrTitleEmpty => Str.lit "title cannot be empty"
  | ErrTitleTooLong => Str.lit "title cannot exceed 255 characters"
  | ErrDescriptionTooLong =>
      Str.lit "description cannot exceed 1000 characters"
  | ErrTodoNotFound i => Str.lit "todo with id " ++ Itoa i ++ Str.lit " not found"
  | ErrNoTodosToDelete => Str.lit "no todos found to delete"
  | ErrSql => driver
  | ErrWrap msg e' => Str.lit msg ++ Str.lit ": " ++ Error e'
  | ErrNilDereference =>
      Str.lit "runtime error: invalid memory address or nil pointer dereference"
  end.

End Messages.

(** *** internal/handlers/todo_handler.go

    A handler reads the request through fiber's accessors and answers with
    a status and a JSON body.  What the accessors return is the handler's
    input here: [c.QueryInt] and [c.ParamsInt] run [strconv.Atoi] on the raw
    text, [None] standing for its failure; [c.Query] is the raw text, empty
    when the key is missing; [c.BodyParser] fills the request struct or
    fails. *)

Module handlers.

Definition StatusOK : Z := 200.
Definition StatusNoContent : Z := 204.
Definition StatusBadRequest : Z := 400.
Definition StatusNotFound : Z := 404.
Definition StatusInternalServerError : Z := 500.

Inductive body : Type :=
| ErrorResponse (Error : Str.str) (Code : Z)    (* models.ErrorResponse *)
| TodoJSON (todo : Todo)
| PageJSON (response : PaginatedResponse)
| NoBody.                                       (* c.SendStatus *)

Record reply : Type := mkReply {
  status : Z;
  sent : body
}.

(** The query string of [GET /todos]. *)
Record query : Type := mkQuery {
  q_page : option Z;
  q_per_page : option Z;
  q_sort : Str.str;
  q_order : Str.str;
  q_search : Str.str;
  q_completed : Str.str
}.

(** [c.QueryInt(key, defaultValue)] *)
Definition QueryInt (value : option Z) (defaultValue : Z) : Z :=
  match value with
  | Some v => v
  | None => defaultValue
  end.

(** [strconv.ParseBool] *)
Definition ParseBool (s : Str.str) : option bool :=
  if existsb (Str.eqb s)
       [Str.lit "1"; Str.lit "t"; Str.lit "T"; Str.lit "TRUE"; Str.lit "true";
        Str.lit "True"] then Some true
  else if existsb (Str.eqb s)
       [Str.lit "0"; Str.lit "f"; Str.lit "F"; Str.lit "FALSE"; Str.lit "false";
        Str.lit "False"] then Some false
  else None.

(** The first half of [GetTodos]: "Parse query parameters". *)
Definition parseQueryParameters (q : query) : QueryParams :=
  let params := DefaultQueryParams in
  let page := QueryInt (q_page q) 1 in
  let perPage := QueryInt (q_per_page q) 20 in
  mkQueryParams
    (if 0 <? page then page else qp_Page params)
    (if (0 <? perPage) && (perPage <=? 100) then perPage else qp_PerPage params)
    (if negb (Str.eqb (q_sort q) []) then q_sort q else qp_Sort params)
    (if negb (Str.eqb (q_order q) []) then q_order q else qp_Order params)
    (if negb (Str.eqb (q_search q) []) then q_search q else qp_Search params)
    (if negb (Str.eqb (q_completed q) []) then
       match ParseBool (q_completed q) with
       | Some completed => Some completed
       | None => qp_Completed params
       end
     else qp_Completed params).

Section Handlers.
Variable driver : Str.str.

Definition GetTodos (q : query) (d : Sqlite.db) : reply :=
  let params := parseQueryParameters q in
  match services.GetTodos params d with
  | Err err =>
      mkReply StatusBadRequest (ErrorResponse (Error driver err) StatusBadRequest)
  | Ok response => mkReply StatusOK (PageJSON response)
  end.

Definition GetTodo (id : option Z) (d : Sqlite.db) : reply :=
  match id with
  | None =>
      mkReply StatusBadRequest
              (ErrorResponse (Str.lit "Invalid todo ID") StatusBadRequest)
  | Some id =>
      match services.GetTodoByID id d with
      | Err _ =>
          mkReply StatusInternalServerError
                  (ErrorResponse (Str.lit "Failed to get todo")
                                 StatusInternalServerError)
      | Ok None =>
          mkReply StatusNotFound
                  (ErrorResponse (Str.lit "Todo not found") StatusNotFound)
      | Ok (Some todo) => mkReply StatusOK (TodoJSON todo)
      end
  end.

Definition UpdateTodo (id : option Z) (req : option UpdateTodoRequest)
    (now : Z) (d : Sqlite.db) : reply * Sqlite.db :=
  match id with
  | None =>
      (mkReply StatusBadRequest
               (ErrorResponse (Str.lit "Invalid todo ID") StatusBadRequest), d)
  | Some id =>
      match req with
      | None =>
          (mkReply StatusBadRequest
                   (ErrorResponse (Str.lit "Invalid request body") StatusBadRequest),
           d)
      | Some req =>
          match services.UpdateTodo id req now d with
          | (Err err, d') =>
              (mkReply StatusBadRequest
                       (ErrorResponse (Error driver err) StatusBadRequest), d')
          | (Ok None, d') =>
              (mkReply StatusNotFound
                       (ErrorResponse (Str.lit "Todo not found") StatusNotFound), d')
          | (Ok (Some todo), d') => (mkReply StatusOK (TodoJSON todo), d')
          end
      end
  end.

Definition DeleteTodo (id : option Z) (d : Sqlite.db) : reply * Sqlite.db :=
  match id with
  | None =>
      (mkReply StatusBadRequest
               (ErrorResponse (Str.lit "Invalid todo ID") StatusBadRequest), d)
  | Some id =>
      match services.DeleteTodo id d with
      | (Err err, d') =>
          if Str.eqb (Error driver err)
                     (Str.lit "todo with id " ++ Itoa id ++ Str.lit " not found")
          then
            (mkReply StatusNotFound
                     (ErrorResponse (Error driver err) StatusNotFound), d')
          else
            (mkReply StatusInternalServerError
                     (ErrorResponse (Str.lit "Failed to delete todo")
                                    StatusInternalServerError), d')
      | (Ok _, d') => (mkReply StatusNoContent NoBody, d')
      end
  end.

End Handlers.

End handlers.

End Go.

(** ** JavaScript numbers

    A number is a double.  The numbers that reach the Node backend are
    integers (ids, counts, page numbers) and are kept in [Z]; a difference
    or a product is the double nearest to the exact result, ties to the even
    mantissa, which is the exact result up to 2^53.  (Past the largest
    double the result is Infinity; the only place where such a result is
    used hands it to SQLite as an OFFSET, which refuses Infinity like every
    number from 2^63 on.) *)

Module Js.

Definition MAX_SAFE_INTEGER : Z := 2 ^ 53 - 1.

Definition round (z : Z) : Z :=
  let a := Z.abs z in
  let e := Z.log2 a - 52 in
  if e <=? 0 then z
  else
    let q := Z.shiftr a e in
    let r := a - Z.shiftl q e in
    let half := Z.shiftl 1 (e - 1) in
    let q' := if (half <? r) || ((r =? half) && Z.odd q) then q + 1 else q in
    Z.sgn z * Z.shiftl q' e.

Definition sub (a b : Z) : Z := round (a - b).
Definition mul (a b : Z) : Z := round (a * b).

End Js.

(** ** The Node backend *)

Module Node.

(** *** src/utils/errors.js *)

Inductive error : Type :=
| ValidationError (message : string)
| NotFoundError (resource : string)
| DatabaseError (message : string).

(** *** src/models/Todo.js *)

Record Todo : Type := mkTodo {
  id : Z;
  title : Str.str;
  description : option Str.str;        (* null when absent *)
  completed : bool;
  created_at : Z;
  updated_at : Z
}.

Definition fromDb (r : Sqlite.row) : Todo :=
  mkTodo (Sqlite.id r) (Sqlite.title r) (Sqlite.description r)
         (Sqlite.completed r) (Sqlite.created_at r) (Sqlite.updated_at r).

(** [Todo.isValid] for a todo built from title, description, completed. *)
Definition isValid (title : Str.str) (description : option Str.str) : bool :=
  (0 <? Str.length (Str.trim title)) &&
  (Str.length title <=? 255) &&
  match description with
  | None => true
  | Some d => Str.length d <=? 1000
  end.

(** [Todo.getValidationErrors], for the same todo. *)
Definition getValidationErrors (title : Str.str) (description : option Str.str)
    : list string :=
  (if Str.eqb title [] || (Str.length (Str.trim title) =? 0) then
     ["Title is required"%string]
   else if 255 <? Str.length title then
     ["Title cannot exceed 255 characters"%string]
   else []) ++
  (match description with
   | Some d =>
       if 1000 <? Str.length d then
         ["Description cannot exceed 1000 characters"%string]
       else []
   | None => []
   end).

(** Query options; [None] is a key that is absent (or undefined). *)
Record options : Type := mkOptions {
  page : option Z;
  per_page : option Z;
  sort : option Str.str;
  order : option Str.str;
  search : option Str.str;
  opt_completed : option bool
}.

Record pagination : Type := mkPagination {
  pg_data : list Todo;
  pg_total : Z;
  pg_page : Z;
  pg_per_page : Z;
  pg_total_pages : Z
}.

(** [Math.ceil(a / b)] on integers, [b] not zero. *)
Definition ceil_div (a b : Z) : Z := - ((- a) / b).

(** The objects that carry todo data into the service.  A key that is
    missing is [None]; [description: null] is [Some None] where the code
    tells it from a missing key. *)
Record todoData : Type := mkTodoData {
  td_title : option Str.str;
  td_description : option Str.str;     (* undefined and null are treated alike *)
  td_completed : option bool
}.

Record updateData : Type := mkUpdateData {
  ud_title : option Str.str;
  ud_description : option (option Str.str);
  ud_completed : option bool;
  ud_other : list string               (* any further keys of the object *)
}.

(** *** src/utils/validation.js

    [QueryParamsSchema], which the route runs before the controller hands
    the query to the service.  The route's own querystring schema has by
    then coerced the values to their declared types, so the coercions of
    the schema are identities; a failed parse lists the offending keys. *)

Module validation.

Definition sortEnum : list Str.str :=
  [Str.lit "id"; Str.lit "title"; Str.lit "completed";
   Str.lit "created_at"; Str.lit "updated_at"].

Definition orderEnum : list Str.str := [Str.lit "asc"; Str.lit "desc"].

Definition issues (o : options) : list string :=
  (match page o with
   | Some n => if n <? 1 then ["page"%string] else []
   | None => []
   end) ++
  (match per_page o with
   | Some n => if (n <? 1) || (100 <? n) then ["per_page"%string] else []
   | None => []
   end) ++
  (match sort o with
   | Some s => if existsb (Str.eqb s) sortEnum then [] else ["sort"%string]
   | None => []
   end) ++
  (match order o with
   | Some s => if existsb (Str.eqb s) orderEnum then [] else ["order"%string]
   | None => []
   end) ++
  (match search o with
   | Some s => if 255 <? Str.length s then ["search"%string] else []
   | None => []
   end).

Definition QueryParamsSchema (o : options) : result (list string) options :=
  match issues o with
  | [] =>
      Ok (mkOptions (Some (Sqlite.or_else (page o) 1))
                    (Some (Sqlite.or_else (per_page o) 20))
                    (Some (Sqlite.or_else (sort o) (Str.lit "created_at")))
                    (Some (Sqlite.or_else (order o) (Str.lit "desc")))
                    (search o) (opt_completed o))
  | errs => Err errs
  end.

End validation.

(** *** src/repositories/TodoRepository.js *)

Module TodoRepository.

Definition whereConditions (o : options) : list Sqlite.cond :=
  let w := [] in
  let w :=
    match search o with
    | Some s =>
        if Str.eqb s [] then w
        else
          let searchTerm := [Sqlite.percent] ++ s ++ [Sqlite.percent] in
          w ++ [Sqlite.TitleOrDescriptionLike searchTerm]
    | None => w
    end in
  let w :=
    match opt_completed o with
    | Some b => w ++ [Sqlite.CompletedIs b]
    | None => w
    end in
  w.

(** [per_page] and [offset] are bound to [LIMIT ? OFFSET ?] as numbers: the
    driver binds a number outside the 32-bit integers as a double, which
    SQLite takes only if it is an integer below 2^63.  The offset it
    receives is the double [(page - 1) * per_page], which differs from the
    exact product only from 2^53 on; there either of them skips every row
    of a table with fewer than 2^53 rows ([offset_as_double] below), and the
    rows are selected at the exact product.  Every failure is rethrown as
    the same [DatabaseError]. *)
Definition findAll (o : options) (d : Sqlite.db) : result error pagination :=
  let page := Sqlite.or_else (page o) 1 in
  let per_page := Sqlite.or_else (per_page o) 20 in
  let sort := Sqlite.or_else (sort o) (Str.lit "created_at") in
  let order := Sqlite.or_else (order o) (Str.lit "desc") in
  let w := whereConditions o in
  if Sqlite.where_fails w d then Err (DatabaseError "Failed to retrieve todos")
  else
    let total := Sqlite.count w d in
    let offset := Js.mul (Js.sub page 1) per_page in
    match Sqlite.column_of_name sort,
          Sqlite.direction_of_keyword (Str.ToUpper order) with
    | Some c, Some dir =>
        if Sqlite.must_be_int per_page && Sqlite.must_be_int offset then
          let rows := Sqlite.select w c dir per_page ((page - 1) * per_page) d in
          Ok (mkPagination (map fromDb rows) total page per_page
                           (ceil_div total per_page))
        else Err (DatabaseError "Failed to retrieve todos")
    | _, _ => Err (DatabaseError "Failed to retrieve todos")
    end.

Definition findById (i : Z) (d : Sqlite.db) : option Todo :=
  option_map fromDb (Sqlite.select_by_id i d).

(** An invalid todo makes [create] throw, which its own handler reports as
    a database error like every other failure of the method. *)
Definition create (title : Str.str) (description : option Str.str)
    (completed : bool) (now : Z) (d : Sqlite.db)
    : result error Todo * Sqlite.db :=
  if negb (isValid title description) then
    (Err (DatabaseError "Failed to create todo"), d)
  else
    match Sqlite.insert_todo title description completed now d with
    | None => (Err (DatabaseError "Failed to create todo"), d)
    | Some (d', lastID) =>
        match findById lastID d' with
        | None => (Err (DatabaseError "Failed to create todo"), d')
        | Some createdTodo => (Ok createdTodo, d')
        end
    end.

Definition update (i : Z) (updates : Sqlite.assignments) (now : Z)
    (d : Sqlite.db) : result error Todo * Sqlite.db :=
  match findById i d with
  | None => (Err (NotFoundError "Todo"), d)
  | Some existingTodo =>
      if Sqlite.assigned updates =? 0 then (Ok existingTodo, d)
      else
        let '(d', _) := Sqlite.update_by_id updates i now d in
        match findById i d' with
        | None => (Err (DatabaseError "Failed to update todo"), d')
        | Some updatedTodo => (Ok updatedTodo, d')
        end
  end.

Definition delete (i : Z) (d : Sqlite.db) : result error bool * Sqlite.db :=
  match findById i d with
  | None => (Err (NotFoundError "Todo"), d)
  | Some _ =>
      let '(d', changes) := Sqlite.delete_by_id i d in
      if changes =? 0 then (Err (NotFoundError "Todo"), d')
      else (Ok true, d')
  end.

(** The object [deleteAll] resolves to, reduced to its count. *)
Record deleted : Type := mkDeleted { deletedCount : Z }.

Definition deleteAll (d : Sqlite.db) : result error deleted * Sqlite.db :=
  let initialCount := Sqlite.count [] d in
  if initialCount =? 0 then (Ok (mkDeleted 0), d)
  else
    let '(d', changes) := Sqlite.delete_all d in
    (Ok (mkDeleted changes), d').

Record stats : Type := mkStats {
  total_todos : Z;
  completed_todos : Z;
  pending_todos : Z
}.

Definition getStats (d : Sqlite.db) : result error stats :=
  Ok (mkStats (Sqlite.count [] d)
              (Sqlite.count [Sqlite.CompletedIs true] d)
              (Sqlite.count [Sqlite.CompletedIs false] d)).

(** The loop of [createMany]: one [create] after the other, each with the
    clock reading of its turn; the first failure ends the loop and is
    thrown on, with the todos created so far left in the table. *)
Fixpoint createEach (todosData : list (Str.str * option Str.str * bool))
    (now : nat -> Z) (k : nat) (d : Sqlite.db) (todos : list Todo)
    : result error (list Todo) * Sqlite.db :=
  match todosData with
  | [] => (Ok todos, d)
  | (title, description, completed) :: rest =>
      match create title description completed (now k) d with
      | (Ok todo, d') => createEach rest now (S k) d' (todos ++ [todo])
      | (Err e, d') => (Err e, d')
      end
  end.

Definition createMany (todosData : list (Str.str * option Str.str * bool))
    (now : nat -> Z) (d : Sqlite.db) : result error (list Todo) * Sqlite.db :=
  createEach todosData now 0%nat d [].

(** Resolves to [result.changes]; a statement that cannot be prepared
    deletes nothing and is reported as a [DatabaseError].
    [max_variable_number] is SQLITE_MAX_VARIABLE_NUMBER of the SQLite the
    driver is built with. *)
Definition deleteMany (max_variable_number : Z) (ids : list Z) (d : Sqlite.db)
    : result error Z * Sqlite.db :=
  if Sqlite.delete_in_fails max_variable_number ids then
    (Err (DatabaseError "Failed to delete todos"), d)
  else
    let '(d', changes) := Sqlite.delete_in ids d in
    (Ok changes, d').

End TodoRepository.

(** *** src/services/TodoService.js *)

Module TodoService.

Definition allowedSortFields : list Str.str :=
  [Str.lit "id"; Str.lit "title"; Str.lit "completed";
   Str.lit "created_at"; Str.lit "updated_at"].

Definition includes (l : list Str.str) (x : Str.str) : bool :=
  existsb (Str.eqb x) l.

Definition validateQueryOptions (o : options) : result error options :=
  (* { ...defaults, ...options } *)
  let v_page := Sqlite.or_else (page o) 1 in
  let v_per_page := Sqlite.or_else (per_page o) 20 in
  let v_sort := Sqlite.or_else (sort o) (Str.lit "created_at") in
  let v_order := Sqlite.or_else (order o) (Str.lit "desc") in
  let v_page := if v_page <? 1 then 1 else v_page in
  let v_per_page :=
    if (v_per_page <? 1) || (100 <? v_per_page) then 20 else v_per_page in
  let v_sort :=
    if negb (includes allowedSortFields v_sort) then Str.lit "created_at"
    else v_sort in
  let v_order :=
    if negb (includes [Str.lit "asc"; Str.lit "desc"] v_order) then Str.lit "desc"
    else v_order in
  match search o with
  | Some s =>
      if negb (Str.eqb s []) && (255 <? Str.length s) then
        Err (ValidationError "Search query too long")
      else
        Ok (mkOptions (Some v_page) (Some v_per_page) (Some v_sort)
                      (Some v_order) (search o) (opt_completed o))
  | None =>
      Ok (mkOptions (Some v_page) (Some v_per_page) (Some v_sort)
                    (Some v_order) (search o) (opt_completed o))
  end.

Definition getTodos (o : options) (d : Sqlite.db) : result error pagination :=
  validatedOptions <- validateQueryOptions o ;;
  TodoRepository.findAll validatedOptions d.

Definition validateId (i : Z) : result error unit :=
  if i <=? 0 then Err (ValidationError "Invalid ID: must be a positive integer")
  else Ok tt.

Definition validateTodoData (data : todoData) : result error unit :=
  match td_title data with
  | None => Err (ValidationError "Title is required")
  | Some t =>
      if Str.eqb t [] || (Str.length (Str.trim t) =? 0) then
        Err (ValidationError "Title is required")
      else if 255 <? Str.length t then
        Err (ValidationError "Title cannot exceed 255 characters")
      else
        match td_description data with
        | Some desc =>
            if 1000 <? Str.length desc then
              Err (ValidationError "Description cannot exceed 1000 characters")
            else Ok tt
        | None => Ok tt
        end
  end.

(** [s?.trim() || null]: nothing, or an empty trimmed string, gives null. *)
Definition trimOrNull (s : option Str.str) : option Str.str :=
  match s with
  | Some x => if Str.eqb (Str.trim x) [] then None else Some (Str.trim x)
  | None => None
  end.

Record sanitized : Type := mkSanitized {
  s_title : Str.str;
  s_description : option Str.str;
  s_completed : bool
}.

(** Only called once [validateTodoData] has accepted a title. *)
Definition sanitizeTodoData (t : Str.str) (data : todoData) : sanitized :=
  mkSanitized (Str.trim t) (trimOrNull (td_description data))
              (Sqlite.or_else (td_completed data) false).

Definition createTodo (data : todoData) (now : Z) (d : Sqlite.db)
    : result error Todo * Sqlite.db :=
  match validateTodoData data, td_title data with
  | Err e, _ => (Err e, d)
  | Ok _, None => (Err (ValidationError "Title is required"), d)
  | Ok _, Some t =>
      let s := sanitizeTodoData t data in
      TodoRepository.create (s_title s) (s_description s) (s_completed s) now d
  end.

Definition keys (data : updateData) : Z :=
  (if Sqlite.is_some (ud_title data) then 1 else 0) +
  (if Sqlite.is_some (ud_description data) then 1 else 0) +
  (if Sqlite.is_some (ud_completed data) then 1 else 0) +
  Z.of_nat (List.length (ud_other data)).

Definition validateUpdateData (data : updateData) : result error unit :=
  if keys data =? 0 then
    Err (ValidationError "At least one field must be provided")
  else
    match ud_other data with
    | _ :: _ =>
        Err (ValidationError
               (String.append "Invalid fields: " (String.concat ", " (ud_other data))))
    | [] =>
        _ <- match ud_title data with
             | Some t =>
                 if Str.eqb t [] || (Str.length (Str.trim t) =? 0) then
                   Err (ValidationError "Title cannot be empty")
                 else if 255 <? Str.length t then
                   Err (ValidationError "Title cannot exceed 255 characters")
                 else Ok tt
             | None => Ok tt
             end ;;
        match ud_description data with
        | Some (Some desc) =>
            if 1000 <? Str.length desc then
              Err (ValidationError "Description cannot exceed 1000 characters")
            else Ok tt
        | _ => Ok tt
        end
    end.

Definition sanitizeUpdateData (data : updateData) : Sqlite.assignments :=
  Sqlite.mkSet
    (option_map Str.trim (ud_title data))
    (option_map trimOrNull (ud_description data))
    (ud_completed data).

Definition updateTodo (i : Z) (updates : updateData) (now : Z)
    (d : Sqlite.db) : result error Todo * Sqlite.db :=
  match validateId i with
  | Err e => (Err e, d)
  | Ok _ =>
      match validateUpdateData updates with
      | Err e => (Err e, d)
      | Ok _ =>
          let sanitizedUpdates := sanitizeUpdateData updates in
          if Sqlite.assigned sanitizedUpdates =? 0 then
            (Err (ValidationError "No valid fields to update"), d)
          else TodoRepository.update i sanitizedUpdates now d
      end
  end.

Definition deleteTodo (i : Z) (d : Sqlite.db) : result error bool * Sqlite.db :=
  match validateId i with
  | Err e => (Err e, d)
  | Ok _ => TodoRepository.delete i d
  end.

Definition getTodoById (i : Z) (d : Sqlite.db) : result error Todo :=
  _ <- validateId i ;;
  match TodoRepository.findById i d with
  | None => Err (NotFoundError "Todo")
  | Some todo => Ok todo
  end.

(** [query] is [None] when the argument is undefined or null. *)
Definition searchTodos (query : option Str.str) (o : options) (d : Sqlite.db)
    : result error pagination :=
  match query with
  | None => Err (ValidationError "Search query is required")
  | Some q =>
      if Str.eqb q [] || (Str.length (Str.trim q) =? 0) then
        Err (ValidationError "Search query is required")
      else if 255 <? Str.length q then
        Err (ValidationError "Search query too long")
      else
        let searchOptions :=
          mkOptions (page o) (per_page o) (sort o) (order o)
                    (Some (Str.trim q)) (opt_completed o) in
        getTodos searchOptions d
  end.

Definition toggleTodoCompletion (i : Z) (now : Z) (d : Sqlite.db)
    : result error Todo * Sqlite.db :=
  match TodoRepository.findById i d with
  | None => (Err (NotFoundError "Todo"), d)
  | Some todo =>
      TodoRepository.update
        i (Sqlite.mkSet None None (Some (negb (completed todo)))) now d
  end.

(** [ids.forEach(id => this.validateId(id))] *)
Fixpoint validateIds (ids : list Z) : result error unit :=
  match ids with
  | [] => Ok tt
  | i :: ids' => _ <- validateId i ;; validateIds ids'
  end.

(** The loop of [bulkUpdateTodos]: a missing todo is skipped, any other
    failure is thrown on.  [now k] is the clock reading of the k-th turn. *)
Fixpoint updateEach (sanitizedUpdates : Sqlite.assignments) (now : nat -> Z)
    (k : nat) (ids : list Z) (d : Sqlite.db) (results : list Todo)
    : result error (list Todo) * Sqlite.db :=
  match ids with
  | [] => (Ok results, d)
  | i :: ids' =>
      match TodoRepository.update i sanitizedUpdates (now k) d with
      | (Ok todo, d') =>
          updateEach sanitizedUpdates now (S k) ids' d' (results ++ [todo])
      | (Err (NotFoundError _), d') =>
          updateEach sanitizedUpdates now (S k) ids' d' results
      | (Err e, d') => (Err e, d')
      end
  end.

Definition bulkUpdateTodos (ids : list Z) (updates : updateData)
    (now : nat -> Z) (d : Sqlite.db) : result error (list Todo) * Sqlite.db :=
  match ids with
  | [] => (Err (ValidationError "IDs array is required"), d)
  | _ :: _ =>
      match validateIds ids with
      | Err e => (Err e, d)
      | Ok _ =>
          match validateUpdateData updates with
          | Err e => (Err e, d)
          | Ok _ =>
              let sanitizedUpdates := sanitizeUpdateData updates in
              updateEach sanitizedUpdates now 0%nat ids d []
          end
      end
  end.

(** Resolves to [{ deleted: deletedCount }]. *)
Definition bulkDeleteTodos (max_variable_number : Z) (ids : list Z)
    (d : Sqlite.db) : result error Z * Sqlite.db :=
  match ids with
  | [] => (Err (ValidationError "IDs array is required"), d)
  | _ :: _ =>
      match validateIds ids with
      | Err e => (Err e, d)
      | Ok _ => TodoRepository.deleteMany max_variable_number ids d
      end
  end.

End TodoService.

End Node.

(** ** The store as a transition system

    A store state is a table; the requests both backends serve move it.
    Reads (List, GetByID, Stats) leave it alone. *)

Module Store.

Inductive request : Type :=
| GoCreate (req : Go.models.CreateTodoRequest) (t1 t2 now : Z)
| GoUpdate (i : Z) (req : Go.models.UpdateTodoRequest) (now : Z)
| GoDelete (i : Z)
| GoDeleteAll
| NodeCreate (data : Node.todoData) (now : Z)
| NodeUpdate (i : Z) (data : Node.updateData) (now : Z)
| NodeDelete (i : Z)
| NodeDeleteAll.

Definition exec (r : request) (d : Sqlite.db) : Sqlite.db :=
  match r with
  | GoCreate req t1 t2 now => snd (Go.services.CreateTodo req t1 t2 now d)
  | GoUpdate i req now => snd (Go.services.UpdateTodo i req now d)
  | GoDelete i => snd (Go.services.DeleteTodo i d)
  | GoDeleteAll => snd (Go.services.DeleteAllTodos d)
  | NodeCreate data now => snd (Node.TodoService.createTodo data now d)
  | NodeUpdate i data now => snd (Node.TodoService.updateTodo i data now d)
  | NodeDelete i => snd (Node.TodoService.deleteTodo i d)
  | NodeDeleteAll => snd (Node.TodoRepository.deleteAll d)
  end.

Definition run (rs : list request) (d : Sqlite.db) : Sqlite.db :=
  fold_left (fun d r => exec r d) rs d.

Inductive reachable : Sqlite.db -> Prop :=
| reachable_empty : reachable Sqlite.empty
| reachable_exec (r : request) (d : Sqlite.db) :
    reachable d -> reachable (exec r d).

(** Stores reached through one backend only: each backend has a database
    of its own. *)
Definition is_go (r : request) : bool :=
  match r with
  | GoCreate _ _ _ _ | GoUpdate _ _ _ | GoDelete _ | GoDeleteAll => true
  | _ => false
  end.

Definition is_node (r : request) : bool := negb (is_go r).

Inductive reachable_via (allowed : request -> bool) : Sqlite.db -> Prop :=
| via_empty : reachable_via allowed Sqlite.empty
| via_exec (r : request) (d : Sqlite.db) :
    allowed r = true -> reachable_via allowed d ->
    reachable_via allowed (exec r d).

(** Number of todos in the store. *)
Definition size (d : Sqlite.db) : Z := Z.of_nat (List.length (Sqlite.rows d)).

End Store.

(** ** Vocabulary of the contract

    The notions the specification of the store speaks in, independent of
    either backend. *)

Module Contract.

(** The filter predicate of a List query: the search term, if any, against
    title or description, and the completed filter, if any. *)
Definition search_pattern (search : Str.str) : Str.str :=
  [Sqlite.percent] ++ search ++ [Sqlite.percent].

Definition search_matches (search : Str.str) (r : Sqlite.row) : bool :=
  Str.eqb search [] ||
  Sqlite.like (search_pattern search) (Sqlite.title r) ||
  Sqlite.like_nullable (search_pattern search) (Sqlite.description r).

Definition completed_matches (completedFilter : option bool) (r : Sqlite.row) : bool :=
  match completedFilter with
  | Some b => Bool.eqb (Sqlite.completed r) b
  | None => true
  end.

Definition filter_predicate (search : Str.str) (completedFilter : option bool)
    (r : Sqlite.row) : bool :=
  search_matches search r && completed_matches completedFilter r.

(** The rows a query selects, in the order asked for, before pagination. *)
Definition selected (search : Str.str) (completedFilter : option bool)
    (c : Sqlite.column) (dir : Sqlite.direction) (d : Sqlite.db) : list Sqlite.row :=
  Sqlite.sort (Sqlite.ord_leb c dir)
              (filter (filter_predicate search completedFilter) (Sqlite.rows d)).

(** Skip [(page - 1) * perPage] rows, take [perPage]. *)
Definition page_slice (A : Type) (page perPage : Z) (l : list A) : list A :=
  firstn (Z.to_nat perPage) (skipn (Z.to_nat ((page - 1) * perPage)) l).

(** [ceil (total / perPage)] for a positive [perPage]. *)
Definition ceil_div (total perPage : Z) : Z := (total + perPage - 1) / perPage.

Definition sortFields : list Str.str :=
  [Str.lit "id"; Str.lit "title"; Str.lit "completed";
   Str.lit "created_at"; Str.lit "updated_at"].

Definition sortOrders : list Str.str := [Str.lit "asc"; Str.lit "desc"].

(** The sort field and order the Node service goes on with. *)
Definition node_sort (s : Str.str) : Str.str :=
  if existsb (Str.eqb s) sortFields then s else Str.lit "created_at".

Definition node_order (s : Str.str) : Str.str :=
  if existsb (Str.eqb s) sortOrders then s else Str.lit "desc".

(** Effective pagination parameters: out-of-range values fall back to the
    defaults. *)
Definition effective_page (page : Z) : Z := if page <? 1 then 1 else page.

Definition effective_perPage (perPage : Z) : Z :=
  if (perPage <? 1) || (100 <? perPage) then 20 else perPage.

(** The result set of a List query: what its pages 1 .. total_pages hold,
    one after the other, total_pages being what page 1 reports. *)
Definition page_numbers (totalPages : Z) : list Z :=
  map Z.of_nat (seq 1 (Z.to_nat totalPages)).

Definition go_page (page : Z) (params : Go.models.QueryParams)
    : Go.models.QueryParams :=
  Go.models.mkQueryParams page (Go.models.qp_PerPage params)
    (Go.models.qp_Sort params) (Go.models.qp_Order params)
    (Go.models.qp_Search params) (Go.models.qp_Completed params).

Definition go_completed (cf : option bool) (params : Go.models.QueryParams)
    : Go.models.QueryParams :=
  Go.models.mkQueryParams (Go.models.qp_Page params) (Go.models.qp_PerPage params)
    (Go.models.qp_Sort params) (Go.models.qp_Order params)
    (Go.models.qp_Search params) cf.

Definition go_data (params : Go.models.QueryParams) (d : Sqlite.db)
    : list Go.models.Todo :=
  match Go.services.GetTodos params d with
  | Ok resp => Go.models.Data resp
  | Err _ => []
  end.

Definition go_result_set (params : Go.models.QueryParams) (d : Sqlite.db)
    : list Go.models.Todo :=
  match Go.services.GetTodos (go_page 1 params) d with
  | Ok resp =>
      flat_map (fun p => go_data (go_page p params) d)
               (page_numbers (Go.models.TotalPages resp))
  | Err _ => []
  end.

Definition node_page (p : Z) (o : Node.options) : Node.options :=
  Node.mkOptions (Some p) (Node.per_page o) (Node.sort o) (Node.order o)
                 (Node.search o) (Node.opt_completed o).

Definition node_completed (cf : option bool) (o : Node.options) : Node.options :=
  Node.mkOptions (Node.page o) (Node.per_page o) (Node.sort o) (Node.order o)
                 (Node.search o) cf.

Definition node_data (o : Node.options) (d : Sqlite.db) : list Node.Todo :=
  match Node.TodoService.getTodos o d with
  | Ok res => Node.pg_data res
  | Err _ => []
  end.

Definition node_result_set (o : Node.options) (d : Sqlite.db) : list Node.Todo :=
  match Node.TodoService.getTodos (node_page 1 o) d with
  | Ok res =>
      flat_map (fun p => node_data (node_page p o) d)
               (page_numbers (Node.pg_total_pages res))
  | Err _ => []
  end.

(** The options the Node service goes on with. *)
Definition node_effective (o : Node.options) : Node.options :=
  Node.mkOptions
    (Some (effective_page (Sqlite.or_else (Node.page o) 1)))
    (Some (effective_perPage (Sqlite.or_else (Node.per_page o) 20)))
    (Some (node_sort (Sqlite.or_else (Node.sort o) (Str.lit "created_at"))))
    (Some (node_order (Sqlite.or_else (Node.order o) (Str.lit "desc"))))
    (Node.search o) (Node.opt_completed o).

(** The outcome of an accepted update of todo [i] with the given values for
    the supplied fields ([None]: not supplied): row [r] of store [d] has
    become row [r'] of store [d'].  Supplied fields carry the new values,
    [updated_at] the time of the update, every other field and every other
    todo is as before. *)
Record update_outcome (i now : Z) (title : option Str.str)
    (description : option (option Str.str)) (completed : option bool)
    (d d' : Sqlite.db) (r r' : Sqlite.row) : Prop := mkUpdateOutcome {
  uo_id : Sqlite.id r' = Sqlite.id r;
  uo_title : Sqlite.title r' = Sqlite.or_else title (Sqlite.title r);
  uo_description :
    Sqlite.description r' = Sqlite.or_else description (Sqlite.description r);
  uo_completed :
    Sqlite.completed r' = Sqlite.or_else completed (Sqlite.completed r);
  uo_created_at : Sqlite.created_at r' = Sqlite.created_at r;
  uo_updated_at : Sqlite.updated_at r' = now;
  uo_stored : Sqlite.select_by_id i d' = Some r';
  uo_frame : forall j, j <> i -> Sqlite.select_by_id j d' = Sqlite.select_by_id j d;
  uo_seq : Sqlite.seq d' = Sqlite.seq d
}.

(** A description as it is to be stored: trimmed, and absent when nothing is
    left. *)
Definition normalized (space : Str.rune -> bool) (s : Str.str) : option Str.str :=
  if Str.eqb (Str.trim_with space s) [] then None else Some (Str.trim_with space s).

(** The validation rules of Create, in the order they are checked. *)
Inductive rule : Type := TitleNonEmpty | TitleLength | DescriptionLength.


(** The rules with the length of the title measured as supplied, before
    trimming. *)
Definition first_violation (size : Str.str -> Z) (trim : Str.str -> Str.str)
    (title : Str.str) (description : option Str.str) : option rule :=
  if Str.eqb (trim title) [] then Some TitleNonEmpty
  else if 255 <? size title then Some TitleLength
  else
    match description with
    | Some desc => if 1000 <? size desc then Some DescriptionLength else None
    | None => None
    end.

(** The error each backend reports for a violated rule. *)
Definition go_error (v : rule) : Go.error :=
  match v with
  | TitleNonEmpty => Go.ErrTitleRequired
  | TitleLength => Go.ErrTitleTooLong
  | DescriptionLength => Go.ErrDescriptionTooLong
  end.

Definition node_error (v : rule) : Node.error :=
  match v with
  | TitleNonEmpty => Node.ValidationError "Title is required"
  | TitleLength => Node.ValidationError "Title cannot exceed 255 characters"
  | DescriptionLength =>
      Node.ValidationError "Description cannot exceed 1000 characters"
  end.

(** A description as it may be persisted: absent, or a non-empty string
    without white space at either end. *)
Definition stored_description_ok (space : Str.rune -> bool)
    (o : option Str.str) : Prop :=
  match o with
  | None => True
  | Some s => s <> [] /\ Str.trimmed space s
  end.

Definition descriptions_ok (space : Str.rune -> bool) (d : Sqlite.db) : Prop :=
  Forall (fun r => stored_description_ok space (Sqlite.description r))
         (Sqlite.rows d).

(** [sub] occurs in [s] as a contiguous part, ASCII letters compared
    without regard to case. *)
Fixpoint prefix_nocase (sub s : Str.str) : bool :=
  match sub, s with
  | [], _ => true
  | _ :: _, [] => false
  | x :: sub', y :: s' => Sqlite.same_nocase x y && prefix_nocase sub' s'
  end.

Fixpoint contains_nocase (s sub : Str.str) : bool :=
  prefix_nocase sub s ||
  match s with
  | [] => false
  | _ :: s' => contains_nocase s' sub
  end.

(** A search term without [%] and [_]. *)
Definition wildcard_free (term : Str.str) : bool :=
  forallb (fun c => negb ((c =? Sqlite.percent)%N || (c =? Sqlite.underscore)%N))
          term.

(** A text without U+0000. *)
Definition nul_free (s : Str.str) : bool :=
  forallb (fun c => negb (c =? 0)%N) s.

(** The todo mentions [term] in its title or in its description, as far as
    LIKE reads them. *)
Definition mentions (term : Str.str) (r : Sqlite.row) : bool :=
  contains_nocase (Sqlite.c_string (Sqlite.title r)) term ||
  match Sqlite.description r with
  | Some text => contains_nocase (Sqlite.c_string text) term
  | None => false
  end.

(** A pattern read as the claim on wildcards words it: [%] stands for any
    sequence of characters, [_] for any single character, every other
    character for itself, an ASCII letter for either of its cases. *)
Inductive wild : Str.str -> Str.str -> Prop :=
| wild_nil : wild [] []
| wild_percent (pat s1 s2 : Str.str) :
    wild pat s2 -> wild (Sqlite.percent :: pat) (s1 ++ s2)
| wild_underscore (pat : Str.str) (c : Str.rune) (s : Str.str) :
    wild pat s -> wild (Sqlite.underscore :: pat) (c :: s)
| wild_char (p c : Str.rune) (pat s : Str.str) :
    p <> Sqlite.percent -> p <> Sqlite.underscore ->
    Sqlite.same_nocase p c = true ->
    wild pat s -> wild (p :: pat) (c :: s).

(** Some part of [text] matches [term] read this way. *)
Definition occurs (term text : Str.str) : Prop :=
  exists x s y, text = x ++ s ++ y /\ wild term s.

(** The search finds the todo: its title or its description, up to the
    first U+0000, matches the pattern [%term%] up to its first U+0000. *)
Definition found (term : Str.str) (r : Sqlite.row) : Prop :=
  wild (Sqlite.c_string (search_pattern term)) (Sqlite.c_string (Sqlite.title r)) \/
  exists text, Sqlite.description r = Some text /\
    wild (Sqlite.c_string (search_pattern term)) (Sqlite.c_string text).

(** Todo [t] is row [r] with the assignments [a] applied, whatever the
    time of the update. *)
Definition assigned_to (a : Sqlite.assignments) (r : Sqlite.row) (t : Node.Todo)
    : Prop :=
  Node.id t = Sqlite.id r /\
  Node.title t = Sqlite.or_else (Sqlite.set_title a) (Sqlite.title r) /\
  Node.description t
    = Sqlite.or_else (Sqlite.set_description a) (Sqlite.description r) /\
  Node.completed t
    = Sqlite.or_else (Sqlite.set_completed a) (Sqlite.completed r) /\
  Node.created_at t = Sqlite.created_at r.

(** A row as the validation of Create and Update lets it be stored: a
    title that is not empty, has no white space at either end and measures
    at most 255, and a description, if any, that measures at most 1000. *)
Definition stored_row_ok (space : Str.rune -> bool) (size : Str.str -> Z)
    (r : Sqlite.row) : Prop :=
  Sqlite.title r <> [] /\
  Str.trimmed space (Sqlite.title r) /\
  size (Sqlite.title r) <= 255 /\
  match Sqlite.description r with
  | Some s => size s <= 1000
  | None => True
  end.

Definition rows_ok (space : Str.rune -> bool) (size : Str.str -> Z)
    (d : Sqlite.db) : Prop :=
  Forall (stored_row_ok space size) (Sqlite.rows d).

(** A text of ASCII characters only. *)
Definition ascii (s : Str.str) : Prop := Forall (fun c => (c < 128)%N) s.

(** No two stored todos have the same value in column [c]: sorting by [c]
    leaves no order open. *)
Definition no_ties (c : Sqlite.column) (d : Sqlite.db) : Prop :=
  forall a b, In a (Sqlite.rows d) -> In b (Sqlite.rows d) ->
    Sqlite.col_leb c a b = true -> Sqlite.col_leb c b a = true -> a = b.

(** A request that ends in an error, or that finds no todo under its id. *)
Definition failed (r : Store.request) (d : Sqlite.db) : bool :=
  match r with
  | Store.GoCreate req t1 t2 now =>
      negb (is_ok (fst (Go.services.CreateTodo req t1 t2 now d)))
  | Store.GoUpdate i req now =>
      match fst (Go.services.UpdateTodo i req now d) with
      | Ok (Some _) => false
      | _ => true
      end
  | Store.GoDelete i => negb (is_ok (fst (Go.services.DeleteTodo i d)))
  | Store.GoDeleteAll => negb (is_ok (fst (Go.services.DeleteAllTodos d)))
  | Store.NodeCreate data now =>
      negb (is_ok (fst (Node.TodoService.createTodo data now d)))
  | Store.NodeUpdate i data now =>
      negb (is_ok (fst (Node.TodoService.updateTodo i data now d)))
  | Store.NodeDelete i => negb (is_ok (fst (Node.TodoService.deleteTodo i d)))
  | Store.NodeDeleteAll => negb (is_ok (fst (Node.TodoRepository.deleteAll d)))
  end.

End Contract.

(** ** Sample data *)

Module Sample.

Definition noon : Z := 1700000000.

(** [n] pending todos created through the Go service within one second. *)
Definition buy_milk : Go.models.CreateTodoRequest :=
  Go.models.mkCreateTodoRequest (Str.lit "Buy milk") None false.

Definition creates (n : nat) : list Store.request :=
  repeat (Store.GoCreate buy_milk noon noon noon) n.

Definition store21 : Sqlite.db := Store.run (creates 21) Sqlite.empty.

Definition store1 : Sqlite.db := Store.run (creates 1) Sqlite.empty.

(** A List query that names a sort field outside the allow-list. *)
Definition bogus : Str.str := Str.lit "bogus".

Definition node_sort_bogus : Node.options :=
  Node.mkOptions None None (Some bogus) None None None.

(** A page number whose offset, at 64 rows per page, is 2^64. *)
Definition far_page : Z := 2 ^ 58 + 1.

Definition go_far_page : Go.models.QueryParams :=
  Go.models.mkQueryParams far_page 64 (Str.lit "id") (Str.lit "asc") [] None.

Definition buy_milk_todo : Go.models.Todo :=
  Go.models.mkTodo 1 (Str.lit "Buy milk") None false noon noon.

Definition mark_done : Go.models.UpdateTodoRequest :=
  Go.models.mkUpdateTodoRequest None None (Some true).

Definition node_mark_done : Node.updateData :=
  Node.mkUpdateData None None (Some true) [].

Definition node_no_fields : Node.updateData :=
  Node.mkUpdateData None None None [].

Definition buy_milk_row : Sqlite.row :=
  Sqlite.mkRow 1 (Str.lit "Buy milk") None false noon noon.




Definition node_buy_milk : Node.todoData :=
  Node.mkTodoData (Some (Str.lit "Buy milk")) None None.

(** A store the Node service filled. *)
Definition node_store1 : Sqlite.db :=
  Store.run [Store.NodeCreate node_buy_milk noon] Sqlite.empty.

(** Search terms with a wildcard in them. *)
Definition b_y : Str.str := Str.lit "B_y".
Definition b_k : Str.str := Str.lit "B%k".

Definition go_search (term : Str.str) : Go.models.QueryParams :=
  Go.models.mkQueryParams 1 20 (Str.lit "created_at") (Str.lit "desc") term None.

Definition node_search (term : Str.str) : Node.options :=
  Node.mkOptions None None None None (Some term) None.

(** Two todos, the second one completed. *)
Definition walk_dog : Go.models.CreateTodoRequest :=
  Go.models.mkCreateTodoRequest (Str.lit "Walk the dog") (Some (Str.lit "before noon")) false.

Definition store2 : Sqlite.db :=
  Store.run [Store.GoCreate buy_milk noon noon noon;
             Store.GoCreate walk_dog noon noon (noon + 1);
             Store.GoUpdate 2 mark_done (noon + 2)] Sqlite.empty.

End Sample.

(** * Properties *)

(** ** Strings *)

Section StrFacts.

Lemma str_eqb_eq (a b : Str.str) : Str.eqb a b = true <-> a = b.
Proof.
  revert b; induction a as [|x a IH]; intros [|y b]; simpl;
    try (split; [discriminate | congruence]); [tauto|].
  rewrite andb_true_iff, N.eqb_eq, IH.
  split; [intros [-> ->]; reflexivity | intros H; inversion H; auto].
Qed.

Lemma str_eqb_refl (a : Str.str) : Str.eqb a a = true.
Proof. apply str_eqb_eq; reflexivity. Qed.

Lemma str_eqb_neq (a b : Str.str) : Str.eqb a b = false <-> a <> b.
Proof.
  rewrite <- str_eqb_eq. destruct (Str.eqb a b); split; congruence.
Qed.

Variable width : Str.rune -> Z.
Hypothesis width_pos : forall c, 0 < width c.

Lemma measure_nonneg (s : Str.str) : 0 <= Str.measure width s.
Proof.
  induction s as [|c s IH]; simpl; [lia | specialize (width_pos c); lia].
Qed.

Lemma measure_app (a b : Str.str) :
  Str.measure width (a ++ b) = Str.measure width a + Str.measure width b.
Proof. induction a as [|c a IH]; simpl; lia. Qed.

Lemma measure_rev (s : Str.str) :
  Str.measure width (rev s) = Str.measure width s.
Proof.
  induction s as [|c s IH]; simpl; [reflexivity|].
  rewrite measure_app, IH; simpl; lia.
Qed.

Variable space : Str.rune -> bool.

Lemma measure_trim_left (s : Str.str) :
  Str.measure width (Str.trim_left space s) <= Str.measure width s.
Proof.
  induction s as [|c s IH]; simpl; [lia|].
  destruct (space c); simpl; specialize (width_pos c); lia.
Qed.

Lemma measure_trim_with (s : Str.str) :
  Str.measure width (Str.trim_with space s) <= Str.measure width s.
Proof.
  unfold Str.trim_with, Str.trim_right.
  rewrite measure_rev.
  etransitivity; [apply measure_trim_left|].
  rewrite measure_rev. apply measure_trim_left.
Qed.

End StrFacts.

Section TrimFacts.

Variable space : Str.rune -> bool.

Lemma trim_left_head (s : Str.str) :
  match Str.trim_left space s with
  | [] => True
  | c :: _ => space c = false
  end.
Proof.
  induction s as [|c s IH]; simpl; [exact I|].
  destruct (space c) eqn:E; [exact IH | exact E].
Qed.

Lemma trim_left_fixed (s : Str.str) :
  match s with [] => True | c :: _ => space c = false end ->
  Str.trim_left space s = s.
Proof. destruct s as [|c s]; simpl; [reflexivity | intros ->; reflexivity]. Qed.

(** [trim_left] only removes a prefix. *)
Lemma trim_left_suffix (s : Str.str) :
  exists pre, s = pre ++ Str.trim_left space s /\ forallb space pre = true.
Proof.
  induction s as [|c s [pre [E F]]]; simpl.
  - exists []; auto.
  - destruct (space c) eqn:Ec.
    + exists (c :: pre); simpl; rewrite Ec, F, <- E; auto.
    + exists []; auto.
Qed.

Lemma rev_head_last (s : Str.str) (c d : Str.rune) (t : Str.str) :
  rev s = c :: t -> last s d = c.
Proof.
  intros H. apply (f_equal (@rev _)) in H. rewrite rev_involutive in H.
  subst s; simpl. apply last_last.
Qed.

Lemma trim_with_trimmed (s : Str.str) : Str.trimmed space (Str.trim_with space s).
Proof.
  unfold Str.trim_with, Str.trim_right, Str.trimmed.
  set (u := Str.trim_left space s).
  destruct (rev (Str.trim_left space (rev u))) as [|c t] eqn:E; [exact I|].
  pose proof (trim_left_head (rev u)) as Hh.
  assert (Hne : Str.trim_left space (rev u) <> []).
  { intros Hn; rewrite Hn in E; discriminate. }
  split.
  - (* the first character is the first character of [u] *)
    destruct (trim_left_suffix (rev u)) as [pre [Hp _]].
    apply (f_equal (@rev _)) in Hp.
    rewrite rev_involutive, rev_app_distr, E in Hp.
    pose proof (trim_left_head s) as Hu. fold u in Hu.
    rewrite Hp in Hu. exact Hu.
  - (* the last character is the head of the reversed, left-trimmed text *)
    destruct (Str.trim_left space (rev u)) as [|x r] eqn:Ex; [congruence|].
    assert (Hl : last (c :: t) c = x).
    { apply rev_head_last with (t := r).
      rewrite <- E, rev_involutive; reflexivity. }
    rewrite Hl. exact Hh.
Qed.

Lemma trimmed_fixed (s : Str.str) :
  Str.trimmed space s -> Str.trim_with space s = s.
Proof.
  destruct s as [|c s]; [reflexivity|].
  intros [Hc Hl].
  unfold Str.trim_with, Str.trim_right.
  rewrite (trim_left_fixed (c :: s)) by exact Hc.
  rewrite trim_left_fixed; [apply rev_involutive|].
  destruct (rev (c :: s)) as [|x r] eqn:E; [exact I|].
  rewrite <- (rev_head_last (c :: s) c E). exact Hl.
Qed.

Lemma trim_with_idempotent (s : Str.str) :
  Str.trim_with space (Str.trim_with space s) = Str.trim_with space s.
Proof. apply trimmed_fixed, trim_with_trimmed. Qed.

End TrimFacts.

(** ** LIKE *)

Section LikeFacts.

Lemma same_nocase_refl (c : Str.rune) : Sqlite.same_nocase c c = true.
Proof. apply N.eqb_refl. Qed.

(** What a leading [%] does: the rest of the pattern matches some suffix. *)
Lemma like_percent (pat s : Str.str) :
  Sqlite.patternCompare (Sqlite.percent :: pat) s = true <->
  exists pre suf, s = pre ++ suf /\ Sqlite.patternCompare pat suf = true.
Proof.
  change (Sqlite.patternCompare (Sqlite.percent :: pat) s)
    with (Sqlite.some_suffix (Sqlite.patternCompare pat) s).
  induction s as [|c s IH]; simpl.
  - rewrite orb_false_r. split.
    + intros H; exists [], []; auto.
    + intros [pre [suf [E H]]].
      symmetry in E; apply app_eq_nil in E; destruct E; subst; exact H.
  - rewrite orb_true_iff, IH. split.
    + intros [H | [pre [suf [E H]]]].
      * exists [], (c :: s); auto.
      * exists (c :: pre), suf; subst; auto.
    + intros [[|x pre] [suf [E H]]]; simpl in E.
      * left; subst; exact H.
      * right; inversion E; subst. exists pre, suf; auto.
Qed.

(** A character that is not [%] consumes exactly one character. *)
Lemma like_cons (p : Str.rune) (pat s : Str.str) :
  p <> Sqlite.percent ->
  Sqlite.patternCompare (p :: pat) s =
  match s with
  | [] => false
  | c :: s' =>
      ((p =? Sqlite.underscore)%N || Sqlite.same_nocase p c) && Sqlite.patternCompare pat s'
  end.
Proof.
  intros H. simpl. apply N.eqb_neq in H. rewrite H. reflexivity.
Qed.

(** Patterns concatenate. *)
Lemma like_app (p1 p2 s1 s2 : Str.str) :
  Sqlite.patternCompare p1 s1 = true -> Sqlite.patternCompare p2 s2 = true ->
  Sqlite.patternCompare (p1 ++ p2) (s1 ++ s2) = true.
Proof.
  revert s1; induction p1 as [|p p1 IH]; intros s1 H1 H2.
  - destruct s1; [exact H2 | discriminate].
  - destruct (N.eq_dec p Sqlite.percent) as [-> | Hp].
    + apply like_percent in H1. destruct H1 as [pre [suf [-> H1]]].
      change ((Sqlite.percent :: p1) ++ p2) with (Sqlite.percent :: (p1 ++ p2)).
      apply like_percent. exists pre, (suf ++ s2).
      rewrite app_assoc; auto.
    + change ((p :: p1) ++ p2) with (p :: (p1 ++ p2)).
      rewrite like_cons in * by exact Hp.
      destruct s1 as [|c s1]; [discriminate|]. simpl.
      apply andb_true_iff in H1. destruct H1 as [Hc H1].
      rewrite Hc. simpl. apply IH; assumption.
Qed.

(** Every text matches itself used as a pattern, wildcards included. *)
Lemma like_refl (s : Str.str) : Sqlite.patternCompare s s = true.
Proof.
  induction s as [|c s IH]; [reflexivity|].
  destruct (N.eq_dec c Sqlite.percent) as [-> | Hp].
  - apply like_percent. exists [Sqlite.percent], s; auto.
  - rewrite like_cons by exact Hp.
    rewrite same_nocase_refl, orb_true_r. exact IH.
Qed.

Lemma like_underscore_any (c : Str.rune) :
  Sqlite.patternCompare [Sqlite.underscore] [c] = true.
Proof. reflexivity. Qed.

Lemma like_percent_any (s : Str.str) : Sqlite.patternCompare [Sqlite.percent] s = true.
Proof. apply like_percent. exists s, []. rewrite app_nil_r; auto. Qed.

(** The pattern both repositories bind: [%] + term + [%] matches every text
    that has a part the term matches. *)
Lemma like_wrapped (term x s y : Str.str) :
  Sqlite.patternCompare term s = true ->
  Sqlite.patternCompare ([Sqlite.percent] ++ term ++ [Sqlite.percent]) (x ++ s ++ y) = true.
Proof.
  intros H.
  apply (like_app [Sqlite.percent] (term ++ [Sqlite.percent]) x (s ++ y)).
  - apply like_percent_any.
  - apply like_app; [exact H | apply like_percent_any].
Qed.

End LikeFacts.

(** ** ORDER BY *)

Section SortFacts.

Variable A : Type.
Variable le : A -> A -> bool.

Lemma insert_perm (x : A) (l : list A) :
  Permutation (Sqlite.insert le x l) (x :: l).
Proof.
  induction l as [|y l IH]; simpl; [reflexivity|].
  destruct (le x y); [reflexivity|].
  rewrite IH. apply perm_swap.
Qed.

Lemma sort_perm (l : list A) : Permutation (Sqlite.sort le l) l.
Proof.
  induction l as [|x l IH]; simpl; [reflexivity|].
  rewrite insert_perm, IH. reflexivity.
Qed.

Lemma sort_length (l : list A) : List.length (Sqlite.sort le l) = List.length l.
Proof. apply Permutation_length, sort_perm. Qed.

Lemma sort_In (x : A) (l : list A) : In x (Sqlite.sort le l) <-> In x l.
Proof.
  split; apply Permutation_in; [apply sort_perm | symmetry; apply sort_perm].
Qed.

(** Dropping an element that the filter rejects. *)
Lemma filter_insert_out (p : A -> bool) (x : A) (l : list A) :
  p x = false -> filter p (Sqlite.insert le x l) = filter p l.
Proof.
  intros Hx. induction l as [|y l IH]; simpl.
  - rewrite Hx; reflexivity.
  - destruct (le x y); simpl.
    + rewrite Hx; reflexivity.
    + rewrite IH; reflexivity.
Qed.

Lemma insert_front (x : A) (l : list A) :
  Forall (fun y => le x y = true) l -> Sqlite.insert le x l = x :: l.
Proof.
  destruct l as [|y l]; simpl; [reflexivity|].
  intros H. inversion H; subst. rewrite H2. reflexivity.
Qed.

Hypothesis le_total : forall a b, le a b = true \/ le b a = true.
Hypothesis le_trans : forall a b c, le a b = true -> le b c = true -> le a c = true.

Lemma insert_sorted (x : A) (l : list A) :
  Sqlite.sorted le l -> Sqlite.sorted le (Sqlite.insert le x l).
Proof.
  unfold Sqlite.sorted.
  induction 1 as [|y l Hs IH Hy]; simpl.
  - constructor; constructor.
  - destruct (le x y) eqn:E.
    + constructor; [constructor; assumption|].
      constructor; [exact E|].
      eapply Forall_impl; [|exact Hy]. intros z Hz. eapply le_trans; eauto.
    + constructor; [exact IH|].
      apply (Permutation_Forall (Permutation_sym (insert_perm x l))).
      constructor; [|exact Hy].
      destruct (le_total x y); congruence.
Qed.

Lemma sort_sorted (l : list A) : Sqlite.sorted le (Sqlite.sort le l).
Proof.
  induction l as [|x l IH]; simpl; [constructor | apply insert_sorted, IH].
Qed.

(** Where no two elements tie, a list has one sorted arrangement only:
    whatever order SQLite returns the rows in, it is the order of [sort]. *)
Lemma sorted_unique (l1 l2 : list A) :
  (forall a b, In a l1 -> In b l1 -> le a b = true -> le b a = true -> a = b) ->
  Sqlite.sorted le l1 -> Sqlite.sorted le l2 -> Permutation l1 l2 -> l1 = l2.
Proof.
  revert l2; induction l1 as [|x l1 IH]; intros l2 Ha S1 S2 P.
  - apply Permutation_nil in P. congruence.
  - destruct l2 as [|y l2];
      [apply Permutation_sym, Permutation_nil in P; discriminate|].
    apply StronglySorted_inv in S1. destruct S1 as [S1 F1].
    apply StronglySorted_inv in S2. destruct S2 as [S2 F2].
    rewrite Forall_forall in F1, F2.
    assert (Hy : In y (x :: l1))
      by (eapply Permutation_in; [symmetry; exact P | left; reflexivity]).
    assert (Hx : In x (y :: l2))
      by (eapply Permutation_in; [exact P | left; reflexivity]).
    assert (E : x = y).
    { destruct Hy as [Hy | Hy]; [exact Hy|].
      destruct Hx as [Hx | Hx]; [symmetry; exact Hx|].
      apply Ha; [left; reflexivity | right; exact Hy | apply F1; exact Hy
                | apply F2; exact Hx]. }
    subst y. f_equal. apply IH; try assumption.
    + intros a b Ia Ib. apply Ha; right; assumption.
    + eapply Permutation_cons_inv. exact P.
Qed.

(** The sort is stable, so it commutes with a filter. *)
Lemma filter_insert_in (p : A -> bool) (x : A) (l : list A) :
  Sqlite.sorted le l -> p x = true ->
  filter p (Sqlite.insert le x l) = Sqlite.insert le x (filter p l).
Proof.
  intros Hs Hx. induction Hs as [|y l Hs IH Hy]; simpl.
  - rewrite Hx; reflexivity.
  - destruct (le x y) eqn:E; simpl; rewrite ?Hx.
    + destruct (p y) eqn:Ey; simpl.
      * rewrite E; reflexivity.
      * symmetry. apply insert_front.
        apply Forall_forall. intros z Hz.
        apply filter_In in Hz. destruct Hz as [Hz _].
        rewrite Forall_forall in Hy. eapply le_trans; eauto.
    + destruct (p y) eqn:Ey; simpl.
      * rewrite E, IH; reflexivity.
      * exact IH.
Qed.

Lemma filter_sort (p : A -> bool) (l : list A) :
  filter p (Sqlite.sort le l) = Sqlite.sort le (filter p l).
Proof.
  induction l as [|x l IH]; simpl; [reflexivity|].
  destruct (p x) eqn:Ex; simpl.
  - rewrite filter_insert_in by (auto using sort_sorted). rewrite IH; reflexivity.
  - rewrite filter_insert_out by exact Ex. exact IH.
Qed.

End SortFacts.

Section OrderFacts.

Lemma str_leb_total (a b : Str.str) : Str.leb a b = true \/ Str.leb b a = true.
Proof.
  revert b; induction a as [|x a IH]; intros [|y b]; simpl; auto.
  destruct (N.ltb_spec x y), (N.ltb_spec y x); auto; lia.
Qed.

Lemma str_leb_trans (a b c : Str.str) :
  Str.leb a b = true -> Str.leb b c = true -> Str.leb a c = true.
Proof.
  revert b c; induction a as [|x a IH]; intros [|y b] [|z c]; simpl; auto;
    try discriminate.
  destruct (N.ltb_spec x y), (N.ltb_spec y x), (N.ltb_spec y z),
    (N.ltb_spec z y), (N.ltb_spec x z), (N.ltb_spec z x);
    try discriminate; try lia; auto.
  apply IH.
Qed.

Lemma col_leb_total c a b :
  Sqlite.col_leb c a b = true \/ Sqlite.col_leb c b a = true.
Proof.
  destruct c; simpl; try (rewrite !Z.leb_le; lia).
  - apply str_leb_total.
  - destruct (Sqlite.completed a), (Sqlite.completed b); auto.
Qed.

Lemma col_leb_trans c x y z :
  Sqlite.col_leb c x y = true -> Sqlite.col_leb c y z = true ->
  Sqlite.col_leb c x z = true.
Proof.
  destruct c; simpl; try (rewrite !Z.leb_le; lia).
  - apply str_leb_trans.
  - destruct (Sqlite.completed x), (Sqlite.completed y), (Sqlite.completed z);
      auto.
Qed.

Lemma ord_leb_total c dir a b :
  Sqlite.ord_leb c dir a b = true \/ Sqlite.ord_leb c dir b a = true.
Proof. destruct dir; simpl; apply col_leb_total. Qed.

Lemma ord_leb_trans c dir x y z :
  Sqlite.ord_leb c dir x y = true -> Sqlite.ord_leb c dir y z = true ->
  Sqlite.ord_leb c dir x z = true.
Proof.
  destruct dir; simpl; intros H1 H2; eauto using col_leb_trans.
Qed.

End OrderFacts.

(** ** Transitions *)

Section StoreFacts.

Lemma reachable_run (rs : list Store.request) (d : Sqlite.db) :
  Store.reachable d -> Store.reachable (Store.run rs d).
Proof.
  revert d; induction rs as [|r rs IH]; intros d H; simpl; [exact H|].
  apply IH. constructor. exact H.
Qed.

End StoreFacts.


(** ** Go: machine integers *)

Section IntFacts.

Lemma wrap_small (z : Z) : Go.min_int <= z <= Go.max_int -> Go.wrap z = z.
Proof.
  unfold Go.wrap, Go.min_int, Go.max_int. intros H.
  rewrite Z.mod_small; lia.
Qed.

Lemma ceil_div_quot (total perPage : Z) :
  0 <= total -> 0 < perPage ->
  Z.quot (total + perPage - 1) perPage = Contract.ceil_div total perPage.
Proof.
  intros Ht Hp. unfold Contract.ceil_div.
  apply Z.quot_div_nonneg; lia.
Qed.

Lemma node_ceil_div (total perPage : Z) :
  0 < perPage -> Node.ceil_div total perPage = Contract.ceil_div total perPage.
Proof.
  intros Hp. unfold Node.ceil_div, Contract.ceil_div.
  pose proof (Z.div_mod (- total) perPage ltac:(lia)) as E1.
  pose proof (Z.mod_pos_bound (- total) perPage Hp) as B1.
  apply Z.div_unique_pos with (r := perPage - 1 - (- total) mod perPage); nia.
Qed.

End IntFacts.

(** ** The query both repositories build *)

Section QueryFacts.

Import Go.models.

Lemma where_go (params : QueryParams) (r : Sqlite.row) :
  Sqlite.where_ (Go.repository.whereClause params) r =
  Contract.filter_predicate (qp_Search params) (qp_Completed params) r.
Proof.
  unfold Go.repository.whereClause, Contract.filter_predicate,
    Contract.search_matches, Contract.completed_matches, Contract.search_pattern.
  destruct (Str.eqb (qp_Search params) []), (qp_Completed params); simpl;
    rewrite ?andb_true_r; reflexivity.
Qed.

Lemma where_node (o : Node.options) (r : Sqlite.row) :
  Sqlite.where_ (Node.TodoRepository.whereConditions o) r =
  Contract.filter_predicate (Sqlite.or_else (Node.search o) [])
                            (Node.opt_completed o) r.
Proof.
  unfold Node.TodoRepository.whereConditions, Contract.filter_predicate,
    Contract.search_matches, Contract.completed_matches, Contract.search_pattern.
  destruct (Node.search o) as [s|]; simpl;
    [destruct (Str.eqb s [])|]; destruct (Node.opt_completed o); simpl;
    rewrite ?andb_true_r; reflexivity.
Qed.

Lemma count_go (params : QueryParams) (d : Sqlite.db) :
  Sqlite.count (Go.repository.whereClause params) d =
  Z.of_nat (List.length
    (filter (Contract.filter_predicate (qp_Search params) (qp_Completed params))
            (Sqlite.rows d))).
Proof.
  unfold Sqlite.count. do 2 f_equal. apply filter_ext, where_go.
Qed.

Lemma count_node (o : Node.options) (d : Sqlite.db) :
  Sqlite.count (Node.TodoRepository.whereConditions o) d =
  Z.of_nat (List.length
    (filter (Contract.filter_predicate (Sqlite.or_else (Node.search o) [])
                                       (Node.opt_completed o))
            (Sqlite.rows d))).
Proof.
  unfold Sqlite.count. do 2 f_equal. apply filter_ext, where_node.
Qed.

Lemma limit_offset_slice (A : Type) (page perPage off : Z) (l : list A) :
  0 <= perPage -> off = (page - 1) * perPage ->
  Sqlite.limit_offset perPage off l = Contract.page_slice page perPage l.
Proof.
  intros Hp ->. unfold Sqlite.limit_offset, Contract.page_slice.
  destruct (Z.ltb_spec perPage 0); [lia | reflexivity].
Qed.

Lemma select_go (params : QueryParams) c dir (page perPage off : Z) (d : Sqlite.db) :
  0 <= perPage -> off = (page - 1) * perPage ->
  Sqlite.select (Go.repository.whereClause params) c dir perPage off d =
  Contract.page_slice page perPage
    (Contract.selected (qp_Search params) (qp_Completed params) c dir d).
Proof.
  intros Hp Ho. unfold Sqlite.select, Contract.selected.
  rewrite limit_offset_slice with (page := page) by assumption.
  do 2 f_equal. apply filter_ext, where_go.
Qed.

Lemma select_node (o : Node.options) c dir (page perPage off : Z) (d : Sqlite.db) :
  0 <= perPage -> off = (page - 1) * perPage ->
  Sqlite.select (Node.TodoRepository.whereConditions o) c dir perPage off d =
  Contract.page_slice page perPage
    (Contract.selected (Sqlite.or_else (Node.search o) [])
                       (Node.opt_completed o) c dir d).
Proof.
  intros Hp Ho. unfold Sqlite.select, Contract.selected.
  rewrite limit_offset_slice with (page := page) by assumption.
  do 2 f_equal. apply filter_ext, where_node.
Qed.

(** The names on the allow-list denote columns, the two orders directions. *)
Lemma sort_field_column (s : Str.str) :
  existsb (Str.eqb s) Contract.sortFields = true ->
  exists c, Sqlite.column_of_name s = Some c.
Proof.
  unfold Contract.sortFields. simpl.
  rewrite !orb_true_iff, !str_eqb_eq.
  intros [->|[->|[->|[->|[->|H]]]]]; try discriminate; eexists; reflexivity.
Qed.

Lemma sort_order_direction (s : Str.str) :
  existsb (Str.eqb s) Contract.sortOrders = true ->
  exists dir, Sqlite.direction_of_keyword (Str.ToUpper s) = Some dir.
Proof.
  unfold Contract.sortOrders. simpl.
  rewrite !orb_true_iff, !str_eqb_eq.
  intros [->|[->|H]]; try discriminate; eexists; reflexivity.
Qed.

Lemma go_contains_existsb (l : list Str.str) (s : Str.str) :
  Go.services.contains l s = existsb (Str.eqb s) l.
Proof.
  induction l as [|x l IH]; simpl; [reflexivity|].
  rewrite IH.
  destruct (Str.eqb x s) eqn:E.
  - apply str_eqb_eq in E; subst. rewrite str_eqb_refl. reflexivity.
  - apply str_eqb_neq in E.
    assert (Str.eqb s x = false) as -> by (apply str_eqb_neq; congruence).
    reflexivity.
Qed.

End QueryFacts.

(** ** Go: List *)

Section GoListFacts.

Import Go.models.

Lemma setDefaults_page (params : QueryParams) :
  qp_Page (Go.services.setDefaults params) = Contract.effective_page (qp_Page params).
Proof. reflexivity. Qed.

Lemma setDefaults_perPage (params : QueryParams) :
  qp_PerPage (Go.services.setDefaults params) =
  Contract.effective_perPage (qp_PerPage params).
Proof. reflexivity. Qed.

Lemma effective_perPage_range (n : Z) : 1 <= Contract.effective_perPage n <= 100.
Proof.
  unfold Contract.effective_perPage.
  destruct (Z.ltb_spec n 1), (Z.ltb_spec 100 n); simpl; lia.
Qed.

Lemma effective_page_range (n : Z) : 1 <= Contract.effective_page n.
Proof. unfold Contract.effective_page. destruct (Z.ltb_spec n 1); lia. Qed.

Lemma effective_page_valid (n : Z) : 1 <= n -> Contract.effective_page n = n.
Proof. unfold Contract.effective_page. destruct (Z.ltb_spec n 1); lia. Qed.

Lemma effective_perPage_valid (n : Z) :
  1 <= n <= 100 -> Contract.effective_perPage n = n.
Proof.
  unfold Contract.effective_perPage.
  destruct (Z.ltb_spec n 1), (Z.ltb_spec 100 n); simpl; lia.
Qed.

(** Parameters that need no defaulting are left as they are. *)
Lemma setDefaults_valid (params : QueryParams) :
  1 <= qp_Page params -> 1 <= qp_PerPage params <= 100 ->
  qp_Sort params <> [] -> qp_Order params <> [] ->
  Go.services.setDefaults params = params.
Proof.
  intros Hp Hpp Hs Ho. destruct params as [p pp s o se co]; simpl in *.
  unfold Go.services.setDefaults; simpl.
  fold (Contract.effective_page p). fold (Contract.effective_perPage pp).
  rewrite effective_page_valid, effective_perPage_valid by assumption.
  apply str_eqb_neq in Hs, Ho. rewrite Hs, Ho. reflexivity.
Qed.

Lemma setDefaults_idempotent (params : QueryParams) :
  Go.services.setDefaults (Go.services.setDefaults params) =
  Go.services.setDefaults params.
Proof.
  apply setDefaults_valid.
  - rewrite setDefaults_page. apply effective_page_range.
  - rewrite setDefaults_perPage. apply effective_perPage_range.
  - simpl. destruct (Str.eqb (qp_Sort params) []) eqn:E;
      [discriminate | apply str_eqb_neq; exact E].
  - simpl. destruct (Str.eqb (qp_Order params) []) eqn:E;
      [discriminate | apply str_eqb_neq; exact E].
Qed.

(** A WHERE clause whose LIKE patterns are within the limit never fails. *)
Lemma where_fails_within (cs : list Sqlite.cond) (d : Sqlite.db) :
  existsb Sqlite.too_complex cs = false -> Sqlite.where_fails cs d = false.
Proof.
  intros H. unfold Sqlite.where_fails. rewrite H, andb_false_l, orb_false_r.
  induction cs as [|c cs IH]; [reflexivity|].
  cbn [existsb] in *. apply orb_false_iff in H. destruct H as [Hc H].
  rewrite (IH H), orb_false_r.
  destruct c as [pat|b]; [|reflexivity].
  unfold Sqlite.too_complex in Hc. unfold Sqlite.too_big.
  unfold Sqlite.MAX_LIKE_PATTERN_LENGTH in Hc. unfold Sqlite.MAX_LENGTH.
  apply Z.ltb_ge in Hc. apply Z.ltb_ge. lia.
Qed.

Lemma measure_percent_wrap (width : Str.rune -> Z) (s : Str.str) :
  Str.measure width ([Sqlite.percent] ++ s ++ [Sqlite.percent])
  = Str.measure width s + 2 * width Sqlite.percent.
Proof.
  rewrite !measure_app. cbn [Str.measure]. lia.
Qed.

(** The pattern Go binds is two bytes longer than the search term. *)
Lemma Go_where_within (params : QueryParams) (d : Sqlite.db) :
  Str.len (qp_Search params) + 2 <= Sqlite.MAX_LIKE_PATTERN_LENGTH ->
  Sqlite.where_fails (Go.repository.whereClause params) d = false.
Proof.
  intros H. apply where_fails_within. unfold Go.repository.whereClause.
  destruct (negb (Str.eqb (qp_Search params) [])); simpl app;
    destruct (qp_Completed params); cbn [existsb Sqlite.too_complex app];
    rewrite ?orb_false_r; try reflexivity;
    apply Z.ltb_ge; unfold Str.len;
    change (Sqlite.percent :: qp_Search params ++ [Sqlite.percent])
      with ([Sqlite.percent] ++ qp_Search params ++ [Sqlite.percent]);
    rewrite measure_percent_wrap; unfold Str.len in H;
    change (Str.utf8_len Sqlite.percent) with 1; lia.
Qed.

Lemma Go_where_no_search (params : QueryParams) (d : Sqlite.db) :
  qp_Search params = [] ->
  Sqlite.where_fails (Go.repository.whereClause params) d = false.
Proof.
  intros H. apply Go_where_within. rewrite H. vm_compute. discriminate.
Qed.

(** What [GetTodos] answers once sort field and order pass the checks and
    the database takes the search pattern. *)
Lemma GetTodos_accepted (params : QueryParams) (d : Sqlite.db) :
  let q := Go.services.setDefaults params in
  existsb (Str.eqb (qp_Sort q)) Contract.sortFields = true ->
  existsb (Str.eqb (qp_Order q)) Contract.sortOrders = true ->
  Sqlite.where_fails (Go.repository.whereClause params) d = false ->
  exists c dir,
    Sqlite.column_of_name (qp_Sort q) = Some c /\
    Sqlite.direction_of_keyword (Str.ToUpper (qp_Order q)) = Some dir /\
    Go.services.GetTodos params d =
    Ok (mkPaginatedResponse
          (map Go.repository.scan
               (Sqlite.select (Go.repository.whereClause params) c dir (qp_PerPage q)
                  (Go.int_mul (Go.int_sub (qp_Page q) 1) (qp_PerPage q)) d))
          (Sqlite.count (Go.repository.whereClause params) d)
          (qp_Page q) (qp_PerPage q)
          (Go.int_quo
             (Go.int_sub
                (Go.int_add (Sqlite.count (Go.repository.whereClause params) d)
                            (qp_PerPage q)) 1)
             (qp_PerPage q))).
Proof.
  intros q Hs Ho Hw.
  destruct (sort_field_column _ Hs) as [c Hc].
  destruct (sort_order_direction _ Ho) as [dir Hd].
  exists c, dir. split; [exact Hc|]. split; [exact Hd|].
  unfold Go.services.GetTodos. fold q.
  rewrite go_contains_existsb.
  change Go.services.validSortFields with Contract.sortFields. rewrite Hs.
  assert (Ho' : negb (Str.eqb (qp_Order q) (Str.lit "asc")) &&
                negb (Str.eqb (qp_Order q) (Str.lit "desc")) = false).
  { unfold Contract.sortOrders in Ho. cbn [existsb] in Ho.
    destruct (Str.eqb (qp_Order q) (Str.lit "asc")),
             (Str.eqb (qp_Order q) (Str.lit "desc")); simpl in *; congruence. }
  simpl negb at 1. cbv iota. rewrite Ho'.
  unfold Go.repository.GetAll.
  change (Go.repository.whereClause q) with (Go.repository.whereClause params).
  rewrite Hw, Hc, Hd.
  reflexivity.
Qed.

(** Otherwise the failure of the COUNT statement is what [GetTodos]
    reports. *)
Lemma GetTodos_refused (params : QueryParams) (d : Sqlite.db) :
  let q := Go.services.setDefaults params in
  existsb (Str.eqb (qp_Sort q)) Contract.sortFields = true ->
  existsb (Str.eqb (qp_Order q)) Contract.sortOrders = true ->
  Sqlite.where_fails (Go.repository.whereClause params) d = true ->
  Go.services.GetTodos params d =
  Err (Go.ErrWrap "failed to get todos" (Go.ErrWrap "failed to count todos" Go.ErrSql)).
Proof.
  intros q Hs Ho Hw.
  unfold Go.services.GetTodos. fold q.
  rewrite go_contains_existsb.
  change Go.services.validSortFields with Contract.sortFields. rewrite Hs.
  assert (Ho' : negb (Str.eqb (qp_Order q) (Str.lit "asc")) &&
                negb (Str.eqb (qp_Order q) (Str.lit "desc")) = false).
  { unfold Contract.sortOrders in Ho. cbn [existsb] in Ho.
    destruct (Str.eqb (qp_Order q) (Str.lit "asc")),
             (Str.eqb (qp_Order q) (Str.lit "desc")); simpl in *; congruence. }
  simpl negb at 1. cbv iota. rewrite Ho'.
  unfold Go.repository.GetAll.
  change (Go.repository.whereClause q) with (Go.repository.whereClause params).
  rewrite Hw. reflexivity.
Qed.

Lemma GetTodos_bad_sort (params : QueryParams) (d : Sqlite.db) :
  let q := Go.services.setDefaults params in
  existsb (Str.eqb (qp_Sort q)) Contract.sortFields = false ->
  Go.services.GetTodos params d = Err (Go.ErrInvalidSortField (qp_Sort q)).
Proof.
  intros q Hs. unfold Go.services.GetTodos. fold q.
  rewrite go_contains_existsb.
  change Go.services.validSortFields with Contract.sortFields. rewrite Hs.
  reflexivity.
Qed.

Lemma GetTodos_bad_order (params : QueryParams) (d : Sqlite.db) :
  let q := Go.services.setDefaults params in
  existsb (Str.eqb (qp_Sort q)) Contract.sortFields = true ->
  existsb (Str.eqb (qp_Order q)) Contract.sortOrders = false ->
  Go.services.GetTodos params d = Err (Go.ErrInvalidOrder (qp_Order q)).
Proof.
  intros q Hs Ho. unfold Go.services.GetTodos. fold q.
  rewrite go_contains_existsb.
  change Go.services.validSortFields with Contract.sortFields. rewrite Hs.
  assert (Ho' : negb (Str.eqb (qp_Order q) (Str.lit "asc")) &&
                negb (Str.eqb (qp_Order q) (Str.lit "desc")) = true).
  { unfold Contract.sortOrders in Ho. cbn [existsb] in Ho.
    destruct (Str.eqb (qp_Order q) (Str.lit "asc")),
             (Str.eqb (qp_Order q) (Str.lit "desc")); simpl in *; congruence. }
  simpl negb at 1. cbv iota. rewrite Ho'. reflexivity.
Qed.

End GoListFacts.

(** ** The numbers and patterns the Node repository binds *)

Section NodeListFacts.

(** Integers up to 2^53 are doubles. *)
Lemma round_safe (z : Z) : Z.abs z <= Js.MAX_SAFE_INTEGER -> Js.round z = z.
Proof.
  unfold Js.MAX_SAFE_INTEGER, Js.round. intros H.
  assert (L : Z.log2 (Z.abs z) - 52 <= 0).
  { destruct (Z.eq_dec (Z.abs z) 0) as [E|E]; [rewrite E; simpl; lia|].
    assert (Z.log2 (Z.abs z) < 53); [|lia].
    apply Z.log2_lt_pow2; lia. }
  cbv zeta. destruct (Z.leb_spec (Z.log2 (Z.abs z) - 52) 0); [reflexivity | lia].
Qed.

(** Rounding does not take a number of 2^53 or more below 2^53. *)
Lemma round_large (z : Z) : 2 ^ 53 <= z -> 2 ^ 53 <= Js.round z.
Proof.
  intros H. unfold Js.round. cbv zeta.
  rewrite (Z.abs_eq z) by lia.
  assert (L : 53 <= Z.log2 z) by (apply Z.log2_le_pow2; lia).
  destruct (Z.leb_spec (Z.log2 z - 52) 0); [lia|].
  set (e := Z.log2 z - 52) in *.
  rewrite Z.sgn_pos by lia. rewrite Z.mul_1_l.
  rewrite !Z.shiftl_mul_pow2, Z.shiftr_div_pow2 by lia.
  assert (Hq : 2 ^ 52 <= z / 2 ^ e).
  { apply Z.div_le_lower_bound; [apply Z.pow_pos_nonneg; lia|].
    rewrite Z.mul_comm, <- Z.pow_add_r by lia.
    replace (52 + e) with (Z.log2 z) by (unfold e; lia).
    apply Z.log2_spec. lia. }
  assert (He : 2 <= 2 ^ e).
  { change 2 with (2 ^ 1) at 1. apply Z.pow_le_mono_r; lia. }
  match goal with |- _ <= ?q * _ => assert (Hq' : 2 ^ 52 <= q) end.
  { destruct (_ || _); lia. }
  change (2 ^ 53) with (2 ^ 52 * 2). apply Z.mul_le_mono_nonneg; lia.
Qed.

Lemma sub_safe (a b : Z) :
  Z.abs (a - b) <= Js.MAX_SAFE_INTEGER -> Js.sub a b = a - b.
Proof. apply round_safe. Qed.

Lemma mul_safe (a b : Z) :
  Z.abs (a * b) <= Js.MAX_SAFE_INTEGER -> Js.mul a b = a * b.
Proof. apply round_safe. Qed.

(** The offset of a page, as long as it is a safe integer, is exact and
    SQLite takes it. *)
Lemma offset_safe (page per_page : Z) :
  1 <= page -> 1 <= per_page ->
  (page - 1) * per_page <= Js.MAX_SAFE_INTEGER ->
  Js.mul (Js.sub page 1) per_page = (page - 1) * per_page /\
  Sqlite.must_be_int (Js.mul (Js.sub page 1) per_page) = true.
Proof.
  intros Hp Hpp H.
  assert (Hs : Js.sub page 1 = page - 1).
  { apply sub_safe. rewrite Z.abs_eq by lia. nia. }
  rewrite Hs. rewrite mul_safe by (rewrite Z.abs_eq by nia; exact H).
  split; [reflexivity|].
  unfold Sqlite.must_be_int, Js.MAX_SAFE_INTEGER in *.
  apply andb_true_iff. split; apply Z.ltb_lt; nia.
Qed.

(** From 2^53 on the double that SQLite receives may differ from the exact
    offset, but both skip every row of a table that has fewer than 2^53
    rows: the page is selected as at the exact offset. *)
Lemma offset_as_double cs c dir (page per_page : Z) (d : Sqlite.db) :
  1 <= page -> 1 <= per_page -> Store.size d <= Js.MAX_SAFE_INTEGER ->
  Sqlite.select cs c dir per_page (Js.mul (Js.sub page 1) per_page) d
  = Sqlite.select cs c dir per_page ((page - 1) * per_page) d.
Proof.
  intros Hp Hpp Hsize.
  destruct (Z.le_gt_cases ((page - 1) * per_page) Js.MAX_SAFE_INTEGER) as [H|H].
  - destruct (offset_safe Hp Hpp H) as [-> _]. reflexivity.
  - assert (L : 2 ^ 53 <= Js.mul (Js.sub page 1) per_page).
    { unfold Js.MAX_SAFE_INTEGER in H. apply round_large.
      destruct (Z.le_gt_cases (page - 1) Js.MAX_SAFE_INTEGER) as [H1|H1].
      - rewrite sub_safe by (rewrite Z.abs_eq by lia; exact H1). lia.
      - unfold Js.MAX_SAFE_INTEGER in H1.
        assert (2 ^ 53 <= Js.sub page 1) by (apply round_large; lia). nia. }
    unfold Js.MAX_SAFE_INTEGER, Store.size in *.
    unfold Sqlite.select, Sqlite.limit_offset.
    set (l := Sqlite.sort _ _).
    assert (Hl : (List.length l <= List.length (Sqlite.rows d))%nat).
    { unfold l. rewrite sort_length. apply filter_length_le. }
    rewrite !skipn_all2 by lia. reflexivity.
Qed.

(** UTF-8 takes at most three bytes where UTF-16 takes one unit. *)
Lemma len_le_length (s : Str.str) : Str.len s <= 3 * Str.length s.
Proof.
  unfold Str.len, Str.length.
  induction s as [|c s IH]; cbn [Str.measure]; [lia|].
  assert (Str.utf8_len c <= 3 * Str.utf16_len c); [|lia].
  unfold Str.utf8_len, Str.utf16_len.
  destruct (c <? 128)%N, (c <? 2048)%N, (c <? 65536)%N; lia.
Qed.

(** A search term the Node service lets through is never refused by the
    database. *)
Lemma Node_where_within (o : Node.options) (d : Sqlite.db) :
  Str.length (Sqlite.or_else (Node.search o) []) <= 255 ->
  Sqlite.where_fails (Node.TodoRepository.whereConditions o) d = false.
Proof.
  intros H. apply where_fails_within. unfold Node.TodoRepository.whereConditions.
  destruct (Node.search o) as [s0|]; [destruct (Str.eqb s0 [])|]; simpl app;
    destruct (Node.opt_completed o); cbn [existsb Sqlite.too_complex app];
    rewrite ?orb_false_r; try reflexivity;
    apply Z.ltb_ge; unfold Str.len;
    change (Sqlite.percent :: s0 ++ [Sqlite.percent])
      with ([Sqlite.percent] ++ s0 ++ [Sqlite.percent]);
    rewrite measure_percent_wrap; fold (Str.len s0);
    pose proof (len_le_length s0); cbn [Sqlite.or_else] in H;
    change (Str.utf8_len Sqlite.percent) with 1;
    unfold Sqlite.MAX_LIKE_PATTERN_LENGTH; lia.
Qed.

(** What [findAll] resolves to when nothing fails, and that it resolves to
    nothing else. *)
Lemma findAll_answered (o : Node.options) (d : Sqlite.db) c dir :
  let page := Sqlite.or_else (Node.page o) 1 in
  let per_page := Sqlite.or_else (Node.per_page o) 20 in
  Sqlite.column_of_name (Sqlite.or_else (Node.sort o) (Str.lit "created_at")) = Some c ->
  Sqlite.direction_of_keyword
    (Str.ToUpper (Sqlite.or_else (Node.order o) (Str.lit "desc"))) = Some dir ->
  Sqlite.where_fails (Node.TodoRepository.whereConditions o) d = false ->
  Sqlite.must_be_int per_page = true ->
  Sqlite.must_be_int (Js.mul (Js.sub page 1) per_page) = true ->
  Node.TodoRepository.findAll o d =
  Ok (Node.mkPagination
        (map Node.fromDb
           (Sqlite.select (Node.TodoRepository.whereConditions o) c dir per_page
              ((page - 1) * per_page) d))
        (Sqlite.count (Node.TodoRepository.whereConditions o) d)
        page per_page
        (Node.ceil_div (Sqlite.count (Node.TodoRepository.whereConditions o) d)
                       per_page)).
Proof.
  intros page per_page Hc Hd Hw H1 H2. unfold Node.TodoRepository.findAll.
  fold page. fold per_page. rewrite Hw, Hc, Hd, H1, H2. reflexivity.
Qed.

Lemma findAll_ok (o : Node.options) (d : Sqlite.db) (res : Node.pagination) :
  Node.TodoRepository.findAll o d = Ok res ->
  let page := Sqlite.or_else (Node.page o) 1 in
  let per_page := Sqlite.or_else (Node.per_page o) 20 in
  exists c dir,
    Sqlite.column_of_name (Sqlite.or_else (Node.sort o) (Str.lit "created_at")) = Some c /\
    Sqlite.direction_of_keyword
      (Str.ToUpper (Sqlite.or_else (Node.order o) (Str.lit "desc"))) = Some dir /\
    Sqlite.where_fails (Node.TodoRepository.whereConditions o) d = false /\
    Sqlite.must_be_int per_page = true /\
    Sqlite.must_be_int (Js.mul (Js.sub page 1) per_page) = true /\
    res = Node.mkPagination
        (map Node.fromDb
           (Sqlite.select (Node.TodoRepository.whereConditions o) c dir per_page
              ((page - 1) * per_page) d))
        (Sqlite.count (Node.TodoRepository.whereConditions o) d)
        page per_page
        (Node.ceil_div (Sqlite.count (Node.TodoRepository.whereConditions o) d)
                       per_page).
Proof.
  intros H page per_page. unfold Node.TodoRepository.findAll in H.
  fold page in H. fold per_page in H.
  destruct (Sqlite.where_fails _ d); [discriminate|].
  destruct (Sqlite.column_of_name _) as [c|]; [|discriminate].
  destruct (Sqlite.direction_of_keyword _) as [dir|]; [|discriminate].
  destruct (Sqlite.must_be_int per_page) eqn:E1; [|discriminate].
  destruct (Sqlite.must_be_int (Js.mul (Js.sub page 1) per_page)) eqn:E2;
    [|discriminate].
  cbn [andb] in H. injection H as <-.
  exists c, dir. repeat split.
Qed.

End NodeListFacts.

(** ** Stats *)

Section StatsFacts.

Lemma filter_true (A : Type) (p : A -> bool) (l : list A) :
  (forall x, p x = true) -> filter p l = l.
Proof.
  intros H. induction l as [|x l IH]; simpl; [reflexivity|].
  rewrite H, IH. reflexivity.
Qed.

Lemma filter_split_length (A : Type) (p : A -> bool) (l : list A) :
  (List.length (filter p l) + List.length (filter (fun x => negb (p x)) l))%nat
  = List.length l.
Proof.
  induction l as [|x l IH]; simpl; [reflexivity|].
  destruct (p x); simpl; lia.
Qed.

Lemma count_all (d : Sqlite.db) : Sqlite.count [] d = Store.size d.
Proof.
  unfold Sqlite.count, Store.size. rewrite filter_true; reflexivity.
Qed.

(** Node counts completed and pending rows with two queries of their own,
    so the three numbers always add up. *)
Lemma Node_getStats_adds_up (d : Sqlite.db) :
  exists s, Node.TodoRepository.getStats d = Ok s /\
    Node.TodoRepository.total_todos s = Store.size d /\
    Node.TodoRepository.completed_todos s + Node.TodoRepository.pending_todos s
    = Node.TodoRepository.total_todos s.
Proof.
  eexists; split; [reflexivity|]. simpl. split; [apply count_all|].
  rewrite count_all. unfold Sqlite.count, Store.size.
  rewrite <- (filter_split_length (fun r => Sqlite.completed r) (Sqlite.rows d)).
  rewrite Nat2Z.inj_add. f_equal; do 2 f_equal; apply filter_ext; intros r;
    simpl; destruct (Sqlite.completed r); reflexivity.
Qed.

(** The loop of [GetTodoStats] adds one to one of the two counters for each
    todo it is given. *)
Lemma countTodo_step (s : Go.services.Stats) (t : Go.models.Todo) :
  0 <= Go.services.completed_todos s -> 0 <= Go.services.pending_todos s ->
  Go.services.completed_todos s + Go.services.pending_todos s + 1 <= Go.max_int ->
  let s' := Go.services.countTodo s t in
  Go.services.total_todos s' = Go.services.total_todos s /\
  0 <= Go.services.completed_todos s' /\ 0 <= Go.services.pending_todos s' /\
  Go.services.completed_todos s' + Go.services.pending_todos s'
  = Go.services.completed_todos s + Go.services.pending_todos s + 1.
Proof.
  intros Hc Hp Hb.
  assert (Hm : Go.min_int <= 0) by (unfold Go.min_int; lia).
  unfold Go.services.countTodo, Go.int_add.
  destruct (Go.models.Completed t); simpl; rewrite wrap_small by lia;
    repeat split; lia.
Qed.

Lemma fold_countTodo (l : list Go.models.Todo) (s : Go.services.Stats) :
  0 <= Go.services.completed_todos s -> 0 <= Go.services.pending_todos s ->
  Go.services.completed_todos s + Go.services.pending_todos s
    + Z.of_nat (List.length l) <= Go.max_int ->
  let s' := fold_left Go.services.countTodo l s in
  Go.services.total_todos s' = Go.services.total_todos s /\
  0 <= Go.services.completed_todos s' /\ 0 <= Go.services.pending_todos s' /\
  Go.services.completed_todos s' + Go.services.pending_todos s'
  = Go.services.completed_todos s + Go.services.pending_todos s
    + Z.of_nat (List.length l).
Proof.
  revert s; induction l as [|t l IH]; intros s Hc Hp Hb.
  - simpl. repeat split; try assumption; lia.
  - change (List.length (t :: l)) with (S (List.length l)) in *.
    rewrite Nat2Z.inj_succ in *.
    destruct (@countTodo_step s t Hc Hp ltac:(lia)) as [S1 [S2 [S3 S4]]].
    destruct (IH (Go.services.countTodo s t) S2 S3 ltac:(lia)) as [H1 [H2 [H3 H4]]].
    change (fold_left Go.services.countTodo (t :: l) s)
      with (fold_left Go.services.countTodo l (Go.services.countTodo s t)).
    cbv zeta. rewrite H1, H4. repeat split; try assumption; lia.
Qed.

(** Go derives the two counters from one page of List.  It asks for 1000
    rows per page, which List replaces by the default 20: the counters
    cover the 20 most recently created todos and no more. *)
Lemma Go_GetTodoStats_first_page (d : Sqlite.db) :
  exists c p,
    Go.services.GetTodoStats d = Ok (Go.services.mkStats (Store.size d) c p) /\
    c + p = Z.min (Store.size d) 20.
Proof.
  unfold Go.services.GetTodoStats.
  match goal with |- context [Go.services.GetTodos ?q d] => set (params := q) end.
  destruct (@GetTodos_accepted params d) as [c [dir [Hc [Hd ->]]]];
    [reflexivity | reflexivity | reflexivity |].
  change (Sqlite.column_of_name (Str.lit "created_at") = Some c) in Hc.
  cbn [Go.models.Data Go.models.Total].
  change (Go.models.qp_PerPage (Go.services.setDefaults params)) with 20.
  change (Go.models.qp_Page (Go.services.setDefaults params)) with 1.
  change (Go.int_mul (Go.int_sub 1 1) 20) with 0.
  set (l := map Go.repository.scan _).
  assert (Hlen : Z.of_nat (List.length l) = Z.min (Store.size d) 20).
  { unfold l. rewrite length_map. unfold Sqlite.select, Sqlite.limit_offset.
    simpl skipn. change (20 <? 0) with false. cbv iota.
    rewrite length_firstn, sort_length, filter_true by reflexivity.
    unfold Store.size. lia. }
  rewrite count_all.
  set (s0 := Go.services.mkStats (Store.size d) 0 0).
  destruct (@fold_countTodo l s0) as [H1 [H2 [H3 H4]]];
    try (simpl; rewrite ?Hlen; unfold Go.max_int; lia).
  exists (Go.services.completed_todos (fold_left Go.services.countTodo l s0)),
         (Go.services.pending_todos (fold_left Go.services.countTodo l s0)).
  split.
  - f_equal. destruct (fold_left Go.services.countTodo l s0); simpl in *.
    f_equal. exact H1.
  - rewrite H4, Hlen. simpl. lia.
Qed.

End StatsFacts.

(** C1 (Stats), for the Go service.  [completed + pending == total] must
    hold regardless of how many todos exist.  [GetTodoStats] takes its total
    from the count List reports and its two counters from one page of at
    most 20 rows: on the store reached by creating 21 todos it returns
    total 21, completed 0 and pending 20. *)
Theorem C1_GetTodoStats_21_todos :
  Store.reachable Sample.store21 /\
  Store.size Sample.store21 = 21 /\
  Go.services.GetTodoStats Sample.store21 = Ok (Go.services.mkStats 21 0 20) /\
  0 + 20 <> 21.
Proof.
  split; [apply reachable_run; constructor|].
  split; [vm_compute; reflexivity|].
  split; [vm_compute; reflexivity | lia].
Qed.

(** ** DeleteAll *)

Section DeleteAllFacts.

Lemma size_zero_rows (d : Sqlite.db) : Store.size d = 0 <-> Sqlite.rows d = [].
Proof.
  unfold Store.size. destruct (Sqlite.rows d); simpl; split;
    intros H; try reflexivity; try discriminate; lia.
Qed.

End DeleteAllFacts.

(** C2 (DeleteAll), as stated, fails on the Go repository: on the empty
    store it does not succeed with count 0 but returns the error
    "no todos found to delete", which the service passes on wrapped. *)
Lemma C2_counterexample :
  Go.repository.DeleteAll Sqlite.empty = (Err Go.ErrNoTodosToDelete, Sqlite.empty) /\
  Go.services.DeleteAllTodos Sqlite.empty =
    (Err (Go.ErrWrap "failed to delete all todos" Go.ErrNoTodosToDelete),
     Sqlite.empty) /\
  is_ok (fst (Go.services.DeleteAllTodos Sqlite.empty)) = false.
Proof. repeat split. Qed.

(** C2 (DeleteAll), amended.  Both backends remove every todo
    unconditionally.  The Node repository returns the number deleted, 0 on
    an already-empty store.  The Go repository and service return no count:
    they succeed when at least one todo was deleted and return the error
    "no todos found to delete" on an already-empty store, which stays
    empty. *)
Theorem C2_DeleteAll_amended (d : Sqlite.db) :
  Node.TodoRepository.deleteAll d =
    (Ok (Node.TodoRepository.mkDeleted (Store.size d)),
     Sqlite.mkDb [] (Sqlite.seq d)) /\
  Go.repository.DeleteAll d =
    (if Store.size d =? 0 then Err Go.ErrNoTodosToDelete else Ok tt,
     Sqlite.mkDb [] (Sqlite.seq d)) /\
  Go.services.DeleteAllTodos d =
    (if Store.size d =? 0
     then Err (Go.ErrWrap "failed to delete all todos" Go.ErrNoTodosToDelete)
     else Ok tt,
     Sqlite.mkDb [] (Sqlite.seq d)).
Proof.
  assert (HG : Go.repository.DeleteAll d =
    (if Store.size d =? 0 then Err Go.ErrNoTodosToDelete else Ok tt,
     Sqlite.mkDb [] (Sqlite.seq d))).
  { unfold Go.repository.DeleteAll, Sqlite.delete_all. fold (Store.size d).
    destruct (Store.size d =? 0); reflexivity. }
  split; [|split; [exact HG|]].
  - unfold Node.TodoRepository.deleteAll. rewrite count_all.
    destruct (Z.eqb_spec (Store.size d) 0) as [E|E].
    + rewrite E. apply size_zero_rows in E.
      destruct d as [rs sq]; simpl in *; subst; reflexivity.
    + reflexivity.
  - unfold Go.services.DeleteAllTodos. rewrite HG.
    destruct (Store.size d =? 0); reflexivity.
Qed.

(** ** Sort field and order *)

Section SortValidationFacts.

Import Go.models.

Lemma setDefaults_sort (params : QueryParams) :
  qp_Sort params <> [] -> qp_Sort (Go.services.setDefaults params) = qp_Sort params.
Proof.
  intros H. apply str_eqb_neq in H. simpl. rewrite H. reflexivity.
Qed.

Lemma setDefaults_order (params : QueryParams) :
  qp_Order params <> [] -> qp_Order (Go.services.setDefaults params) = qp_Order params.
Proof.
  intros H. apply str_eqb_neq in H. simpl. rewrite H. reflexivity.
Qed.

Lemma node_sort_valid (s : Str.str) :
  existsb (Str.eqb (Contract.node_sort s)) Contract.sortFields = true.
Proof.
  unfold Contract.node_sort.
  destruct (existsb (Str.eqb s) Contract.sortFields) eqn:E; [exact E | reflexivity].
Qed.

Lemma node_order_valid (s : Str.str) :
  existsb (Str.eqb (Contract.node_order s)) Contract.sortOrders = true.
Proof.
  unfold Contract.node_order.
  destruct (existsb (Str.eqb s) Contract.sortOrders) eqn:E; [exact E | reflexivity].
Qed.

(** [validateQueryOptions] does the substitution itself: a query and the
    same query with the substituted sort field and order validate alike. *)
Lemma validateQueryOptions_substitutes (p pp : option Z) (s o : Str.str)
    (se : option Str.str) (c : option bool) :
  Node.TodoService.validateQueryOptions (Node.mkOptions p pp (Some s) (Some o) se c) =
  Node.TodoService.validateQueryOptions
    (Node.mkOptions p pp (Some (Contract.node_sort s)) (Some (Contract.node_order o)) se c).
Proof.
  unfold Node.TodoService.validateQueryOptions; simpl Sqlite.or_else.
  cbn [Node.page Node.per_page Node.sort Node.order Node.search Node.opt_completed].
  unfold Node.TodoService.includes.
  change Node.TodoService.allowedSortFields with Contract.sortFields.
  change [Str.lit "asc"; Str.lit "desc"] with Contract.sortOrders.
  rewrite node_sort_valid, node_order_valid.
  unfold Contract.node_sort, Contract.node_order.
  destruct (existsb (Str.eqb s) Contract.sortFields),
           (existsb (Str.eqb o) Contract.sortOrders); reflexivity.
Qed.

Lemma schema_rejects (p pp : option Z) (s o : Str.str)
    (se : option Str.str) (c : option bool) :
  existsb (Str.eqb s) Contract.sortFields = false \/
  existsb (Str.eqb o) Contract.sortOrders = false ->
  exists errs,
    Node.validation.QueryParamsSchema (Node.mkOptions p pp (Some s) (Some o) se c)
    = Err errs /\ (In "sort"%string errs \/ In "order"%string errs).
Proof.
  intros H. unfold Node.validation.QueryParamsSchema.
  set (errs := Node.validation.issues _).
  assert (Hin : In "sort"%string errs \/ In "order"%string errs).
  { unfold errs, Node.validation.issues.
    cbn [Node.page Node.per_page Node.sort Node.order Node.search].
    change Node.validation.sortEnum with Contract.sortFields.
    change Node.validation.orderEnum with Contract.sortOrders.
    destruct H as [-> | ->]; [left | right]; rewrite !in_app_iff; simpl; tauto. }
  destruct errs as [|e errs']; [simpl in Hin; tauto|].
  eexists; split; [reflexivity | exact Hin].
Qed.

End SortValidationFacts.

(** C3 (invalid sort field or order), as stated, fails on the Node service:
    [validateQueryOptions] replaces the unknown sort field "bogus" by
    "created_at" and List answers with a page instead of a validation
    error. *)
Lemma C3_counterexample :
  existsb (Str.eqb Sample.bogus) Contract.sortFields = false /\
  Node.TodoService.validateQueryOptions Sample.node_sort_bogus =
    Ok (Node.mkOptions (Some 1) (Some 20) (Some (Str.lit "created_at"))
                       (Some (Str.lit "desc")) None None) /\
  Node.TodoService.getTodos Sample.node_sort_bogus Sample.store1 =
    Ok (Node.mkPagination
          [Node.mkTodo 1 (Str.lit "Buy milk") None false Sample.noon Sample.noon]
          1 1 20 1).
Proof. repeat split. Qed.

(** C3, amended.  A List call that supplies (non-empty) sort field and
    order, one of them outside its allowed set, fails in the Go service with
    the error "invalid sort field" or "invalid order" and returns no result.
    In the Node backend such a query is rejected by the route's
    [QueryParamsSchema]; the Node service itself does not fail on it:
    it answers exactly as for the query with "created_at" in place of an
    invalid sort field and "desc" in place of an invalid order. *)
Theorem C3_invalid_sort_amended (sortField sortOrder : Str.str)
    (page perPage : Z) (search : Str.str) (completed : option bool)
    (d : Sqlite.db) :
  sortField <> [] -> sortOrder <> [] ->
  existsb (Str.eqb sortField) Contract.sortFields = false \/
  existsb (Str.eqb sortOrder) Contract.sortOrders = false ->
  let params := Go.models.mkQueryParams page perPage sortField sortOrder search completed in
  let o := Node.mkOptions (Some page) (Some perPage) (Some sortField)
                          (Some sortOrder) (Some search) completed in
  (Go.services.GetTodos params d = Err (Go.ErrInvalidSortField sortField) \/
   Go.services.GetTodos params d = Err (Go.ErrInvalidOrder sortOrder)) /\
  (exists errs, Node.validation.QueryParamsSchema o = Err errs) /\
  Node.TodoService.getTodos o d =
  Node.TodoService.getTodos
    (Node.mkOptions (Some page) (Some perPage) (Some (Contract.node_sort sortField))
                    (Some (Contract.node_order sortOrder)) (Some search) completed) d.
Proof.
  intros Hs Ho Hbad params o.
  assert (Es : Go.models.qp_Sort (Go.services.setDefaults params) = sortField)
    by (apply (@setDefaults_sort params Hs)).
  assert (Eo : Go.models.qp_Order (Go.services.setDefaults params) = sortOrder)
    by (apply (@setDefaults_order params Ho)).
  split; [|split].
  - destruct (existsb (Str.eqb sortField) Contract.sortFields) eqn:Vs.
    + right. destruct Hbad as [Hbad | Hbad]; [discriminate|].
      rewrite <- Eo. apply GetTodos_bad_order; [rewrite Es | rewrite Eo]; assumption.
    + left. rewrite <- Es. apply GetTodos_bad_sort. rewrite Es. exact Vs.
  - destruct (@schema_rejects (Some page) (Some perPage) sortField sortOrder
                (Some search) completed Hbad) as [errs [E _]].
    exists errs. exact E.
  - unfold Node.TodoService.getTodos, o.
    rewrite validateQueryOptions_substitutes. reflexivity.
Qed.

Lemma C3_invalid_sort_amended_witness :
  let params := Go.models.mkQueryParams 1 20 Sample.bogus (Str.lit "desc") [] None in
  let o := Node.mkOptions (Some 1) (Some 20) (Some Sample.bogus)
                          (Some (Str.lit "desc")) (Some []) None in
  (Go.services.GetTodos params Sample.store1 = Err (Go.ErrInvalidSortField Sample.bogus) \/
   Go.services.GetTodos params Sample.store1 = Err (Go.ErrInvalidOrder (Str.lit "desc"))) /\
  (exists errs, Node.validation.QueryParamsSchema o = Err errs) /\
  Node.TodoService.getTodos o Sample.store1 =
  Node.TodoService.getTodos
    (Node.mkOptions (Some 1) (Some 20) (Some (Contract.node_sort Sample.bogus))
                    (Some (Contract.node_order (Str.lit "desc"))) (Some []) None)
    Sample.store1.
Proof.
  apply (@C3_invalid_sort_amended Sample.bogus (Str.lit "desc") 1 20 [] None
           Sample.store1).
  - discriminate.
  - discriminate.
  - left. reflexivity.
Defined.

(** ** List: total, page and page count *)

Section PaginationFacts.

Import Go.models.

Lemma total_bound (search : Str.str) (cf : option bool) (d : Sqlite.db) :
  0 <= Z.of_nat (List.length
         (filter (Contract.filter_predicate search cf) (Sqlite.rows d)))
    <= Store.size d.
Proof.
  unfold Store.size. split; [lia|]. apply inj_le, filter_length_le.
Qed.

Lemma valid_sort_nonempty (s : Str.str) :
  existsb (Str.eqb s) Contract.sortFields = true -> s <> [].
Proof. intros H ->. discriminate. Qed.

Lemma valid_order_nonempty (s : Str.str) :
  existsb (Str.eqb s) Contract.sortOrders = true -> s <> [].
Proof. intros H ->. discriminate. Qed.

(** The Go service on valid parameters, as long as the offset and the
    rounded-up total fit Go's [int]. *)
Lemma Go_GetTodos_paginates (params : QueryParams) (d : Sqlite.db) :
  1 <= qp_Page params -> 1 <= qp_PerPage params <= 100 ->
  existsb (Str.eqb (qp_Sort params)) Contract.sortFields = true ->
  existsb (Str.eqb (qp_Order params)) Contract.sortOrders = true ->
  Str.len (qp_Search params) + 2 <= Sqlite.MAX_LIKE_PATTERN_LENGTH ->
  (qp_Page params - 1) * qp_PerPage params <= Go.max_int ->
  Store.size d + 100 <= Go.max_int ->
  exists c dir,
    Sqlite.column_of_name (qp_Sort params) = Some c /\
    Sqlite.direction_of_keyword (Str.ToUpper (qp_Order params)) = Some dir /\
    let total :=
      Z.of_nat (List.length
        (filter (Contract.filter_predicate (qp_Search params) (qp_Completed params))
                (Sqlite.rows d))) in
    Go.services.GetTodos params d =
    Ok (mkPaginatedResponse
          (map Go.repository.scan
             (Contract.page_slice (qp_Page params) (qp_PerPage params)
                (Contract.selected (qp_Search params) (qp_Completed params) c dir d)))
          total (qp_Page params) (qp_PerPage params)
          (Contract.ceil_div total (qp_PerPage params))).
Proof.
  intros Hp Hpp Hs Ho Hse Hoff Hsize.
  assert (E : Go.services.setDefaults params = params).
  { apply setDefaults_valid; auto using valid_sort_nonempty, valid_order_nonempty. }
  destruct (@GetTodos_accepted params d) as [c [dir [Hc [Hd HG]]]];
    rewrite ?E; try assumption; [apply Go_where_within; exact Hse|].
  rewrite E in *. exists c, dir. split; [exact Hc|]. split; [exact Hd|].
  cbv zeta. rewrite HG.
  pose proof (total_bound (qp_Search params) (qp_Completed params) d) as Ht.
  assert (Hmin : Go.min_int <= 0) by (unfold Go.min_int; lia).
  assert (Hmax : 200 <= Go.max_int) by (unfold Go.max_int; lia).
  rewrite count_go.
  unfold Go.int_mul, Go.int_sub, Go.int_add, Go.int_quo.
  rewrite (wrap_small (z := qp_Page params - 1)) by nia.
  rewrite (wrap_small (z := (qp_Page params - 1) * qp_PerPage params)) by nia.
  rewrite select_go with (page := qp_Page params) by (lia || reflexivity).
  rewrite (wrap_small (z := _ + qp_PerPage params)) by lia.
  rewrite (wrap_small (z := _ + qp_PerPage params - 1)) by lia.
  rewrite ceil_div_quot by lia.
  rewrite wrap_small; [reflexivity|].
  unfold Contract.ceil_div.
  split.
  - apply Z.le_trans with 0; [lia|]. apply Z.div_pos; lia.
  - apply Z.le_trans with (Z.of_nat (List.length
        (filter (Contract.filter_predicate (qp_Search params) (qp_Completed params))
                (Sqlite.rows d))) + qp_PerPage params - 1); [|lia].
    apply Z.div_le_upper_bound; nia.
Qed.

Lemma node_includes_existsb (l : list Str.str) (s : Str.str) :
  Node.TodoService.includes l s = existsb (Str.eqb s) l.
Proof. reflexivity. Qed.

(** The Node service on valid options. *)
Lemma Node_getTodos_paginates (p pp : Z) (s o : Str.str) (se : option Str.str)
    (cf : option bool) (d : Sqlite.db) :
  1 <= p -> 1 <= pp <= 100 ->
  existsb (Str.eqb s) Contract.sortFields = true ->
  existsb (Str.eqb o) Contract.sortOrders = true ->
  Str.length (Sqlite.or_else se []) <= 255 ->
  (p - 1) * pp <= Js.MAX_SAFE_INTEGER ->
  exists c dir,
    Sqlite.column_of_name s = Some c /\
    Sqlite.direction_of_keyword (Str.ToUpper o) = Some dir /\
    let total :=
      Z.of_nat (List.length
        (filter (Contract.filter_predicate (Sqlite.or_else se []) cf)
                (Sqlite.rows d))) in
    Node.TodoService.getTodos
      (Node.mkOptions (Some p) (Some pp) (Some s) (Some o) se cf) d =
    Ok (Node.mkPagination
          (map Node.fromDb
             (Contract.page_slice p pp
                (Contract.selected (Sqlite.or_else se []) cf c dir d)))
          total p pp (Contract.ceil_div total pp)).
Proof.
  intros Hp Hpp Hs Ho Hse Hoff.
  destruct (sort_field_column _ Hs) as [c Hc].
  destruct (sort_order_direction _ Ho) as [dir Hd].
  exists c, dir. split; [exact Hc|]. split; [exact Hd|]. cbv zeta.
  unfold Node.TodoService.getTodos, Node.TodoService.validateQueryOptions.
  cbn [Node.page Node.per_page Node.sort Node.order Node.search
       Node.opt_completed Sqlite.or_else].
  rewrite !node_includes_existsb.
  change Node.TodoService.allowedSortFields with Contract.sortFields.
  change [Str.lit "asc"; Str.lit "desc"] with Contract.sortOrders.
  rewrite Hs, Ho.
  fold (Contract.effective_page p). fold (Contract.effective_perPage pp).
  rewrite effective_page_valid, effective_perPage_valid by assumption.
  cbn [negb].
  assert (Hv : forall v : Node.options,
             match se with
             | Some s0 =>
                 if negb (Str.eqb s0 []) && (255 <? Str.length s0)
                 then Err (Node.ValidationError "Search query too long")
                 else Ok v
             | None => Ok v
             end = Ok v).
  { intros v. destruct se as [s0|]; [|reflexivity]. simpl in Hse.
    destruct (Z.ltb_spec 255 (Str.length s0)); [lia|].
    rewrite andb_false_r. reflexivity. }
  rewrite Hv. cbn [bind].
  rewrite (@findAll_answered _ d c dir);
    cbn [Node.page Node.per_page Node.sort Node.order Node.search
         Node.opt_completed Sqlite.or_else];
    [| exact Hc | exact Hd | apply Node_where_within; exact Hse
     | unfold Sqlite.must_be_int; apply andb_true_iff; split; apply Z.ltb_lt; lia
     | apply offset_safe; lia].
  rewrite select_node with (page := p) by (lia || reflexivity).
  rewrite count_node, node_ceil_div by lia.
  reflexivity.
Qed.

End PaginationFacts.

(** C4 (List: total, page slice, page count), for the Go service.  The
    parameters page = 2^58 + 1, perPage = 64, sort = id, order = asc are
    valid, and the page slice the specification describes skips
    (page - 1) * perPage = 2^64 rows of the one-row store, so it is empty.
    [GetAll] computes the offset in Go's [int], where it wraps around to 0,
    and List returns the first row. *)
Theorem C4_GetTodos_far_page :
  1 <= Go.models.qp_Page Sample.go_far_page /\
  1 <= Go.models.qp_PerPage Sample.go_far_page <= 100 /\
  Go.models.qp_Page Sample.go_far_page <= Go.max_int /\
  Contract.page_slice Sample.far_page 64
    (Contract.selected [] None Sqlite.Id Sqlite.Asc Sample.store1) = [] /\
  Go.services.GetTodos Sample.go_far_page Sample.store1 =
    Ok (Go.models.mkPaginatedResponse [Sample.buy_milk_todo] 1 Sample.far_page 64 1).
Proof.
  split; [vm_compute; discriminate|].
  split; [split; vm_compute; discriminate|].
  split; [vm_compute; discriminate|].
  split.
  - unfold Contract.page_slice.
    rewrite skipn_all2; [destruct (Z.to_nat 64); reflexivity|].
    change (Contract.selected [] None Sqlite.Id Sqlite.Asc Sample.store1)
      with [Sqlite.mkRow 1 (Str.lit "Buy milk") None false Sample.noon Sample.noon].
    simpl List.length. unfold Sample.far_page. lia.
  - vm_compute. reflexivity.
Qed.

(** ** UPDATE *)

Section UpdateFacts.

Lemma find_some_filter (A : Type) (p : A -> bool) (l : list A) (x : A) :
  find p l = Some x -> Z.of_nat (List.length (filter p l)) <> 0.
Proof.
  induction l as [|y l IH]; simpl; [discriminate|].
  destruct (p y); simpl; [lia | exact IH].
Qed.

Lemma find_some_existsb (A : Type) (p : A -> bool) (l : list A) (x : A) :
  find p l = Some x -> existsb p l = true.
Proof.
  induction l as [|y l IH]; simpl; [discriminate|].
  destruct (p y); simpl; [reflexivity | exact IH].
Qed.

Variable i : Z.
Variable g : Sqlite.row -> Sqlite.row.
Hypothesis g_id : forall r, Sqlite.id (g r) = Sqlite.id r.

Lemma find_updated (l : list Sqlite.row) :
  find (fun r => Sqlite.id r =? i)
       (map (fun r => if Sqlite.id r =? i then g r else r) l)
  = option_map g (find (fun r => Sqlite.id r =? i) l).
Proof.
  induction l as [|r l IH]; simpl; [reflexivity|].
  destruct (Sqlite.id r =? i) eqn:E.
  - rewrite g_id, E. reflexivity.
  - rewrite E. exact IH.
Qed.

Lemma find_other (j : Z) (l : list Sqlite.row) :
  j <> i ->
  find (fun r => Sqlite.id r =? j)
       (map (fun r => if Sqlite.id r =? i then g r else r) l)
  = find (fun r => Sqlite.id r =? j) l.
Proof.
  intros Hj. induction l as [|r l IH]; simpl; [reflexivity|].
  destruct (Z.eqb_spec (Sqlite.id r) i) as [E|E].
  - rewrite g_id.
    destruct (Z.eqb_spec (Sqlite.id r) j); [congruence | exact IH].
  - rewrite IH. reflexivity.
Qed.

End UpdateFacts.

Section UpdateOutcome.

(** What the UPDATE statement with its trigger does to the table. *)
Lemma update_by_id_outcome (a : Sqlite.assignments) (i now : Z)
    (d : Sqlite.db) (r : Sqlite.row) :
  Sqlite.select_by_id i d = Some r ->
  let r' := Sqlite.touch now (Sqlite.apply_set a now r) in
  let d' := fst (Sqlite.update_by_id a i now d) in
  snd (Sqlite.update_by_id a i now d) <> 0 /\
  Contract.update_outcome i now (Sqlite.set_title a) (Sqlite.set_description a)
    (Sqlite.set_completed a) d d' r r'.
Proof.
  intros Hr r' d'. split.
  - simpl. eapply find_some_filter. exact Hr.
  - constructor; try reflexivity.
    + unfold d', Sqlite.select_by_id; simpl.
      rewrite find_updated by reflexivity.
      unfold Sqlite.select_by_id in Hr. rewrite Hr. reflexivity.
    + intros j Hj. unfold d', Sqlite.select_by_id; simpl.
      apply find_other; [reflexivity | exact Hj].
Qed.

End UpdateOutcome.

Section UpdateServices.

Import Go.models.

Lemma buildUpdates_description (req : UpdateTodoRequest) :
  Sqlite.set_description (Go.services.buildUpdates req) =
  option_map (Contract.normalized Str.IsSpace) (ur_Description req).
Proof.
  unfold Go.services.buildUpdates, Contract.normalized; simpl.
  destruct (ur_Description req) as [s|]; [|reflexivity]. simpl.
  fold (Str.TrimSpace s). destruct (Str.eqb (Str.TrimSpace s) []); reflexivity.
Qed.

Lemma buildUpdates_assigned (req : UpdateTodoRequest) :
  req <> mkUpdateTodoRequest None None None ->
  (Sqlite.assigned (Go.services.buildUpdates req) =? 0) = false.
Proof.
  intros H. apply Z.eqb_neq. unfold Sqlite.assigned, Go.services.buildUpdates.
  destruct req as [[t|] [de|] [c|]]; simpl;
    try (destruct (Str.eqb (Str.TrimSpace de) [])); simpl; try lia; congruence.
Qed.

(** Go: an accepted update with at least one supplied field. *)
Lemma Go_UpdateTodo_outcome (i now : Z) (d : Sqlite.db) (r : Sqlite.row)
    (req : UpdateTodoRequest) :
  0 < i -> Sqlite.select_by_id i d = Some r ->
  Go.services.validateUpdateRequest req = Ok tt ->
  req <> mkUpdateTodoRequest None None None ->
  exists r' d',
    Go.services.UpdateTodo i req now d = (Ok (Some (Go.repository.scan r')), d') /\
    Contract.update_outcome i now
      (option_map Str.TrimSpace (ur_Title req))
      (option_map (Contract.normalized Str.IsSpace) (ur_Description req))
      (ur_Completed req) d d' r r'.
Proof.
  intros Hi Hr Hv Hne.
  destruct (@update_by_id_outcome (Go.services.buildUpdates req) i now d r Hr)
    as [Hn Ho].
  rewrite buildUpdates_description in Ho.
  eexists; eexists; split; [|exact Ho].
  unfold Go.services.UpdateTodo.
  destruct (Z.leb_spec i 0); [lia|].
  rewrite Hv. unfold Go.repository.Exists, Sqlite.exists_id.
  unfold Sqlite.select_by_id in Hr. rewrite (find_some_existsb _ _ Hr).
  unfold Go.repository.Update. rewrite buildUpdates_assigned by exact Hne.
  destruct (Sqlite.update_by_id (Go.services.buildUpdates req) i now d)
    as [d' n] eqn:E.
  simpl in Hn. apply Z.eqb_neq in Hn. rewrite Hn.
  unfold Go.repository.GetByID.
  simpl fst in Ho. rewrite (Contract.uo_stored Ho). reflexivity.
Qed.

(** Go: an update that supplies no field is accepted and changes nothing. *)
Lemma Go_UpdateTodo_no_fields (i now : Z) (d : Sqlite.db) (r : Sqlite.row) :
  0 < i -> Sqlite.select_by_id i d = Some r ->
  Go.services.UpdateTodo i (mkUpdateTodoRequest None None None) now d =
  (Ok (Some (Go.repository.scan r)), d).
Proof.
  intros Hi Hr. unfold Go.services.UpdateTodo.
  destruct (Z.leb_spec i 0); [lia|]. simpl.
  unfold Sqlite.exists_id. unfold Sqlite.select_by_id in Hr.
  rewrite (find_some_existsb _ _ Hr).
  unfold Go.repository.Update, Go.repository.GetByID, Sqlite.select_by_id. simpl.
  rewrite Hr. reflexivity.
Qed.

(** Node: an update that supplies no field is refused. *)
Lemma Node_updateTodo_no_fields (i now : Z) (d : Sqlite.db) :
  0 < i ->
  Node.TodoService.updateTodo i (Node.mkUpdateData None None None []) now d =
  (Err (Node.ValidationError "At least one field must be provided"), d).
Proof.
  intros Hi. unfold Node.TodoService.updateTodo, Node.TodoService.validateId.
  destruct (Z.leb_spec i 0); [lia | reflexivity].
Qed.

Lemma validateUpdateData_keys (data : Node.updateData) :
  Node.TodoService.validateUpdateData data = Ok tt ->
  Node.ud_other data = [] /\
  (Sqlite.assigned (Node.TodoService.sanitizeUpdateData data) =? 0) = false.
Proof.
  unfold Node.TodoService.validateUpdateData, Node.TodoService.keys,
    Sqlite.assigned, Node.TodoService.sanitizeUpdateData.
  destruct data as [[t|] [de|] [c|] [|k ks]]; simpl; intros H;
    try discriminate; split; try reflexivity.
Qed.

(** Node: an accepted update; validation guarantees a supplied field. *)
Lemma Node_updateTodo_outcome (i now : Z) (d : Sqlite.db) (r : Sqlite.row)
    (data : Node.updateData) :
  0 < i -> Sqlite.select_by_id i d = Some r ->
  Node.TodoService.validateUpdateData data = Ok tt ->
  exists r' d',
    Node.TodoService.updateTodo i data now d = (Ok (Node.fromDb r'), d') /\
    Contract.update_outcome i now
      (option_map Str.trim (Node.ud_title data))
      (option_map Node.TodoService.trimOrNull (Node.ud_description data))
      (Node.ud_completed data) d d' r r'.
Proof.
  intros Hi Hr Hv.
  destruct (@update_by_id_outcome (Node.TodoService.sanitizeUpdateData data)
              i now d r Hr) as [Hn Ho].
  eexists; eexists; split; [|exact Ho].
  unfold Node.TodoService.updateTodo, Node.TodoService.validateId.
  destruct (Z.leb_spec i 0); [lia|].
  rewrite Hv. destruct (validateUpdateData_keys _ Hv) as [_ Ha]. rewrite Ha.
  unfold Node.TodoRepository.update, Node.TodoRepository.findById.
  rewrite Hr. simpl option_map. cbv iota. rewrite Ha.
  destruct (Sqlite.update_by_id (Node.TodoService.sanitizeUpdateData data) i now d)
    as [d' n] eqn:E.
  simpl fst in Ho. rewrite (Contract.uo_stored Ho). reflexivity.
Qed.

End UpdateServices.

(** C5 (Update), as stated, fails twice on the store holding one todo
    created at [noon].  The Node service refuses an update with zero
    supplied fields with a validation error instead of accepting it.  And an
    update with a supplied field that reaches the database within the second
    of the creation stores the same [updated_at] again, so the value does
    not strictly increase (here in the Go service). *)
Lemma C5_counterexample :
  Node.TodoService.updateTodo 1 Sample.node_no_fields (Sample.noon + 60) Sample.store1
  = (Err (Node.ValidationError "At least one field must be provided"), Sample.store1) /\
  Go.services.GetTodoByID 1 Sample.store1 = Ok (Some Sample.buy_milk_todo) /\
  fst (Go.services.UpdateTodo 1 Sample.mark_done Sample.noon Sample.store1)
  = Ok (Some (Go.models.mkTodo 1 (Str.lit "Buy milk") None true Sample.noon Sample.noon)) /\
  ~ Go.models.UpdatedAt Sample.buy_milk_todo < Sample.noon.
Proof.
  split; [reflexivity|]. split; [reflexivity|]. split; [reflexivity|].
  vm_compute. discriminate.
Qed.

(** C5, amended.  For an existing id: the Go service accepts an update with
    zero supplied fields and leaves the entity, [updated_at] included,
    unchanged; the Node service refuses it with the validation error
    "At least one field must be provided" and leaves the store unchanged.
    An accepted update with at least one supplied field changes, in both
    backends, only the supplied fields (trimmed; a description that is empty
    once trimmed becomes absent) and [updated_at], which becomes the reading
    of the database clock at the update (CURRENT_TIMESTAMP, one-second
    resolution), whatever the value it had; every other field and every
    other todo is untouched. *)
Theorem C5_update_amended (i now : Z) (d : Sqlite.db) (r : Sqlite.row)
    (req : Go.models.UpdateTodoRequest) (data : Node.updateData) :
  0 < i -> Sqlite.select_by_id i d = Some r ->
  Go.services.validateUpdateRequest req = Ok tt ->
  req <> Go.models.mkUpdateTodoRequest None None None ->
  Node.TodoService.validateUpdateData data = Ok tt ->
  Go.services.UpdateTodo i (Go.models.mkUpdateTodoRequest None None None) now d
    = (Ok (Some (Go.repository.scan r)), d) /\
  Node.TodoService.updateTodo i (Node.mkUpdateData None None None []) now d
    = (Err (Node.ValidationError "At least one field must be provided"), d) /\
  (exists r' d',
     Go.services.UpdateTodo i req now d = (Ok (Some (Go.repository.scan r')), d') /\
     Contract.update_outcome i now
       (option_map Str.TrimSpace (Go.models.ur_Title req))
       (option_map (Contract.normalized Str.IsSpace) (Go.models.ur_Description req))
       (Go.models.ur_Completed req) d d' r r' /\
     Sqlite.updated_at r' = now) /\
  (exists r' d',
     Node.TodoService.updateTodo i data now d = (Ok (Node.fromDb r'), d') /\
     Contract.update_outcome i now
       (option_map Str.trim (Node.ud_title data))
       (option_map Node.TodoService.trimOrNull (Node.ud_description data))
       (Node.ud_completed data) d d' r r' /\
     Sqlite.updated_at r' = now).
Proof.
  intros Hi Hr Hv Hne Hv'.
  split; [apply Go_UpdateTodo_no_fields; assumption|].
  split; [apply Node_updateTodo_no_fields; assumption|].
  split.
  - destruct (@Go_UpdateTodo_outcome i now d r req Hi Hr Hv Hne) as [r' [d' [E O]]].
    exists r', d'. split; [exact E|]. split; [exact O|].
    exact (Contract.uo_updated_at O).
  - destruct (@Node_updateTodo_outcome i now d r data Hi Hr Hv') as [r' [d' [E O]]].
    exists r', d'. split; [exact E|]. split; [exact O|].
    exact (Contract.uo_updated_at O).
Qed.

Lemma C5_update_amended_witness :
  Go.services.UpdateTodo 1 (Go.models.mkUpdateTodoRequest None None None)
    (Sample.noon + 60) Sample.store1
    = (Ok (Some (Go.repository.scan Sample.buy_milk_row)), Sample.store1) /\
  Node.TodoService.updateTodo 1 (Node.mkUpdateData None None None [])
    (Sample.noon + 60) Sample.store1
    = (Err (Node.ValidationError "At least one field must be provided"), Sample.store1) /\
  (exists r' d',
     Go.services.UpdateTodo 1 Sample.mark_done (Sample.noon + 60) Sample.store1
       = (Ok (Some (Go.repository.scan r')), d') /\
     Contract.update_outcome 1 (Sample.noon + 60)
       (option_map Str.TrimSpace (Go.models.ur_Title Sample.mark_done))
       (option_map (Contract.normalized Str.IsSpace)
                   (Go.models.ur_Description Sample.mark_done))
       (Go.models.ur_Completed Sample.mark_done) Sample.store1 d'
       Sample.buy_milk_row r' /\
     Sqlite.updated_at r' = Sample.noon + 60) /\
  (exists r' d',
     Node.TodoService.updateTodo 1 Sample.node_mark_done (Sample.noon + 60) Sample.store1
       = (Ok (Node.fromDb r'), d') /\
     Contract.update_outcome 1 (Sample.noon + 60)
       (option_map Str.trim (Node.ud_title Sample.node_mark_done))
       (option_map Node.TodoService.trimOrNull (Node.ud_description Sample.node_mark_done))
       (Node.ud_completed Sample.node_mark_done) Sample.store1 d'
       Sample.buy_milk_row r' /\
     Sqlite.updated_at r' = Sample.noon + 60).
Proof.
  apply (@C5_update_amended 1 (Sample.noon + 60) Sample.store1 Sample.buy_milk_row
           Sample.mark_done Sample.node_mark_done).
  - lia.
  - reflexivity.
  - reflexivity.
  - discriminate.
  - reflexivity.
Defined.

(** ** Well-formed tables *)

Section WfFacts.

Lemma wf_empty : Sqlite.wf Sqlite.empty.
Proof.
  constructor; simpl; [unfold Sqlite.max_rowid; lia | constructor | constructor].
Qed.

Lemma find_append (A : Type) (p : A -> bool) (l1 l2 : list A) :
  find p (l1 ++ l2) =
  match find p l1 with Some x => Some x | None => find p l2 end.
Proof.
  induction l1 as [|x l1 IH]; simpl; [reflexivity|].
  destruct (p x); [reflexivity | exact IH].
Qed.

Lemma wf_insert t desc c now (d d' : Sqlite.db) (i : Z) :
  Sqlite.wf d -> Sqlite.insert_todo t desc c now d = Some (d', i) ->
  Sqlite.wf d' /\ i = Sqlite.seq d + 1 /\
  Sqlite.select_by_id i d' = Some (Sqlite.mkRow i t desc c now now).
Proof.
  intros [Hs Hi Hn]. unfold Sqlite.insert_todo.
  destruct (Z.leb_spec Sqlite.max_rowid (Sqlite.seq d)) as [|Hlt]; [discriminate|].
  intros E; inversion E; subst; clear E.
  split; [|split; [reflexivity|]].
  - constructor; unfold Sqlite.ids in *; simpl.
    + lia.
    + rewrite map_app, Forall_app. split.
      * eapply Forall_impl; [|exact Hi]. simpl. intros; lia.
      * constructor; [simpl; lia | constructor].
    + rewrite map_app. simpl.
      apply NoDup_app; [exact Hn | constructor; [simpl; tauto | constructor] |].
      intros x Hx [Hy|[]]. subst x.
      rewrite Forall_forall in Hi. specialize (Hi _ Hx). lia.
  - unfold Sqlite.select_by_id. simpl. rewrite find_append.
    assert (Hnone : find (fun r => Sqlite.id r =? Sqlite.seq d + 1) (Sqlite.rows d) = None).
    { destruct (find _ (Sqlite.rows d)) as [r|] eqn:F; [|reflexivity].
      apply find_some in F. destruct F as [F1 F2]. apply Z.eqb_eq in F2.
      unfold Sqlite.ids in Hi. rewrite Forall_forall in Hi.
      specialize (Hi (Sqlite.id r) (in_map _ _ _ F1)). lia. }
    rewrite Hnone. simpl. rewrite Z.eqb_refl. reflexivity.
Qed.

Lemma wf_update a i now (d : Sqlite.db) :
  Sqlite.wf d -> Sqlite.wf (fst (Sqlite.update_by_id a i now d)).
Proof.
  intros [Hs Hi Hn].
  assert (E : Sqlite.ids (fst (Sqlite.update_by_id a i now d)) = Sqlite.ids d).
  { unfold Sqlite.ids; simpl. rewrite map_map. apply map_ext.
    intros r. destruct (Sqlite.id r =? i); reflexivity. }
  constructor; rewrite ?E; assumption.
Qed.

(** Deleting rows keeps the remaining rowids distinct. *)
Lemma ids_distinct_after_delete (keep : Sqlite.row -> bool) (rs : list Sqlite.row) :
  NoDup (map Sqlite.id rs) -> NoDup (map Sqlite.id (filter keep rs)).
Proof.
  intros Hrs. induction rs as [|r rs IH]; simpl; [constructor|].
  simpl in Hrs. apply NoDup_cons_iff in Hrs. destruct Hrs as [Hr Hrest].
  destruct (keep r); simpl; [|apply IH; exact Hrest].
  apply NoDup_cons_iff. split; [|apply IH; exact Hrest].
  rewrite in_map_iff. intros [r' [Eid Hin]].
  apply filter_In in Hin. apply Hr. rewrite <- Eid. apply in_map. tauto.
Qed.

Lemma wf_delete i (d : Sqlite.db) :
  Sqlite.wf d -> Sqlite.wf (fst (Sqlite.delete_by_id i d)).
Proof.
  intros [Hs Hi Hn]. constructor; unfold Sqlite.ids in *; simpl.
  - exact Hs.
  - rewrite Forall_forall in *. intros x Hx. apply Hi.
    apply in_map_iff in Hx. destruct Hx as [r [E Hr]].
    apply filter_In in Hr. rewrite <- E. apply in_map. tauto.
  - apply ids_distinct_after_delete. exact Hn.
Qed.

Lemma wf_delete_all (d : Sqlite.db) :
  Sqlite.wf d -> Sqlite.wf (fst (Sqlite.delete_all d)).
Proof.
  intros [Hs Hi Hn]. constructor; unfold Sqlite.ids; simpl;
    [exact Hs | constructor | constructor].
Qed.

End WfFacts.

Section ReachableFacts.

Lemma Go_Create_wf todo now (d : Sqlite.db) :
  Sqlite.wf d -> Sqlite.wf (snd (Go.repository.Create todo now d)).
Proof.
  intros H. unfold Go.repository.Create.
  destruct (Sqlite.insert_todo _ _ _ now d) as [[d' i]|] eqn:E; [|exact H].
  destruct (wf_insert _ _ _ _ H E) as [H' _].
  destruct (Go.repository.GetByID i d') as [[t|]|e]; exact H'.
Qed.

Lemma Go_CreateTodo_wf req t1 t2 now (d : Sqlite.db) :
  Sqlite.wf d -> Sqlite.wf (snd (Go.services.CreateTodo req t1 t2 now d)).
Proof.
  intros H. unfold Go.services.CreateTodo.
  destruct (Go.services.validateCreateRequest req); [|exact H].
  match goal with |- context [Go.repository.Create ?t now d] =>
    pose proof (Go_Create_wf t now H) as H';
    destruct (Go.repository.Create t now d) as [[t'|e] d']
  end; exact H'.
Qed.

Lemma Go_UpdateTodo_wf i req now (d : Sqlite.db) :
  Sqlite.wf d -> Sqlite.wf (snd (Go.services.UpdateTodo i req now d)).
Proof.
  intros H. unfold Go.services.UpdateTodo.
  destruct (i <=? 0); [exact H|].
  destruct (Go.services.validateUpdateRequest req); [|exact H].
  unfold Go.repository.Exists. destruct (Sqlite.exists_id i d); [|exact H].
  unfold Go.repository.Update.
  destruct (Sqlite.assigned (Go.services.buildUpdates req) =? 0).
  - destruct (Go.repository.GetByID i d); exact H.
  - pose proof (wf_update (Go.services.buildUpdates req) i now H) as H'.
    destruct (Sqlite.update_by_id (Go.services.buildUpdates req) i now d) as [d' n].
    destruct (n =? 0); [exact H'|].
    destruct (Go.repository.GetByID i d'); exact H'.
Qed.

Lemma Go_DeleteTodo_wf i (d : Sqlite.db) :
  Sqlite.wf d -> Sqlite.wf (snd (Go.services.DeleteTodo i d)).
Proof.
  intros H. unfold Go.services.DeleteTodo.
  destruct (i <=? 0); [exact H|].
  unfold Go.repository.Exists. destruct (Sqlite.exists_id i d); [|exact H].
  unfold Go.repository.Delete.
  pose proof (wf_delete i H) as H'.
  destruct (Sqlite.delete_by_id i d) as [d' n].
  destruct (n =? 0); exact H'.
Qed.

Lemma Go_DeleteAllTodos_wf (d : Sqlite.db) :
  Sqlite.wf d -> Sqlite.wf (snd (Go.services.DeleteAllTodos d)).
Proof.
  intros H. unfold Go.services.DeleteAllTodos, Go.repository.DeleteAll.
  pose proof (wf_delete_all H) as H'.
  destruct (Sqlite.delete_all d) as [d' n].
  destruct (n =? 0); exact H'.
Qed.

Lemma Node_create_wf t desc c now (d : Sqlite.db) :
  Sqlite.wf d -> Sqlite.wf (snd (Node.TodoRepository.create t desc c now d)).
Proof.
  intros H. unfold Node.TodoRepository.create.
  destruct (negb (Node.isValid t desc)); [exact H|].
  destruct (Sqlite.insert_todo t desc c now d) as [[d' i]|] eqn:E; [|exact H].
  destruct (wf_insert _ _ _ _ H E) as [H' _].
  destruct (Node.TodoRepository.findById i d'); exact H'.
Qed.

Lemma Node_createTodo_wf data now (d : Sqlite.db) :
  Sqlite.wf d -> Sqlite.wf (snd (Node.TodoService.createTodo data now d)).
Proof.
  intros H. unfold Node.TodoService.createTodo.
  destruct (Node.TodoService.validateTodoData data); [|exact H].
  destruct (Node.td_title data); [|exact H].
  apply Node_create_wf. exact H.
Qed.

Lemma Node_updateTodo_wf i data now (d : Sqlite.db) :
  Sqlite.wf d -> Sqlite.wf (snd (Node.TodoService.updateTodo i data now d)).
Proof.
  intros H. unfold Node.TodoService.updateTodo.
  destruct (Node.TodoService.validateId i); [|exact H].
  destruct (Node.TodoService.validateUpdateData data); [|exact H].
  destruct (Sqlite.assigned (Node.TodoService.sanitizeUpdateData data) =? 0) eqn:A;
    [exact H|].
  unfold Node.TodoRepository.update.
  destruct (Node.TodoRepository.findById i d); [|exact H].
  rewrite A.
  pose proof (wf_update (Node.TodoService.sanitizeUpdateData data) i now H) as H'.
  destruct (Sqlite.update_by_id _ i now d) as [d' n].
  destruct (Node.TodoRepository.findById i d'); exact H'.
Qed.

Lemma Node_deleteTodo_wf i (d : Sqlite.db) :
  Sqlite.wf d -> Sqlite.wf (snd (Node.TodoService.deleteTodo i d)).
Proof.
  intros H. unfold Node.TodoService.deleteTodo.
  destruct (Node.TodoService.validateId i); [|exact H].
  unfold Node.TodoRepository.delete.
  destruct (Node.TodoRepository.findById i d); [|exact H].
  pose proof (wf_delete i H) as H'.
  destruct (Sqlite.delete_by_id i d) as [d' n].
  destruct (n =? 0); exact H'.
Qed.

Lemma Node_deleteAll_wf (d : Sqlite.db) :
  Sqlite.wf d -> Sqlite.wf (snd (Node.TodoRepository.deleteAll d)).
Proof.
  intros H. unfold Node.TodoRepository.deleteAll.
  destruct (Sqlite.count [] d =? 0); [exact H|].
  pose proof (wf_delete_all H) as H'.
  destruct (Sqlite.delete_all d) as [d' n]. exact H'.
Qed.

(** Every reachable store is well formed. *)
Lemma reachable_wf (d : Sqlite.db) : Store.reachable d -> Sqlite.wf d.
Proof.
  induction 1 as [|r d Hd IH]; [apply wf_empty|].
  destruct r; simpl;
    auto using Go_CreateTodo_wf, Go_UpdateTodo_wf, Go_DeleteTodo_wf,
      Go_DeleteAllTodos_wf, Node_createTodo_wf, Node_updateTodo_wf,
      Node_deleteTodo_wf, Node_deleteAll_wf.
Qed.

End ReachableFacts.

(** ** Create *)

Section CreateFacts.

Import Go.models.

Lemma utf16_len_pos (c : Str.rune) : 0 < Str.utf16_len c.
Proof. unfold Str.utf16_len. destruct (c <? 65536)%N; lia. Qed.

Lemma length_zero_iff (s : Str.str) : (Str.length s =? 0) = Str.eqb s [].
Proof.
  destruct s as [|c s]; [reflexivity|].
  simpl Str.eqb. apply Z.eqb_neq. unfold Str.length. simpl.
  pose proof (utf16_len_pos c). pose proof (@measure_nonneg Str.utf16_len utf16_len_pos s). lia.
Qed.

Lemma trim_nil_of_nil (space : Str.rune -> bool) (s : Str.str) :
  Str.eqb s [] = true -> Str.eqb (Str.trim_with space s) [] = true.
Proof. intros H. apply str_eqb_eq in H. subst. reflexivity. Qed.

Lemma Go_validateCreateRequest_rules (req : CreateTodoRequest) :
  Go.services.validateCreateRequest req =
  match Contract.first_violation Str.len Str.TrimSpace
          (cr_Title req) (cr_Description req) with
  | Some v => Err (Contract.go_error v)
  | None => Ok tt
  end.
Proof.
  unfold Go.services.validateCreateRequest, Contract.first_violation.
  destruct (Str.eqb (Str.TrimSpace (cr_Title req)) []); [reflexivity|].
  destruct (255 <? Str.len (cr_Title req)); [reflexivity|].
  destruct (cr_Description req) as [desc|]; [|reflexivity].
  destruct (1000 <? Str.len desc); reflexivity.
Qed.

Lemma Node_validateTodoData_rules (data : Node.todoData) :
  Node.TodoService.validateTodoData data =
  match Contract.first_violation Str.length Str.trim
          (Sqlite.or_else (Node.td_title data) []) (Node.td_description data) with
  | Some v => Err (Contract.node_error v)
  | None => Ok tt
  end.
Proof.
  unfold Node.TodoService.validateTodoData, Contract.first_violation.
  destruct (Node.td_title data) as [t|]; [|reflexivity]. simpl Sqlite.or_else.
  rewrite length_zero_iff.
  destruct (Str.eqb t []) eqn:Et.
  - rewrite (trim_nil_of_nil Str.isWhiteSpaceOrLineTerminator _ Et
               : Str.eqb (Str.trim t) [] = true). reflexivity.
  - simpl orb. destruct (Str.eqb (Str.trim t) []); [reflexivity|].
    destruct (255 <? Str.length t); [reflexivity|].
    destruct (Node.td_description data) as [desc|]; [|reflexivity].
    destruct (1000 <? Str.length desc); reflexivity.
Qed.

(** What passes the service's validation also passes the model's own check
    in the repository. *)
Lemma sanitized_isValid (t : Str.str) (desc : option Str.str) :
  Contract.first_violation Str.length Str.trim t desc = None ->
  Node.isValid (Str.trim t) (Node.TodoService.trimOrNull desc) = true.
Proof.
  unfold Contract.first_violation, Node.isValid.
  destruct (Str.eqb (Str.trim t) []) eqn:Et; [discriminate|].
  destruct (Z.ltb_spec 255 (Str.length t)) as [|Hl]; [discriminate|].
  intros Hd.
  unfold Str.trim at 1. rewrite trim_with_idempotent. fold (Str.trim t).
  assert (H0 : (0 <? Str.length (Str.trim t)) = true).
  { apply Z.ltb_lt. rewrite <- length_zero_iff in Et. apply Z.eqb_neq in Et.
    pose proof (@measure_nonneg Str.utf16_len utf16_len_pos (Str.trim t)).
    unfold Str.length in *. lia. }
  assert (H1 : (Str.length (Str.trim t) <=? 255) = true).
  { apply Z.leb_le.
    pose proof (@measure_trim_with Str.utf16_len utf16_len_pos Str.isWhiteSpaceOrLineTerminator t).
    unfold Str.length, Str.trim in *. lia. }
  rewrite H0, H1. simpl.
  destruct desc as [x|]; [|reflexivity]. simpl.
  destruct (Z.ltb_spec 1000 (Str.length x)) as [|Hx]; [discriminate|].
  destruct (Str.eqb (Str.trim x) []); [reflexivity|].
  apply Z.leb_le.
  pose proof (@measure_trim_with Str.utf16_len utf16_len_pos Str.isWhiteSpaceOrLineTerminator x).
  unfold Str.length, Str.trim in *. lia.
Qed.

Lemma insert_succeeds t desc c now (d : Sqlite.db) :
  Sqlite.wf d -> Sqlite.seq d < Sqlite.max_rowid ->
  exists d',
    Sqlite.insert_todo t desc c now d = Some (d', Sqlite.seq d + 1) /\
    Sqlite.select_by_id (Sqlite.seq d + 1) d'
      = Some (Sqlite.mkRow (Sqlite.seq d + 1) t desc c now now) /\
    0 < Sqlite.seq d + 1.
Proof.
  intros Hw Hlt.
  destruct (Sqlite.insert_todo t desc c now d) as [[d' i]|] eqn:E.
  - destruct (wf_insert _ _ _ _ Hw E) as [_ [-> Hsel]].
    exists d'. split; [reflexivity|]. split; [exact Hsel|].
    destruct Hw as [Hs _ _]. lia.
  - unfold Sqlite.insert_todo in E.
    destruct (Z.leb_spec Sqlite.max_rowid (Sqlite.seq d)); [lia | discriminate].
Qed.

End CreateFacts.




(** ** Persisted descriptions *)

Section TableInvariants.

Variable P : Sqlite.row -> Prop.

Lemma rows_insert t desc c now (d d' : Sqlite.db) (i : Z) :
  Forall P (Sqlite.rows d) ->
  Sqlite.insert_todo t desc c now d = Some (d', i) ->
  P (Sqlite.mkRow i t desc c now now) ->
  Forall P (Sqlite.rows d').
Proof.
  intros H E Hn. unfold Sqlite.insert_todo in E.
  destruct (Sqlite.max_rowid <=? Sqlite.seq d); [discriminate|].
  inversion E; subst; simpl. apply Forall_app. split; [exact H|].
  constructor; [exact Hn | constructor].
Qed.

Lemma rows_update a i now (d : Sqlite.db) :
  Forall P (Sqlite.rows d) ->
  (forall r, P r -> P (Sqlite.touch now (Sqlite.apply_set a now r))) ->
  Forall P (Sqlite.rows (fst (Sqlite.update_by_id a i now d))).
Proof.
  intros H Hf. simpl. rewrite Forall_map.
  eapply Forall_impl; [|exact H]. intros r Hr. simpl.
  destruct (Sqlite.id r =? i); auto.
Qed.

Lemma rows_delete i (d : Sqlite.db) :
  Forall P (Sqlite.rows d) ->
  Forall P (Sqlite.rows (fst (Sqlite.delete_by_id i d))).
Proof.
  intros H. simpl. rewrite Forall_forall in *. intros r Hr.
  apply filter_In in Hr. apply H. tauto.
Qed.

End TableInvariants.

Section DescriptionFacts.

Variable space : Str.rune -> bool.

Lemma normalized_ok (s : Str.str) :
  Contract.stored_description_ok space (Contract.normalized space s).
Proof.
  unfold Contract.normalized.
  destruct (Str.eqb (Str.trim_with space s) []) eqn:E; simpl; [exact I|].
  split; [apply str_eqb_neq; exact E | apply trim_with_trimmed].
Qed.

Lemma normalized_blank (s : Str.str) :
  Str.trim_with space s = [] -> Contract.normalized space s = None.
Proof. intros H. unfold Contract.normalized. rewrite H. reflexivity. Qed.

Lemma description_set_ok (a : Sqlite.assignments) (now : Z) (r : Sqlite.row) :
  (forall x, Sqlite.set_description a = Some x ->
             Contract.stored_description_ok space x) ->
  Contract.stored_description_ok space (Sqlite.description r) ->
  Contract.stored_description_ok space
    (Sqlite.description (Sqlite.touch now (Sqlite.apply_set a now r))).
Proof.
  intros Ha Hr. simpl.
  destruct (Sqlite.set_description a) as [x|]; simpl; auto.
Qed.

End DescriptionFacts.

Section DescriptionServices.

Import Go.models.

Lemma trimDescription_normalized (desc : option Str.str) :
  Go.services.trimDescription desc =
  match desc with
  | Some s => Contract.normalized Str.IsSpace s
  | None => None
  end.
Proof. destruct desc; reflexivity. Qed.

Lemma trimOrNull_normalized (desc : option Str.str) :
  Node.TodoService.trimOrNull desc =
  match desc with
  | Some s => Contract.normalized Str.isWhiteSpaceOrLineTerminator s
  | None => None
  end.
Proof. destruct desc; reflexivity. Qed.

Lemma trimDescription_ok (desc : option Str.str) :
  Contract.stored_description_ok Str.IsSpace (Go.services.trimDescription desc).
Proof.
  rewrite trimDescription_normalized.
  destruct desc; [apply normalized_ok | exact I].
Qed.

Lemma trimOrNull_ok (desc : option Str.str) :
  Contract.stored_description_ok Str.isWhiteSpaceOrLineTerminator
    (Node.TodoService.trimOrNull desc).
Proof.
  rewrite trimOrNull_normalized.
  destruct desc; [apply normalized_ok | exact I].
Qed.

Lemma Go_CreateTodo_descriptions req t1 t2 now (d : Sqlite.db) :
  Contract.descriptions_ok Str.IsSpace d ->
  Contract.descriptions_ok Str.IsSpace (snd (Go.services.CreateTodo req t1 t2 now d)).
Proof.
  intros H. unfold Go.services.CreateTodo.
  destruct (Go.services.validateCreateRequest req); [|exact H].
  unfold Go.repository.Create.
  cbn [Go.models.Title Go.models.Description Go.models.Completed].
  destruct (Sqlite.insert_todo _ _ _ now d) as [[d' i]|] eqn:E; [|exact H].
  assert (H' : Contract.descriptions_ok Str.IsSpace d').
  { eapply rows_insert; [exact H | exact E |]. apply trimDescription_ok. }
  destruct (Go.repository.GetByID i d') as [[t|]|e]; exact H'.
Qed.

Lemma Go_UpdateTodo_descriptions i req now (d : Sqlite.db) :
  Contract.descriptions_ok Str.IsSpace d ->
  Contract.descriptions_ok Str.IsSpace (snd (Go.services.UpdateTodo i req now d)).
Proof.
  intros H. unfold Go.services.UpdateTodo.
  destruct (i <=? 0); [exact H|].
  destruct (Go.services.validateUpdateRequest req); [|exact H].
  unfold Go.repository.Exists. destruct (Sqlite.exists_id i d); [|exact H].
  unfold Go.repository.Update.
  destruct (Sqlite.assigned (Go.services.buildUpdates req) =? 0).
  - destruct (Go.repository.GetByID i d); exact H.
  - assert (H' : Contract.descriptions_ok Str.IsSpace
                   (fst (Sqlite.update_by_id (Go.services.buildUpdates req) i now d))).
    { apply rows_update; [exact H|]. intros r Hr.
      apply description_set_ok; [|exact Hr].
      intros x. rewrite buildUpdates_description.
      destruct (ur_Description req) as [s|]; simpl; [|discriminate].
      intros Ex; inversion Ex. apply normalized_ok. }
    destruct (Sqlite.update_by_id (Go.services.buildUpdates req) i now d) as [d' n].
    destruct (n =? 0); [exact H'|].
    destruct (Go.repository.GetByID i d'); exact H'.
Qed.

Lemma Go_DeleteTodo_descriptions space i (d : Sqlite.db) :
  Contract.descriptions_ok space d ->
  Contract.descriptions_ok space (snd (Go.services.DeleteTodo i d)).
Proof.
  intros H. unfold Go.services.DeleteTodo.
  destruct (i <=? 0); [exact H|].
  unfold Go.repository.Exists. destruct (Sqlite.exists_id i d); [|exact H].
  unfold Go.repository.Delete.
  pose proof (@rows_delete _ i d H) as H'.
  destruct (Sqlite.delete_by_id i d) as [d' n].
  destruct (n =? 0); exact H'.
Qed.

Lemma Go_DeleteAllTodos_descriptions space (d : Sqlite.db) :
  Contract.descriptions_ok space (snd (Go.services.DeleteAllTodos d)).
Proof.
  unfold Go.services.DeleteAllTodos, Go.repository.DeleteAll. simpl.
  destruct (Z.of_nat (List.length (Sqlite.rows d)) =? 0); constructor.
Qed.

Lemma Node_createTodo_descriptions data now (d : Sqlite.db) :
  Contract.descriptions_ok Str.isWhiteSpaceOrLineTerminator d ->
  Contract.descriptions_ok Str.isWhiteSpaceOrLineTerminator
    (snd (Node.TodoService.createTodo data now d)).
Proof.
  intros H. unfold Node.TodoService.createTodo.
  destruct (Node.TodoService.validateTodoData data); [|exact H].
  destruct (Node.td_title data) as [t|]; [|exact H].
  unfold Node.TodoRepository.create, Node.TodoService.sanitizeTodoData.
  cbn [Node.TodoService.s_title Node.TodoService.s_description
       Node.TodoService.s_completed].
  destruct (negb (Node.isValid _ _)); [exact H|].
  destruct (Sqlite.insert_todo _ _ _ now d) as [[d' i]|] eqn:E; [|exact H].
  assert (H' : Contract.descriptions_ok Str.isWhiteSpaceOrLineTerminator d').
  { eapply rows_insert; [exact H | exact E |]. apply trimOrNull_ok. }
  destruct (Node.TodoRepository.findById i d'); exact H'.
Qed.

Lemma Node_updateTodo_descriptions i data now (d : Sqlite.db) :
  Contract.descriptions_ok Str.isWhiteSpaceOrLineTerminator d ->
  Contract.descriptions_ok Str.isWhiteSpaceOrLineTerminator
    (snd (Node.TodoService.updateTodo i data now d)).
Proof.
  intros H. unfold Node.TodoService.updateTodo.
  destruct (Node.TodoService.validateId i); [|exact H].
  destruct (Node.TodoService.validateUpdateData data); [|exact H].
  destruct (Sqlite.assigned (Node.TodoService.sanitizeUpdateData data) =? 0) eqn:A;
    [exact H|].
  unfold Node.TodoRepository.update.
  destruct (Node.TodoRepository.findById i d); [|exact H].
  rewrite A.
  assert (H' : Contract.descriptions_ok Str.isWhiteSpaceOrLineTerminator
                 (fst (Sqlite.update_by_id
                         (Node.TodoService.sanitizeUpdateData data) i now d))).
  { apply rows_update; [exact H|]. intros r Hr.
    apply description_set_ok; [|exact Hr].
    intros x. simpl.
    destruct (Node.ud_description data) as [s|]; simpl; [|discriminate].
    intros Ex; inversion Ex. apply trimOrNull_ok. }
  destruct (Sqlite.update_by_id _ i now d) as [d' n].
  destruct (Node.TodoRepository.findById i d'); exact H'.
Qed.

Lemma Node_deleteTodo_descriptions space i (d : Sqlite.db) :
  Contract.descriptions_ok space d ->
  Contract.descriptions_ok space (snd (Node.TodoService.deleteTodo i d)).
Proof.
  intros H. unfold Node.TodoService.deleteTodo.
  destruct (Node.TodoService.validateId i); [|exact H].
  unfold Node.TodoRepository.delete.
  destruct (Node.TodoRepository.findById i d); [|exact H].
  pose proof (@rows_delete _ i d H) as H'.
  destruct (Sqlite.delete_by_id i d) as [d' n].
  destruct (n =? 0); exact H'.
Qed.

Lemma Node_deleteAll_descriptions space (d : Sqlite.db) :
  Contract.descriptions_ok space d ->
  Contract.descriptions_ok space (snd (Node.TodoRepository.deleteAll d)).
Proof.
  intros H. unfold Node.TodoRepository.deleteAll.
  destruct (Sqlite.count [] d =? 0); [exact H | constructor].
Qed.

Lemma Go_reachable_descriptions (d : Sqlite.db) :
  Store.reachable_via Store.is_go d -> Contract.descriptions_ok Str.IsSpace d.
Proof.
  induction 1 as [|r d Hr Hd IH]; [constructor|].
  destruct r; try discriminate Hr; simpl;
    auto using Go_CreateTodo_descriptions, Go_UpdateTodo_descriptions,
      Go_DeleteTodo_descriptions, Go_DeleteAllTodos_descriptions.
Qed.

Lemma Node_reachable_descriptions (d : Sqlite.db) :
  Store.reachable_via Store.is_node d ->
  Contract.descriptions_ok Str.isWhiteSpaceOrLineTerminator d.
Proof.
  induction 1 as [|r d Hr Hd IH]; [constructor|].
  destruct r; try discriminate Hr; simpl;
    auto using Node_createTodo_descriptions, Node_updateTodo_descriptions,
      Node_deleteTodo_descriptions, Node_deleteAll_descriptions.
Qed.

End DescriptionServices.

Section DescriptionResults.

Import Go.models.

Lemma reachable_via_reachable allowed (d : Sqlite.db) :
  Store.reachable_via allowed d -> Store.reachable d.
Proof. induction 1; constructor; assumption. Qed.

Lemma existsb_find (A : Type) (p : A -> bool) (l : list A) :
  existsb p l = true -> exists x, find p l = Some x.
Proof.
  induction l as [|y l IH]; simpl; [discriminate|].
  destruct (p y); [eexists; reflexivity | exact IH].
Qed.

(** The description of a todo Create returns is the normalized input. *)
Lemma Go_CreateTodo_description req t1 t2 now (d d' : Sqlite.db) (todo : Todo) :
  Sqlite.wf d ->
  Go.services.CreateTodo req t1 t2 now d = (Ok todo, d') ->
  Description todo = Go.services.trimDescription (cr_Description req) /\
  option_map Go.repository.scan (Sqlite.select_by_id (ID todo) d') = Some todo.
Proof.
  intros Hw. unfold Go.services.CreateTodo.
  destruct (Go.services.validateCreateRequest req); [|discriminate].
  unfold Go.repository.Create.
  cbn [Go.models.Title Go.models.Description Go.models.Completed].
  destruct (Sqlite.insert_todo _ _ _ now d) as [[d1 i]|] eqn:E; [|discriminate].
  destruct (wf_insert _ _ _ _ Hw E) as [_ [_ Hsel]].
  unfold Go.repository.GetByID. rewrite Hsel. simpl.
  intros H; inversion H; subst; simpl. rewrite Hsel. split; reflexivity.
Qed.

Lemma Node_createTodo_description data now (d d' : Sqlite.db) (todo : Node.Todo) :
  Sqlite.wf d ->
  Node.TodoService.createTodo data now d = (Ok todo, d') ->
  Node.description todo = Node.TodoService.trimOrNull (Node.td_description data) /\
  Node.TodoRepository.findById (Node.id todo) d' = Some todo.
Proof.
  intros Hw. unfold Node.TodoService.createTodo.
  destruct (Node.TodoService.validateTodoData data); [|discriminate].
  destruct (Node.td_title data) as [t|]; [|discriminate].
  unfold Node.TodoRepository.create, Node.TodoService.sanitizeTodoData.
  cbn [Node.TodoService.s_title Node.TodoService.s_description
       Node.TodoService.s_completed].
  destruct (negb (Node.isValid _ _)); [discriminate|].
  destruct (Sqlite.insert_todo _ _ _ now d) as [[d1 i]|] eqn:E; [|discriminate].
  destruct (wf_insert _ _ _ _ Hw E) as [_ [_ Hsel]].
  unfold Node.TodoRepository.findById. rewrite Hsel. simpl.
  intros H; inversion H; subst; simpl. rewrite Hsel. split; reflexivity.
Qed.

(** The description of a todo Update returns, when one was supplied. *)
Lemma Go_UpdateTodo_description i req now (d d' : Sqlite.db) (todo : Todo)
    (s : Str.str) :
  Go.services.UpdateTodo i req now d = (Ok (Some todo), d') ->
  ur_Description req = Some s ->
  Description todo = Contract.normalized Str.IsSpace s /\
  option_map Go.repository.scan (Sqlite.select_by_id i d') = Some todo.
Proof.
  intros H Hs. unfold Go.services.UpdateTodo in H.
  destruct (i <=? 0); [discriminate|].
  destruct (Go.services.validateUpdateRequest req); [|discriminate].
  unfold Go.repository.Exists in H.
  destruct (Sqlite.exists_id i d) eqn:Ex; [|discriminate].
  destruct (existsb_find _ _ Ex) as [r Hr].
  destruct (@update_by_id_outcome (Go.services.buildUpdates req) i now d r Hr)
    as [Hn Ho].
  rewrite buildUpdates_description, Hs in Ho. simpl option_map in Ho.
  remember (Sqlite.touch now
              (Sqlite.apply_set (Go.services.buildUpdates req) now r)) as r' eqn:Er.
  clear Er. unfold Go.repository.Update in H.
  assert (Ha : (Sqlite.assigned (Go.services.buildUpdates req) =? 0) = false).
  { apply buildUpdates_assigned. intros ->. discriminate. }
  rewrite Ha in H.
  destruct (Sqlite.update_by_id (Go.services.buildUpdates req) i now d) as [d1 n].
  simpl in Hn. apply Z.eqb_neq in Hn. rewrite Hn in H.
  unfold Go.repository.GetByID in H. simpl fst in Ho.
  rewrite (Contract.uo_stored Ho) in H. simpl option_map in H.
  inversion H; subst. rewrite (Contract.uo_stored Ho).
  split; [|reflexivity].
  change (Description (Go.repository.scan r')) with (Sqlite.description r').
  rewrite (Contract.uo_description Ho). reflexivity.
Qed.

Lemma Node_updateTodo_description i data now (d d' : Sqlite.db) (todo : Node.Todo)
    (s : option Str.str) :
  Node.TodoService.updateTodo i data now d = (Ok todo, d') ->
  Node.ud_description data = Some s ->
  Node.description todo = Node.TodoService.trimOrNull s /\
  Node.TodoRepository.findById i d' = Some todo.
Proof.
  intros H Hs. unfold Node.TodoService.updateTodo in H.
  destruct (Node.TodoService.validateId i); [|discriminate].
  destruct (Node.TodoService.validateUpdateData data); [|discriminate].
  destruct (Sqlite.assigned (Node.TodoService.sanitizeUpdateData data) =? 0) eqn:A;
    [discriminate|].
  unfold Node.TodoRepository.update, Node.TodoRepository.findById in H.
  destruct (Sqlite.select_by_id i d) as [r|] eqn:Hr; [|discriminate].
  simpl option_map in H. cbv iota in H. rewrite A in H.
  destruct (@update_by_id_outcome (Node.TodoService.sanitizeUpdateData data)
              i now d r Hr) as [_ Ho].
  remember (Sqlite.touch now
              (Sqlite.apply_set (Node.TodoService.sanitizeUpdateData data) now r))
    as r' eqn:Er.
  clear Er.
  destruct (Sqlite.update_by_id _ i now d) as [d1 n].
  simpl fst in Ho. rewrite (Contract.uo_stored Ho) in H. simpl option_map in H.
  inversion H; subst. unfold Node.TodoRepository.findById.
  rewrite (Contract.uo_stored Ho).
  split; [|reflexivity].
  change (Node.description (Node.fromDb r')) with (Sqlite.description r').
  rewrite (Contract.uo_description Ho). simpl.
  rewrite Hs. reflexivity.
Qed.

End DescriptionResults.

(** C8 (persisted descriptions).  In every store reached through the Go
    service, and in every store reached through the Node service, each
    persisted description is absent or a non-empty string without white
    space at either end; this still holds after any further Create or
    Update.  The entity a successful Create or Update returns carries the
    supplied description trimmed, and no description at all when the
    supplied one is empty after trimming. *)
Theorem C8_descriptions_never_empty (dg dn : Sqlite.db) :
  Store.reachable_via Store.is_go dg ->
  Store.reachable_via Store.is_node dn ->
  (Contract.descriptions_ok Str.IsSpace dg /\
   (forall req t1 t2 now,
      Contract.descriptions_ok Str.IsSpace
        (snd (Go.services.CreateTodo req t1 t2 now dg)) /\
      forall todo d', Go.services.CreateTodo req t1 t2 now dg = (Ok todo, d') ->
        Contract.stored_description_ok Str.IsSpace (Go.models.Description todo) /\
        forall s, Go.models.cr_Description req = Some s ->
          Go.models.Description todo = Contract.normalized Str.IsSpace s /\
          (Str.TrimSpace s = [] -> Go.models.Description todo = None)) /\
   (forall i req now,
      Contract.descriptions_ok Str.IsSpace
        (snd (Go.services.UpdateTodo i req now dg)) /\
      forall todo d' s,
        Go.services.UpdateTodo i req now dg = (Ok (Some todo), d') ->
        Go.models.ur_Description req = Some s ->
        Go.models.Description todo = Contract.normalized Str.IsSpace s /\
        (Str.TrimSpace s = [] -> Go.models.Description todo = None))) /\
  (Contract.descriptions_ok Str.isWhiteSpaceOrLineTerminator dn /\
   (forall data now,
      Contract.descriptions_ok Str.isWhiteSpaceOrLineTerminator
        (snd (Node.TodoService.createTodo data now dn)) /\
      forall todo d', Node.TodoService.createTodo data now dn = (Ok todo, d') ->
        Contract.stored_description_ok Str.isWhiteSpaceOrLineTerminator
          (Node.description todo) /\
        forall s, Node.td_description data = Some s ->
          Node.description todo
            = Contract.normalized Str.isWhiteSpaceOrLineTerminator s /\
          (Str.trim s = [] -> Node.description todo = None)) /\
   (forall i data now,
      Contract.descriptions_ok Str.isWhiteSpaceOrLineTerminator
        (snd (Node.TodoService.updateTodo i data now dn)) /\
      forall todo d' s,
        Node.TodoService.updateTodo i data now dn = (Ok todo, d') ->
        Node.ud_description data = Some (Some s) ->
        Node.description todo
          = Contract.normalized Str.isWhiteSpaceOrLineTerminator s /\
        (Str.trim s = [] -> Node.description todo = None))).
Proof.
  intros Hg Hn.
  pose proof (Go_reachable_descriptions Hg) as Ig.
  pose proof (Node_reachable_descriptions Hn) as In_.
  pose proof (reachable_wf (reachable_via_reachable Hg)) as Wg.
  pose proof (reachable_wf (reachable_via_reachable Hn)) as Wn.
  split; (split; [assumption|]); split.
  - intros req t1 t2 now. split; [apply Go_CreateTodo_descriptions, Ig|].
    intros todo d' E.
    destruct (@Go_CreateTodo_description req t1 t2 now dg d' todo Wg E) as [Hd _].
    rewrite Hd. split; [apply trimDescription_ok|].
    intros s Hs. rewrite Hs. simpl. fold (Str.TrimSpace s).
    fold (Contract.normalized Str.IsSpace s).
    split; [reflexivity | apply normalized_blank].
  - intros i req now. split; [apply Go_UpdateTodo_descriptions, Ig|].
    intros todo d' s E Hs.
    destruct (@Go_UpdateTodo_description i req now dg d' todo s E Hs) as [Hd _].
    rewrite Hd. split; [reflexivity | apply normalized_blank].
  - intros data now. split; [apply Node_createTodo_descriptions, In_|].
    intros todo d' E.
    destruct (@Node_createTodo_description data now dn d' todo Wn E) as [Hd _].
    rewrite Hd. split; [apply trimOrNull_ok|].
    intros s Hs. rewrite Hs. simpl. fold (Str.trim s).
    fold (Contract.normalized Str.isWhiteSpaceOrLineTerminator s).
    split; [reflexivity | apply normalized_blank].
  - intros i data now. split; [apply Node_updateTodo_descriptions, In_|].
    intros todo d' s E Hs.
    destruct (@Node_updateTodo_description i data now dn d' todo (Some s) E Hs) as [Hd _].
    rewrite Hd. simpl. fold (Str.trim s).
    fold (Contract.normalized Str.isWhiteSpaceOrLineTerminator s).
    split; [reflexivity | apply normalized_blank].
Qed.

Lemma C8_descriptions_never_empty_witness :
  Store.reachable_via Store.is_go Sample.store1 /\
  Store.reachable_via Store.is_node Sample.node_store1 /\
  Contract.descriptions_ok Str.IsSpace Sample.store1 /\
  Contract.descriptions_ok Str.isWhiteSpaceOrLineTerminator Sample.node_store1.
Proof.
  assert (Hg : Store.reachable_via Store.is_go Sample.store1).
  { apply (@Store.via_exec Store.is_go
             (Store.GoCreate Sample.buy_milk Sample.noon Sample.noon Sample.noon)
             Sqlite.empty); [reflexivity | constructor]. }
  assert (Hn : Store.reachable_via Store.is_node Sample.node_store1).
  { apply (@Store.via_exec Store.is_node
             (Store.NodeCreate Sample.node_buy_milk Sample.noon)
             Sqlite.empty); [reflexivity | constructor]. }
  split; [exact Hg|]. split; [exact Hn|].
  destruct (C8_descriptions_never_empty Hg Hn) as [[H1 _] [H2 _]].
  split; [exact H1 | exact H2].
Defined.

(** ** Search *)

Section SearchFacts.

(** [patternCompare] decides the claim's reading of a pattern. *)
Lemma patternCompare_wild (pat s : Str.str) :
  Sqlite.patternCompare pat s = true <-> Contract.wild pat s.
Proof.
  split.
  - revert s; induction pat as [|p pat IH]; intros s H.
    + destruct s; [constructor | discriminate].
    + destruct (N.eq_dec p Sqlite.percent) as [-> | Hp].
      * apply like_percent in H. destruct H as [pre [suf [-> H]]].
        constructor. apply IH. exact H.
      * rewrite like_cons in H by exact Hp.
        destruct s as [|c s]; [discriminate|].
        apply andb_true_iff in H. destruct H as [Hc H].
        destruct (N.eq_dec p Sqlite.underscore) as [-> | Hu].
        -- constructor. apply IH. exact H.
        -- apply N.eqb_neq in Hu. rewrite Hu in Hc. simpl in Hc.
           apply N.eqb_neq in Hu. constructor; auto.
  - induction 1 as [| pat s1 s2 _ IH | pat c s _ IH | p c pat s Hp Hu Hc _ IH].
    + reflexivity.
    + apply like_percent. exists s1, s2. auto.
    + rewrite like_cons by discriminate. rewrite IH. reflexivity.
    + rewrite like_cons by exact Hp. rewrite Hc, IH, orb_true_r. reflexivity.
Qed.

Lemma wild_app (p1 p2 s1 s2 : Str.str) :
  Contract.wild p1 s1 -> Contract.wild p2 s2 ->
  Contract.wild (p1 ++ p2) (s1 ++ s2).
Proof.
  intros H1 H2. apply patternCompare_wild.
  apply like_app; apply patternCompare_wild; assumption.
Qed.

Lemma wild_split (p1 p2 s : Str.str) :
  Contract.wild (p1 ++ p2) s ->
  exists s1 s2, s = s1 ++ s2 /\ Contract.wild p1 s1 /\ Contract.wild p2 s2.
Proof.
  revert s; induction p1 as [|p p1 IH]; intros s H.
  - exists [], s. split; [reflexivity|]. split; [constructor | exact H].
  - simpl in H. inversion H as [| pat a b Hr | pat c t Hr | q c pat t Hp Hu Hc Hr];
      subst; destruct (IH _ Hr) as [t1 [t2 [-> [W1 W2]]]].
    + exists (a ++ t1), t2. rewrite app_assoc. split; [reflexivity|].
      split; [constructor; exact W1 | exact W2].
    + exists (c :: t1), t2. split; [reflexivity|].
      split; [constructor; exact W1 | exact W2].
    + exists (c :: t1), t2. split; [reflexivity|].
      split; [constructor; assumption | exact W2].
Qed.

Lemma wild_any (s : Str.str) : Contract.wild [Sqlite.percent] s.
Proof. apply patternCompare_wild, like_percent_any. Qed.

(** Every text matches itself used as a pattern, wildcards included. *)
Lemma wild_refl (s : Str.str) : Contract.wild s s.
Proof. apply patternCompare_wild, like_refl. Qed.

(** The pattern both repositories bind, [%term%], matches the texts that
    have a part the term matches. *)
Lemma wild_wrapped (term text : Str.str) :
  Contract.wild (Contract.search_pattern term) text <-> Contract.occurs term text.
Proof.
  unfold Contract.search_pattern, Contract.occurs. split.
  - intros H. apply patternCompare_wild in H.
    change ([Sqlite.percent] ++ term ++ [Sqlite.percent])
      with (Sqlite.percent :: (term ++ [Sqlite.percent])) in H.
    apply like_percent in H. destruct H as [a [suf [-> H]]].
    apply patternCompare_wild in H.
    destruct (wild_split _ _ H) as [s [y [-> [W1 _]]]].
    exists a, s, y. auto.
  - intros [x [t [y [-> W]]]]. simpl. constructor.
    apply wild_app; [exact W | apply wild_any].
Qed.

(** A term with a wildcard finds texts that do not contain it. *)
Lemma occurs_underscore (pre post x y : Str.str) (c : Str.rune) :
  Contract.occurs (pre ++ [Sqlite.underscore] ++ post)
                  (x ++ (pre ++ [c] ++ post) ++ y).
Proof.
  exists x, (pre ++ [c] ++ post), y. split; [reflexivity|].
  apply wild_app; [apply wild_refl|].
  apply wild_app; [|apply wild_refl].
  constructor. constructor.
Qed.

Lemma occurs_percent (pre mid post x y : Str.str) :
  Contract.occurs (pre ++ [Sqlite.percent] ++ post)
                  (x ++ (pre ++ mid ++ post) ++ y).
Proof.
  exists x, (pre ++ mid ++ post), y. split; [reflexivity|].
  apply wild_app; [apply wild_refl|].
  apply wild_app; [apply wild_any | apply wild_refl].
Qed.

(** C strings. *)
Lemma c_string_nul_free (s : Str.str) :
  Contract.nul_free s = true -> Sqlite.c_string s = s.
Proof.
  induction s as [|c s IH]; [reflexivity|]. simpl. intros H.
  apply andb_true_iff in H. destruct H as [Hc H].
  apply negb_true_iff in Hc. rewrite Hc, IH by exact H. reflexivity.
Qed.

Lemma c_string_app (a b : Str.str) :
  Contract.nul_free a = true ->
  Sqlite.c_string (a ++ b) = a ++ Sqlite.c_string b.
Proof.
  induction a as [|c a IH]; [reflexivity|]. simpl. intros H.
  apply andb_true_iff in H. destruct H as [Hc H].
  apply negb_true_iff in Hc. rewrite Hc, IH by exact H. reflexivity.
Qed.

Lemma c_string_pattern (term : Str.str) :
  Contract.nul_free term = true ->
  Sqlite.c_string (Contract.search_pattern term) = Contract.search_pattern term.
Proof.
  intros H. unfold Contract.search_pattern.
  change ([Sqlite.percent] ++ term ++ [Sqlite.percent])
    with (Sqlite.percent :: (term ++ [Sqlite.percent])).
  change (Sqlite.c_string (Sqlite.percent :: (term ++ [Sqlite.percent])))
    with (Sqlite.percent :: Sqlite.c_string (term ++ [Sqlite.percent])).
  rewrite c_string_app by exact H. reflexivity.
Qed.

Lemma c_string_idempotent (s : Str.str) :
  Sqlite.c_string (Sqlite.c_string s) = Sqlite.c_string s.
Proof.
  induction s as [|c s IH]; [reflexivity|]. simpl.
  destruct (c =? 0)%N eqn:E; [reflexivity|]. simpl. rewrite E, IH. reflexivity.
Qed.

(** LIKE, and the search of both repositories, in the claim's words. *)
Lemma like_wild (pat text : Str.str) :
  Sqlite.like pat text = true <->
  Contract.wild (Sqlite.c_string pat) (Sqlite.c_string text).
Proof. apply patternCompare_wild. Qed.

Lemma search_matches_found (term : Str.str) (r : Sqlite.row) :
  term <> [] ->
  (Contract.search_matches term r = true <-> Contract.found term r).
Proof.
  intros Hne. unfold Contract.search_matches, Contract.found.
  apply str_eqb_neq in Hne. rewrite Hne. cbn [orb].
  rewrite orb_true_iff, like_wild.
  destruct (Sqlite.description r) as [text|]; cbn [Sqlite.like_nullable].
  - rewrite like_wild. split; intros [H | H]; auto.
    + right. exists text. auto.
    + destruct H as [t [E H]]. injection E as <-. auto.
  - split; intros [H | H]; auto; [discriminate|].
    destruct H as [t [E _]]. discriminate.
Qed.

(** For a term without U+0000 the whole term is the pattern. *)
Lemma found_occurs (term : Str.str) (r : Sqlite.row) :
  Contract.nul_free term = true ->
  (Contract.found term r <->
   Contract.occurs term (Sqlite.c_string (Sqlite.title r)) \/
   exists text, Sqlite.description r = Some text /\
     Contract.occurs term (Sqlite.c_string text)).
Proof.
  intros H. unfold Contract.found. rewrite c_string_pattern by exact H.
  rewrite wild_wrapped. split; intros [H1 | [text [E H1]]]; auto;
    right; exists text; (split; [exact E|]); apply wild_wrapped; exact H1.
Qed.

(** Without wildcards the search is containment. *)
Lemma some_suffix_ext (f g : Str.str -> bool) (s : Str.str) :
  (forall x, f x = g x) -> Sqlite.some_suffix f s = Sqlite.some_suffix g s.
Proof.
  intros H. induction s as [|c s IH]; simpl; rewrite H; [reflexivity|].
  rewrite IH. reflexivity.
Qed.

Lemma some_suffix_contains (term s : Str.str) :
  Sqlite.some_suffix (Contract.prefix_nocase term) s
  = Contract.contains_nocase s term.
Proof.
  induction s as [|c s IH]; simpl; [reflexivity|]. rewrite IH. reflexivity.
Qed.

Lemma patternCompare_prefix (term s : Str.str) :
  Contract.wildcard_free term = true ->
  Sqlite.patternCompare (term ++ [Sqlite.percent]) s = Contract.prefix_nocase term s.
Proof.
  revert s; induction term as [|p term IH]; intros s Hw.
  - apply like_percent_any.
  - simpl in Hw. apply andb_true_iff in Hw. destruct Hw as [Hp Hw].
    apply negb_true_iff, orb_false_iff in Hp. destruct Hp as [Hp Hu].
    simpl. rewrite Hp. destruct s as [|c s]; [reflexivity|].
    rewrite Hu, IH by exact Hw. reflexivity.
Qed.

Lemma like_contains (term s : Str.str) :
  Contract.wildcard_free term = true -> Contract.nul_free term = true ->
  Sqlite.like (Contract.search_pattern term) s
  = Contract.contains_nocase (Sqlite.c_string s) term.
Proof.
  intros Hw Hn. unfold Sqlite.like. rewrite c_string_pattern by exact Hn.
  unfold Contract.search_pattern.
  change (Sqlite.patternCompare ([Sqlite.percent] ++ term ++ [Sqlite.percent])
            (Sqlite.c_string s))
    with (Sqlite.some_suffix (Sqlite.patternCompare (term ++ [Sqlite.percent]))
            (Sqlite.c_string s)).
  rewrite <- some_suffix_contains.
  apply some_suffix_ext. intros x. apply patternCompare_prefix. exact Hw.
Qed.

Lemma search_mentions (term : Str.str) (r : Sqlite.row) :
  Contract.wildcard_free term = true -> Contract.nul_free term = true ->
  term <> [] ->
  Contract.search_matches term r = Contract.mentions term r.
Proof.
  intros Hw Hn Hne. unfold Contract.search_matches, Contract.mentions.
  apply str_eqb_neq in Hne. rewrite Hne. cbn [orb].
  rewrite like_contains by assumption.
  destruct (Sqlite.description r) as [text|]; cbn [Sqlite.like_nullable];
    [|reflexivity].
  rewrite like_contains by assumption. reflexivity.
Qed.

End SearchFacts.

(** ** Effective pagination parameters *)

Section EffectiveFacts.

Import Go.models.

Lemma go_total_pages (total perPage : Z) :
  0 <= total -> total + 100 <= Go.max_int -> 1 <= perPage <= 100 ->
  Go.int_quo (Go.int_sub (Go.int_add total perPage) 1) perPage
  = Contract.ceil_div total perPage.
Proof.
  intros Ht Hb Hp.
  assert (Hmin : Go.min_int <= 0) by (unfold Go.min_int; lia).
  unfold Go.int_quo, Go.int_sub, Go.int_add.
  rewrite (wrap_small (z := total + perPage)) by lia.
  rewrite (wrap_small (z := total + perPage - 1)) by lia.
  rewrite ceil_div_quot by lia.
  apply wrap_small. unfold Contract.ceil_div. split.
  - apply Z.le_trans with 0; [lia|]. apply Z.div_pos; lia.
  - apply Z.le_trans with (total + perPage - 1); [|lia].
    apply Z.div_le_upper_bound; nia.
Qed.

Lemma GetTodos_same_defaults (p1 p2 : QueryParams) (d : Sqlite.db) :
  Go.services.setDefaults p1 = Go.services.setDefaults p2 ->
  Go.services.GetTodos p1 d = Go.services.GetTodos p2 d.
Proof. intros E. unfold Go.services.GetTodos. rewrite E. reflexivity. Qed.

Lemma effective_page_idempotent (n : Z) :
  Contract.effective_page (Contract.effective_page n) = Contract.effective_page n.
Proof. apply effective_page_valid, effective_page_range. Qed.

Lemma effective_perPage_idempotent (n : Z) :
  Contract.effective_perPage (Contract.effective_perPage n)
  = Contract.effective_perPage n.
Proof. apply effective_perPage_valid, effective_perPage_range. Qed.

(** A List call that succeeds had an acceptable sort field and order. *)
Lemma GetTodos_ok_accepted (params : QueryParams) (d : Sqlite.db)
    (resp : PaginatedResponse) :
  Go.services.GetTodos params d = Ok resp ->
  let q := Go.services.setDefaults params in
  existsb (Str.eqb (qp_Sort q)) Contract.sortFields = true /\
  existsb (Str.eqb (qp_Order q)) Contract.sortOrders = true.
Proof.
  intros H q.
  destruct (existsb (Str.eqb (qp_Sort q)) Contract.sortFields) eqn:Es.
  - split; [reflexivity|].
    destruct (existsb (Str.eqb (qp_Order q)) Contract.sortOrders) eqn:Eo;
      [reflexivity|].
    rewrite (@GetTodos_bad_order params d Es Eo) in H. discriminate.
  - rewrite (@GetTodos_bad_sort params d Es) in H. discriminate.
Qed.

(** ... and a search pattern the database took. *)
Lemma GetTodos_ok_where (params : QueryParams) (d : Sqlite.db)
    (resp : PaginatedResponse) :
  Go.services.GetTodos params d = Ok resp ->
  Sqlite.where_fails (Go.repository.whereClause params) d = false.
Proof.
  intros H. destruct (GetTodos_ok_accepted _ _ H) as [Hs Ho].
  destruct (Sqlite.where_fails (Go.repository.whereClause params) d) eqn:Hw;
    [|reflexivity].
  rewrite (@GetTodos_refused params d Hs Ho Hw) in H. discriminate.
Qed.

End EffectiveFacts.



(** ** Pages *)

Section PageFacts.

Variable A : Type.

Lemma firstn_plus (a b : nat) (l : list A) :
  firstn (a + b) l = firstn a l ++ firstn b (skipn a l).
Proof.
  revert l; induction a as [|a IH]; intros l; [reflexivity|].
  destruct l as [|x l]; simpl; [destruct b; reflexivity|].
  rewrite IH. reflexivity.
Qed.

(** Consecutive chunks of [n] elements make up a prefix. *)
Lemma chunks_prefix (n k : nat) (l : list A) :
  flat_map (fun j => firstn n (skipn (j * n) l)) (seq 0 k) = firstn (k * n) l.
Proof.
  induction k as [|k IH]; [reflexivity|].
  rewrite seq_S, flat_map_app, IH. simpl flat_map. rewrite app_nil_r.
  replace (S k * n)%nat with (k * n + n)%nat by lia.
  rewrite firstn_plus. reflexivity.
Qed.

Lemma page_slice_chunk (n : Z) (j : nat) (l : list A) :
  0 <= n ->
  Contract.page_slice (Z.of_nat (S j)) n l
  = firstn (Z.to_nat n) (skipn (j * Z.to_nat n) l).
Proof.
  intros Hn. unfold Contract.page_slice. do 2 f_equal. nia.
Qed.

(** The pages 1 .. k of a list, one after the other, are the list itself as
    soon as k pages have room for it. *)
Lemma pages_cover (n k : Z) (l : list A) :
  0 <= n -> Z.of_nat (List.length l) <= k * n ->
  flat_map (fun p => Contract.page_slice p n l) (Contract.page_numbers k) = l.
Proof.
  intros Hn Hk. unfold Contract.page_numbers.
  rewrite flat_map_concat_map, map_map, <- seq_shift, map_map,
    <- flat_map_concat_map.
  erewrite flat_map_ext; [|intros j; apply page_slice_chunk; exact Hn].
  rewrite chunks_prefix. apply firstn_all2. nia.
Qed.

End PageFacts.

Section ResultSetFacts.

Import Go.models.

Lemma page_numbers_range (k p : Z) :
  In p (Contract.page_numbers k) -> 1 <= p <= k.
Proof.
  unfold Contract.page_numbers. rewrite in_map_iff.
  intros [j [<- Hj]]. apply in_seq in Hj. lia.
Qed.

Lemma ceil_div_covers (total n : Z) :
  0 <= total -> 0 < n ->
  total <= Contract.ceil_div total n * n /\
  (Contract.ceil_div total n - 1) * n < total + n.
Proof.
  intros Ht Hn. unfold Contract.ceil_div.
  pose proof (Z.div_mod (total + n - 1) n ltac:(lia)) as E.
  pose proof (Z.mod_pos_bound (total + n - 1) n Hn) as B.
  nia.
Qed.

Lemma flat_map_map (A B C : Type) (f : B -> C) (g : A -> list B) (l : list A) :
  flat_map (fun a => map f (g a)) l = map f (flat_map g l).
Proof.
  induction l as [|a l IH]; simpl; [reflexivity|].
  rewrite map_app, IH. reflexivity.
Qed.

Lemma flat_map_ext_In (A B : Type) (f g : A -> list B) (l : list A) :
  (forall a, In a l -> f a = g a) -> flat_map f l = flat_map g l.
Proof.
  induction l as [|a l IH]; simpl; intros H; [reflexivity|].
  rewrite H by auto. rewrite IH by auto. reflexivity.
Qed.

Lemma selected_length search cf c dir (d : Sqlite.db) :
  List.length (Contract.selected search cf c dir d)
  = List.length (filter (Contract.filter_predicate search cf) (Sqlite.rows d)).
Proof. apply sort_length. Qed.

(** Go: the pages of a List query, put together, are the selected rows. *)
Lemma go_result_set_selected (params : QueryParams) (d : Sqlite.db) :
  1 <= qp_PerPage params <= 100 ->
  existsb (Str.eqb (qp_Sort params)) Contract.sortFields = true ->
  existsb (Str.eqb (qp_Order params)) Contract.sortOrders = true ->
  Str.len (qp_Search params) + 2 <= Sqlite.MAX_LIKE_PATTERN_LENGTH ->
  Store.size d + 100 <= Go.max_int ->
  exists c dir,
    Sqlite.column_of_name (qp_Sort params) = Some c /\
    Sqlite.direction_of_keyword (Str.ToUpper (qp_Order params)) = Some dir /\
    Contract.go_result_set params d =
    map Go.repository.scan
        (Contract.selected (qp_Search params) (qp_Completed params) c dir d).
Proof.
  intros Hpp Hs Ho Hse Hsize.
  destruct (@Go_GetTodos_paginates (Contract.go_page 1 params) d)
    as [c [dir [Hc [Hd E1]]]];
    cbn [Contract.go_page qp_Page qp_PerPage qp_Sort qp_Order qp_Search
         qp_Completed]; try assumption; try lia.
  { assert (200 <= Go.max_int) by (unfold Go.max_int; lia). lia. }
  cbn [Contract.go_page qp_Page qp_PerPage qp_Sort qp_Order qp_Search
       qp_Completed] in Hc, Hd, E1. cbv zeta in E1.
  exists c, dir. split; [exact Hc|]. split; [exact Hd|].
  set (rows := Contract.selected (qp_Search params) (qp_Completed params) c dir d) in *.
  set (total := Z.of_nat (List.length
         (filter (Contract.filter_predicate (qp_Search params) (qp_Completed params))
                 (Sqlite.rows d)))) in *.
  pose proof (total_bound (qp_Search params) (qp_Completed params) d) as Ht.
  fold total in Ht.
  destruct (@ceil_div_covers total (qp_PerPage params)) as [K1 K2]; try lia.
  (* the first page gives the page count *)
  unfold Contract.go_result_set. rewrite E1.
  cbn [Go.models.TotalPages].
  (* every page is a slice of the same rows *)
  rewrite flat_map_ext_In
    with (g := fun p => map Go.repository.scan
                          (Contract.page_slice p (qp_PerPage params) rows)).
  - rewrite flat_map_map. f_equal. apply pages_cover; [lia|].
    unfold rows. rewrite selected_length. fold total. exact K1.
  - intros p Hp. apply page_numbers_range in Hp.
    destruct (@Go_GetTodos_paginates (Contract.go_page p params) d)
      as [c2 [dir2 [Hc2 [Hd2 E2]]]];
      cbn [Contract.go_page qp_Page qp_PerPage qp_Sort qp_Order qp_Search
           qp_Completed]; try assumption; try lia.
    { nia. }
    cbn [Contract.go_page qp_Page qp_PerPage qp_Sort qp_Order qp_Search
         qp_Completed] in Hc2, Hd2, E2. cbv zeta in E2.
    assert (c2 = c) by congruence. assert (dir2 = dir) by congruence. subst.
    unfold Contract.go_data. rewrite E2. reflexivity.
Qed.

(** Node: likewise. *)
Lemma node_result_set_selected (page : option Z) (pp : Z) (s o : Str.str)
    (se : option Str.str) (cf : option bool) (d : Sqlite.db) :
  1 <= pp <= 100 ->
  existsb (Str.eqb s) Contract.sortFields = true ->
  existsb (Str.eqb o) Contract.sortOrders = true ->
  Str.length (Sqlite.or_else se []) <= 255 ->
  Store.size d + 100 <= Js.MAX_SAFE_INTEGER ->
  exists c dir,
    Sqlite.column_of_name s = Some c /\
    Sqlite.direction_of_keyword (Str.ToUpper o) = Some dir /\
    Contract.node_result_set
      (Node.mkOptions page (Some pp) (Some s) (Some o) se cf) d =
    map Node.fromDb (Contract.selected (Sqlite.or_else se []) cf c dir d).
Proof.
  intros Hpp Hs Ho Hse Hsize.
  destruct (@Node_getTodos_paginates 1 pp s o se cf d) as [c [dir [Hc [Hd E]]]];
    try assumption; try lia; [unfold Js.MAX_SAFE_INTEGER; lia|].
  exists c, dir. split; [exact Hc|]. split; [exact Hd|].
  cbv zeta in E.
  set (rows := Contract.selected (Sqlite.or_else se []) cf c dir d) in *.
  set (total := Z.of_nat (List.length
         (filter (Contract.filter_predicate (Sqlite.or_else se []) cf)
                 (Sqlite.rows d)))) in *.
  destruct (@ceil_div_covers total pp) as [K1 K2]; try lia.
  pose proof (total_bound (Sqlite.or_else se []) cf d) as Ht. fold total in Ht.
  unfold Contract.node_result_set, Contract.node_page.
  cbn [Node.per_page Node.sort Node.order Node.search Node.opt_completed].
  rewrite E.
  cbn [Node.pg_total_pages].
  rewrite flat_map_ext_In
    with (g := fun p => map Node.fromDb (Contract.page_slice p pp rows)).
  - rewrite flat_map_map. f_equal. apply pages_cover; [lia|].
    unfold rows. rewrite selected_length. fold total. exact K1.
  - intros p Hin. apply page_numbers_range in Hin.
    destruct (@Node_getTodos_paginates p pp s o se cf d) as [c2 [dir2 [Hc2 [Hd2 E2]]]];
      try assumption; try lia; [nia|].
    assert (c2 = c) by congruence. assert (dir2 = dir) by congruence. subst.
    unfold Contract.node_data, Contract.node_page. simpl. rewrite E2. reflexivity.
Qed.

End ResultSetFacts.

Section ResultSetAny.

Import Go.models.

Lemma setDefaults_go_page (p : Z) (params : QueryParams) :
  Go.services.setDefaults (Contract.go_page p (Go.services.setDefaults params))
  = Go.services.setDefaults (Contract.go_page p params).
Proof.
  unfold Go.services.setDefaults, Contract.go_page.
  cbn [qp_Page qp_PerPage qp_Sort qp_Order qp_Search qp_Completed].
  fold (Contract.effective_perPage (qp_PerPage params)).
  fold (Contract.effective_perPage (Contract.effective_perPage (qp_PerPage params))).
  rewrite effective_perPage_idempotent.
  destruct (Str.eqb (qp_Sort params) []) eqn:E1;
    destruct (Str.eqb (qp_Order params) []) eqn:E2;
    rewrite ?E1, ?E2;
    change (Str.eqb (Str.lit "created_at") []) with false;
    change (Str.eqb (Str.lit "desc") []) with false;
    reflexivity.
Qed.

Lemma go_result_set_defaults (params : QueryParams) (d : Sqlite.db) :
  Contract.go_result_set params d
  = Contract.go_result_set (Go.services.setDefaults params) d.
Proof.
  unfold Contract.go_result_set.
  rewrite (@GetTodos_same_defaults
             (Contract.go_page 1 (Go.services.setDefaults params))
             (Contract.go_page 1 params) d)
    by apply setDefaults_go_page.
  destruct (Go.services.GetTodos (Contract.go_page 1 params) d); [|reflexivity].
  apply flat_map_ext. intros p. unfold Contract.go_data.
  rewrite (@GetTodos_same_defaults
             (Contract.go_page p (Go.services.setDefaults params))
             (Contract.go_page p params) d)
    by apply setDefaults_go_page.
  reflexivity.
Qed.

(** Go: the result sets of a query under the three settings of the
    completed filter, once sort field and order are acceptable and the
    database takes the search pattern: each is the list of selected rows,
    sorted by the same column. *)
Lemma go_result_sets (params : QueryParams) (d : Sqlite.db) :
  let q := Go.services.setDefaults params in
  existsb (Str.eqb (qp_Sort q)) Contract.sortFields = true ->
  existsb (Str.eqb (qp_Order q)) Contract.sortOrders = true ->
  Str.len (qp_Search params) + 2 <= Sqlite.MAX_LIKE_PATTERN_LENGTH ->
  Store.size d + 100 <= Go.max_int ->
  exists c dir,
    Sqlite.column_of_name (qp_Sort q) = Some c /\
    Sqlite.direction_of_keyword (Str.ToUpper (qp_Order q)) = Some dir /\
    forall cf,
      Contract.go_result_set (Contract.go_completed cf params) d =
      map Go.repository.scan (Contract.selected (qp_Search params) cf c dir d).
Proof.
  intros q Es Eo Hse Hsize.
  destruct (sort_field_column _ Es) as [c Hc].
  destruct (sort_order_direction _ Eo) as [dir Hd].
  exists c, dir. split; [exact Hc|]. split; [exact Hd|]. intros cf.
  rewrite go_result_set_defaults.
  destruct (@go_result_set_selected
              (Go.services.setDefaults (Contract.go_completed cf params)) d)
    as [c' [dir' [Hc' [Hd' E]]]]; try assumption.
  - rewrite setDefaults_perPage. apply effective_perPage_range.
  - change (qp_Sort (Go.services.setDefaults (Contract.go_completed cf params)))
      with (qp_Sort q) in Hc'.
    change (qp_Order (Go.services.setDefaults (Contract.go_completed cf params)))
      with (qp_Order q) in Hd'.
    assert (c' = c) by congruence. assert (dir' = dir) by congruence. subst.
    exact E.
Qed.

End ResultSetAny.

Section NodeResultSetAny.

Lemma getTodos_same_validation (o1 o2 : Node.options) (d : Sqlite.db) :
  Node.TodoService.validateQueryOptions o1 = Node.TodoService.validateQueryOptions o2 ->
  Node.TodoService.getTodos o1 d = Node.TodoService.getTodos o2 d.
Proof. intros E. unfold Node.TodoService.getTodos. rewrite E. reflexivity. Qed.

Lemma node_sort_idempotent (s : Str.str) :
  Contract.node_sort (Contract.node_sort s) = Contract.node_sort s.
Proof.
  unfold Contract.node_sort at 1. rewrite node_sort_valid. reflexivity.
Qed.

Lemma node_order_idempotent (s : Str.str) :
  Contract.node_order (Contract.node_order s) = Contract.node_order s.
Proof.
  unfold Contract.node_order at 1. rewrite node_order_valid. reflexivity.
Qed.

(** [validateQueryOptions] in terms of the effective options. *)
Lemma validateQueryOptions_effective (o : Node.options) :
  Node.TodoService.validateQueryOptions o =
  if 255 <? Str.length (Sqlite.or_else (Node.search o) [])
  then Err (Node.ValidationError "Search query too long")
  else Ok (Contract.node_effective o).
Proof.
  unfold Node.TodoService.validateQueryOptions, Contract.node_effective.
  rewrite !node_includes_existsb.
  change Node.TodoService.allowedSortFields with Contract.sortFields.
  change [Str.lit "asc"; Str.lit "desc"] with Contract.sortOrders.
  fold (Contract.effective_page (Sqlite.or_else (Node.page o) 1)).
  fold (Contract.effective_perPage (Sqlite.or_else (Node.per_page o) 20)).
  assert (Es : (if negb (existsb
                     (Str.eqb (Sqlite.or_else (Node.sort o) (Str.lit "created_at")))
                     Contract.sortFields)
                then Str.lit "created_at"
                else Sqlite.or_else (Node.sort o) (Str.lit "created_at"))
               = Contract.node_sort (Sqlite.or_else (Node.sort o) (Str.lit "created_at"))).
  { unfold Contract.node_sort. destruct (existsb _ Contract.sortFields); reflexivity. }
  assert (Eo : (if negb (existsb
                     (Str.eqb (Sqlite.or_else (Node.order o) (Str.lit "desc")))
                     Contract.sortOrders)
                then Str.lit "desc"
                else Sqlite.or_else (Node.order o) (Str.lit "desc"))
               = Contract.node_order (Sqlite.or_else (Node.order o) (Str.lit "desc"))).
  { unfold Contract.node_order. destruct (existsb _ Contract.sortOrders); reflexivity. }
  rewrite Es, Eo.
  destruct (Node.search o) as [se|]; simpl Sqlite.or_else; [|reflexivity].
  destruct (Str.eqb se []) eqn:E; simpl negb; simpl andb; [|reflexivity].
  apply str_eqb_eq in E. subst se. reflexivity.
Qed.

Lemma node_effective_page (p : Z) (o : Node.options) :
  Contract.node_effective (Contract.node_page p (Contract.node_effective o))
  = Contract.node_effective (Contract.node_page p o).
Proof.
  unfold Contract.node_effective, Contract.node_page.
  cbn [Node.page Node.per_page Node.sort Node.order Node.search
       Node.opt_completed Sqlite.or_else].
  rewrite effective_perPage_idempotent, node_sort_idempotent, node_order_idempotent.
  reflexivity.
Qed.

Lemma node_effective_idempotent (o : Node.options) :
  Contract.node_effective (Contract.node_effective o) = Contract.node_effective o.
Proof.
  unfold Contract.node_effective.
  cbn [Node.page Node.per_page Node.sort Node.order Node.search
       Node.opt_completed Sqlite.or_else].
  rewrite effective_page_idempotent, effective_perPage_idempotent,
    node_sort_idempotent, node_order_idempotent.
  reflexivity.
Qed.

Lemma node_result_set_effective (o : Node.options) (d : Sqlite.db) :
  Contract.node_result_set o d
  = Contract.node_result_set (Contract.node_effective o) d.
Proof.
  unfold Contract.node_result_set.
  rewrite (@getTodos_same_validation
             (Contract.node_page 1 (Contract.node_effective o))
             (Contract.node_page 1 o) d)
    by (rewrite !validateQueryOptions_effective, node_effective_page; reflexivity).
  destruct (Node.TodoService.getTodos (Contract.node_page 1 o) d); [|reflexivity].
  apply flat_map_ext. intros p. unfold Contract.node_data.
  rewrite (@getTodos_same_validation
             (Contract.node_page p (Contract.node_effective o))
             (Contract.node_page p o) d); [reflexivity|].
  rewrite !validateQueryOptions_effective, node_effective_page. reflexivity.
Qed.

(** Node: a query whose search term is not too long has the selected rows
    as its result set, on a table whose offsets are safe integers. *)
Lemma node_result_set_short (o : Node.options) (d : Sqlite.db) :
  Str.length (Sqlite.or_else (Node.search o) []) <= 255 ->
  Store.size d + 100 <= Js.MAX_SAFE_INTEGER ->
  exists c dir,
    Sqlite.column_of_name
      (Contract.node_sort (Sqlite.or_else (Node.sort o) (Str.lit "created_at")))
      = Some c /\
    Sqlite.direction_of_keyword
      (Str.ToUpper
         (Contract.node_order (Sqlite.or_else (Node.order o) (Str.lit "desc"))))
      = Some dir /\
    Contract.node_result_set o d =
    map Node.fromDb
        (Contract.selected (Sqlite.or_else (Node.search o) [])
                           (Node.opt_completed o) c dir d).
Proof.
  intros Hshort Hsize.
  rewrite node_result_set_effective.
  apply (@node_result_set_selected
           (Some (Contract.effective_page (Sqlite.or_else (Node.page o) 1)))
           (Contract.effective_perPage (Sqlite.or_else (Node.per_page o) 20))
           (Contract.node_sort (Sqlite.or_else (Node.sort o) (Str.lit "created_at")))
           (Contract.node_order (Sqlite.or_else (Node.order o) (Str.lit "desc")))
           (Node.search o) (Node.opt_completed o) d).
  - apply effective_perPage_range.
  - apply node_sort_valid.
  - apply node_order_valid.
  - exact Hshort.
  - exact Hsize.
Qed.

Lemma getTodos_long_search (o : Node.options) (d : Sqlite.db) :
  255 < Str.length (Sqlite.or_else (Node.search o) []) ->
  Node.TodoService.getTodos o d = Err (Node.ValidationError "Search query too long").
Proof.
  intros H. unfold Node.TodoService.getTodos.
  rewrite validateQueryOptions_effective.
  apply Z.ltb_lt in H. rewrite H. reflexivity.
Qed.

(** Node: the result sets of a query under the three settings of the
    completed filter. *)
Lemma node_result_sets (o : Node.options) (d : Sqlite.db) :
  Str.length (Sqlite.or_else (Node.search o) []) <= 255 ->
  Store.size d + 100 <= Js.MAX_SAFE_INTEGER ->
  exists c dir,
    Sqlite.column_of_name
      (Contract.node_sort (Sqlite.or_else (Node.sort o) (Str.lit "created_at")))
      = Some c /\
    Sqlite.direction_of_keyword
      (Str.ToUpper
         (Contract.node_order (Sqlite.or_else (Node.order o) (Str.lit "desc"))))
      = Some dir /\
    forall cf,
      Contract.node_result_set (Contract.node_completed cf o) d =
      map Node.fromDb
          (Contract.selected (Sqlite.or_else (Node.search o) []) cf c dir d).
Proof.
  intros Hshort Hsize.
  destruct (@node_result_set_short o d Hshort Hsize) as [c [dir [Hc [Hd _]]]].
  exists c, dir. split; [exact Hc|]. split; [exact Hd|]. intros cf.
  destruct (@node_result_set_short (Contract.node_completed cf o) d Hshort Hsize)
    as [c' [dir' [Hc' [Hd' E]]]].
  cbn [Contract.node_completed Node.sort Node.order] in Hc', Hd'.
  assert (c' = c) by congruence. assert (dir' = dir) by congruence. subst.
  exact E.
Qed.

End NodeResultSetAny.

(** ** The completed filter *)

Section CompletedFilterFacts.

Import Go.models.

Lemma filter_filter_and (A : Type) (f g : A -> bool) (l : list A) :
  filter f (filter g l) = filter (fun x => g x && f x) l.
Proof.
  induction l as [|x l IH]; simpl; [reflexivity|].
  destruct (g x); simpl; [destruct (f x)|]; rewrite IH; reflexivity.
Qed.

Lemma filter_partition_perm (A : Type) (p : A -> bool) (l : list A) :
  Permutation (filter p l ++ filter (fun x => negb (p x)) l) l.
Proof.
  induction l as [|x l IH]; simpl; [constructor|].
  destruct (p x); simpl.
  - constructor. exact IH.
  - symmetry. apply Permutation_cons_app. symmetry. exact IH.
Qed.

(** Filtering on completed and sorting commute: the sort is stable. *)
Lemma selected_completed (search : Str.str) (b : bool) c dir (d : Sqlite.db) :
  Contract.selected search (Some b) c dir d =
  filter (fun r => Bool.eqb (Sqlite.completed r) b)
         (Contract.selected search None c dir d).
Proof.
  unfold Contract.selected.
  rewrite filter_sort
    by first [apply ord_leb_total | intros; eapply ord_leb_trans; eassumption].
  f_equal. rewrite filter_filter_and. apply filter_ext. intros r.
  unfold Contract.filter_predicate, Contract.completed_matches.
  rewrite andb_true_r. reflexivity.
Qed.

Lemma selected_In (search : Str.str) (cf : option bool) c dir (d : Sqlite.db)
    (r : Sqlite.row) :
  In r (Contract.selected search cf c dir d) <->
  In r (Sqlite.rows d) /\ Contract.search_matches search r = true /\
  Contract.completed_matches cf r = true.
Proof.
  unfold Contract.selected, Contract.filter_predicate.
  rewrite sort_In, filter_In, andb_true_iff. tauto.
Qed.

Lemma scan_filter (b : bool) (l : list Sqlite.row) :
  map Go.repository.scan (filter (fun r => Bool.eqb (Sqlite.completed r) b) l)
  = filter (fun t => Bool.eqb (Completed t) b) (map Go.repository.scan l).
Proof.
  induction l as [|r l IH]; simpl; [reflexivity|].
  destruct (Bool.eqb (Sqlite.completed r) b); simpl; rewrite IH; reflexivity.
Qed.

Lemma fromDb_filter (b : bool) (l : list Sqlite.row) :
  map Node.fromDb (filter (fun r => Bool.eqb (Sqlite.completed r) b) l)
  = filter (fun t => Bool.eqb (Node.completed t) b) (map Node.fromDb l).
Proof.
  induction l as [|r l IH]; simpl; [reflexivity|].
  destruct (Bool.eqb (Sqlite.completed r) b); simpl; rewrite IH; reflexivity.
Qed.

Lemma scan_injective (r1 r2 : Sqlite.row) :
  Go.repository.scan r1 = Go.repository.scan r2 -> r1 = r2.
Proof.
  destruct r1, r2. unfold Go.repository.scan. simpl. intros H.
  inversion H. reflexivity.
Qed.

Lemma fromDb_injective (r1 r2 : Sqlite.row) :
  Node.fromDb r1 = Node.fromDb r2 -> r1 = r2.
Proof.
  destruct r1, r2. unfold Node.fromDb. simpl. intros H.
  inversion H. reflexivity.
Qed.

Lemma In_map_injective (A B : Type) (f : A -> B) (l : list A) (x : A) :
  (forall a b, f a = f b -> a = b) -> (In (f x) (map f l) <-> In x l).
Proof.
  intros Hf. split; [|apply in_map].
  rewrite in_map_iff. intros [y [E Hy]]. apply Hf in E. subst. exact Hy.
Qed.

(** The unfiltered result set, split by the filter. *)
Lemma split_by_completed (A : Type) (done : A -> bool) (l : list A) :
  Permutation (filter (fun t => Bool.eqb (done t) true) l ++
               filter (fun t => Bool.eqb (done t) false) l) l.
Proof.
  rewrite (filter_ext (fun t => Bool.eqb (done t) true) done)
    by (intros t; destruct (done t); reflexivity).
  rewrite (filter_ext (fun t => Bool.eqb (done t) false) (fun t => negb (done t)))
    by (intros t; destruct (done t); reflexivity).
  apply filter_partition_perm.
Qed.

End CompletedFilterFacts.

Section PageContents.

Import Go.models.

Lemma limit_offset_In (A : Type) (lim off : Z) (l : list A) (x : A) :
  In x (Sqlite.limit_offset lim off l) -> In x l.
Proof.
  unfold Sqlite.limit_offset. intros H.
  assert (Hs : forall n, In x (skipn n l) -> In x l).
  { intros n Hn. rewrite <- (firstn_skipn n l). apply in_or_app. right. exact Hn. }
  destruct (lim <? 0); [eapply Hs; exact H|].
  apply (Hs (Z.to_nat off)).
  rewrite <- (firstn_skipn (Z.to_nat lim) (skipn (Z.to_nat off) l)).
  apply in_or_app. left. exact H.
Qed.

Lemma select_In cs c dir lim off (d : Sqlite.db) (r : Sqlite.row) :
  In r (Sqlite.select cs c dir lim off d) ->
  In r (Sqlite.rows d) /\ Sqlite.where_ cs r = true.
Proof.
  unfold Sqlite.select. intros H. apply limit_offset_In in H.
  apply sort_In in H. apply filter_In in H. exact H.
Qed.

(** Every todo on a page List returns is a stored todo the filter
    predicate accepts. *)
Lemma go_data_selected (params : QueryParams) (d : Sqlite.db) (t : Todo) :
  In t (Contract.go_data params d) ->
  exists r, t = Go.repository.scan r /\ In r (Sqlite.rows d) /\
    Contract.filter_predicate (qp_Search params) (qp_Completed params) r = true.
Proof.
  unfold Contract.go_data.
  destruct (Go.services.GetTodos params d) as [resp|e] eqn:E; [|intros []].
  destruct (GetTodos_ok_accepted _ _ E) as [Hs Ho].
  destruct (@GetTodos_accepted params d Hs Ho (GetTodos_ok_where _ _ E))
    as [c [dir [_ [_ E']]]].
  rewrite E' in E. assert (HR : Data resp = Data resp) by reflexivity.
  revert HR. injection E as <-. intros _. cbn [Data].
  rewrite in_map_iff. intros [r [<- Hr]].
  apply select_In in Hr. destruct Hr as [Hin Hw].
  rewrite where_go in Hw. exists r. auto.
Qed.

Lemma node_data_selected (o : Node.options) (d : Sqlite.db) (t : Node.Todo) :
  In t (Contract.node_data o d) ->
  exists r, t = Node.fromDb r /\ In r (Sqlite.rows d) /\
    Contract.filter_predicate (Sqlite.or_else (Node.search o) [])
                              (Node.opt_completed o) r = true.
Proof.
  unfold Contract.node_data, Node.TodoService.getTodos.
  rewrite validateQueryOptions_effective.
  destruct (255 <? Str.length (Sqlite.or_else (Node.search o) []));
    [intros []|].
  simpl bind.
  destruct (Node.TodoRepository.findAll (Contract.node_effective o) d)
    as [res|e] eqn:E; [|intros []].
  destruct (findAll_ok _ _ E) as [c [dir [_ [_ [_ [_ [_ ->]]]]]]].
  cbn [Node.pg_data]. rewrite in_map_iff. intros [r [<- Hr]].
  apply select_In in Hr. destruct Hr as [Hin Hw].
  rewrite where_node in Hw. exists r. auto.
Qed.

End PageContents.

(** C7 (completed filter).  The result set of a List query is what its
    pages 1 .. total_pages hold.  For a query that List answers (an allowed
    sort field and order, a search term the backend and the database
    accept) on a store whose size is a safe integer, in both services: List
    is answered whatever the completed filter; the result set under
    completedFilter = b holds exactly the stored todos that match the
    search and have completed == b, each once; it is, up to order, the
    unfiltered result set restricted to completed == b; the result sets for
    true and false together are, up to order, the unfiltered one; and every
    page of a filtered List holds only todos with completed == b. *)
Theorem C7_completed_filter (params : Go.models.QueryParams)
    (o : Node.options) (d : Sqlite.db) :
  existsb (Str.eqb (Go.models.qp_Sort (Go.services.setDefaults params)))
          Contract.sortFields = true ->
  existsb (Str.eqb (Go.models.qp_Order (Go.services.setDefaults params)))
          Contract.sortOrders = true ->
  Str.len (Go.models.qp_Search params) + 2 <= Sqlite.MAX_LIKE_PATTERN_LENGTH ->
  Str.length (Sqlite.or_else (Node.search o) []) <= 255 ->
  Store.size d + 100 <= Js.MAX_SAFE_INTEGER ->
  let go cf := Contract.go_result_set (Contract.go_completed cf params) d in
  let node cf := Contract.node_result_set (Contract.node_completed cf o) d in
  let stored search cf :=
    filter (Contract.filter_predicate search cf) (Sqlite.rows d) in
  ((forall cf p,
      is_ok (Go.services.GetTodos
               (Contract.go_page p (Contract.go_completed cf params)) d) = true) /\
   (forall b, Permutation (go (Some b))
                (map Go.repository.scan
                     (stored (Go.models.qp_Search params) (Some b)))) /\
   (forall b r,
      In (Go.repository.scan r) (go (Some b)) <->
      In r (Sqlite.rows d) /\
      Contract.search_matches (Go.models.qp_Search params) r = true /\
      Sqlite.completed r = b) /\
   (forall b, Permutation (go (Some b))
                (filter (fun t => Bool.eqb (Go.models.Completed t) b) (go None))) /\
   Permutation (go (Some true) ++ go (Some false)) (go None) /\
   (forall b p t,
      In t (Contract.go_data (Contract.go_page p (Contract.go_completed (Some b) params)) d) ->
      Go.models.Completed t = b)) /\
  ((forall cf p,
      (p - 1) * 100 <= Js.MAX_SAFE_INTEGER ->
      is_ok (Node.TodoService.getTodos
               (Contract.node_page p (Contract.node_completed cf o)) d) = true) /\
   (forall b, Permutation (node (Some b))
                (map Node.fromDb
                     (stored (Sqlite.or_else (Node.search o) []) (Some b)))) /\
   (forall b r,
      In (Node.fromDb r) (node (Some b)) <->
      In r (Sqlite.rows d) /\
      Contract.search_matches (Sqlite.or_else (Node.search o) []) r = true /\
      Sqlite.completed r = b) /\
   (forall b, Permutation (node (Some b))
                (filter (fun t => Bool.eqb (Node.completed t) b) (node None))) /\
   Permutation (node (Some true) ++ node (Some false)) (node None) /\
   (forall b p t,
      In t (Contract.node_data (Contract.node_page p (Contract.node_completed (Some b) o)) d) ->
      Node.completed t = b)).
Proof.
  intros Hs Ho Hlen Hshort Hsize go node stored.
  assert (Hsize' : Store.size d + 100 <= Go.max_int)
    by (unfold Js.MAX_SAFE_INTEGER, Go.max_int in *; lia).
  split.
  - destruct (@go_result_sets params d Hs Ho Hlen Hsize') as [c [dir [Hc [Hd E]]]].
    assert (Hfilter : forall b, go (Some b)
              = filter (fun t => Bool.eqb (Go.models.Completed t) b) (go None)).
    { intros b. unfold go. rewrite !E, selected_completed, scan_filter.
      reflexivity. }
    split; [|split; [|split; [|split; [|split]]]].
    + intros cf p.
      destruct (@GetTodos_accepted
                  (Contract.go_page p (Contract.go_completed cf params)) d)
        as [c' [dir' [_ [_ EG]]]].
      * rewrite <- Hs. apply f_equal2; [|reflexivity]. apply f_equal.
        unfold Go.services.setDefaults, Contract.go_page, Contract.go_completed.
        reflexivity.
      * rewrite <- Ho. apply f_equal2; [|reflexivity]. apply f_equal.
        unfold Go.services.setDefaults, Contract.go_page, Contract.go_completed.
        reflexivity.
      * apply Go_where_within. exact Hlen.
      * rewrite EG. reflexivity.
    + intros b. unfold go, stored. rewrite E. apply Permutation_map.
      unfold Contract.selected. apply sort_perm.
    + intros b r. unfold go. rewrite E.
      rewrite (In_map_injective _ _ _ scan_injective), selected_In.
      unfold Contract.completed_matches. rewrite Bool.eqb_true_iff. tauto.
    + intros b. rewrite Hfilter. reflexivity.
    + rewrite !Hfilter. apply split_by_completed.
    + intros b p t Ht. apply go_data_selected in Ht.
      destruct Ht as [r [-> [_ Hp]]].
      unfold Contract.filter_predicate in Hp. apply andb_true_iff in Hp.
      destruct Hp as [_ Hc']. simpl in Hc'. apply Bool.eqb_prop in Hc'. exact Hc'.
  - destruct (@node_result_sets o d Hshort Hsize) as [c [dir [Hc [Hd E]]]].
    assert (Hfilter : forall b, node (Some b)
              = filter (fun t => Bool.eqb (Node.completed t) b) (node None)).
    { intros b. unfold node. rewrite !E, selected_completed, fromDb_filter.
      reflexivity. }
    split; [|split; [|split; [|split; [|split]]]].
    + intros cf p Hp.
      unfold Node.TodoService.getTodos. rewrite validateQueryOptions_effective.
      cbn [Contract.node_page Contract.node_completed Node.search].
      destruct (Z.ltb_spec 255 (Str.length (Sqlite.or_else (Node.search o) [])));
        [lia|].
      simpl bind.
      pose proof (effective_perPage_range (Sqlite.or_else (Node.per_page o) 20))
        as Rpp.
      pose proof (effective_page_range p) as Rp.
      assert (Hp' : (Contract.effective_page p - 1)
                    * Contract.effective_perPage (Sqlite.or_else (Node.per_page o) 20)
                    <= Js.MAX_SAFE_INTEGER).
      { unfold Contract.effective_page in *.
        destruct (Z.ltb_spec p 1); unfold Js.MAX_SAFE_INTEGER in *; nia. }
      rewrite (@findAll_answered _ d c dir); [reflexivity | exact Hc | exact Hd | | |].
      * apply Node_where_within. exact Hshort.
      * unfold Contract.node_effective, Contract.node_page, Contract.node_completed.
        cbn [Node.per_page Node.page Sqlite.or_else].
        unfold Sqlite.must_be_int. apply andb_true_iff.
        split; apply Z.ltb_lt; lia.
      * unfold Contract.node_effective, Contract.node_page, Contract.node_completed.
        cbn [Node.per_page Node.page Sqlite.or_else].
        apply offset_safe; [exact Rp | lia | exact Hp'].
    + intros b. unfold node, stored. rewrite E. apply Permutation_map.
      unfold Contract.selected. apply sort_perm.
    + intros b r. unfold node. rewrite E.
      rewrite (In_map_injective _ _ _ fromDb_injective), selected_In.
      unfold Contract.completed_matches. rewrite Bool.eqb_true_iff. tauto.
    + intros b. rewrite Hfilter. reflexivity.
    + rewrite !Hfilter. apply split_by_completed.
    + intros b p t Ht. apply node_data_selected in Ht.
      destruct Ht as [r [-> [_ Hp]]].
      unfold Contract.filter_predicate in Hp. apply andb_true_iff in Hp.
      destruct Hp as [_ Hc']. simpl in Hc'. apply Bool.eqb_prop in Hc'. exact Hc'.
Qed.

Lemma C7_completed_filter_witness :
  let go cf :=
    Contract.go_result_set
      (Contract.go_completed cf Go.models.DefaultQueryParams) Sample.store2 in
  go (Some true) =
    [Go.models.mkTodo 2 (Str.lit "Walk the dog") (Some (Str.lit "before noon")) true
       (Sample.noon + 1) (Sample.noon + 2)] /\
  Permutation (go (Some true))
    (map Go.repository.scan
       (filter (Contract.filter_predicate [] (Some true)) (Sqlite.rows Sample.store2))) /\
  Permutation (go (Some true) ++ go (Some false)) (go None).
Proof.
  destruct (@C7_completed_filter Go.models.DefaultQueryParams
              (Node.mkOptions None None None None None None) Sample.store2)
    as [[_ [G1 [_ [_ [G2 _]]]]] _].
  - reflexivity.
  - reflexivity.
  - vm_compute. discriminate.
  - vm_compute. discriminate.
  - vm_compute. discriminate.
  - split; [vm_compute; reflexivity|]. split; [apply (G1 true) | exact G2].
Defined.

(** C9 (search wildcards).  Both repositories bind the search term,
    unescaped, between two [%] as the pattern of a LIKE on title and on
    description.  So for every non-empty term that the backend answers, the
    todos List counts and lists are exactly the stored todos (with the
    completed value asked for) that the term finds, where finding is what
    the claim says: in the term [%] stands for any sequence of characters
    and [_] for any one character, every other character for itself in
    either case of an ASCII letter, and some part of the title or of the
    description matches the term read this way (LIKE reads pattern and
    text up to their first U+0000).  A todo that no part of which matches
    is not listed; a todo is found without containing the term when a
    character stands where the term has [_], or a text where it has [%]. *)
Theorem C9_search_wildcards (term s o : Str.str) (pp : Z) (cf : option bool)
    (d : Sqlite.db) :
  term <> [] ->
  existsb (Str.eqb s) Contract.sortFields = true ->
  existsb (Str.eqb o) Contract.sortOrders = true ->
  1 <= pp <= 100 ->
  Store.size d + 100 <= Js.MAX_SAFE_INTEGER ->
  let params := Go.models.mkQueryParams 1 pp s o term cf in
  let opts := Node.mkOptions (Some 1) (Some pp) (Some s) (Some o) (Some term) cf in
  let matching := filter (Contract.filter_predicate term cf) (Sqlite.rows d) in
  let listed r :=
    In r (Sqlite.rows d) /\ Contract.found term r /\
    Contract.completed_matches cf r = true in
  (Str.len term + 2 <= Sqlite.MAX_LIKE_PATTERN_LENGTH ->
   (exists resp,
      Go.services.GetTodos params d = Ok resp /\
      Go.models.Total resp = Z.of_nat (List.length matching)) /\
   (forall r, In (Go.repository.scan r) (Contract.go_result_set params d)
              <-> listed r)) /\
  (Str.length term <= 255 ->
   (exists res,
      Node.TodoService.getTodos opts d = Ok res /\
      Node.pg_total res = Z.of_nat (List.length matching)) /\
   (forall r, In (Node.fromDb r) (Contract.node_result_set opts d)
              <-> listed r)) /\
  (forall r, In r matching <-> listed r) /\
  (Contract.nul_free term = true ->
   forall r, Contract.found term r <->
     Contract.occurs term (Sqlite.c_string (Sqlite.title r)) \/
     exists text, Sqlite.description r = Some text /\
       Contract.occurs term (Sqlite.c_string text)) /\
  (forall pre post x y c,
     Contract.occurs (pre ++ [Sqlite.underscore] ++ post)
                     (x ++ (pre ++ [c] ++ post) ++ y)) /\
  (forall pre mid post x y,
     Contract.occurs (pre ++ [Sqlite.percent] ++ post)
                     (x ++ (pre ++ mid ++ post) ++ y)).
Proof.
  intros Hne Hs Ho Hpp Hsize params opts matching listed.
  assert (Hsize' : Store.size d + 100 <= Go.max_int)
    by (unfold Js.MAX_SAFE_INTEGER, Go.max_int in *; lia).
  assert (Hlisted : forall r, In r matching <-> listed r).
  { intros r. unfold matching, listed, Contract.filter_predicate.
    rewrite filter_In, andb_true_iff, search_matches_found by exact Hne. tauto. }
  split; [|split; [|split; [exact Hlisted | split; [|split]]]].
  - intros Hlen. split.
    + destruct (@Go_GetTodos_paginates params d) as [c [dir [_ [_ E]]]];
        cbn [params Go.models.qp_Page Go.models.qp_PerPage Go.models.qp_Sort
             Go.models.qp_Order Go.models.qp_Search Go.models.qp_Completed];
        try assumption; try lia; [unfold Go.max_int; lia|].
      eexists. split; [exact E | reflexivity].
    + destruct (@go_result_set_selected params d) as [c [dir [_ [_ E]]]];
        cbn [params Go.models.qp_Page Go.models.qp_PerPage Go.models.qp_Sort
             Go.models.qp_Order Go.models.qp_Search Go.models.qp_Completed];
        try assumption.
      intros r. rewrite E.
      rewrite (In_map_injective _ _ _ scan_injective).
      cbn [params Go.models.qp_Search Go.models.qp_Completed].
      unfold Contract.selected. rewrite sort_In. apply Hlisted.
  - intros Hlen. split.
    + destruct (@Node_getTodos_paginates 1 pp s o (Some term) cf d)
        as [c [dir [_ [_ E]]]]; try assumption; try lia;
        [unfold Js.MAX_SAFE_INTEGER; lia|].
      eexists. split; [exact E | reflexivity].
    + destruct (@node_result_set_selected (Some 1) pp s o (Some term) cf d)
        as [c [dir [_ [_ E]]]]; try assumption.
      intros r. unfold opts. rewrite E.
      rewrite (In_map_injective _ _ _ fromDb_injective).
      cbn [Sqlite.or_else].
      unfold Contract.selected. rewrite sort_In. apply Hlisted.
  - intros Hn r. apply found_occurs. exact Hn.
  - intros. apply occurs_underscore.
  - intros. apply occurs_percent.
Qed.

Lemma C9_search_wildcards_witness :
  Str.contains (Str.lit "Buy milk") Sample.b_y = false /\
  In Sample.buy_milk_todo
     (Contract.go_result_set
        (Go.models.mkQueryParams 1 20 (Str.lit "id") (Str.lit "asc") Sample.b_y None)
        Sample.store1) /\
  Contract.found Sample.b_y Sample.buy_milk_row.
Proof.
  destruct (@C9_search_wildcards Sample.b_y (Str.lit "id") (Str.lit "asc") 20 None
              Sample.store1)
    as [G _].
  - discriminate.
  - reflexivity.
  - reflexivity.
  - lia.
  - vm_compute. discriminate.
  - destruct G as [_ G]; [vm_compute; discriminate|].
    split; [reflexivity|].
    assert (L : In Sample.buy_milk_todo
                  (Contract.go_result_set
                     (Go.models.mkQueryParams 1 20 (Str.lit "id") (Str.lit "asc")
                                              Sample.b_y None) Sample.store1)).
    { vm_compute. left. reflexivity. }
    split; [exact L|].
    apply (G Sample.buy_milk_row) in L. destruct L as [_ [F _]]. exact F.
Defined.


(** The total of a Go List call depends on the search term and the
    completed filter only, not on page or perPage. *)
Lemma Go_total_independent_of_page (p1 p2 : Go.models.QueryParams)
    (d : Sqlite.db) (r1 r2 : Go.models.PaginatedResponse) :
  Go.models.qp_Search p1 = Go.models.qp_Search p2 ->
  Go.models.qp_Completed p1 = Go.models.qp_Completed p2 ->
  Go.services.GetTodos p1 d = Ok r1 ->
  Go.services.GetTodos p2 d = Ok r2 ->
  Go.models.Total r1 = Go.models.Total r2.
Proof.
  intros Hs Hc E1 E2.
  destruct (GetTodos_ok_accepted _ _ E1) as [S1 O1].
  destruct (GetTodos_ok_accepted _ _ E2) as [S2 O2].
  destruct (@GetTodos_accepted p1 d S1 O1 (GetTodos_ok_where _ _ E1)) as [c1 [d1 [_ [_ A1]]]].
  destruct (@GetTodos_accepted p2 d S2 O2 (GetTodos_ok_where _ _ E2)) as [c2 [d2 [_ [_ A2]]]].
  rewrite A1 in E1. rewrite A2 in E2.
  injection E1 as <-. injection E2 as <-. cbn [Go.models.Total].
  rewrite !count_go, Hs, Hc. reflexivity.
Qed.

(** * Further properties of the two backends *)

(** ** Requests that fail *)

Section MutationFacts.

Lemma insert_todo_finds t desc c now (d d' : Sqlite.db) (i : Z) :
  Sqlite.insert_todo t desc c now d = Some (d', i) ->
  i = Sqlite.seq d + 1 /\ Sqlite.seq d' = i /\
  exists r, Sqlite.select_by_id i d' = Some r /\ Sqlite.id r = i.
Proof.
  unfold Sqlite.insert_todo.
  destruct (Sqlite.max_rowid <=? Sqlite.seq d); [discriminate|].
  intros E. injection E as <- <-.
  split; [reflexivity|]. split; [reflexivity|].
  unfold Sqlite.select_by_id. simpl. rewrite find_append.
  destruct (find _ (Sqlite.rows d)) as [r|] eqn:F.
  - exists r. split; [reflexivity|].
    apply find_some in F. destruct F as [_ F]. apply Z.eqb_eq in F. exact F.
  - simpl. rewrite Z.eqb_refl. eexists; split; reflexivity.
Qed.

Lemma existsb_filter (A : Type) (p : A -> bool) (l : list A) :
  existsb p l = true -> Z.of_nat (List.length (filter p l)) <> 0.
Proof.
  intros H. destruct (existsb_find _ _ H) as [x Hx].
  eapply find_some_filter. exact Hx.
Qed.

(** The row an UPDATE has changed is still found under its id. *)
Lemma update_by_id_finds a i now (d : Sqlite.db) (r : Sqlite.row) :
  Sqlite.select_by_id i d = Some r ->
  Sqlite.select_by_id i (fst (Sqlite.update_by_id a i now d))
  = Some (Sqlite.touch now (Sqlite.apply_set a now r)).
Proof.
  intros Hr. unfold Sqlite.select_by_id in *. simpl.
  rewrite find_updated by reflexivity. rewrite Hr. reflexivity.
Qed.

Lemma Go_CreateTodo_failed req t1 t2 now (d : Sqlite.db) :
  is_ok (fst (Go.services.CreateTodo req t1 t2 now d)) = false ->
  snd (Go.services.CreateTodo req t1 t2 now d) = d.
Proof.
  unfold Go.services.CreateTodo.
  destruct (Go.services.validateCreateRequest req); [|reflexivity].
  unfold Go.repository.Create.
  destruct (Sqlite.insert_todo _ _ _ now d) as [[d' i]|] eqn:E; [|reflexivity].
  destruct (insert_todo_finds _ _ _ _ _ E) as [_ [_ [r [Hr _]]]].
  unfold Go.repository.GetByID. rewrite Hr. simpl. discriminate.
Qed.

Lemma Go_UpdateTodo_failed i req now (d : Sqlite.db) :
  match fst (Go.services.UpdateTodo i req now d) with
  | Ok (Some _) => false
  | _ => true
  end = true ->
  snd (Go.services.UpdateTodo i req now d) = d.
Proof.
  unfold Go.services.UpdateTodo.
  destruct (i <=? 0); [reflexivity|].
  destruct (Go.services.validateUpdateRequest req); [|reflexivity].
  unfold Go.repository.Exists.
  destruct (Sqlite.exists_id i d) eqn:Ex; [|reflexivity].
  unfold Go.repository.Update.
  destruct (Sqlite.assigned (Go.services.buildUpdates req) =? 0).
  - unfold Go.repository.GetByID. reflexivity.
  - destruct (existsb_find _ _ Ex) as [r Hr].
    pose proof (@update_by_id_finds (Go.services.buildUpdates req) i now d r Hr) as Hf.
    pose proof (existsb_filter _ _ Ex) as Hn.
    destruct (Sqlite.update_by_id (Go.services.buildUpdates req) i now d)
      as [d' n] eqn:E.
    simpl in Hn. unfold Sqlite.update_by_id in E. injection E as <- <-.
    apply Z.eqb_neq in Hn. rewrite Hn.
    unfold Go.repository.GetByID. simpl fst in Hf. rewrite Hf. simpl. discriminate.
Qed.

Lemma Go_DeleteTodo_failed i (d : Sqlite.db) :
  is_ok (fst (Go.services.DeleteTodo i d)) = false ->
  snd (Go.services.DeleteTodo i d) = d.
Proof.
  unfold Go.services.DeleteTodo.
  destruct (i <=? 0); [reflexivity|].
  unfold Go.repository.Exists.
  destruct (Sqlite.exists_id i d) eqn:Ex; [|reflexivity].
  unfold Go.repository.Delete, Sqlite.delete_by_id.
  pose proof (existsb_filter _ _ Ex) as Hn. apply Z.eqb_neq in Hn.
  rewrite Hn. simpl. discriminate.
Qed.

Lemma Go_DeleteAllTodos_failed (d : Sqlite.db) :
  is_ok (fst (Go.services.DeleteAllTodos d)) = false ->
  snd (Go.services.DeleteAllTodos d) = d.
Proof.
  unfold Go.services.DeleteAllTodos, Go.repository.DeleteAll, Sqlite.delete_all.
  destruct d as [rs sq]. destruct rs as [|r rs]; simpl; [reflexivity|].
  destruct (Z.pos (Pos.of_succ_nat (List.length rs)) =? 0) eqn:E;
    [discriminate E | simpl; discriminate].
Qed.

Lemma Node_create_failed t desc c now (d : Sqlite.db) :
  is_ok (fst (Node.TodoRepository.create t desc c now d)) = false ->
  snd (Node.TodoRepository.create t desc c now d) = d.
Proof.
  unfold Node.TodoRepository.create.
  destruct (negb (Node.isValid t desc)); [reflexivity|].
  destruct (Sqlite.insert_todo t desc c now d) as [[d' i]|] eqn:E; [|reflexivity].
  destruct (insert_todo_finds _ _ _ _ _ E) as [_ [_ [r [Hr _]]]].
  unfold Node.TodoRepository.findById. rewrite Hr. simpl. discriminate.
Qed.

Lemma Node_update_failed i a now (d : Sqlite.db) :
  is_ok (fst (Node.TodoRepository.update i a now d)) = false ->
  snd (Node.TodoRepository.update i a now d) = d.
Proof.
  unfold Node.TodoRepository.update, Node.TodoRepository.findById.
  destruct (Sqlite.select_by_id i d) as [r|] eqn:Hr; [|reflexivity]. simpl option_map.
  cbv iota. destruct (Sqlite.assigned a =? 0); [reflexivity|].
  pose proof (@update_by_id_finds a i now d r Hr) as Hf.
  destruct (Sqlite.update_by_id a i now d) as [d' n]. simpl fst in Hf.
  rewrite Hf. simpl. discriminate.
Qed.

Lemma Node_delete_failed i (d : Sqlite.db) :
  is_ok (fst (Node.TodoRepository.delete i d)) = false ->
  snd (Node.TodoRepository.delete i d) = d.
Proof.
  unfold Node.TodoRepository.delete, Node.TodoRepository.findById.
  destruct (Sqlite.select_by_id i d) as [r|] eqn:Hr; [|reflexivity]. simpl option_map.
  cbv iota. unfold Sqlite.delete_by_id.
  pose proof (find_some_filter _ _ Hr) as Hn. apply Z.eqb_neq in Hn.
  unfold Sqlite.select_by_id in Hr. rewrite Hn. simpl. discriminate.
Qed.

End MutationFacts.

(** X1 (no partial effects).  A request to either backend that ends in an
    error, or that finds no todo under the id it names, leaves the store
    exactly as it was: Create, Update, Delete and DeleteAll either take
    effect and succeed, or fail and change nothing. *)
Theorem X1_failed_request_keeps_store (r : Store.request) (d : Sqlite.db) :
  Contract.failed r d = true -> Store.exec r d = d.
Proof.
  destruct r as [req t1 t2 now | i req now | i | | data now | i data now | i |];
    unfold Contract.failed, Store.exec; intros H.
  - apply Go_CreateTodo_failed. apply negb_true_iff. exact H.
  - apply Go_UpdateTodo_failed. exact H.
  - apply Go_DeleteTodo_failed. apply negb_true_iff. exact H.
  - apply Go_DeleteAllTodos_failed. apply negb_true_iff. exact H.
  - apply negb_true_iff in H. revert H. unfold Node.TodoService.createTodo.
    destruct (Node.TodoService.validateTodoData data); [|reflexivity].
    destruct (Node.td_title data); [|reflexivity].
    apply Node_create_failed.
  - apply negb_true_iff in H. revert H. unfold Node.TodoService.updateTodo.
    destruct (Node.TodoService.validateId i); [|reflexivity].
    destruct (Node.TodoService.validateUpdateData data); [|reflexivity].
    destruct (Sqlite.assigned _ =? 0); [reflexivity|].
    apply Node_update_failed.
  - apply negb_true_iff in H. revert H. unfold Node.TodoService.deleteTodo.
    destruct (Node.TodoService.validateId i); [|reflexivity].
    apply Node_delete_failed.
  - exfalso. revert H. unfold Node.TodoRepository.deleteAll.
    destruct (Sqlite.count [] d =? 0); [discriminate|].
    destruct (Sqlite.delete_all d); discriminate.
Qed.

Lemma X1_failed_request_keeps_store_witness :
  Store.exec (Store.GoDelete 7) Sample.store1 = Sample.store1.
Proof.
  apply (@X1_failed_request_keeps_store (Store.GoDelete 7) Sample.store1).
  vm_compute. reflexivity.
Defined.

(** ** Delete *)

Section DeleteFacts.

Variable i : Z.

Lemma find_deleted (l : list Sqlite.row) :
  find (fun r => Sqlite.id r =? i)
       (filter (fun r => negb (Sqlite.id r =? i)) l) = None.
Proof.
  induction l as [|r l IH]; simpl; [reflexivity|].
  destruct (Sqlite.id r =? i) eqn:E; simpl; [exact IH|].
  rewrite E. exact IH.
Qed.

Lemma find_not_deleted (j : Z) (l : list Sqlite.row) :
  j <> i ->
  find (fun r => Sqlite.id r =? j)
       (filter (fun r => negb (Sqlite.id r =? i)) l)
  = find (fun r => Sqlite.id r =? j) l.
Proof.
  intros Hj. induction l as [|r l IH]; simpl; [reflexivity|].
  destruct (Z.eqb_spec (Sqlite.id r) i) as [E|E]; simpl.
  - destruct (Z.eqb_spec (Sqlite.id r) j); [congruence | exact IH].
  - rewrite IH. reflexivity.
Qed.

Lemma filter_absent (l : list Sqlite.row) :
  ~ In i (map Sqlite.id l) ->
  filter (fun r => negb (Sqlite.id r =? i)) l = l.
Proof.
  induction l as [|r l IH]; simpl; intros H; [reflexivity|].
  destruct (Z.eqb_spec (Sqlite.id r) i) as [E|E]; [tauto|].
  simpl. rewrite IH by tauto. reflexivity.
Qed.

(** With distinct rowids, deleting a stored id removes one row. *)
Lemma delete_one (l : list Sqlite.row) (r : Sqlite.row) :
  NoDup (map Sqlite.id l) ->
  find (fun r => Sqlite.id r =? i) l = Some r ->
  S (List.length (filter (fun r => negb (Sqlite.id r =? i)) l)) = List.length l.
Proof.
  induction l as [|x l IH]; simpl; intros Hn Hf; [discriminate|].
  apply NoDup_cons_iff in Hn. destruct Hn as [Hx Hn].
  destruct (Z.eqb_spec (Sqlite.id x) i) as [E|E]; simpl.
  - rewrite filter_absent by (rewrite <- E; exact Hx). reflexivity.
  - rewrite IH by assumption. reflexivity.
Qed.

End DeleteFacts.

(** X2 (Delete).  Deleting a stored todo, in either backend on a reachable
    store, succeeds and removes that todo and nothing else: the id is no
    longer found, every other id reads as before, the store holds one todo
    less, and a second Delete of the same id fails with not-found and
    changes nothing. *)
Theorem X2_delete_removes_exactly_one (i : Z) (d : Sqlite.db) (r : Sqlite.row) :
  Store.reachable d -> Sqlite.select_by_id i d = Some r ->
  (exists d',
     Go.services.DeleteTodo i d = (Ok tt, d') /\
     Go.services.GetTodoByID i d' = Ok None /\
     (forall j, j <> i ->
        Go.services.GetTodoByID j d' = Go.services.GetTodoByID j d) /\
     Store.size d' = Store.size d - 1 /\
     Go.services.DeleteTodo i d' = (Err (Go.ErrTodoNotFound i), d')) /\
  (exists d',
     Node.TodoService.deleteTodo i d = (Ok true, d') /\
     Node.TodoService.getTodoById i d' = Err (Node.NotFoundError "Todo") /\
     (forall j, j <> i ->
        Node.TodoService.getTodoById j d' = Node.TodoService.getTodoById j d) /\
     Store.size d' = Store.size d - 1 /\
     Node.TodoService.deleteTodo i d' = (Err (Node.NotFoundError "Todo"), d')).
Proof.
  intros Hreach Hr. apply reachable_wf in Hreach.
  destruct Hreach as [Hseq Hids Hnodup].
  assert (Hpos : 0 < i).
  { unfold Sqlite.select_by_id in Hr. apply find_some in Hr.
    destruct Hr as [Hin E]. apply Z.eqb_eq in E.
    unfold Sqlite.ids in Hids. rewrite Forall_forall in Hids.
    specialize (Hids _ (in_map Sqlite.id _ _ Hin)). lia. }
  assert (Hle : (i <=? 0) = false) by (apply Z.leb_gt; exact Hpos).
  set (d' := fst (Sqlite.delete_by_id i d)).
  assert (Hgone : Sqlite.select_by_id i d' = None) by apply find_deleted.
  assert (Hnone : Sqlite.exists_id i d' = false).
  { unfold Sqlite.exists_id.
    destruct (existsb _ (Sqlite.rows d')) eqn:Ex; [|reflexivity].
    destruct (existsb_find _ _ Ex) as [x Hx].
    unfold Sqlite.select_by_id in Hgone. congruence. }
  assert (Hother : forall j, j <> i ->
            Sqlite.select_by_id j d' = Sqlite.select_by_id j d).
  { intros j Hj. apply find_not_deleted. exact Hj. }
  assert (Hsize : Store.size d' = Store.size d - 1).
  { unfold Store.size, d'. simpl.
    rewrite <- (@delete_one i (Sqlite.rows d) r Hnodup Hr). lia. }
  assert (Hn : (Z.of_nat (List.length
              (filter (fun x => Sqlite.id x =? i) (Sqlite.rows d))) =? 0) = false).
  { apply Z.eqb_neq. eapply find_some_filter. exact Hr. }
  split; exists d'.
  - split; [|split; [|split; [|split]]].
    + unfold Go.services.DeleteTodo. rewrite Hle.
      unfold Go.repository.Exists, Sqlite.exists_id.
      unfold Sqlite.select_by_id in Hr. rewrite (find_some_existsb _ _ Hr).
      unfold Go.repository.Delete, Sqlite.delete_by_id. rewrite Hn. reflexivity.
    + unfold Go.services.GetTodoByID, Go.repository.GetByID.
      rewrite Hle, Hgone. reflexivity.
    + intros j Hj. unfold Go.services.GetTodoByID, Go.repository.GetByID.
      rewrite (Hother j Hj). reflexivity.
    + exact Hsize.
    + unfold Go.services.DeleteTodo. rewrite Hle.
      unfold Go.repository.Exists. rewrite Hnone. reflexivity.
  - split; [|split; [|split; [|split]]].
    + unfold Node.TodoService.deleteTodo, Node.TodoService.validateId.
      rewrite Hle. unfold Node.TodoRepository.delete, Node.TodoRepository.findById.
      rewrite Hr. simpl option_map. cbv iota.
      unfold Sqlite.delete_by_id. rewrite Hn. reflexivity.
    + unfold Node.TodoService.getTodoById, Node.TodoService.validateId.
      rewrite Hle. simpl bind. unfold Node.TodoRepository.findById.
      rewrite Hgone. reflexivity.
    + intros j Hj.
      unfold Node.TodoService.getTodoById, Node.TodoRepository.findById.
      rewrite (Hother j Hj). reflexivity.
    + exact Hsize.
    + unfold Node.TodoService.deleteTodo, Node.TodoService.validateId.
      rewrite Hle. unfold Node.TodoRepository.delete, Node.TodoRepository.findById.
      rewrite Hgone. reflexivity.
Qed.

Lemma X2_delete_removes_exactly_one_witness :
  exists d',
    Go.services.DeleteTodo 2 Sample.store2 = (Ok tt, d') /\
    Go.services.GetTodoByID 2 d' = Ok None /\
    (forall j, j <> 2 ->
       Go.services.GetTodoByID j d' = Go.services.GetTodoByID j Sample.store2) /\
    Store.size d' = Store.size Sample.store2 - 1 /\
    Go.services.DeleteTodo 2 d' = (Err (Go.ErrTodoNotFound 2), d').
Proof.
  apply (@X2_delete_removes_exactly_one 2 Sample.store2
           (Sqlite.mkRow 2 (Str.lit "Walk the dog") (Some (Str.lit "before noon"))
                         true (Sample.noon + 1) (Sample.noon + 2))).
  - apply reachable_run. constructor.
  - vm_compute. reflexivity.
Defined.

(** ** Ids *)

Section IdFacts.

(** No request lowers the AUTOINCREMENT counter. *)
Lemma exec_seq (r : Store.request) (d : Sqlite.db) :
  Sqlite.seq d <= Sqlite.seq (Store.exec r d).
Proof.
  destruct r as [req t1 t2 now | i req now | i | | data now | i data now | i |];
    unfold Store.exec.
  - unfold Go.services.CreateTodo.
    destruct (Go.services.validateCreateRequest req); [|simpl; lia].
    unfold Go.repository.Create.
    destruct (Sqlite.insert_todo _ _ _ now d) as [[d' j]|] eqn:E; [|simpl; lia].
    destruct (insert_todo_finds _ _ _ _ _ E) as [Hj [Hs _]].
    destruct (Go.repository.GetByID j d') as [[t|]|e]; simpl; lia.
  - unfold Go.services.UpdateTodo.
    destruct (i <=? 0); [simpl; lia|].
    destruct (Go.services.validateUpdateRequest req); [|simpl; lia].
    unfold Go.repository.Exists. destruct (Sqlite.exists_id i d); [|simpl; lia].
    unfold Go.repository.Update, Sqlite.update_by_id.
    destruct (Sqlite.assigned _ =? 0).
    + destruct (Go.repository.GetByID i d); simpl; lia.
    + destruct (_ =? 0); [simpl; lia|].
      destruct (Go.repository.GetByID i _); simpl; lia.
  - unfold Go.services.DeleteTodo.
    destruct (i <=? 0); [simpl; lia|].
    unfold Go.repository.Exists. destruct (Sqlite.exists_id i d); [|simpl; lia].
    unfold Go.repository.Delete, Sqlite.delete_by_id.
    destruct (_ =? 0); simpl; lia.
  - unfold Go.services.DeleteAllTodos, Go.repository.DeleteAll, Sqlite.delete_all.
    destruct (_ =? 0); simpl; lia.
  - unfold Node.TodoService.createTodo.
    destruct (Node.TodoService.validateTodoData data); [|simpl; lia].
    destruct (Node.td_title data) as [t|]; [|simpl; lia].
    unfold Node.TodoRepository.create.
    destruct (negb (Node.isValid _ _)); [simpl; lia|].
    destruct (Sqlite.insert_todo _ _ _ now d) as [[d' j]|] eqn:E; [|simpl; lia].
    destruct (insert_todo_finds _ _ _ _ _ E) as [Hj [Hs _]].
    destruct (Node.TodoRepository.findById j d'); simpl; lia.
  - unfold Node.TodoService.updateTodo.
    destruct (Node.TodoService.validateId i); [|simpl; lia].
    destruct (Node.TodoService.validateUpdateData data); [|simpl; lia].
    destruct (Sqlite.assigned _ =? 0) eqn:A; [simpl; lia|].
    unfold Node.TodoRepository.update.
    destruct (Node.TodoRepository.findById i d); [|simpl; lia].
    rewrite A. unfold Sqlite.update_by_id.
    destruct (Node.TodoRepository.findById i _); simpl; lia.
  - unfold Node.TodoService.deleteTodo.
    destruct (Node.TodoService.validateId i); [|simpl; lia].
    unfold Node.TodoRepository.delete.
    destruct (Node.TodoRepository.findById i d); [|simpl; lia].
    unfold Sqlite.delete_by_id. destruct (_ =? 0); simpl; lia.
  - unfold Node.TodoRepository.deleteAll.
    destruct (Sqlite.count [] d =? 0); simpl; lia.
Qed.

Lemma run_seq (rs : list Store.request) (d : Sqlite.db) :
  Sqlite.seq d <= Sqlite.seq (Store.run rs d).
Proof.
  revert d; induction rs as [|r rs IH]; intros d; [simpl; lia|].
  change (Store.run (r :: rs) d) with (Store.run rs (Store.exec r d)).
  pose proof (exec_seq r d). specialize (IH (Store.exec r d)). lia.
Qed.

(** The id of a created todo is one more than the counter. *)
Lemma Go_CreateTodo_id req t1 t2 now (d : Sqlite.db) (todo : Go.models.Todo) :
  fst (Go.services.CreateTodo req t1 t2 now d) = Ok todo ->
  Go.models.ID todo = Sqlite.seq d + 1.
Proof.
  unfold Go.services.CreateTodo.
  destruct (Go.services.validateCreateRequest req); [|discriminate].
  unfold Go.repository.Create.
  destruct (Sqlite.insert_todo _ _ _ now d) as [[d' j]|] eqn:E; [|discriminate].
  destruct (insert_todo_finds _ _ _ _ _ E) as [Hj [_ [r [Hr Hid]]]].
  unfold Go.repository.GetByID. rewrite Hr. simpl.
  intros H. injection H as <-. simpl. lia.
Qed.

Lemma Node_createTodo_id data now (d : Sqlite.db) (todo : Node.Todo) :
  fst (Node.TodoService.createTodo data now d) = Ok todo ->
  Node.id todo = Sqlite.seq d + 1.
Proof.
  unfold Node.TodoService.createTodo.
  destruct (Node.TodoService.validateTodoData data); [|discriminate].
  destruct (Node.td_title data) as [t|]; [|discriminate].
  unfold Node.TodoRepository.create.
  destruct (negb (Node.isValid _ _)); [discriminate|].
  destruct (Sqlite.insert_todo _ _ _ now d) as [[d' j]|] eqn:E; [|discriminate].
  destruct (insert_todo_finds _ _ _ _ _ E) as [Hj [_ [r [Hr Hid]]]].
  unfold Node.TodoRepository.findById. rewrite Hr. simpl.
  intros H. injection H as <-. simpl. lia.
Qed.

End IdFacts.

(** X3 (ids are never reused).  Once a todo has been stored under an id,
    no later Create of either backend returns that id again, whatever
    requests come in between, the deletion of that todo and DeleteAll
    included: every todo created later has a greater id. *)
Theorem X3_ids_never_reused (i : Z) (d : Sqlite.db) (rs : list Store.request) :
  Store.reachable d -> Sqlite.exists_id i d = true ->
  (forall req t1 t2 now todo,
     fst (Go.services.CreateTodo req t1 t2 now (Store.run rs d)) = Ok todo ->
     i < Go.models.ID todo) /\
  (forall data now todo,
     fst (Node.TodoService.createTodo data now (Store.run rs d)) = Ok todo ->
     i < Node.id todo).
Proof.
  intros Hreach Hex. apply reachable_wf in Hreach.
  destruct Hreach as [_ Hids _].
  assert (Hi : i <= Sqlite.seq d).
  { destruct (existsb_find _ _ Hex) as [r Hr]. apply find_some in Hr.
    destruct Hr as [Hin E]. apply Z.eqb_eq in E.
    unfold Sqlite.ids in Hids. rewrite Forall_forall in Hids.
    specialize (Hids _ (in_map Sqlite.id _ _ Hin)). lia. }
  pose proof (run_seq rs d) as Hrun.
  split.
  - intros req t1 t2 now todo H. rewrite (Go_CreateTodo_id _ _ _ _ _ H). lia.
  - intros data now todo H. rewrite (Node_createTodo_id _ _ _ H). lia.
Qed.

Lemma X3_ids_never_reused_witness :
  exists todo,
    Sqlite.exists_id 2 Sample.store2 = true /\
    fst (Go.services.CreateTodo Sample.buy_milk Sample.noon Sample.noon
           (Sample.noon + 90)
           (Store.run [Store.GoDelete 2; Store.GoDeleteAll] Sample.store2)) = Ok todo /\
    2 < Go.models.ID todo.
Proof.
  eexists. split; [reflexivity|]. split; [vm_compute; reflexivity|].
  apply (proj1 (@X3_ids_never_reused 2 Sample.store2
                  [Store.GoDelete 2; Store.GoDeleteAll]
                  ltac:(apply reachable_run; constructor) eq_refl)
           Sample.buy_milk Sample.noon Sample.noon (Sample.noon + 90)).
  vm_compute. reflexivity.
Defined.

(** ** The pages of List *)

Section PageShape.

Import Go.models.

(** What a successful Go List call has computed. *)
Lemma Go_GetTodos_shape (params : QueryParams) (d : Sqlite.db)
    (resp : PaginatedResponse) :
  Go.services.GetTodos params d = Ok resp ->
  let q := Go.services.setDefaults params in
  exists c dir,
    Sqlite.column_of_name (qp_Sort q) = Some c /\
    Sqlite.direction_of_keyword (Str.ToUpper (qp_Order q)) = Some dir /\
    Data resp =
      map Go.repository.scan
          (Sqlite.select (Go.repository.whereClause params) c dir (qp_PerPage q)
             (Go.int_mul (Go.int_sub (qp_Page q) 1) (qp_PerPage q)) d) /\
    Total resp = Sqlite.count (Go.repository.whereClause params) d /\
    Page resp = qp_Page q /\ PerPage resp = qp_PerPage q /\
    TotalPages resp =
      Go.int_quo (Go.int_sub (Go.int_add (Total resp) (qp_PerPage q)) 1)
                 (qp_PerPage q).
Proof.
  intros H q.
  destruct (GetTodos_ok_accepted _ _ H) as [Hs Ho].
  destruct (@GetTodos_accepted params d Hs Ho (GetTodos_ok_where _ _ H))
    as [c [dir [Hc [Hd E]]]].
  exists c, dir. split; [exact Hc|]. split; [exact Hd|].
  rewrite E in H. injection H as <-. repeat split.
Qed.

(** What a successful Node List call has computed. *)
Lemma Node_getTodos_shape (o : Node.options) (d : Sqlite.db)
    (res : Node.pagination) :
  Node.TodoService.getTodos o d = Ok res ->
  let p := Contract.effective_page (Sqlite.or_else (Node.page o) 1) in
  let pp := Contract.effective_perPage (Sqlite.or_else (Node.per_page o) 20) in
  exists c dir,
    Sqlite.column_of_name
      (Contract.node_sort (Sqlite.or_else (Node.sort o) (Str.lit "created_at")))
      = Some c /\
    Sqlite.direction_of_keyword
      (Str.ToUpper (Contract.node_order (Sqlite.or_else (Node.order o) (Str.lit "desc"))))
      = Some dir /\
    Node.pg_data res =
      map Node.fromDb
          (Sqlite.select (Node.TodoRepository.whereConditions o) c dir pp
             ((p - 1) * pp) d) /\
    Node.pg_total res = Sqlite.count (Node.TodoRepository.whereConditions o) d /\
    Node.pg_page res = p /\ Node.pg_per_page res = pp /\
    Node.pg_total_pages res = Node.ceil_div (Node.pg_total res) pp.
Proof.
  unfold Node.TodoService.getTodos. rewrite validateQueryOptions_effective.
  destruct (255 <? Str.length (Sqlite.or_else (Node.search o) []));
    [discriminate|].
  simpl bind. intros H.
  destruct (findAll_ok _ _ H) as [c [dir [Hc [Hd [_ [_ [_ ->]]]]]]].
  exists c, dir. split; [exact Hc|]. split; [exact Hd|]. repeat split.
Qed.

Lemma sorted_skipn (A : Type) (le : A -> A -> bool) (n : nat) (l : list A) :
  Sqlite.sorted le l -> Sqlite.sorted le (skipn n l).
Proof.
  revert l; induction n as [|n IH]; intros l H; [exact H|].
  destruct l as [|x l]; [constructor|]. simpl. apply IH.
  apply StronglySorted_inv in H. tauto.
Qed.

Lemma sorted_firstn (A : Type) (le : A -> A -> bool) (n : nat) (l : list A) :
  Sqlite.sorted le l -> Sqlite.sorted le (firstn n l).
Proof.
  revert l; induction n as [|n IH]; intros l H; [constructor|].
  destruct l as [|x l]; [constructor|]. simpl.
  apply StronglySorted_inv in H. destruct H as [H1 H2].
  constructor; [apply IH; exact H1|].
  rewrite <- (firstn_skipn n l) in H2. apply Forall_app in H2. tauto.
Qed.

Lemma select_sorted cs c dir lim off (d : Sqlite.db) :
  Sqlite.sorted (Sqlite.ord_leb c dir) (Sqlite.select cs c dir lim off d).
Proof.
  unfold Sqlite.select, Sqlite.limit_offset.
  assert (H : Sqlite.sorted (Sqlite.ord_leb c dir)
                (Sqlite.sort (Sqlite.ord_leb c dir)
                             (filter (Sqlite.where_ cs) (Sqlite.rows d)))).
  { apply sort_sorted; [apply ord_leb_total | intros; eapply ord_leb_trans; eassumption]. }
  destruct (lim <? 0); [|apply sorted_firstn]; apply sorted_skipn; exact H.
Qed.

Lemma select_length cs c dir lim off (d : Sqlite.db) :
  0 <= lim ->
  Z.of_nat (List.length (Sqlite.select cs c dir lim off d)) <= lim /\
  Z.of_nat (List.length (Sqlite.select cs c dir lim off d)) <= Sqlite.count cs d.
Proof.
  intros Hl. unfold Sqlite.select, Sqlite.limit_offset, Sqlite.count.
  destruct (Z.ltb_spec lim 0); [lia|].
  rewrite length_firstn, length_skipn, sort_length. lia.
Qed.

End PageShape.

(** X4 (List is sorted).  The todos on a page that List returns, in either
    backend, are in the order of the column the effective sort field names,
    ascending or descending as the effective order says: each todo is
    before every later one in that order. *)
Theorem X4_pages_are_sorted (params : Go.models.QueryParams) (o : Node.options)
    (d : Sqlite.db) (resp : Go.models.PaginatedResponse) (res : Node.pagination) :
  Go.services.GetTodos params d = Ok resp ->
  Node.TodoService.getTodos o d = Ok res ->
  (exists c dir rows,
     Sqlite.column_of_name (Go.models.qp_Sort (Go.services.setDefaults params))
       = Some c /\
     Sqlite.direction_of_keyword
       (Str.ToUpper (Go.models.qp_Order (Go.services.setDefaults params)))
       = Some dir /\
     Go.models.Data resp = map Go.repository.scan rows /\
     Sqlite.sorted (Sqlite.ord_leb c dir) rows) /\
  (exists c dir rows,
     Sqlite.column_of_name
       (Contract.node_sort (Sqlite.or_else (Node.sort o) (Str.lit "created_at")))
       = Some c /\
     Sqlite.direction_of_keyword
       (Str.ToUpper (Contract.node_order (Sqlite.or_else (Node.order o) (Str.lit "desc"))))
       = Some dir /\
     Node.pg_data res = map Node.fromDb rows /\
     Sqlite.sorted (Sqlite.ord_leb c dir) rows).
Proof.
  intros HG HN. split.
  - destruct (Go_GetTodos_shape _ _ HG) as [c [dir [Hc [Hd [E _]]]]].
    exists c, dir. eexists. split; [exact Hc|]. split; [exact Hd|].
    split; [exact E | apply select_sorted].
  - destruct (Node_getTodos_shape _ _ HN) as [c [dir [Hc [Hd [E _]]]]].
    exists c, dir. eexists. split; [exact Hc|]. split; [exact Hd|].
    split; [exact E | apply select_sorted].
Qed.

Lemma X4_pages_are_sorted_witness :
  exists c dir rows,
    Sqlite.column_of_name (Str.lit "title") = Some c /\
    Sqlite.direction_of_keyword (Str.ToUpper (Str.lit "asc")) = Some dir /\
    Go.models.Data
      (Go.models.mkPaginatedResponse
         [Go.models.mkTodo 1 (Str.lit "Buy milk") None false Sample.noon Sample.noon;
          Go.models.mkTodo 2 (Str.lit "Walk the dog") (Some (Str.lit "before noon"))
                           true (Sample.noon + 1) (Sample.noon + 2)]
         2 1 20 1)
    = map Go.repository.scan rows /\
    Sqlite.sorted (Sqlite.ord_leb c dir) rows.
Proof.
  apply (@X4_pages_are_sorted
           (Go.models.mkQueryParams 1 20 (Str.lit "title") (Str.lit "asc") [] None)
           (Node.mkOptions None None None None None None) Sample.store2
           _ (Node.mkPagination
                [Node.mkTodo 2 (Str.lit "Walk the dog") (Some (Str.lit "before noon"))
                             true (Sample.noon + 1) (Sample.noon + 2);
                 Node.mkTodo 1 (Str.lit "Buy milk") None false Sample.noon Sample.noon]
                2 1 20 1)).
  - vm_compute. reflexivity.
  - vm_compute. reflexivity.
Defined.

(** X5 (size of a page).  A page that List returns, in either backend,
    holds at most per_page todos, per_page is between 1 and 100 whatever was
    asked for, and the page holds no more todos than the total it reports,
    which is at most the size of the store. *)
Theorem X5_page_size_bound (params : Go.models.QueryParams) (o : Node.options)
    (d : Sqlite.db) (resp : Go.models.PaginatedResponse) (res : Node.pagination) :
  Go.services.GetTodos params d = Ok resp ->
  Node.TodoService.getTodos o d = Ok res ->
  (Z.of_nat (List.length (Go.models.Data resp)) <= Go.models.PerPage resp <= 100 /\
   Z.of_nat (List.length (Go.models.Data resp)) <= Go.models.Total resp
     <= Store.size d /\
   1 <= Go.models.Page resp) /\
  (Z.of_nat (List.length (Node.pg_data res)) <= Node.pg_per_page res <= 100 /\
   Z.of_nat (List.length (Node.pg_data res)) <= Node.pg_total res
     <= Store.size d /\
   1 <= Node.pg_page res).
Proof.
  intros HG HN. split.
  - destruct (Go_GetTodos_shape _ _ HG) as [c [dir [_ [_ [E [Et [Ep [Epp _]]]]]]]].
    rewrite E, Et, Ep, Epp, length_map.
    rewrite setDefaults_page, setDefaults_perPage.
    pose proof (effective_perPage_range (Go.models.qp_PerPage params)) as Hpp.
    pose proof (effective_page_range (Go.models.qp_Page params)) as Hp.
    match goal with |- context [Sqlite.select ?cs c dir ?lim ?off d] =>
      destruct (@select_length cs c dir lim off d ltac:(lia)) as [L1 L2]
    end.
    pose proof (total_bound (Go.models.qp_Search params)
                  (Go.models.qp_Completed params) d) as Ht.
    rewrite <- count_go in Ht. lia.
  - destruct (Node_getTodos_shape _ _ HN)
      as [c [dir [_ [_ [E [Et [Ep [Epp _]]]]]]]].
    rewrite E, Et, Ep, Epp, length_map.
    pose proof (effective_perPage_range (Sqlite.or_else (Node.per_page o) 20)) as Hpp.
    pose proof (effective_page_range (Sqlite.or_else (Node.page o) 1)) as Hp.
    match goal with |- context [Sqlite.select ?cs c dir ?lim ?off d] =>
      destruct (@select_length cs c dir lim off d ltac:(lia)) as [L1 L2]
    end.
    pose proof (total_bound (Sqlite.or_else (Node.search o) [])
                  (Node.opt_completed o) d) as Ht.
    rewrite <- count_node in Ht. lia.
Qed.

Lemma X5_page_size_bound_witness :
  let resp :=
    Go.models.mkPaginatedResponse
      [Go.models.mkTodo 2 (Str.lit "Walk the dog") (Some (Str.lit "before noon"))
                        true (Sample.noon + 1) (Sample.noon + 2)]
      2 1 1 2 in
  Z.of_nat (List.length (Go.models.Data resp)) <= Go.models.PerPage resp <= 100 /\
  Z.of_nat (List.length (Go.models.Data resp)) <= Go.models.Total resp
    <= Store.size Sample.store2 /\
  1 <= Go.models.Page resp.
Proof.
  intros resp.
  apply (@X5_page_size_bound
           (Go.models.mkQueryParams 1 1 (Str.lit "title") (Str.lit "desc") [] None)
           (Node.mkOptions None None None None None None) Sample.store2 resp
           (Node.mkPagination
                [Node.mkTodo 2 (Str.lit "Walk the dog") (Some (Str.lit "before noon"))
                             true (Sample.noon + 1) (Sample.noon + 2);
                 Node.mkTodo 1 (Str.lit "Buy milk") None false Sample.noon Sample.noon]
                2 1 20 1)).
  - vm_compute. reflexivity.
  - vm_compute. reflexivity.
Defined.

Section LastPage.

Lemma page_slice_nil (A : Type) (page perPage : Z) (l : list A) :
  1 <= page -> 1 <= perPage ->
  (Contract.page_slice page perPage l = [] <->
   Contract.ceil_div (Z.of_nat (List.length l)) perPage < page).
Proof.
  intros Hp Hpp. unfold Contract.page_slice, Contract.ceil_div.
  set (total := Z.of_nat (List.length l)).
  pose proof (Z.mul_div_le (total + perPage - 1) perPage ltac:(lia)) as D1.
  pose proof (Z.mul_succ_div_gt (total + perPage - 1) perPage ltac:(lia)) as D2.
  assert (Hk : (total + perPage - 1) / perPage < page <->
               total <= (page - 1) * perPage) by (split; intros; nia).
  rewrite Hk. rewrite <- length_zero_iff_nil.
  rewrite length_firstn, length_skipn. unfold total. split; intros H; nia.
Qed.

End LastPage.

(** X6 (pages past the end).  In either backend, when the offset of the
    page fits Go's [int], the page List returns is empty exactly when its
    number is greater than the total_pages it reports: every page from 1 to
    total_pages holds at least one todo, every later page none. *)
Theorem X6_empty_page_iff_past_the_end (params : Go.models.QueryParams)
    (o : Node.options) (d : Sqlite.db) (resp : Go.models.PaginatedResponse)
    (res : Node.pagination) :
  Go.services.GetTodos params d = Ok resp ->
  Node.TodoService.getTodos o d = Ok res ->
  Store.size d + 100 <= Go.max_int ->
  (Go.models.Page resp - 1) * Go.models.PerPage resp <= Go.max_int ->
  (Go.models.Data resp = [] <-> Go.models.TotalPages resp < Go.models.Page resp) /\
  (Node.pg_data res = [] <-> Node.pg_total_pages res < Node.pg_page res).
Proof.
  intros HG HN Hsize Hoff. split.
  - destruct (Go_GetTodos_shape _ _ HG)
      as [c [dir [_ [_ [E [Et [Ep [Epp Etp]]]]]]]].
    rewrite Ep, Epp in Hoff. rewrite E, Etp, Et, Ep.
    rewrite setDefaults_page, setDefaults_perPage in *.
    pose proof (effective_perPage_range (Go.models.qp_PerPage params)) as Hpp.
    pose proof (effective_page_range (Go.models.qp_Page params)) as Hp.
    set (p := Contract.effective_page _) in *.
    set (pp := Contract.effective_perPage _) in *.
    pose proof (total_bound (Go.models.qp_Search params)
                  (Go.models.qp_Completed params) d) as Ht.
    assert (Hmin : Go.min_int <= 0) by (unfold Go.min_int; lia).
    assert (Hmax : 200 <= Go.max_int) by (unfold Go.max_int; lia).
    rewrite count_go, go_total_pages by lia.
    unfold Go.int_mul, Go.int_sub.
    rewrite (wrap_small (z := p - 1)) by nia.
    rewrite (wrap_small (z := (p - 1) * pp)) by nia.
    rewrite select_go with (page := p) by (lia || reflexivity).
    rewrite <- (selected_length _ _ c dir).
    rewrite <- page_slice_nil by lia.
    split; intros H; [apply map_eq_nil in H | rewrite H]; auto.
  - destruct (Node_getTodos_shape _ _ HN)
      as [c [dir [_ [_ [E [Et [Ep [Epp Etp]]]]]]]].
    rewrite E, Etp, Et, Ep.
    pose proof (effective_perPage_range (Sqlite.or_else (Node.per_page o) 20)) as Hpp.
    pose proof (effective_page_range (Sqlite.or_else (Node.page o) 1)) as Hp.
    set (p := Contract.effective_page _) in *.
    set (pp := Contract.effective_perPage _) in *.
    rewrite count_node, node_ceil_div by lia.
    rewrite select_node with (page := p) by (lia || reflexivity).
    rewrite <- (selected_length _ _ c dir).
    rewrite <- page_slice_nil by lia.
    split; intros H; [apply map_eq_nil in H | rewrite H]; auto.
Qed.

Lemma X6_empty_page_iff_past_the_end_witness :
  let resp := Go.models.mkPaginatedResponse [] 2 3 1 2 in
  Go.models.Data resp = [] <-> Go.models.TotalPages resp < Go.models.Page resp.
Proof.
  intros resp.
  apply (@X6_empty_page_iff_past_the_end
           (Go.models.mkQueryParams 3 1 (Str.lit "title") (Str.lit "desc") [] None)
           (Node.mkOptions None None None None None None) Sample.store2 resp
           (Node.mkPagination
                [Node.mkTodo 2 (Str.lit "Walk the dog") (Some (Str.lit "before noon"))
                             true (Sample.noon + 1) (Sample.noon + 2);
                 Node.mkTodo 1 (Str.lit "Buy milk") None false Sample.noon Sample.noon]
                2 1 20 1)).
  - vm_compute. reflexivity.
  - vm_compute. reflexivity.
  - vm_compute. discriminate.
  - vm_compute. discriminate.
Defined.

(** ** Search *)

(** X7 (search without wildcards).  For a non-empty search term that holds
    neither [%] nor [_] nor U+0000, List in either backend selects exactly
    the todos that mention the term in the title or in the description, as
    a contiguous part and without regard to the case of ASCII letters (and
    satisfy the completed filter): the total counts them, and every todo on
    the page is one of them.  Title and description are searched as LIKE
    reads them, up to their first U+0000. *)
Theorem X7_search_is_containment (term : Str.str) (params : Go.models.QueryParams)
    (o : Node.options) (d : Sqlite.db) (resp : Go.models.PaginatedResponse)
    (res : Node.pagination) :
  Contract.wildcard_free term = true -> Contract.nul_free term = true ->
  term <> [] ->
  Go.models.qp_Search params = term -> Node.search o = Some term ->
  Go.services.GetTodos params d = Ok resp ->
  Node.TodoService.getTodos o d = Ok res ->
  (Go.models.Total resp =
     Z.of_nat (List.length
       (filter (fun r => Contract.mentions term r &&
                         Contract.completed_matches (Go.models.qp_Completed params) r)
               (Sqlite.rows d))) /\
   forall t, In t (Go.models.Data resp) ->
     exists r, t = Go.repository.scan r /\ In r (Sqlite.rows d) /\
       Contract.mentions term r = true) /\
  (Node.pg_total res =
     Z.of_nat (List.length
       (filter (fun r => Contract.mentions term r &&
                         Contract.completed_matches (Node.opt_completed o) r)
               (Sqlite.rows d))) /\
   forall t, In t (Node.pg_data res) ->
     exists r, t = Node.fromDb r /\ In r (Sqlite.rows d) /\
       Contract.mentions term r = true).
Proof.
  intros Hw Hn Hne Hgo Hnode HG HN. split.
  - destruct (Go_GetTodos_shape _ _ HG) as [c [dir [_ [_ [E [Et _]]]]]].
    split.
    + rewrite Et, count_go, Hgo. do 2 f_equal. apply filter_ext. intros r.
      unfold Contract.filter_predicate. rewrite search_mentions by assumption.
      reflexivity.
    + intros t Ht. rewrite E in Ht. apply in_map_iff in Ht.
      destruct Ht as [r [<- Hr]]. apply select_In in Hr. destruct Hr as [Hin Hp].
      rewrite where_go, Hgo in Hp. unfold Contract.filter_predicate in Hp.
      apply andb_true_iff in Hp. destruct Hp as [Hp _].
      rewrite search_mentions in Hp by assumption. exists r. auto.
  - destruct (Node_getTodos_shape _ _ HN) as [c [dir [_ [_ [E [Et _]]]]]].
    split.
    + rewrite Et, count_node, Hnode. do 2 f_equal. apply filter_ext. intros r.
      unfold Contract.filter_predicate. simpl Sqlite.or_else.
      rewrite search_mentions by assumption. reflexivity.
    + intros t Ht. rewrite E in Ht. apply in_map_iff in Ht.
      destruct Ht as [r [<- Hr]]. apply select_In in Hr. destruct Hr as [Hin Hp].
      rewrite where_node, Hnode in Hp. unfold Contract.filter_predicate in Hp.
      simpl Sqlite.or_else in Hp.
      apply andb_true_iff in Hp. destruct Hp as [Hp _].
      rewrite search_mentions in Hp by assumption. exists r. auto.
Qed.

Lemma X7_search_is_containment_witness :
  let resp :=
    Go.models.mkPaginatedResponse
      [Go.models.mkTodo 2 (Str.lit "Walk the dog") (Some (Str.lit "before noon"))
                        true (Sample.noon + 1) (Sample.noon + 2)]
      1 1 20 1 in
  Go.models.Total resp =
    Z.of_nat (List.length
      (filter (fun r => Contract.mentions (Str.lit "NOON") r &&
                        Contract.completed_matches None r)
              (Sqlite.rows Sample.store2))) /\
  forall t, In t (Go.models.Data resp) ->
    exists r, t = Go.repository.scan r /\ In r (Sqlite.rows Sample.store2) /\
      Contract.mentions (Str.lit "NOON") r = true.
Proof.
  intros resp.
  apply (@X7_search_is_containment (Str.lit "NOON")
           (Sample.go_search (Str.lit "NOON"))
           (Sample.node_search (Str.lit "NOON")) Sample.store2 resp
           (Node.mkPagination
                [Node.mkTodo 2 (Str.lit "Walk the dog") (Some (Str.lit "before noon"))
                             true (Sample.noon + 1) (Sample.noon + 2)]
                1 1 20 1)).
  - reflexivity.
  - reflexivity.
  - discriminate.
  - reflexivity.
  - reflexivity.
  - vm_compute. reflexivity.
  - vm_compute. reflexivity.
Defined.

(** ** Stats on small stores *)

Section SmallStats.

Lemma fold_countTodo_rows (l : list Sqlite.row) (s : Go.services.Stats) :
  0 <= Go.services.completed_todos s -> 0 <= Go.services.pending_todos s ->
  Go.services.completed_todos s + Go.services.pending_todos s
    + Z.of_nat (List.length l) <= Go.max_int ->
  fold_left Go.services.countTodo (map Go.repository.scan l) s =
  Go.services.mkStats
    (Go.services.total_todos s)
    (Go.services.completed_todos s
     + Z.of_nat (List.length (filter Sqlite.completed l)))
    (Go.services.pending_todos s
     + Z.of_nat (List.length (filter (fun r => negb (Sqlite.completed r)) l))).
Proof.
  assert (Hmin : Go.min_int <= 0) by (unfold Go.min_int; lia).
  revert s; induction l as [|r l IH]; intros [t c p] Hc Hp Hb.
  - simpl. f_equal; lia.
  - change (List.length (r :: l)) with (S (List.length l)) in Hb.
    rewrite Nat2Z.inj_succ in Hb.
    cbn [Go.services.completed_todos Go.services.pending_todos
         Go.services.total_todos] in *.
    change (fold_left Go.services.countTodo (map Go.repository.scan (r :: l))
                      (Go.services.mkStats t c p))
      with (fold_left Go.services.countTodo (map Go.repository.scan l)
              (Go.services.countTodo (Go.services.mkStats t c p)
                                     (Go.repository.scan r))).
    unfold Go.services.countTodo, Go.int_add.
    cbn [Go.repository.scan Go.models.Completed Go.services.completed_todos
         Go.services.pending_todos Go.services.total_todos filter].
    destruct (Sqlite.completed r); cbn [negb];
      rewrite wrap_small by lia; rewrite IH;
      cbn [Go.services.completed_todos Go.services.pending_todos
           Go.services.total_todos List.length]; try lia;
      f_equal; lia.
Qed.

Lemma count_completed (b : bool) (d : Sqlite.db) :
  Sqlite.count [Sqlite.CompletedIs b] d =
  Z.of_nat (List.length
    (filter (fun r => Bool.eqb (Sqlite.completed r) b) (Sqlite.rows d))).
Proof.
  unfold Sqlite.count. do 2 f_equal. apply filter_ext. intros r.
  simpl. apply andb_true_r.
Qed.

End SmallStats.

(** X8 (Stats of a small store).  As long as the store holds at most 20
    todos, the statistics of the Go service are exact: total is the size of
    the store, completed and pending are the numbers of completed and of
    pending todos, the same three numbers the Node repository counts. *)
Theorem X8_Go_stats_exact_up_to_20 (d : Sqlite.db) :
  Store.size d <= 20 ->
  Go.services.GetTodoStats d =
    Ok (Go.services.mkStats (Store.size d)
          (Sqlite.count [Sqlite.CompletedIs true] d)
          (Sqlite.count [Sqlite.CompletedIs false] d)) /\
  Node.TodoRepository.getStats d =
    Ok (Node.TodoRepository.mkStats (Store.size d)
          (Sqlite.count [Sqlite.CompletedIs true] d)
          (Sqlite.count [Sqlite.CompletedIs false] d)).
Proof.
  intros Hsize. split.
  - unfold Go.services.GetTodoStats.
    match goal with |- context [Go.services.GetTodos ?q d] => set (params := q) end.
    destruct (@GetTodos_accepted params d) as [c [dir [Hc [Hd ->]]]];
      [reflexivity | reflexivity | reflexivity |].
    cbn [Go.models.Data Go.models.Total].
    change (Go.models.qp_PerPage (Go.services.setDefaults params)) with 20.
    change (Go.models.qp_Page (Go.services.setDefaults params)) with 1.
    change (Go.int_mul (Go.int_sub 1 1) 20) with 0.
    unfold Sqlite.select, Sqlite.limit_offset.
    simpl skipn. change (20 <? 0) with false. cbv iota.
    change (Go.repository.whereClause params) with (@nil Sqlite.cond).
    rewrite (filter_true (Sqlite.where_ [])) by reflexivity.
    rewrite firstn_all2
      by (rewrite sort_length; unfold Store.size in Hsize; lia).
    rewrite fold_countTodo_rows;
      [| simpl; lia | simpl; lia
       | simpl; rewrite sort_length; unfold Store.size in Hsize;
         unfold Go.max_int; lia].
    rewrite count_all. cbn [Go.services.total_todos Go.services.completed_todos
      Go.services.pending_todos].
    rewrite !filter_sort
      by first [apply ord_leb_total | intros; eapply ord_leb_trans; eassumption].
    rewrite !sort_length, !count_completed. rewrite !Z.add_0_l.
    f_equal. f_equal; do 2 f_equal; apply filter_ext; intros r;
      destruct (Sqlite.completed r); reflexivity.
  - unfold Node.TodoRepository.getStats. rewrite count_all. reflexivity.
Qed.

Lemma X8_Go_stats_exact_up_to_20_witness :
  Go.services.GetTodoStats Sample.store2 =
    Ok (Go.services.mkStats (Store.size Sample.store2)
          (Sqlite.count [Sqlite.CompletedIs true] Sample.store2)
          (Sqlite.count [Sqlite.CompletedIs false] Sample.store2)).
Proof.
  apply (@X8_Go_stats_exact_up_to_20 Sample.store2).
  vm_compute. discriminate.
Defined.

(** ** The Go handlers *)

Section HandlerFacts.

Import Go.models.

Lemma parseQueryParameters_valid (q : Go.handlers.query) :
  let params := Go.handlers.parseQueryParameters q in
  1 <= qp_Page params /\ 1 <= qp_PerPage params <= 100 /\
  qp_Sort params <> [] /\ qp_Order params <> [].
Proof.
  unfold Go.handlers.parseQueryParameters. cbn [qp_Page qp_PerPage qp_Sort qp_Order].
  split; [|split; [|split]].
  - destruct (Z.ltb_spec 0 (Go.handlers.QueryInt (Go.handlers.q_page q) 1));
      simpl; lia.
  - destruct (Z.ltb_spec 0 (Go.handlers.QueryInt (Go.handlers.q_per_page q) 20)),
             (Z.leb_spec (Go.handlers.QueryInt (Go.handlers.q_per_page q) 20) 100);
      simpl; lia.
  - destruct (Str.eqb (Go.handlers.q_sort q) []) eqn:E; simpl;
      [discriminate | apply str_eqb_neq; exact E].
  - destruct (Str.eqb (Go.handlers.q_order q) []) eqn:E; simpl;
      [discriminate | apply str_eqb_neq; exact E].
Qed.

(** The message of an invalid id is not the message the handler of DELETE
    looks for. *)
Lemma invalid_id_message (driver : Str.str) (i : Z) :
  Str.eqb (Go.Error driver (Go.ErrInvalidTodoID i))
          (Str.lit "todo with id " ++ Go.Itoa i ++ Str.lit " not found") = false.
Proof. reflexivity. Qed.

End HandlerFacts.

(** X9 (GET /todos in Go).  Whatever the query string holds, the handler
    hands the service parameters that need no defaulting: page >= 1,
    1 <= per_page <= 100, a sort field and an order, so that the service
    lists and echoes exactly what the handler has parsed.  A page or
    per_page that is out of range or not a number is replaced by 1 or 20
    and never refused.  The status is 400 when the sort field or the order
    is not an allowed one, and when the database refuses the search
    pattern; otherwise it is 200.  Neither the handler nor the service
    bounds the search term: a term of up to 49998 bytes is never refused,
    a longer one is as soon as the table holds a todo and no completed
    filter is given. *)
Theorem X9_GetTodos_handler (driver : Str.str) (q : Go.handlers.query)
    (d : Sqlite.db) :
  let params := Go.handlers.parseQueryParameters q in
  let refused := Sqlite.where_fails (Go.repository.whereClause params) d in
  1 <= Go.models.qp_Page params /\ 1 <= Go.models.qp_PerPage params <= 100 /\
  Go.services.setDefaults params = params /\
  Go.handlers.status (Go.handlers.GetTodos driver q d) =
    (if existsb (Str.eqb (Go.models.qp_Sort params)) Contract.sortFields &&
        existsb (Str.eqb (Go.models.qp_Order params)) Contract.sortOrders &&
        negb refused
     then 200 else 400) /\
  (Str.len (Go.handlers.q_search q) <= 49998 -> refused = false) /\
  (49998 < Str.len (Go.handlers.q_search q) ->
   Go.models.qp_Completed params = None -> Sqlite.rows d <> [] ->
   refused = true) /\
  (forall resp,
     Go.handlers.sent (Go.handlers.GetTodos driver q d) = Go.handlers.PageJSON resp ->
     Go.models.Page resp = Go.models.qp_Page params /\
     Go.models.PerPage resp = Go.models.qp_PerPage params).
Proof.
  intros params refused.
  destruct (parseQueryParameters_valid q) as [Hp [Hpp [Hs Ho]]]. fold params in Hp, Hpp, Hs, Ho.
  assert (E : Go.services.setDefaults params = params)
    by (apply setDefaults_valid; assumption).
  assert (Eq : Go.models.qp_Search params = Go.handlers.q_search q).
  { unfold params, Go.handlers.parseQueryParameters. cbn [Go.models.qp_Search].
    destruct (Str.eqb (Go.handlers.q_search q) []) eqn:E0; simpl.
    - apply str_eqb_eq in E0. rewrite E0. reflexivity.
    - reflexivity. }
  split; [exact Hp|]. split; [exact Hpp|]. split; [exact E|].
  split; [|split; [|split]].
  - unfold Go.handlers.GetTodos. fold params.
    destruct (existsb (Str.eqb (Go.models.qp_Sort params)) Contract.sortFields) eqn:Vs.
    + destruct (existsb (Str.eqb (Go.models.qp_Order params)) Contract.sortOrders) eqn:Vo.
      * destruct refused eqn:R.
        -- rewrite (@GetTodos_refused params d) by (rewrite ?E; assumption).
           reflexivity.
        -- destruct (@GetTodos_accepted params d) as [c [dir [_ [_ HG]]]];
             rewrite ?E; try assumption.
           rewrite HG. reflexivity.
      * rewrite (@GetTodos_bad_order params d) by (rewrite E; assumption).
        reflexivity.
    + rewrite (@GetTodos_bad_sort params d) by (rewrite E; assumption).
      reflexivity.
  - intros H. apply Go_where_within. rewrite Eq.
    unfold Sqlite.MAX_LIKE_PATTERN_LENGTH. lia.
  - intros H Hc Hr. unfold refused, Go.repository.whereClause.
    rewrite Eq, Hc.
    destruct (Str.eqb (Go.handlers.q_search q) []) eqn:E0.
    { apply str_eqb_eq in E0. rewrite E0 in H. simpl in H. lia. }
    cbn [negb app]. unfold Sqlite.where_fails, Sqlite.visited.
    cbn [existsb filter Sqlite.too_complex Sqlite.where_ forallb].
    assert (L : (Sqlite.MAX_LIKE_PATTERN_LENGTH <?
                 Str.len (Sqlite.percent :: Go.handlers.q_search q ++ [Sqlite.percent]))
                = true).
    { apply Z.ltb_lt. unfold Str.len.
      change (Sqlite.percent :: Go.handlers.q_search q ++ [Sqlite.percent])
        with ([Sqlite.percent] ++ Go.handlers.q_search q ++ [Sqlite.percent]).
      rewrite measure_percent_wrap. fold (Str.len (Go.handlers.q_search q)).
      change (Str.utf8_len Sqlite.percent) with 1.
      unfold Sqlite.MAX_LIKE_PATTERN_LENGTH. lia. }
    rewrite L. cbn [orb andb].
    rewrite filter_true by reflexivity.
    destruct (Sqlite.rows d); [congruence|]. rewrite orb_true_r. reflexivity.
  - intros resp. unfold Go.handlers.GetTodos. fold params.
    destruct (Go.services.GetTodos params d) as [r|e] eqn:HG; [|discriminate].
    intros H. injection H as <-.
    destruct (Go_GetTodos_shape _ _ HG) as [c [dir [_ [_ [_ [_ [P1 [P2 _]]]]]]]].
    rewrite E in P1, P2. auto.
Qed.

(** X10 (DELETE /todos/:id in Go).  The handler answers 400 when the id is
    not a number, 500 when it is a number that is not positive, 404 when no
    todo has the id and 204 when the todo has been deleted; unless the
    answer is 204 the store is left as it was. *)
Theorem X10_DeleteTodo_handler (driver : Str.str) (id : option Z) (d : Sqlite.db) :
  Go.handlers.status (fst (Go.handlers.DeleteTodo driver id d)) =
    match id with
    | None => 400
    | Some i =>
        if i <=? 0 then 500 else if Sqlite.exists_id i d then 204 else 404
    end /\
  (Go.handlers.status (fst (Go.handlers.DeleteTodo driver id d)) <> 204 ->
   snd (Go.handlers.DeleteTodo driver id d) = d).
Proof.
  destruct id as [i|]; [|split; reflexivity].
  unfold Go.handlers.DeleteTodo, Go.services.DeleteTodo.
  destruct (i <=? 0).
  - rewrite invalid_id_message. split; reflexivity.
  - unfold Go.repository.Exists.
    destruct (Sqlite.exists_id i d) eqn:Ex.
    + unfold Go.repository.Delete, Sqlite.delete_by_id.
      pose proof (existsb_filter _ _ Ex) as Hn. apply Z.eqb_neq in Hn.
      rewrite Hn. split; [reflexivity|]. simpl. intros H.
      exfalso. apply H. reflexivity.
    + cbn [Go.Error]. rewrite str_eqb_refl. split; reflexivity.
Qed.

(** X11 (GET /todos/:id in Go).  The handler answers 400 when the id is not
    a number, 500 when it is a number that is not positive, 404 when no
    todo has the id, and otherwise 200 with the stored todo of that id. *)
Theorem X11_GetTodo_handler (id : option Z) (d : Sqlite.db) :
  Go.handlers.status (Go.handlers.GetTodo id d) =
    match id with
    | None => 400
    | Some i =>
        if i <=? 0 then 500 else if Sqlite.exists_id i d then 200 else 404
    end /\
  (forall todo,
     Go.handlers.sent (Go.handlers.GetTodo id d) = Go.handlers.TodoJSON todo ->
     id = Some (Go.models.ID todo) /\
     exists r, In r (Sqlite.rows d) /\ todo = Go.repository.scan r).
Proof.
  destruct id as [i|]; [|split; [reflexivity | discriminate]].
  unfold Go.handlers.GetTodo, Go.services.GetTodoByID, Go.repository.GetByID.
  destruct (i <=? 0); [split; [reflexivity | discriminate]|].
  unfold Sqlite.exists_id, Sqlite.select_by_id.
  destruct (find (fun r => Sqlite.id r =? i) (Sqlite.rows d)) as [r|] eqn:F.
  - rewrite (find_some_existsb _ _ F). simpl. split; [reflexivity|].
    intros todo H. injection H as <-.
    apply find_some in F. destruct F as [Hin Hid]. apply Z.eqb_eq in Hid.
    split; [simpl; congruence | exists r; auto].
  - destruct (existsb _ (Sqlite.rows d)) eqn:Ex.
    + destruct (existsb_find _ _ Ex) as [x Hx]. congruence.
    + simpl. split; [reflexivity | discriminate].
Qed.

(** X12 (PUT /todos/:id in Go).  The handler answers 400 when the id is not
    a number, when the body cannot be parsed, when the id is not positive
    and when the request fails validation, which is checked before the todo
    is looked up: an invalid update of a todo that does not exist is a 400.
    For a valid request it answers 404 when no todo has the id and 200
    otherwise.  Unless the answer is 200 the store is left as it was. *)
Theorem X12_UpdateTodo_handler (driver : Str.str) (id : option Z)
    (req : option Go.models.UpdateTodoRequest) (now : Z) (d : Sqlite.db) :
  Go.handlers.status (fst (Go.handlers.UpdateTodo driver id req now d)) =
    match id, req with
    | None, _ => 400
    | Some _, None => 400
    | Some i, Some req =>
        if i <=? 0 then 400
        else if negb (is_ok (Go.services.validateUpdateRequest req)) then 400
        else if Sqlite.exists_id i d then 200 else 404
    end /\
  (Go.handlers.status (fst (Go.handlers.UpdateTodo driver id req now d)) <> 200 ->
   snd (Go.handlers.UpdateTodo driver id req now d) = d).
Proof.
  destruct id as [i|]; [|split; reflexivity].
  destruct req as [req|]; [|split; reflexivity].
  unfold Go.handlers.UpdateTodo, Go.services.UpdateTodo.
  destruct (i <=? 0); [split; reflexivity|].
  destruct (Go.services.validateUpdateRequest req); [|split; reflexivity].
  unfold Go.repository.Exists.
  destruct (Sqlite.exists_id i d) eqn:Ex; [|split; reflexivity].
  unfold Go.repository.Update.
  destruct (existsb_find _ _ Ex) as [r Hr].
  destruct (Sqlite.assigned (Go.services.buildUpdates req) =? 0).
  - unfold Go.repository.GetByID, Sqlite.select_by_id. rewrite Hr. simpl.
    split; reflexivity.
  - pose proof (@update_by_id_finds (Go.services.buildUpdates req) i now d r Hr) as Hf.
    pose proof (existsb_filter _ _ Ex) as Hn. apply Z.eqb_neq in Hn.
    unfold Sqlite.update_by_id in *. simpl fst in Hf. rewrite Hn.
    unfold Go.repository.GetByID. rewrite Hf. simpl.
    split; [reflexivity|]. intros H. exfalso. apply H. reflexivity.
Qed.

(** ** The Node model and schemas *)

Section NodeValidation.

Lemma length_nonneg (s : Str.str) : 0 <= Str.length s.
Proof. apply (@measure_nonneg Str.utf16_len utf16_len_pos s). Qed.

Lemma issues_nil (o : Node.options) :
  Node.validation.issues o = [] ->
  1 <= Sqlite.or_else (Node.page o) 1 /\
  1 <= Sqlite.or_else (Node.per_page o) 20 <= 100 /\
  existsb (Str.eqb (Sqlite.or_else (Node.sort o) (Str.lit "created_at")))
          Contract.sortFields = true /\
  existsb (Str.eqb (Sqlite.or_else (Node.order o) (Str.lit "desc")))
          Contract.sortOrders = true /\
  Str.length (Sqlite.or_else (Node.search o) []) <= 255.
Proof.
  unfold Node.validation.issues. intros H.
  apply app_eq_nil in H. destruct H as [H1 H].
  apply app_eq_nil in H. destruct H as [H2 H].
  apply app_eq_nil in H. destruct H as [H3 H].
  apply app_eq_nil in H. destruct H as [H4 H5].
  change Node.validation.sortEnum with Contract.sortFields in H3.
  change Node.validation.orderEnum with Contract.sortOrders in H4.
  split; [|split; [|split; [|split]]].
  - destruct (Node.page o) as [n|]; simpl; [|lia].
    destruct (Z.ltb_spec n 1); [discriminate | lia].
  - destruct (Node.per_page o) as [n|]; simpl; [|lia].
    destruct (Z.ltb_spec n 1), (Z.ltb_spec 100 n); simpl in H2;
      try discriminate; lia.
  - destruct (Node.sort o) as [s|]; [|reflexivity]. simpl Sqlite.or_else.
    destruct (existsb (Str.eqb s) Contract.sortFields); [reflexivity | discriminate].
  - destruct (Node.order o) as [s|]; [|reflexivity]. simpl Sqlite.or_else.
    destruct (existsb (Str.eqb s) Contract.sortOrders); [reflexivity | discriminate].
  - destruct (Node.search o) as [s|]; simpl; [|lia].
    destruct (Z.ltb_spec 255 (Str.length s)); [discriminate | lia].
Qed.

End NodeValidation.

(** X13 (the Todo model's two checks agree).  [isValid] holds of a todo
    exactly when [getValidationErrors] finds nothing to report. *)
Theorem X13_isValid_iff_no_validation_errors (title : Str.str)
    (description : option Str.str) :
  Node.isValid title description = true <->
  Node.getValidationErrors title description = [].
Proof.
  unfold Node.isValid, Node.getValidationErrors.
  pose proof (length_nonneg (Str.trim title)) as Hn.
  assert (Ht : Str.eqb title [] = true -> Str.length (Str.trim title) = 0).
  { intros E. apply str_eqb_eq in E. subst. reflexivity. }
  assert (H1 : (0 <? Str.length (Str.trim title)) && (Str.length title <=? 255) = true
               <-> (if Str.eqb title [] || (Str.length (Str.trim title) =? 0)
                    then ["Title is required"%string]
                    else if 255 <? Str.length title
                         then ["Title cannot exceed 255 characters"%string]
                         else []) = []).
  { destruct (Str.eqb title []);
      [specialize (Ht eq_refl) | clear Ht];
      destruct (Z.ltb_spec 0 (Str.length (Str.trim title)));
      destruct (Z.eqb_spec (Str.length (Str.trim title)) 0);
      destruct (Z.leb_spec (Str.length title) 255);
      destruct (Z.ltb_spec 255 (Str.length title));
      try lia; simpl; split; intros E; try reflexivity; discriminate E. }
  assert (H2 : match description with
               | None => true
               | Some d => Str.length d <=? 1000
               end = true
               <-> match description with
                   | Some d =>
                       if 1000 <? Str.length d
                       then ["Description cannot exceed 1000 characters"%string]
                       else []
                   | None => []
                   end = []).
  { destruct description as [de|]; [|split; reflexivity].
    destruct (Z.leb_spec (Str.length de) 1000);
      destruct (Z.ltb_spec 1000 (Str.length de)); try lia;
      split; intros E; try reflexivity; discriminate E. }
  rewrite andb_true_iff, H1, H2. split.
  - intros [A B]. rewrite A, B. reflexivity.
  - intros H. apply app_eq_nil in H. exact H.
Qed.

(** X14 (route validation and service defaults).  Query options that the
    route's [QueryParamsSchema] has accepted pass the service's
    [validateQueryOptions] unchanged: behind the schema the service never
    substitutes a default for page, per_page, sort or order, and never
    refuses the search term. *)
Theorem X14_schema_accepted_options_pass_unchanged (o o' : Node.options) :
  Node.validation.QueryParamsSchema o = Ok o' ->
  Node.TodoService.validateQueryOptions o' = Ok o'.
Proof.
  unfold Node.validation.QueryParamsSchema.
  destruct (Node.validation.issues o) as [|e errs] eqn:E; [|discriminate].
  intros H. injection H as <-.
  destruct (issues_nil _ E) as [Hp [Hpp [Hs [Ho Hse]]]].
  rewrite validateQueryOptions_effective.
  cbn [Node.search Sqlite.or_else].
  destruct (Z.ltb_spec 255 (Str.length (Sqlite.or_else (Node.search o) [])));
    [lia|].
  unfold Contract.node_effective.
  cbn [Node.page Node.per_page Node.sort Node.order Node.search
       Node.opt_completed Sqlite.or_else].
  rewrite effective_page_valid, effective_perPage_valid by assumption.
  unfold Contract.node_sort, Contract.node_order. rewrite Hs, Ho.
  reflexivity.
Qed.

Lemma X14_schema_accepted_options_pass_unchanged_witness :
  Node.TodoService.validateQueryOptions
    (Node.mkOptions (Some 2) (Some 20) (Some (Str.lit "title"))
                    (Some (Str.lit "desc")) None (Some true))
  = Ok (Node.mkOptions (Some 2) (Some 20) (Some (Str.lit "title"))
                       (Some (Str.lit "desc")) None (Some true)).
Proof.
  apply (@X14_schema_accepted_options_pass_unchanged
           (Node.mkOptions (Some 2) None (Some (Str.lit "title")) None None
                           (Some true))).
  reflexivity.
Defined.

(** ** Node: search and toggle *)

(** X15 (searchTodos).  A search that succeeds had a query that is not
    empty once trimmed (a missing, empty or blank query is refused) and not
    longer than 255 as given, and it never lists unfiltered: the total
    counts the stored todos that match the trimmed query (and the completed
    filter), and every todo on the page matches it in the title or in the
    description. *)
Theorem X15_searchTodos_filters (query : option Str.str) (o : Node.options)
    (d : Sqlite.db) (res : Node.pagination) :
  Node.TodoService.searchTodos query o d = Ok res ->
  exists q,
    query = Some q /\ Str.trim q <> [] /\ Str.length q <= 255 /\
    Node.pg_total res =
      Z.of_nat (List.length
        (filter (Contract.filter_predicate (Str.trim q) (Node.opt_completed o))
                (Sqlite.rows d))) /\
    forall t, In t (Node.pg_data res) ->
      exists r, t = Node.fromDb r /\ In r (Sqlite.rows d) /\
        (Sqlite.like (Contract.search_pattern (Str.trim q)) (Sqlite.title r) ||
         Sqlite.like_nullable (Contract.search_pattern (Str.trim q))
                              (Sqlite.description r)) = true.
Proof.
  unfold Node.TodoService.searchTodos.
  destruct query as [q|]; [|discriminate].
  rewrite length_zero_iff.
  destruct (Str.eqb q []) eqn:Eq; [discriminate|]. simpl orb.
  destruct (Str.eqb (Str.trim q) []) eqn:Et; [discriminate|].
  destruct (Z.ltb_spec 255 (Str.length q)) as [|Hlen]; [discriminate|].
  cbv zeta. intros H.
  apply str_eqb_neq in Et.
  exists q. split; [reflexivity|]. split; [exact Et|]. split; [exact Hlen|].
  destruct (Node_getTodos_shape _ _ H) as [c [dir [_ [_ [E [Etot _]]]]]].
  split.
  - rewrite Etot, count_node. reflexivity.
  - intros t Ht. rewrite E in Ht. apply in_map_iff in Ht.
    destruct Ht as [r [<- Hr]]. apply select_In in Hr. destruct Hr as [Hin Hp].
    rewrite where_node in Hp. cbn [Node.search Node.opt_completed Sqlite.or_else] in Hp.
    unfold Contract.filter_predicate, Contract.search_matches in Hp.
    apply andb_true_iff in Hp. destruct Hp as [Hp _].
    apply str_eqb_neq in Et. rewrite Et in Hp. cbn [orb] in Hp.
    exists r. auto.
Qed.

Lemma X15_searchTodos_filters_witness :
  exists q,
    Some (Str.lit "  dog ") = Some q /\ Str.trim q <> [] /\ Str.length q <= 255 /\
    Node.pg_total
      (Node.mkPagination
         [Node.mkTodo 2 (Str.lit "Walk the dog") (Some (Str.lit "before noon"))
                      true (Sample.noon + 1) (Sample.noon + 2)]
         1 1 20 1) =
      Z.of_nat (List.length
        (filter (Contract.filter_predicate (Str.trim q) None)
                (Sqlite.rows Sample.store2))) /\
    forall t,
      In t (Node.pg_data
              (Node.mkPagination
                 [Node.mkTodo 2 (Str.lit "Walk the dog") (Some (Str.lit "before noon"))
                              true (Sample.noon + 1) (Sample.noon + 2)]
                 1 1 20 1)) ->
      exists r, t = Node.fromDb r /\ In r (Sqlite.rows Sample.store2) /\
        (Sqlite.like (Contract.search_pattern (Str.trim q)) (Sqlite.title r) ||
         Sqlite.like_nullable (Contract.search_pattern (Str.trim q))
                              (Sqlite.description r)) = true.
Proof.
  apply (@X15_searchTodos_filters (Some (Str.lit "  dog "))
           (Node.mkOptions None None None None None None) Sample.store2).
  vm_compute. reflexivity.
Defined.

Section ToggleFacts.

Lemma toggle_row (now1 now2 : Z) (r : Sqlite.row) :
  let flip (x : Sqlite.row) :=
    Sqlite.mkSet None None (Some (negb (Sqlite.completed x))) in
  let r1 := Sqlite.touch now1 (Sqlite.apply_set (flip r) now1 r) in
  Sqlite.touch now2 (Sqlite.apply_set (flip r1) now2 r1) = Sqlite.touch now2 r.
Proof.
  destruct r as [i t de c ca ua]. simpl. unfold Sqlite.touch, Sqlite.apply_set.
  simpl. rewrite negb_involutive. reflexivity.
Qed.

Lemma Node_toggle_found (i now : Z) (d : Sqlite.db) (r : Sqlite.row) :
  Sqlite.select_by_id i d = Some r ->
  let a := Sqlite.mkSet None None (Some (negb (Sqlite.completed r))) in
  let r' := Sqlite.touch now (Sqlite.apply_set a now r) in
  let d' := fst (Sqlite.update_by_id a i now d) in
  Node.TodoService.toggleTodoCompletion i now d = (Ok (Node.fromDb r'), d') /\
  Sqlite.select_by_id i d' = Some r' /\
  (forall j, j <> i -> Sqlite.select_by_id j d' = Sqlite.select_by_id j d).
Proof.
  intros Hr a r' d'.
  pose proof (@update_by_id_finds a i now d r Hr) as Hf. fold d' r' in Hf.
  split; [|split; [exact Hf|]].
  - unfold Node.TodoService.toggleTodoCompletion, Node.TodoRepository.findById.
    rewrite Hr. simpl option_map. cbv iota.
    change (Node.completed (Node.fromDb r)) with (Sqlite.completed r). fold a.
    unfold Node.TodoRepository.update, Node.TodoRepository.findById.
    rewrite Hr. simpl option_map. cbv iota.
    change (Sqlite.assigned a =? 0) with false. cbv iota.
    unfold d' in *. destruct (Sqlite.update_by_id a i now d) as [d1 n].
    simpl fst in *. rewrite Hf. reflexivity.
  - intros j Hj. unfold d', Sqlite.select_by_id. simpl.
    apply find_other; [reflexivity | exact Hj].
Qed.

End ToggleFacts.

(** X16 (toggling twice).  Toggling the completion of a stored todo twice
    yields the todo as it was, but for updated_at, which holds the time
    of the second toggle: completed has its first value again, title,
    description and created_at never changed, and no other todo was
    touched. *)
Theorem X16_toggle_twice_restores (i now1 now2 : Z) (d : Sqlite.db)
    (r : Sqlite.row) :
  Sqlite.select_by_id i d = Some r ->
  exists t1 d1 d2,
    Node.TodoService.toggleTodoCompletion i now1 d = (Ok t1, d1) /\
    Node.completed t1 = negb (Sqlite.completed r) /\
    Node.TodoService.toggleTodoCompletion i now2 d1
      = (Ok (Node.fromDb (Sqlite.touch now2 r)), d2) /\
    Sqlite.select_by_id i d2 = Some (Sqlite.touch now2 r) /\
    (forall j, j <> i -> Sqlite.select_by_id j d2 = Sqlite.select_by_id j d).
Proof.
  intros Hr.
  destruct (@Node_toggle_found i now1 d r Hr) as [E1 [F1 O1]].
  destruct (@Node_toggle_found i now2 _ _ F1) as [E2 [F2 O2]].
  rewrite toggle_row in E2, F2.
  eexists; eexists; eexists.
  split; [exact E1|]. split; [reflexivity|]. split; [exact E2|].
  split; [exact F2|].
  intros j Hj. rewrite (O2 j Hj). apply O1. exact Hj.
Qed.

Lemma X16_toggle_twice_restores_witness :
  exists t1 d1 d2,
    Node.TodoService.toggleTodoCompletion 1 (Sample.noon + 5) Sample.node_store1
      = (Ok t1, d1) /\
    Node.completed t1 = negb (Sqlite.completed Sample.buy_milk_row) /\
    Node.TodoService.toggleTodoCompletion 1 (Sample.noon + 9) d1
      = (Ok (Node.fromDb (Sqlite.touch (Sample.noon + 9) Sample.buy_milk_row)), d2) /\
    Sqlite.select_by_id 1 d2
      = Some (Sqlite.touch (Sample.noon + 9) Sample.buy_milk_row) /\
    (forall j, j <> 1 ->
       Sqlite.select_by_id j d2 = Sqlite.select_by_id j Sample.node_store1).
Proof.
  apply (@X16_toggle_twice_restores 1 (Sample.noon + 5) (Sample.noon + 9)
           Sample.node_store1 Sample.buy_milk_row).
  vm_compute. reflexivity.
Defined.

(** ** Node: bulk operations *)

Section BulkFacts.

Lemma validateIds_forallb (ids : list Z) :
  Node.TodoService.validateIds ids =
  if forallb (fun i => 0 <? i) ids then Ok tt
  else Err (Node.ValidationError "Invalid ID: must be a positive integer").
Proof.
  induction ids as [|i ids IH]; simpl; [reflexivity|].
  unfold Node.TodoService.validateId.
  destruct (Z.leb_spec i 0), (Z.ltb_spec 0 i); try lia; simpl; [reflexivity|].
  exact IH.
Qed.

Lemma id_in_In (keys : list Z) (r : Sqlite.row) :
  Sqlite.id_in keys r = true <-> In (Sqlite.id r) keys.
Proof.
  unfold Sqlite.id_in. rewrite existsb_exists. split.
  - intros [x [Hx E]]. apply Z.eqb_eq in E. subst. exact Hx.
  - intros H. exists (Sqlite.id r). split; [exact H | apply Z.eqb_refl].
Qed.

Lemma find_deleted_in (keys : list Z) (i : Z) (l : list Sqlite.row) :
  In i keys ->
  find (fun r => Sqlite.id r =? i)
       (filter (fun r => negb (Sqlite.id_in keys r)) l) = None.
Proof.
  intros Hi. induction l as [|r l IH]; simpl; [reflexivity|].
  destruct (Sqlite.id_in keys r) eqn:E; simpl; [exact IH|].
  destruct (Z.eqb_spec (Sqlite.id r) i) as [Er|Er]; [|exact IH].
  exfalso. subst i. apply id_in_In in Hi. congruence.
Qed.

Lemma find_kept (keys : list Z) (j : Z) (l : list Sqlite.row) :
  ~ In j keys ->
  find (fun r => Sqlite.id r =? j)
       (filter (fun r => negb (Sqlite.id_in keys r)) l)
  = find (fun r => Sqlite.id r =? j) l.
Proof.
  intros Hj. induction l as [|r l IH]; simpl; [reflexivity|].
  destruct (Sqlite.id_in keys r) eqn:E; simpl.
  - destruct (Z.eqb_spec (Sqlite.id r) j) as [Er|Er]; [|exact IH].
    exfalso. apply Hj. rewrite <- Er. apply id_in_In. exact E.
  - rewrite IH. reflexivity.
Qed.

Lemma filter_twice (A : Type) (p : A -> bool) (l : list A) :
  filter p (filter p l) = filter p l.
Proof.
  induction l as [|x l IH]; simpl; [reflexivity|].
  destruct (p x) eqn:E; simpl; rewrite ?E, IH; reflexivity.
Qed.

Lemma filter_none_left (A : Type) (p : A -> bool) (l : list A) :
  filter p (filter (fun x => negb (p x)) l) = [].
Proof.
  induction l as [|x l IH]; simpl; [reflexivity|].
  destruct (p x) eqn:E; simpl; rewrite ?E; exact IH.
Qed.

End BulkFacts.

(** X17 (bulkDeleteTodos).  For a non-empty list of ids: if one of them is
    not positive the call is refused with a validation error and nothing is
    deleted, the todos with the positive ids of the list included.  If the
    list has more ids than the database takes host parameters in one
    statement ([max_variable_number], a constant of the SQLite build), or
    makes the statement longer than SQLite allows, the call fails with the
    database error "Failed to delete todos" and nothing is deleted: the
    service puts no cap on the list.  Otherwise the call deletes the stored
    todos whose id is in the list and reports their number (an id that is
    listed twice or that is not stored adds nothing to it); none of the
    listed ids is found afterwards, every other todo is as it was, and a
    second call with the same list deletes nothing and reports 0. *)
Theorem X17_bulkDeleteTodos (max_variable_number : Z) (ids : list Z)
    (d : Sqlite.db) :
  ids <> [] ->
  let bulkDeleteTodos := Node.TodoService.bulkDeleteTodos max_variable_number in
  let deleted := Z.of_nat (List.length (filter (Sqlite.id_in ids) (Sqlite.rows d))) in
  let d' := snd (bulkDeleteTodos ids d) in
  if negb (forallb (fun i => 0 <? i) ids) then
    bulkDeleteTodos ids d =
      (Err (Node.ValidationError "Invalid ID: must be a positive integer"), d)
  else if (max_variable_number <? Z.of_nat (List.length ids)) ||
          (Sqlite.MAX_SQL_LENGTH <? 3 * Z.of_nat (List.length ids) + 30) then
    bulkDeleteTodos ids d = (Err (Node.DatabaseError "Failed to delete todos"), d)
  else
    fst (bulkDeleteTodos ids d) = Ok deleted /\
    (forall i, In i ids -> Sqlite.select_by_id i d' = None) /\
    (forall j, ~ In j ids -> Sqlite.select_by_id j d' = Sqlite.select_by_id j d) /\
    Store.size d' = Store.size d - deleted /\
    bulkDeleteTodos ids d' = (Ok 0, d').
Proof.
  intros Hne bulkDeleteTodos deleted d'. unfold d', deleted, bulkDeleteTodos.
  unfold Node.TodoService.bulkDeleteTodos.
  destruct ids as [|i0 ids0]; [congruence|].
  set (ids := i0 :: ids0) in *.
  rewrite validateIds_forallb.
  destruct (forallb (fun i => 0 <? i) ids) eqn:V; [|reflexivity].
  cbn [negb].
  unfold Node.TodoRepository.deleteMany.
  change ((max_variable_number <? Z.of_nat (List.length ids)) ||
          (Sqlite.MAX_SQL_LENGTH <? 3 * Z.of_nat (List.length ids) + 30))
    with (Sqlite.delete_in_fails max_variable_number ids).
  destruct (Sqlite.delete_in_fails max_variable_number ids); [reflexivity|].
  unfold Sqlite.delete_in. cbn [fst snd].
  split; [reflexivity|]. split; [|split; [|split]].
  - intros i Hi. apply find_deleted_in. exact Hi.
  - intros j Hj. apply find_kept. exact Hj.
  - unfold Store.size. cbn [Sqlite.rows].
    rewrite <- (filter_split_length (Sqlite.id_in ids) (Sqlite.rows d)). lia.
  - cbn [Sqlite.rows Sqlite.seq].
    rewrite filter_none_left.
    rewrite (filter_twice (fun r => negb (Sqlite.id_in ids r))). reflexivity.
Qed.

Lemma X17_bulkDeleteTodos_witness :
  let bulkDeleteTodos := Node.TodoService.bulkDeleteTodos 999 in
  fst (bulkDeleteTodos [2; 7; 2] Sample.store2) = Ok 1 /\
  (forall i, In i [2; 7; 2] ->
     Sqlite.select_by_id i (snd (bulkDeleteTodos [2; 7; 2] Sample.store2)) = None) /\
  (forall j, ~ In j [2; 7; 2] ->
     Sqlite.select_by_id j (snd (bulkDeleteTodos [2; 7; 2] Sample.store2))
     = Sqlite.select_by_id j Sample.store2) /\
  Store.size (snd (bulkDeleteTodos [2; 7; 2] Sample.store2))
    = Store.size Sample.store2 - 1 /\
  bulkDeleteTodos [2; 7; 2] (snd (bulkDeleteTodos [2; 7; 2] Sample.store2))
    = (Ok 0, snd (bulkDeleteTodos [2; 7; 2] Sample.store2)).
Proof.
  apply (@X17_bulkDeleteTodos 999 [2; 7; 2] Sample.store2). discriminate.
Defined.

Section BulkUpdateFacts.

Lemma exists_id_update a i now j (d : Sqlite.db) :
  Sqlite.exists_id j (fst (Sqlite.update_by_id a i now d)) = Sqlite.exists_id j d.
Proof.
  unfold Sqlite.exists_id. simpl. induction (Sqlite.rows d) as [|r l IH];
    simpl; [reflexivity|].
  rewrite IH. destruct (Sqlite.id r =? i); reflexivity.
Qed.

Lemma find_none_existsb (A : Type) (p : A -> bool) (l : list A) :
  find p l = None -> existsb p l = false.
Proof.
  intros H. destruct (existsb p l) eqn:E; [|reflexivity].
  destruct (existsb_find _ _ E) as [x Hx]. congruence.
Qed.

Variable a : Sqlite.assignments.
Variable now : nat -> Z.
Hypothesis assigned_a : (Sqlite.assigned a =? 0) = false.

Lemma Node_update_found (i : Z) (k : nat) (d : Sqlite.db) (r : Sqlite.row) :
  Sqlite.select_by_id i d = Some r ->
  Node.TodoRepository.update i a (now k) d =
  (Ok (Node.fromDb (Sqlite.touch (now k) (Sqlite.apply_set a (now k) r))),
   fst (Sqlite.update_by_id a i (now k) d)).
Proof.
  intros Hr. pose proof (@update_by_id_finds a i (now k) d r Hr) as Hf.
  unfold Node.TodoRepository.update, Node.TodoRepository.findById.
  rewrite Hr. simpl option_map. cbv iota. rewrite assigned_a.
  destruct (Sqlite.update_by_id a i (now k) d) as [d1 n].
  simpl fst in *. rewrite Hf. reflexivity.
Qed.

Lemma or_else_twice (A : Type) (o : option A) (x : A) :
  Sqlite.or_else o (Sqlite.or_else o x) = Sqlite.or_else o x.
Proof. destruct o; reflexivity. Qed.

Lemma assigned_to_again (t0 : Z) (r : Sqlite.row) (t : Node.Todo) :
  Contract.assigned_to a (Sqlite.touch t0 (Sqlite.apply_set a t0 r)) t ->
  Contract.assigned_to a r t.
Proof.
  unfold Contract.assigned_to. simpl. rewrite !or_else_twice. tauto.
Qed.

Lemma updateEach_spec (ids : list Z) :
  forall (k : nat) (d : Sqlite.db) (results : list Node.Todo),
  exists more d',
    Node.TodoService.updateEach a now k ids d results = (Ok (results ++ more), d') /\
    map Node.id more = filter (fun i => Sqlite.exists_id i d) ids /\
    Forall (fun t => exists r, Sqlite.select_by_id (Node.id t) d = Some r /\
                               Contract.assigned_to a r t) more /\
    (forall j, Sqlite.exists_id j d' = Sqlite.exists_id j d) /\
    (forall j, ~ In j ids -> Sqlite.select_by_id j d' = Sqlite.select_by_id j d) /\
    List.length (Sqlite.rows d') = List.length (Sqlite.rows d).
Proof.
  induction ids as [|i ids IH]; intros k d results.
  - exists [], d. simpl. rewrite app_nil_r. repeat split; try reflexivity.
    constructor.
  - cbn [Node.TodoService.updateEach filter].
    destruct (Sqlite.select_by_id i d) as [r|] eqn:Hr.
    + rewrite (Node_update_found _ k _ Hr).
      set (d1 := fst (Sqlite.update_by_id a i (now k) d)).
      set (t := Node.fromDb _).
      destruct (IH (S k) d1 (results ++ [t]))
        as [more [d' [E [Hm [Hall [Hex [Hfr Hlen]]]]]]].
      exists (t :: more), d'.
      assert (Hid : Sqlite.id r = i).
      { unfold Sqlite.select_by_id in Hr. apply find_some in Hr.
        destruct Hr as [_ Hr]. apply Z.eqb_eq in Hr. exact Hr. }
      split; [rewrite E, <- app_assoc; reflexivity|].
      split; [|split; [|split; [|split]]].
      * unfold Sqlite.exists_id at 1. unfold Sqlite.select_by_id in Hr.
        rewrite (find_some_existsb _ _ Hr). cbn [map]. f_equal; [exact Hid|].
        rewrite Hm. apply filter_ext. intros j. apply exists_id_update.
      * constructor.
        -- exists r. split; [unfold t; simpl; rewrite Hid; exact Hr|].
           unfold t, Contract.assigned_to. simpl. repeat split.
        -- eapply Forall_impl; [|exact Hall]. intros x [r1 [H1 H2]].
           destruct (Z.eq_dec (Node.id x) i) as [Ex|Ex].
           ++ exists r. rewrite Ex in *. split; [exact Hr|].
              unfold d1 in H1.
              rewrite (@update_by_id_finds a i (now k) d r Hr) in H1.
              injection H1 as <-. eapply assigned_to_again. exact H2.
           ++ exists r1. split; [|exact H2]. rewrite <- H1.
              unfold d1, Sqlite.select_by_id. simpl. symmetry.
              apply find_other; [reflexivity | exact Ex].
      * intros j. rewrite Hex. apply exists_id_update.
      * intros j Hj. rewrite Hfr by (intros Hin; apply Hj; right; exact Hin).
        unfold d1, Sqlite.select_by_id. simpl.
        apply find_other; [reflexivity|]. intros ->. apply Hj. left. reflexivity.
      * rewrite Hlen. unfold d1. simpl. apply length_map.
    + assert (Hu : Node.TodoRepository.update i a (now k) d
                   = (Err (Node.NotFoundError "Todo"), d)).
      { unfold Node.TodoRepository.update, Node.TodoRepository.findById.
        rewrite Hr. reflexivity. }
      rewrite Hu.
      destruct (IH (S k) d results)
        as [more [d' [E [Hm [Hall [Hex [Hfr Hlen]]]]]]].
      exists more, d'. split; [exact E|].
      unfold Sqlite.exists_id at 1. unfold Sqlite.select_by_id in Hr.
      rewrite (find_none_existsb _ _ Hr).
      split; [exact Hm|]. split; [exact Hall|]. split; [exact Hex|].
      split; [|exact Hlen].
      intros j Hj. apply Hfr. intros Hin. apply Hj. right. exact Hin.
Qed.

End BulkUpdateFacts.

(** X18 (bulkUpdateTodos).  For a non-empty list of positive ids and an
    update that passes validation, the call succeeds and returns one todo
    for each listed id that is stored, in the order of the list; ids that
    are not stored are skipped without an error.  Each returned todo is the
    stored todo of its id with the supplied fields set (sanitized) and the
    other fields but updated_at as they were.  No todo is added or removed,
    and a todo whose id is not in the list is as it was. *)
Theorem X18_bulkUpdateTodos_skips_missing (ids : list Z)
    (updates : Node.updateData) (now : nat -> Z) (d : Sqlite.db) :
  ids <> [] -> forallb (fun i => 0 <? i) ids = true ->
  Node.TodoService.validateUpdateData updates = Ok tt ->
  exists results d',
    Node.TodoService.bulkUpdateTodos ids updates now d = (Ok results, d') /\
    map Node.id results = filter (fun i => Sqlite.exists_id i d) ids /\
    Forall (fun t =>
              exists r, Sqlite.select_by_id (Node.id t) d = Some r /\
                Contract.assigned_to (Node.TodoService.sanitizeUpdateData updates) r t)
           results /\
    (forall j, ~ In j ids -> Sqlite.select_by_id j d' = Sqlite.select_by_id j d) /\
    Store.size d' = Store.size d.
Proof.
  intros Hne Hpos Hv.
  destruct (validateUpdateData_keys _ Hv) as [_ Ha].
  destruct (@updateEach_spec (Node.TodoService.sanitizeUpdateData updates) now Ha
              ids 0%nat d []) as [more [d' [E [Hm [Hall [_ [Hfr Hlen]]]]]]].
  exists more, d'.
  split; [|split; [exact Hm | split; [exact Hall | split; [exact Hfr|]]]].
  - unfold Node.TodoService.bulkUpdateTodos.
    destruct ids as [|i0 ids0]; [congruence|].
    rewrite validateIds_forallb, Hpos, Hv. exact E.
  - unfold Store.size. rewrite Hlen. reflexivity.
Qed.

Lemma X18_bulkUpdateTodos_skips_missing_witness :
  exists results d',
    Node.TodoService.bulkUpdateTodos [2; 7; 1] Sample.node_mark_done
      (fun k => Sample.noon + 60 + Z.of_nat k) Sample.store2 = (Ok results, d') /\
    map Node.id results
      = filter (fun i => Sqlite.exists_id i Sample.store2) [2; 7; 1] /\
    Forall (fun t =>
              exists r, Sqlite.select_by_id (Node.id t) Sample.store2 = Some r /\
                Contract.assigned_to
                  (Node.TodoService.sanitizeUpdateData Sample.node_mark_done) r t)
           results /\
    (forall j, ~ In j [2; 7; 1] ->
       Sqlite.select_by_id j d' = Sqlite.select_by_id j Sample.store2) /\
    Store.size d' = Store.size Sample.store2.
Proof.
  apply (@X18_bulkUpdateTodos_skips_missing [2; 7; 1] Sample.node_mark_done
           (fun k => Sample.noon + 60 + Z.of_nat k) Sample.store2).
  - discriminate.
  - reflexivity.
  - reflexivity.
Defined.

Section CreateManyFacts.

Variable now : nat -> Z.

Lemma createEach_app (l1 l2 : list (Str.str * option Str.str * bool)) :
  forall (k : nat) (d : Sqlite.db) (acc : list Node.Todo),
  Node.TodoRepository.createEach (l1 ++ l2) now k d acc =
  match Node.TodoRepository.createEach l1 now k d acc with
  | (Ok acc', d') =>
      Node.TodoRepository.createEach l2 now (k + List.length l1)%nat d' acc'
  | (Err e, d') => (Err e, d')
  end.
Proof.
  induction l1 as [|[[t de] c] l1 IH]; intros k d acc.
  - simpl. rewrite Nat.add_0_r. reflexivity.
  - cbn [app Node.TodoRepository.createEach List.length].
    destruct (Node.TodoRepository.create t de c (now k) d) as [[todo|e] d1];
      [|reflexivity].
    rewrite IH. rewrite Nat.add_succ_r. reflexivity.
Qed.

Lemma Node_create_valid t de c t0 (d : Sqlite.db) :
  Sqlite.wf d -> Sqlite.seq d < Sqlite.max_rowid -> Node.isValid t de = true ->
  exists d',
    Node.TodoRepository.create t de c t0 d =
      (Ok (Node.mkTodo (Sqlite.seq d + 1) t de c t0 t0), d') /\
    Sqlite.wf d' /\ Sqlite.seq d' = Sqlite.seq d + 1 /\
    Store.size d' = Store.size d + 1.
Proof.
  intros Hw Hlt Hv.
  destruct (@insert_succeeds t de c t0 d Hw Hlt) as [d' [E [Hsel _]]].
  exists d'. unfold Node.TodoRepository.create. rewrite Hv. simpl negb. cbv iota.
  rewrite E. unfold Node.TodoRepository.findById. rewrite Hsel.
  split; [reflexivity|].
  destruct (wf_insert _ _ _ _ Hw E) as [Hw' _].
  destruct (insert_todo_finds _ _ _ _ _ E) as [_ [Hs _]].
  split; [exact Hw'|]. split; [exact Hs|].
  unfold Sqlite.insert_todo in E.
  destruct (Sqlite.max_rowid <=? Sqlite.seq d); [discriminate|].
  injection E as <-. unfold Store.size. simpl. rewrite length_app. simpl. lia.
Qed.

Lemma createEach_valid (l : list (Str.str * option Str.str * bool)) :
  forall (k : nat) (d : Sqlite.db) (acc : list Node.Todo),
  Sqlite.wf d ->
  Sqlite.seq d + Z.of_nat (List.length l) <= Sqlite.max_rowid ->
  Forall (fun x => Node.isValid (fst (fst x)) (snd (fst x)) = true) l ->
  exists todos d',
    Node.TodoRepository.createEach l now k d acc = (Ok (acc ++ todos), d') /\
    Sqlite.wf d' /\
    Sqlite.seq d' = Sqlite.seq d + Z.of_nat (List.length l) /\
    Store.size d' = Store.size d + Z.of_nat (List.length l) /\
    map (fun t => (Node.title t, Node.description t, Node.completed t)) todos = l /\
    map Node.id todos
      = map (fun n => Sqlite.seq d + Z.of_nat n) (List.seq 1 (List.length l)).
Proof.
  induction l as [|[[t de] c] l IH]; intros k d acc Hw Hroom Hv.
  - exists [], d. simpl. rewrite app_nil_r.
    split; [reflexivity|]. split; [exact Hw|]. split; [lia|]. split; [lia|].
    split; reflexivity.
  - change (List.length ((t, de, c) :: l)) with (S (List.length l)) in *.
    rewrite Nat2Z.inj_succ in Hroom.
    apply Forall_cons_iff in Hv. destruct Hv as [Hx Hv]. simpl in Hx.
    destruct (@Node_create_valid t de c (now k) d Hw ltac:(lia) Hx)
      as [d1 [E1 [Hw1 [Hs1 Hz1]]]].
    destruct (IH (S k) d1 (acc ++ [Node.mkTodo (Sqlite.seq d + 1) t de c (now k) (now k)])
                 Hw1 ltac:(lia) Hv)
      as [todos [d' [E [Hw' [Hs' [Hz' [Hdata Hids]]]]]]].
    exists (Node.mkTodo (Sqlite.seq d + 1) t de c (now k) (now k) :: todos), d'.
    cbn [Node.TodoRepository.createEach]. rewrite E1, E, <- app_assoc.
    split; [reflexivity|]. split; [exact Hw'|].
    split; [lia|]. split; [lia|]. split.
    + cbn [map Node.title Node.description Node.completed]. rewrite Hdata. reflexivity.
    + cbn [map List.seq Node.id]. f_equal.
      rewrite Hids, <- (seq_shift (List.length l) 1), map_map.
      apply map_ext. intros n. lia.
Qed.

End CreateManyFacts.

(** X19 (createMany is not atomic).  [createMany] creates its todos one
    after the other and stops at the first one the model refuses.  When the
    todos before it are valid (and the table has room for them), the call
    fails with a database error, yet those todos have been created and stay
    in the store: it is left exactly as a successful [createMany] of the
    valid prefix leaves it, which stores the given data under consecutive
    new ids. *)
Theorem X19_createMany_is_not_atomic
    (pre post : list (Str.str * option Str.str * bool))
    (x : Str.str * option Str.str * bool) (now : nat -> Z) (d : Sqlite.db) :
  Store.reachable d ->
  Sqlite.seq d + Z.of_nat (List.length pre) <= Sqlite.max_rowid ->
  Forall (fun y => Node.isValid (fst (fst y)) (snd (fst y)) = true) pre ->
  Node.isValid (fst (fst x)) (snd (fst x)) = false ->
  exists todos d',
    Node.TodoRepository.createMany pre now d = (Ok todos, d') /\
    map (fun t => (Node.title t, Node.description t, Node.completed t)) todos = pre /\
    map Node.id todos
      = map (fun n => Sqlite.seq d + Z.of_nat n) (List.seq 1 (List.length pre)) /\
    Store.size d' = Store.size d + Z.of_nat (List.length pre) /\
    Node.TodoRepository.createMany (pre ++ x :: post) now d
      = (Err (Node.DatabaseError "Failed to create todo"), d').
Proof.
  intros Hreach Hroom Hv Hx. apply reachable_wf in Hreach.
  destruct (@createEach_valid now pre 0%nat d [] Hreach Hroom Hv)
    as [todos [d' [E [_ [_ [Hz [Hdata Hids]]]]]]].
  simpl app in E.
  exists todos, d'. unfold Node.TodoRepository.createMany.
  split; [exact E|]. split; [exact Hdata|]. split; [exact Hids|].
  split; [exact Hz|].
  rewrite createEach_app, E. destruct x as [[t de] c]. simpl in Hx.
  cbn [Node.TodoRepository.createEach]. unfold Node.TodoRepository.create.
  rewrite Hx. reflexivity.
Qed.

Lemma X19_createMany_is_not_atomic_witness :
  exists todos d',
    Node.TodoRepository.createMany [(Str.lit "Water plants", None, false)]
      (fun k => Sample.noon + Z.of_nat k) Sample.store2 = (Ok todos, d') /\
    map (fun t => (Node.title t, Node.description t, Node.completed t)) todos
      = [(Str.lit "Water plants", None, false)] /\
    map Node.id todos
      = map (fun n => Sqlite.seq Sample.store2 + Z.of_nat n) (List.seq 1 1) /\
    Store.size d' = Store.size Sample.store2 + Z.of_nat 1 /\
    Node.TodoRepository.createMany
      ([(Str.lit "Water plants", None, false)] ++ ([], None, false) :: [])
      (fun k => Sample.noon + Z.of_nat k) Sample.store2
      = (Err (Node.DatabaseError "Failed to create todo"), d').
Proof.
  apply (@X19_createMany_is_not_atomic [(Str.lit "Water plants", None, false)] []
           ([], None, false) (fun k => Sample.noon + Z.of_nat k) Sample.store2).
  - apply reachable_run. constructor.
  - vm_compute. discriminate.
  - repeat constructor.
  - reflexivity.
Defined.

(** ** What is stored *)

Section StoredRows.

Variable space : Str.rune -> bool.
Variable width : Str.rune -> Z.
Hypothesis width_pos : forall c, 0 < width c.

Let size := Str.measure width.
Let trim := Str.trim_with space.

Lemma stored_title (t : Str.str) :
  Str.eqb (trim t) [] = false -> size t <= 255 ->
  trim t <> [] /\ Str.trimmed space (trim t) /\ size (trim t) <= 255.
Proof.
  intros Hne Hlen. split; [apply str_eqb_neq; exact Hne|].
  split; [apply trim_with_trimmed|].
  pose proof (@measure_trim_with width width_pos space t).
  unfold size, trim in *. lia.
Qed.

Lemma stored_description (o : option Str.str) :
  match o with Some s => size s <= 1000 | None => True end ->
  match match o with
        | Some s => Contract.normalized space s
        | None => None
        end with
  | Some s => size s <= 1000
  | None => True
  end.
Proof.
  destruct o as [s|]; [|auto]. intros H. unfold Contract.normalized.
  destruct (Str.eqb (Str.trim_with space s) []); [exact I|].
  pose proof (@measure_trim_with width width_pos space s). unfold size in *. lia.
Qed.

Lemma updated_row_ok (a : Sqlite.assignments) (now : Z) (r : Sqlite.row) :
  (forall t, Sqlite.set_title a = Some t ->
     t <> [] /\ Str.trimmed space t /\ size t <= 255) ->
  (forall s, Sqlite.set_description a = Some (Some s) -> size s <= 1000) ->
  Contract.stored_row_ok space size r ->
  Contract.stored_row_ok space size (Sqlite.touch now (Sqlite.apply_set a now r)).
Proof.
  intros Ht Hd [H1 [H2 [H3 H4]]]. unfold Contract.stored_row_ok. simpl.
  destruct (Sqlite.set_title a) as [t|]; simpl.
  - destruct (Ht t eq_refl) as [T1 [T2 T3]].
    split; [exact T1|]. split; [exact T2|]. split; [exact T3|].
    destruct (Sqlite.set_description a) as [[s|]|]; simpl; auto.
  - split; [exact H1|]. split; [exact H2|]. split; [exact H3|].
    destruct (Sqlite.set_description a) as [[s|]|]; simpl; auto.
Qed.

End StoredRows.

Section StoredRowsServices.

Import Go.models.

Lemma utf8_len_pos (c : Str.rune) : 0 < Str.utf8_len c.
Proof.
  unfold Str.utf8_len.
  destruct (c <? 128)%N, (c <? 2048)%N, (c <? 65536)%N; lia.
Qed.

Lemma first_violation_none (size : Str.str -> Z) (trim : Str.str -> Str.str)
    (title : Str.str) (desc : option Str.str) :
  Contract.first_violation size trim title desc = None ->
  Str.eqb (trim title) [] = false /\ size title <= 255 /\
  match desc with Some s => size s <= 1000 | None => True end.
Proof.
  unfold Contract.first_violation.
  destruct (Str.eqb (trim title) []); [discriminate|].
  destruct (Z.ltb_spec 255 (size title)); [discriminate|].
  destruct desc as [s|]; [|auto].
  destruct (Z.ltb_spec 1000 (size s)); [discriminate | auto].
Qed.

Lemma Go_CreateTodo_rows req t1 t2 now (d : Sqlite.db) :
  Contract.rows_ok Str.IsSpace Str.len d ->
  Contract.rows_ok Str.IsSpace Str.len (snd (Go.services.CreateTodo req t1 t2 now d)).
Proof.
  intros H. unfold Go.services.CreateTodo.
  rewrite Go_validateCreateRequest_rules.
  destruct (Contract.first_violation _ _ _ _) as [v|] eqn:V; [exact H|].
  destruct (first_violation_none _ _ _ _ V) as [V1 [V2 V3]].
  unfold Go.repository.Create.
  cbn [Go.models.Title Go.models.Description Go.models.Completed].
  destruct (Sqlite.insert_todo _ _ _ now d) as [[d' i]|] eqn:E; [|exact H].
  assert (H' : Contract.rows_ok Str.IsSpace Str.len d').
  { eapply rows_insert; [exact H | exact E |].
    destruct (@stored_title Str.IsSpace Str.utf8_len utf8_len_pos _ V1 V2)
      as [T1 [T2 T3]].
    unfold Contract.stored_row_ok. cbn [Sqlite.title Sqlite.description].
    split; [exact T1|]. split; [exact T2|]. split; [exact T3|].
    rewrite trimDescription_normalized.
    apply (@stored_description Str.IsSpace Str.utf8_len utf8_len_pos). exact V3. }
  destruct (Go.repository.GetByID i d') as [[t|]|e]; exact H'.
Qed.

Lemma Go_UpdateTodo_rows i req now (d : Sqlite.db) :
  Contract.rows_ok Str.IsSpace Str.len d ->
  Contract.rows_ok Str.IsSpace Str.len (snd (Go.services.UpdateTodo i req now d)).
Proof.
  intros H. unfold Go.services.UpdateTodo.
  destruct (i <=? 0); [exact H|].
  destruct (Go.services.validateUpdateRequest req) eqn:V; [|exact H].
  unfold Go.repository.Exists. destruct (Sqlite.exists_id i d); [|exact H].
  unfold Go.repository.Update.
  destruct (Sqlite.assigned (Go.services.buildUpdates req) =? 0).
  - destruct (Go.repository.GetByID i d); exact H.
  - assert (H' : Contract.rows_ok Str.IsSpace Str.len
                   (fst (Sqlite.update_by_id (Go.services.buildUpdates req) i now d))).
    { apply rows_update; [exact H|]. intros r Hr.
      apply (@updated_row_ok Str.IsSpace Str.utf8_len); [| |exact Hr].
      - intros t Et. unfold Go.services.buildUpdates in Et. simpl in Et.
        unfold Go.services.validateUpdateRequest in V.
        destruct (ur_Title req) as [t0|]; [|discriminate]. simpl in Et, V.
        injection Et as <-.
        destruct (Str.eqb (Str.TrimSpace t0) []) eqn:E1; [discriminate|].
        destruct (Z.ltb_spec 255 (Str.len t0)); [discriminate|].
        apply (@stored_title Str.IsSpace Str.utf8_len utf8_len_pos); assumption.
      - intros s Es. rewrite buildUpdates_description in Es.
        unfold Go.services.validateUpdateRequest in V.
        destruct (ur_Description req) as [s0|]; [|discriminate]. simpl in Es.
        assert (Hs0 : Str.len s0 <= 1000).
        { destruct (ur_Title req) as [t0|]; simpl in V.
          - destruct (Str.eqb (Str.TrimSpace t0) []); [discriminate|].
            destruct (255 <? Str.len t0); [discriminate|]. simpl in V.
            destruct (Z.ltb_spec 1000 (Str.len s0)); [discriminate | assumption].
          - destruct (Z.ltb_spec 1000 (Str.len s0)); [discriminate | assumption]. }
        pose proof (@stored_description Str.IsSpace Str.utf8_len utf8_len_pos
                      (Some s0) Hs0) as Hd.
        simpl in Hd. injection Es as Es. rewrite Es in Hd. exact Hd. }
    destruct (Sqlite.update_by_id (Go.services.buildUpdates req) i now d) as [d' n].
    destruct (n =? 0); [exact H'|].
    destruct (Go.repository.GetByID i d'); exact H'.
Qed.

Lemma delete_rows space size i (d : Sqlite.db) :
  Contract.rows_ok space size d ->
  Contract.rows_ok space size (fst (Sqlite.delete_by_id i d)).
Proof. apply rows_delete. Qed.

Lemma Go_reachable_rows (d : Sqlite.db) :
  Store.reachable_via Store.is_go d -> Contract.rows_ok Str.IsSpace Str.len d.
Proof.
  induction 1 as [|r d Hr Hd IH]; [constructor|].
  destruct r as [req t1 t2 now | i req now | i | | | | |];
    try discriminate Hr; simpl.
  - apply Go_CreateTodo_rows. exact IH.
  - apply Go_UpdateTodo_rows. exact IH.
  - unfold Go.services.DeleteTodo.
    destruct (i <=? 0); [exact IH|].
    unfold Go.repository.Exists. destruct (Sqlite.exists_id i d); [|exact IH].
    unfold Go.repository.Delete.
    pose proof (@delete_rows _ _ i d IH) as H'.
    destruct (Sqlite.delete_by_id i d) as [d' n].
    destruct (n =? 0); exact H'.
  - unfold Go.services.DeleteAllTodos, Go.repository.DeleteAll. simpl.
    destruct (Z.of_nat (List.length (Sqlite.rows d)) =? 0); constructor.
Qed.

Lemma Node_createTodo_rows data now (d : Sqlite.db) :
  Contract.rows_ok Str.isWhiteSpaceOrLineTerminator Str.length d ->
  Contract.rows_ok Str.isWhiteSpaceOrLineTerminator Str.length
    (snd (Node.TodoService.createTodo data now d)).
Proof.
  intros H. unfold Node.TodoService.createTodo.
  rewrite Node_validateTodoData_rules.
  destruct (Contract.first_violation _ _ _ _) as [v|] eqn:V; [exact H|].
  destruct (first_violation_none _ _ _ _ V) as [V1 [V2 V3]].
  destruct (Node.td_title data) as [t|]; [|exact H]. simpl Sqlite.or_else in *.
  unfold Node.TodoRepository.create, Node.TodoService.sanitizeTodoData.
  cbn [Node.TodoService.s_title Node.TodoService.s_description
       Node.TodoService.s_completed].
  destruct (negb (Node.isValid _ _)); [exact H|].
  destruct (Sqlite.insert_todo _ _ _ now d) as [[d' i]|] eqn:E; [|exact H].
  assert (H' : Contract.rows_ok Str.isWhiteSpaceOrLineTerminator Str.length d').
  { eapply rows_insert; [exact H | exact E |].
    destruct (@stored_title Str.isWhiteSpaceOrLineTerminator Str.utf16_len
                utf16_len_pos _ V1 V2) as [T1 [T2 T3]].
    unfold Contract.stored_row_ok. cbn [Sqlite.title Sqlite.description].
    split; [exact T1|]. split; [exact T2|]. split; [exact T3|].
    rewrite trimOrNull_normalized.
    apply (@stored_description Str.isWhiteSpaceOrLineTerminator Str.utf16_len
             utf16_len_pos). exact V3. }
  destruct (Node.TodoRepository.findById i d'); exact H'.
Qed.

Lemma Node_updateTodo_rows i data now (d : Sqlite.db) :
  Contract.rows_ok Str.isWhiteSpaceOrLineTerminator Str.length d ->
  Contract.rows_ok Str.isWhiteSpaceOrLineTerminator Str.length
    (snd (Node.TodoService.updateTodo i data now d)).
Proof.
  intros H. unfold Node.TodoService.updateTodo.
  destruct (Node.TodoService.validateId i); [|exact H].
  destruct (Node.TodoService.validateUpdateData data) eqn:V; [|exact H].
  destruct (Sqlite.assigned (Node.TodoService.sanitizeUpdateData data) =? 0) eqn:A;
    [exact H|].
  unfold Node.TodoRepository.update.
  destruct (Node.TodoRepository.findById i d) as [existingTodo|]; [|exact H].
  rewrite A.
  assert (H' : Contract.rows_ok Str.isWhiteSpaceOrLineTerminator Str.length
                 (fst (Sqlite.update_by_id
                         (Node.TodoService.sanitizeUpdateData data) i now d))).
  { unfold Node.TodoService.validateUpdateData in V.
    destruct (Node.TodoService.keys data =? 0); [discriminate|].
    destruct (Node.ud_other data); [|discriminate].
    apply rows_update; [exact H|]. intros r Hr.
    apply (@updated_row_ok Str.isWhiteSpaceOrLineTerminator Str.utf16_len);
      [| |exact Hr].
    - intros t Et. simpl in Et.
      destruct (Node.ud_title data) as [t0|]; [|discriminate]. simpl in Et, V.
      injection Et as <-. rewrite length_zero_iff in V.
      destruct (Str.eqb t0 []); [discriminate|]. simpl in V.
      destruct (Str.eqb (Str.trim t0) []) eqn:E1; [discriminate|].
      destruct (Z.ltb_spec 255 (Str.length t0)); [discriminate|].
      apply (@stored_title Str.isWhiteSpaceOrLineTerminator Str.utf16_len
               utf16_len_pos); assumption.
    - intros s Es. simpl in Es.
      destruct (Node.ud_description data) as [[s0|]|]; try discriminate.
      assert (Hs0 : Str.length s0 <= 1000).
      { destruct (Node.ud_title data) as [t0|]; simpl in V.
        - destruct (Str.eqb t0 [] || (Str.length (Str.trim t0) =? 0));
            [discriminate|].
          destruct (255 <? Str.length t0); [discriminate|]. simpl in V.
          destruct (Z.ltb_spec 1000 (Str.length s0)); [discriminate | assumption].
        - destruct (Z.ltb_spec 1000 (Str.length s0)); [discriminate | assumption]. }
      cbn [option_map] in Es. rewrite trimOrNull_normalized in Es.
      pose proof (@stored_description Str.isWhiteSpaceOrLineTerminator Str.utf16_len
                    utf16_len_pos (Some s0) Hs0) as Hd.
      simpl in Hd. injection Es as Es. rewrite Es in Hd. exact Hd. }
  destruct (Sqlite.update_by_id _ i now d) as [d' n].
  destruct (Node.TodoRepository.findById i d'); exact H'.
Qed.

Lemma Node_reachable_rows (d : Sqlite.db) :
  Store.reachable_via Store.is_node d ->
  Contract.rows_ok Str.isWhiteSpaceOrLineTerminator Str.length d.
Proof.
  induction 1 as [|r d Hr Hd IH]; [constructor|].
  destruct r as [ | | | | data now | i data now | i |];
    try discriminate Hr; simpl.
  - apply Node_createTodo_rows. exact IH.
  - apply Node_updateTodo_rows. exact IH.
  - unfold Node.TodoService.deleteTodo.
    destruct (Node.TodoService.validateId i); [|exact IH].
    unfold Node.TodoRepository.delete.
    destruct (Node.TodoRepository.findById i d); [|exact IH].
    pose proof (@delete_rows _ _ i d IH) as H'.
    destruct (Sqlite.delete_by_id i d) as [d' n].
    destruct (n =? 0); exact H'.
  - unfold Node.TodoRepository.deleteAll.
    destruct (Sqlite.count [] d =? 0); [exact IH | constructor].
Qed.

Lemma reachable_via_run allowed (rs : list Store.request) (d : Sqlite.db) :
  forallb allowed rs = true -> Store.reachable_via allowed d ->
  Store.reachable_via allowed (Store.run rs d).
Proof.
  revert d; induction rs as [|r rs IH]; intros d Ha Hd; [exact Hd|].
  simpl in Ha. apply andb_true_iff in Ha. destruct Ha as [A1 A2].
  change (Store.run (r :: rs) d) with (Store.run rs (Store.exec r d)).
  apply IH; [exact A2|]. apply Store.via_exec; assumption.
Qed.

End StoredRowsServices.

(** X20 (what is stored).  In every store reached through the Go service,
    and in every store reached through the Node service, each todo has a
    title that is not empty, has no white space at either end and is at
    most 255 long, and a description, if any, that is at most 1000 long
    (white space and length as the backend's own trim and length have them:
    UTF-8 bytes in Go, UTF-16 units in Node), and every todo either service
    lists is a stored todo, with such a title and such a description. *)
Theorem X20_stored_todos_are_valid (dg dn : Sqlite.db)
    (params : Go.models.QueryParams) (o : Node.options) :
  Store.reachable_via Store.is_go dg ->
  Store.reachable_via Store.is_node dn ->
  Contract.rows_ok Str.IsSpace Str.len dg /\
  Contract.rows_ok Str.isWhiteSpaceOrLineTerminator Str.length dn /\
  (forall t, In t (Contract.go_data params dg) ->
     (exists r, In r (Sqlite.rows dg) /\ t = Go.repository.scan r) /\
     Go.models.Title t <> [] /\ Str.trimmed Str.IsSpace (Go.models.Title t) /\
     Str.len (Go.models.Title t) <= 255 /\
     (forall text, Go.models.Description t = Some text -> Str.len text <= 1000)) /\
  (forall t, In t (Contract.node_data o dn) ->
     (exists r, In r (Sqlite.rows dn) /\ t = Node.fromDb r) /\
     Node.title t <> [] /\
     Str.trimmed Str.isWhiteSpaceOrLineTerminator (Node.title t) /\
     Str.length (Node.title t) <= 255 /\
     (forall text, Node.description t = Some text -> Str.length text <= 1000)).
Proof.
  intros Hg Hn.
  pose proof (Go_reachable_rows Hg) as Rg.
  pose proof (Node_reachable_rows Hn) as Rn.
  split; [exact Rg|]. split; [exact Rn|]. split.
  - intros t Ht. apply go_data_selected in Ht. destruct Ht as [r [-> [Hin _]]].
    unfold Contract.rows_ok in Rg. rewrite Forall_forall in Rg.
    destruct (Rg r Hin) as [T1 [T2 [T3 T4]]].
    split; [exists r; split; [exact Hin | reflexivity]|].
    cbn [Go.repository.scan Go.models.Title Go.models.Description].
    repeat split; try assumption.
    intros text E. rewrite E in T4. exact T4.
  - intros t Ht. apply node_data_selected in Ht. destruct Ht as [r [-> [Hin _]]].
    unfold Contract.rows_ok in Rn. rewrite Forall_forall in Rn.
    destruct (Rn r Hin) as [T1 [T2 [T3 T4]]].
    split; [exists r; split; [exact Hin | reflexivity]|].
    cbn [Node.fromDb Node.title Node.description].
    repeat split; try assumption.
    intros text E. rewrite E in T4. exact T4.
Qed.

Lemma X20_stored_todos_are_valid_witness :
  Contract.rows_ok Str.IsSpace Str.len Sample.store2 /\
  Contract.rows_ok Str.isWhiteSpaceOrLineTerminator Str.length Sample.node_store1 /\
  (forall t, In t (Contract.go_data Go.models.DefaultQueryParams Sample.store2) ->
     (exists r, In r (Sqlite.rows Sample.store2) /\ t = Go.repository.scan r) /\
     Str.len (Go.models.Title t) <= 255 /\
     (forall text, Go.models.Description t = Some text -> Str.len text <= 1000)).
Proof.
  destruct (@X20_stored_todos_are_valid Sample.store2 Sample.node_store1
              Go.models.DefaultQueryParams
              (Node.mkOptions None None None None None None)) as [G [N [L _]]].
  - apply reachable_via_run; [reflexivity | constructor].
  - apply reachable_via_run; [reflexivity | constructor].
  - split; [exact G|]. split; [exact N|].
    intros t Ht. destruct (L t Ht) as [R [_ [_ [T D]]]].
    split; [exact R|]. split; [exact T | exact D].
Defined.

(** ** The two backends side by side *)

Section TieFacts.

(** On a store without ties in the sort column, every sorted arrangement
    of the selected rows is the one the model lists. *)
Lemma selected_unique search cf c dir (d : Sqlite.db) (l : list Sqlite.row) :
  Contract.no_ties c d ->
  Sqlite.sorted (Sqlite.ord_leb c dir) l ->
  Permutation l (filter (Contract.filter_predicate search cf) (Sqlite.rows d)) ->
  l = Contract.selected search cf c dir d.
Proof.
  intros Hn Hs Hp. unfold Contract.selected.
  apply (@sorted_unique _ (Sqlite.ord_leb c dir));
    [| exact Hs
     | apply sort_sorted;
         [apply ord_leb_total | intros; eapply ord_leb_trans; eassumption]
     | rewrite Hp; symmetry; apply sort_perm].
  intros a b Ia Ib Hab Hba.
  assert (Ia' : In a (Sqlite.rows d)).
  { apply (Permutation_in _ Hp) in Ia. apply filter_In in Ia. tauto. }
  assert (Ib' : In b (Sqlite.rows d)).
  { apply (Permutation_in _ Hp) in Ib. apply filter_In in Ib. tauto. }
  destruct dir; simpl in Hab, Hba; apply Hn; assumption.
Qed.

(** Rowids do not tie. *)
Lemma no_ties_id (d : Sqlite.db) : Sqlite.wf d -> Contract.no_ties Sqlite.Id d.
Proof.
  intros [_ _ Hnd] a b Ia Ib Hab Hba. simpl in Hab, Hba.
  apply Z.leb_le in Hab, Hba.
  assert (E : Sqlite.id a = Sqlite.id b) by lia.
  unfold Sqlite.ids in Hnd. clear Hab Hba.
  induction (Sqlite.rows d) as [|r l IH]; [destruct Ia|].
  simpl in Hnd. inversion Hnd as [|? ? Hr Hl]; subst.
  destruct Ia as [-> | Ia], Ib as [-> | Ib]; auto.
  - exfalso. apply Hr. rewrite E. apply in_map. exact Ib.
  - exfalso. apply Hr. rewrite <- E. apply in_map. exact Ia.
Qed.

End TieFacts.

(** X21 (both backends list alike).  For a query that needs no defaulting
    (page >= 1, 1 <= per_page <= 100, an allowed sort field and order, a
    search term of at most 255 UTF-16 units) and whose offset is a safe
    integer (at most 2^53 - 1), the Go service and the Node service both
    answer, with the same total, page, per_page and total_pages.  When no
    two stored todos tie in the sort column (as with sort = id) they answer
    with the same rows in the same order: the page is that slice of the
    selected rows in sorted order, and there is no other sorted order. *)
Theorem X21_backends_list_alike (p pp : Z) (s o se : Str.str)
    (cf : option bool) (d : Sqlite.db) :
  1 <= p -> 1 <= pp <= 100 ->
  existsb (Str.eqb s) Contract.sortFields = true ->
  existsb (Str.eqb o) Contract.sortOrders = true ->
  Str.length se <= 255 ->
  (p - 1) * pp <= Js.MAX_SAFE_INTEGER -> Store.size d + 100 <= Go.max_int ->
  exists c dir rowsGo rowsNode total totalPages,
    Sqlite.column_of_name s = Some c /\
    Sqlite.direction_of_keyword (Str.ToUpper o) = Some dir /\
    Go.services.GetTodos (Go.models.mkQueryParams p pp s o se cf) d =
      Ok (Go.models.mkPaginatedResponse (map Go.repository.scan rowsGo)
            total p pp totalPages) /\
    Node.TodoService.getTodos
      (Node.mkOptions (Some p) (Some pp) (Some s) (Some o) (Some se) cf) d =
      Ok (Node.mkPagination (map Node.fromDb rowsNode) total p pp totalPages) /\
    total = Z.of_nat (List.length
              (filter (Contract.filter_predicate se cf) (Sqlite.rows d))) /\
    (Contract.no_ties c d ->
     rowsGo = rowsNode /\
     forall l,
       Sqlite.sorted (Sqlite.ord_leb c dir) l ->
       Permutation l (filter (Contract.filter_predicate se cf) (Sqlite.rows d)) ->
       rowsGo = Contract.page_slice p pp l).
Proof.
  intros Hp Hpp Hs Ho Hse Hoff Hsize.
  assert (Hoff' : (p - 1) * pp <= Go.max_int)
    by (unfold Js.MAX_SAFE_INTEGER, Go.max_int in *; lia).
  assert (Hlen : Str.len se + 2 <= Sqlite.MAX_LIKE_PATTERN_LENGTH).
  { pose proof (len_le_length se). unfold Sqlite.MAX_LIKE_PATTERN_LENGTH. lia. }
  destruct (@Go_GetTodos_paginates (Go.models.mkQueryParams p pp s o se cf) d)
    as [c [dir [Hc [Hd EG]]]]; try assumption.
  destruct (@Node_getTodos_paginates p pp s o (Some se) cf d)
    as [c' [dir' [Hc' [Hd' EN]]]]; try assumption.
  cbn [Go.models.qp_Page Go.models.qp_PerPage Go.models.qp_Sort
       Go.models.qp_Order Go.models.qp_Search Go.models.qp_Completed
       Sqlite.or_else] in *.
  assert (c' = c) by congruence. assert (dir' = dir) by congruence. subst c' dir'.
  exists c, dir. eexists; eexists; eexists; eexists.
  split; [exact Hc|]. split; [exact Hd|].
  split; [exact EG|]. split; [exact EN|]. split; [reflexivity|].
  intros Hn. split; [reflexivity|].
  intros l Sl Pl. rewrite (selected_unique se cf Hn Sl Pl). reflexivity.
Qed.

Lemma X21_backends_list_alike_witness :
  exists c dir rowsGo rowsNode total totalPages,
    Sqlite.column_of_name (Str.lit "title") = Some c /\
    Sqlite.direction_of_keyword (Str.ToUpper (Str.lit "asc")) = Some dir /\
    Go.services.GetTodos
      (Go.models.mkQueryParams 1 20 (Str.lit "title") (Str.lit "asc")
                               (Str.lit "o") None) Sample.store2 =
      Ok (Go.models.mkPaginatedResponse (map Go.repository.scan rowsGo)
            total 1 20 totalPages) /\
    Node.TodoService.getTodos
      (Node.mkOptions (Some 1) (Some 20) (Some (Str.lit "title"))
                      (Some (Str.lit "asc")) (Some (Str.lit "o")) None)
      Sample.store2 =
      Ok (Node.mkPagination (map Node.fromDb rowsNode) total 1 20 totalPages) /\
    total = Z.of_nat (List.length
              (filter (Contract.filter_predicate (Str.lit "o") None)
                      (Sqlite.rows Sample.store2))) /\
    (Contract.no_ties c Sample.store2 ->
     rowsGo = rowsNode /\
     forall l,
       Sqlite.sorted (Sqlite.ord_leb c dir) l ->
       Permutation l (filter (Contract.filter_predicate (Str.lit "o") None)
                             (Sqlite.rows Sample.store2)) ->
       rowsGo = Contract.page_slice 1 20 l).
Proof.
  apply (@X21_backends_list_alike 1 20 (Str.lit "title") (Str.lit "asc")
           (Str.lit "o") None Sample.store2).
  - lia.
  - lia.
  - reflexivity.
  - reflexivity.
  - vm_compute. discriminate.
  - vm_compute. discriminate.
  - vm_compute. discriminate.
Defined.

Section AsciiFacts.

Lemma space_ascii (c : Str.rune) :
  (c < 128)%N -> Str.IsSpace c = Str.isWhiteSpaceOrLineTerminator c.
Proof.
  intros H. unfold Str.IsSpace, Str.isWhiteSpaceOrLineTerminator.
  assert (E0 : (c <=? 255)%N = true) by (apply N.leb_le; lia).
  assert (E1 : (c =? 133)%N = false) by (apply N.eqb_neq; lia).
  assert (E2 : (c =? 160)%N = false) by (apply N.eqb_neq; lia).
  assert (E3 : (c =? 5760)%N = false) by (apply N.eqb_neq; lia).
  assert (E4 : (8192 <=? c)%N = false) by (apply N.leb_gt; lia).
  assert (E5 : (c =? 8232)%N = false) by (apply N.eqb_neq; lia).
  assert (E6 : (c =? 8233)%N = false) by (apply N.eqb_neq; lia).
  assert (E7 : (c =? 8239)%N = false) by (apply N.eqb_neq; lia).
  assert (E8 : (c =? 8287)%N = false) by (apply N.eqb_neq; lia).
  assert (E9 : (c =? 12288)%N = false) by (apply N.eqb_neq; lia).
  assert (E10 : (c =? 65279)%N = false) by (apply N.eqb_neq; lia).
  rewrite E0, E1, E2, E3, E4, E5, E6, E7, E8, E9, E10.
  simpl. rewrite !orb_false_r. reflexivity.
Qed.

Lemma width_ascii (c : Str.rune) :
  (c < 128)%N -> Str.utf8_len c = Str.utf16_len c.
Proof.
  intros H. unfold Str.utf8_len, Str.utf16_len.
  assert (E0 : (c <? 128)%N = true) by (apply N.ltb_lt; lia).
  assert (E1 : (c <? 65536)%N = true) by (apply N.ltb_lt; lia).
  rewrite E0, E1. reflexivity.
Qed.

Lemma len_ascii (s : Str.str) : Contract.ascii s -> Str.len s = Str.length s.
Proof.
  unfold Str.len, Str.length. induction 1 as [|c s Hc Hs IH]; simpl;
    [reflexivity|].
  rewrite IH, (width_ascii Hc). reflexivity.
Qed.

Lemma trim_left_ascii (s : Str.str) :
  Contract.ascii s ->
  Str.trim_left Str.IsSpace s = Str.trim_left Str.isWhiteSpaceOrLineTerminator s /\
  Contract.ascii (Str.trim_left Str.IsSpace s).
Proof.
  induction 1 as [|c s Hc Hs [IH1 IH2]]; simpl; [split; [reflexivity | constructor]|].
  rewrite <- (space_ascii Hc).
  destruct (Str.IsSpace c); [split; assumption|].
  split; [reflexivity | constructor; assumption].
Qed.

Lemma trim_ascii (s : Str.str) :
  Contract.ascii s -> Str.TrimSpace s = Str.trim s.
Proof.
  intros H. unfold Str.TrimSpace, Str.trim, Str.trim_with, Str.trim_right.
  destruct (trim_left_ascii H) as [E1 A1]. rewrite <- E1.
  assert (A2 : Contract.ascii (rev (Str.trim_left Str.IsSpace s)))
    by (apply Forall_rev; exact A1).
  destruct (trim_left_ascii A2) as [E2 _]. rewrite E2. reflexivity.
Qed.

Lemma first_violation_ascii (title : Str.str) (description : option Str.str) :
  Contract.ascii title ->
  (forall s, description = Some s -> Contract.ascii s) ->
  Contract.first_violation Str.len Str.TrimSpace title description =
  Contract.first_violation Str.length Str.trim title description.
Proof.
  intros Ht Hd. unfold Contract.first_violation.
  rewrite (trim_ascii Ht), (len_ascii Ht).
  destruct description as [s|]; [|reflexivity].
  rewrite (len_ascii (Hd s eq_refl)). reflexivity.
Qed.

Lemma normalize_ascii (description : option Str.str) :
  (forall s, description = Some s -> Contract.ascii s) ->
  Go.services.trimDescription description
  = Node.TodoService.trimOrNull description.
Proof.
  intros Hd. destruct description as [s|]; [|reflexivity]. simpl.
  rewrite (trim_ascii (Hd s eq_refl)). reflexivity.
Qed.

End AsciiFacts.

(** X22 (both backends create alike).  For a title and a description made
    of ASCII characters, where the two backends trim and measure alike, the
    Go service and the Node service treat a Create request the same way:
    both refuse it, for the same violated rule and without touching the
    store, or both store the same row and return it. *)
Theorem X22_backends_create_alike (title : Str.str)
    (description : option Str.str) (completed : bool) (t1 t2 now : Z)
    (d : Sqlite.db) :
  Contract.ascii title ->
  (forall s, description = Some s -> Contract.ascii s) ->
  let go :=
    Go.services.CreateTodo
      (Go.models.mkCreateTodoRequest title description completed) t1 t2 now d in
  let node :=
    Node.TodoService.createTodo
      (Node.mkTodoData (Some title) description (Some completed)) now d in
  snd go = snd node /\
  ((exists r, fst go = Ok (Go.repository.scan r) /\ fst node = Ok (Node.fromDb r) /\
              Sqlite.select_by_id (Sqlite.id r) (snd go) = Some r) \/
   (exists v, fst go = Err (Contract.go_error v) /\
              fst node = Err (Contract.node_error v) /\ snd go = d) \/
   (Sqlite.max_rowid <= Sqlite.seq d /\
    is_ok (fst go) = false /\ is_ok (fst node) = false /\ snd go = d)).
Proof.
  intros Ht Hd go node. unfold go, node.
  unfold Go.services.CreateTodo, Node.TodoService.createTodo.
  rewrite Go_validateCreateRequest_rules, Node_validateTodoData_rules.
  cbn [Go.models.cr_Title Go.models.cr_Description Go.models.cr_Completed
       Node.td_title Node.td_description Node.td_completed Sqlite.or_else].
  rewrite (first_violation_ascii Ht Hd).
  destruct (Contract.first_violation Str.length Str.trim title description)
    as [v|] eqn:V.
  - split; [reflexivity|]. right. left. exists v. repeat split.
  - unfold Node.TodoService.sanitizeTodoData, Node.TodoRepository.create,
      Go.repository.Create.
    cbn [Node.TodoService.s_title Node.TodoService.s_description
         Node.TodoService.s_completed Node.td_description Node.td_completed
         Sqlite.or_else Go.models.Title Go.models.Description Go.models.Completed].
    rewrite (sanitized_isValid _ _ V). simpl negb. cbv iota.
    rewrite (trim_ascii Ht), (normalize_ascii Hd).
    destruct (Sqlite.insert_todo (Str.trim title)
                (Node.TodoService.trimOrNull description) completed now d)
      as [[d' i]|] eqn:E.
    + destruct (insert_todo_finds _ _ _ _ _ E) as [_ [_ [r [Hr Hid]]]].
      unfold Go.repository.GetByID, Node.TodoRepository.findById.
      rewrite Hr. simpl. split; [reflexivity|]. left. exists r.
      rewrite Hid. repeat split. exact Hr.
    + simpl. split; [reflexivity|]. right. right.
      unfold Sqlite.insert_todo in E.
      destruct (Z.leb_spec Sqlite.max_rowid (Sqlite.seq d)); [|discriminate].
      repeat split. assumption.
Qed.

Lemma X22_backends_create_alike_witness :
  let go :=
    Go.services.CreateTodo
      (Go.models.mkCreateTodoRequest (Str.lit " Feed the cat ") (Some (Str.lit "  "))
                                     false)
      Sample.noon Sample.noon (Sample.noon + 9) Sample.store2 in
  let node :=
    Node.TodoService.createTodo
      (Node.mkTodoData (Some (Str.lit " Feed the cat ")) (Some (Str.lit "  "))
                       (Some false))
      (Sample.noon + 9) Sample.store2 in
  snd go = snd node /\
  ((exists r, fst go = Ok (Go.repository.scan r) /\ fst node = Ok (Node.fromDb r) /\
              Sqlite.select_by_id (Sqlite.id r) (snd go) = Some r) \/
   (exists v, fst go = Err (Contract.go_error v) /\
              fst node = Err (Contract.node_error v) /\ snd go = Sample.store2) \/
   (Sqlite.max_rowid <= Sqlite.seq Sample.store2 /\
    is_ok (fst go) = false /\ is_ok (fst node) = false /\ snd go = Sample.store2)).
Proof.
  apply (@X22_backends_create_alike (Str.lit " Feed the cat ") (Some (Str.lit "  "))
           false Sample.noon Sample.noon (Sample.noon + 9) Sample.store2).
  - repeat constructor.
  - intros s E. injection E as <-. repeat constructor.
Defined.

(** ** What no request changes *)

Section KeptFacts.

Variable i : Z.

(** The todo found under [i] in [d'] was there in [d], with the same
    [created_at]. *)
Definition kept (d d' : Sqlite.db) : Prop :=
  forall x, Sqlite.select_by_id i d' = Some x ->
  exists y, Sqlite.select_by_id i d = Some y /\
            Sqlite.id x = Sqlite.id y /\
            Sqlite.created_at x = Sqlite.created_at y.

Lemma kept_refl (d : Sqlite.db) : kept d d.
Proof. intros x Hx. exists x. auto. Qed.

Lemma kept_insert t desc c now (d d' : Sqlite.db) (j : Z) :
  i <= Sqlite.seq d ->
  Sqlite.insert_todo t desc c now d = Some (d', j) -> kept d d'.
Proof.
  intros Hi E x Hx. unfold Sqlite.insert_todo in E.
  destruct (Sqlite.max_rowid <=? Sqlite.seq d); [discriminate|].
  injection E as <- <-. unfold Sqlite.select_by_id in *. simpl in Hx.
  rewrite find_append in Hx.
  destruct (find (fun r => Sqlite.id r =? i) (Sqlite.rows d)) as [y|].
  - injection Hx as <-. exists y. auto.
  - simpl in Hx. destruct (Z.eqb_spec (Sqlite.seq d + 1) i); [lia | discriminate].
Qed.

Lemma kept_update a j now (d : Sqlite.db) :
  kept d (fst (Sqlite.update_by_id a j now d)).
Proof.
  intros x Hx. unfold Sqlite.select_by_id in *. simpl in Hx.
  destruct (Z.eq_dec i j) as [->|Hj].
  - rewrite find_updated in Hx by reflexivity.
    destruct (find (fun r => Sqlite.id r =? j) (Sqlite.rows d)) as [y|];
      [|discriminate].
    simpl in Hx. injection Hx as <-. exists y. auto.
  - rewrite find_other in Hx by (reflexivity || exact Hj). exists x. auto.
Qed.

Lemma kept_delete j (d : Sqlite.db) :
  kept d (fst (Sqlite.delete_by_id j d)).
Proof.
  intros x Hx. unfold Sqlite.select_by_id in *. simpl in Hx.
  destruct (Z.eq_dec i j) as [->|Hj].
  - rewrite find_deleted in Hx. discriminate.
  - rewrite find_not_deleted in Hx by exact Hj. exists x. auto.
Qed.

Lemma kept_exec (r : Store.request) (d : Sqlite.db) :
  i <= Sqlite.seq d -> kept d (Store.exec r d).
Proof.
  intros Hi.
  destruct r as [req t1 t2 now | j req now | j | | data now | j data now | j |];
    unfold Store.exec.
  - unfold Go.services.CreateTodo.
    destruct (Go.services.validateCreateRequest req); [|apply kept_refl].
    unfold Go.repository.Create.
    destruct (Sqlite.insert_todo _ _ _ now d) as [[d' k]|] eqn:E; [|apply kept_refl].
    pose proof (@kept_insert _ _ _ _ _ _ _ Hi E) as K.
    destruct (Go.repository.GetByID k d') as [[t|]|e]; exact K.
  - unfold Go.services.UpdateTodo.
    destruct (j <=? 0); [apply kept_refl|].
    destruct (Go.services.validateUpdateRequest req); [|apply kept_refl].
    unfold Go.repository.Exists. destruct (Sqlite.exists_id j d); [|apply kept_refl].
    unfold Go.repository.Update.
    destruct (Sqlite.assigned _ =? 0).
    + destruct (Go.repository.GetByID j d); apply kept_refl.
    + pose proof (kept_update (Go.services.buildUpdates req) j now d) as K.
      destruct (Sqlite.update_by_id (Go.services.buildUpdates req) j now d) as [d' n].
      destruct (n =? 0); [exact K|].
      destruct (Go.repository.GetByID j d'); exact K.
  - unfold Go.services.DeleteTodo.
    destruct (j <=? 0); [apply kept_refl|].
    unfold Go.repository.Exists. destruct (Sqlite.exists_id j d); [|apply kept_refl].
    unfold Go.repository.Delete.
    pose proof (kept_delete j d) as K.
    destruct (Sqlite.delete_by_id j d) as [d' n].
    destruct (n =? 0); exact K.
  - unfold Go.services.DeleteAllTodos, Go.repository.DeleteAll, Sqlite.delete_all.
    destruct (_ =? 0); intros x Hx; discriminate Hx.
  - unfold Node.TodoService.createTodo.
    destruct (Node.TodoService.validateTodoData data); [|apply kept_refl].
    destruct (Node.td_title data) as [t|]; [|apply kept_refl].
    unfold Node.TodoRepository.create.
    destruct (negb (Node.isValid _ _)); [apply kept_refl|].
    destruct (Sqlite.insert_todo _ _ _ now d) as [[d' k]|] eqn:E; [|apply kept_refl].
    pose proof (@kept_insert _ _ _ _ _ _ _ Hi E) as K.
    destruct (Node.TodoRepository.findById k d'); exact K.
  - unfold Node.TodoService.updateTodo.
    destruct (Node.TodoService.validateId j); [|apply kept_refl].
    destruct (Node.TodoService.validateUpdateData data); [|apply kept_refl].
    destruct (Sqlite.assigned _ =? 0) eqn:A; [apply kept_refl|].
    unfold Node.TodoRepository.update.
    destruct (Node.TodoRepository.findById j d); [|apply kept_refl].
    rewrite A.
    pose proof (kept_update (Node.TodoService.sanitizeUpdateData data) j now d) as K.
    destruct (Sqlite.update_by_id _ j now d) as [d' n].
    destruct (Node.TodoRepository.findById j d'); exact K.
  - unfold Node.TodoService.deleteTodo.
    destruct (Node.TodoService.validateId j); [|apply kept_refl].
    unfold Node.TodoRepository.delete.
    destruct (Node.TodoRepository.findById j d); [|apply kept_refl].
    pose proof (kept_delete j d) as K.
    destruct (Sqlite.delete_by_id j d) as [d' n].
    destruct (n =? 0); exact K.
  - unfold Node.TodoRepository.deleteAll.
    destruct (Sqlite.count [] d =? 0); [apply kept_refl|].
    intros x Hx; discriminate Hx.
Qed.

Lemma kept_run (rs : list Store.request) (d : Sqlite.db) :
  i <= Sqlite.seq d -> kept d (Store.run rs d).
Proof.
  revert d; induction rs as [|r rs IH]; intros d Hi; [apply kept_refl|].
  change (Store.run (r :: rs) d) with (Store.run rs (Store.exec r d)).
  pose proof (exec_seq r d) as Hs.
  intros x Hx. destruct (IH (Store.exec r d) ltac:(lia) x Hx) as [y [Hy [E1 E2]]].
  destruct (@kept_exec r d Hi y Hy) as [z [Hz [E3 E4]]].
  exists z. split; [exact Hz|]. split; congruence.
Qed.

End KeptFacts.

(** X23 (id and created_at are immutable).  A todo that is found under an
    id, in either backend on a reachable store, and is found under that id
    again after any further requests, has the id and the created_at it had:
    no request changes them, and since ids are never reused no other todo
    takes its place. *)
Theorem X23_created_at_is_immutable (i : Z) (d : Sqlite.db)
    (rs : list Store.request) :
  Store.reachable d ->
  (forall t t',
     Go.services.GetTodoByID i d = Ok (Some t) ->
     Go.services.GetTodoByID i (Store.run rs d) = Ok (Some t') ->
     Go.models.ID t' = Go.models.ID t /\
     Go.models.CreatedAt t' = Go.models.CreatedAt t) /\
  (forall t t',
     Node.TodoService.getTodoById i d = Ok t ->
     Node.TodoService.getTodoById i (Store.run rs d) = Ok t' ->
     Node.id t' = Node.id t /\ Node.created_at t' = Node.created_at t).
Proof.
  intros Hreach. apply reachable_wf in Hreach. destruct Hreach as [_ Hids _].
  assert (Hseq : forall y, Sqlite.select_by_id i d = Some y -> i <= Sqlite.seq d).
  { intros y Hy. unfold Sqlite.select_by_id in Hy. apply find_some in Hy.
    destruct Hy as [Hin E]. apply Z.eqb_eq in E.
    unfold Sqlite.ids in Hids. rewrite Forall_forall in Hids.
    specialize (Hids _ (in_map Sqlite.id _ _ Hin)). lia. }
  assert (K : forall y x, Sqlite.select_by_id i d = Some y ->
                Sqlite.select_by_id i (Store.run rs d) = Some x ->
                Sqlite.id x = Sqlite.id y /\
                Sqlite.created_at x = Sqlite.created_at y).
  { intros y x Hy Hx.
    destruct (@kept_run i rs d (Hseq y Hy) x Hx) as [z [Hz E]].
    assert (z = y) by congruence. subst z. exact E. }
  split.
  - intros t t'. unfold Go.services.GetTodoByID, Go.repository.GetByID.
    destruct (i <=? 0); [discriminate|].
    destruct (Sqlite.select_by_id i d) as [y|] eqn:Hy; [|discriminate].
    destruct (Sqlite.select_by_id i (Store.run rs d)) as [x|] eqn:Hx; [|discriminate].
    simpl. intros E1 E2. injection E1 as <-. injection E2 as <-.
    apply (K y x eq_refl eq_refl).
  - intros t t'. unfold Node.TodoService.getTodoById, Node.TodoRepository.findById.
    destruct (Node.TodoService.validateId i); [|discriminate]. simpl bind.
    destruct (Sqlite.select_by_id i d) as [y|] eqn:Hy; [|discriminate].
    destruct (Sqlite.select_by_id i (Store.run rs d)) as [x|] eqn:Hx; [|discriminate].
    simpl. intros E1 E2. injection E1 as <-. injection E2 as <-.
    apply (K y x eq_refl eq_refl).
Qed.

Lemma X23_created_at_is_immutable_witness :
  exists t',
    Go.services.GetTodoByID 1 Sample.store1 = Ok (Some Sample.buy_milk_todo) /\
    Go.services.GetTodoByID 1
      (Store.run [Store.GoUpdate 1 Sample.mark_done (Sample.noon + 60);
                  Store.GoDelete 2] Sample.store1) = Ok (Some t') /\
    Go.models.ID t' = Go.models.ID Sample.buy_milk_todo /\
    Go.models.CreatedAt t' = Go.models.CreatedAt Sample.buy_milk_todo.
Proof.
  eexists. split; [reflexivity|]. split; [vm_compute; reflexivity|].
  apply (proj1 (@X23_created_at_is_immutable 1 Sample.store1
                  [Store.GoUpdate 1 Sample.mark_done (Sample.noon + 60);
                   Store.GoDelete 2]
                  ltac:(apply reachable_run; constructor))).
  - reflexivity.
  - vm_compute. reflexivity.
Defined.

(** ** The empty table *)

Section EmptyTable.

Import Go.models.

Lemma count_empty cs (d : Sqlite.db) : Sqlite.rows d = [] -> Sqlite.count cs d = 0.
Proof. intros E. unfold Sqlite.count. rewrite E. reflexivity. Qed.

Lemma select_empty cs c dir lim off (d : Sqlite.db) :
  Sqlite.rows d = [] -> Sqlite.select cs c dir lim off d = [].
Proof.
  intros E. apply length_zero_iff_nil.
  unfold Sqlite.select, Sqlite.limit_offset.
  destruct (lim <? 0); [|rewrite length_firstn];
    rewrite length_skipn, sort_length, E; simpl; lia.
Qed.

Lemma Go_DeleteAllTodos_rows (d : Sqlite.db) :
  Sqlite.rows (snd (Go.services.DeleteAllTodos d)) = [].
Proof.
  unfold Go.services.DeleteAllTodos, Go.repository.DeleteAll, Sqlite.delete_all.
  destruct (_ =? 0); reflexivity.
Qed.

Lemma Node_deleteAll_rows (d : Sqlite.db) :
  Sqlite.rows (snd (Node.TodoRepository.deleteAll d)) = [].
Proof.
  unfold Node.TodoRepository.deleteAll. rewrite count_all. unfold Store.size.
  destruct (Z.eqb_spec (Z.of_nat (List.length (Sqlite.rows d))) 0) as [E|E].
  - simpl. apply length_zero_iff_nil. lia.
  - reflexivity.
Qed.

Lemma Go_GetTodos_empty (params : QueryParams) (d : Sqlite.db)
    (resp : PaginatedResponse) :
  Sqlite.rows d = [] ->
  Go.services.GetTodos params d = Ok resp ->
  Data resp = [] /\ Total resp = 0 /\ TotalPages resp = 0.
Proof.
  intros E H. destruct (Go_GetTodos_shape _ _ H) as [c [dir [_ [_ [D [T [_ [_ P]]]]]]]].
  rewrite select_empty in D by exact E. rewrite count_empty in T by exact E.
  split; [exact D|]. split; [exact T|].
  rewrite P, T, setDefaults_perPage.
  pose proof (effective_perPage_range (qp_PerPage params)) as R.
  set (pp := Contract.effective_perPage (qp_PerPage params)) in *.
  unfold Go.int_quo, Go.int_sub, Go.int_add.
  rewrite (@wrap_small (0 + pp)) by (unfold Go.min_int, Go.max_int; lia).
  rewrite (@wrap_small (0 + pp - 1)) by (unfold Go.min_int, Go.max_int; lia).
  rewrite Z.quot_small by lia. reflexivity.
Qed.

Lemma Go_GetTodoStats_empty (d : Sqlite.db) :
  Sqlite.rows d = [] ->
  Go.services.GetTodoStats d = Ok (Go.services.mkStats 0 0 0).
Proof.
  intros E. unfold Go.services.GetTodoStats.
  set (params := mkQueryParams 1 1000 (Str.lit "created_at") (Str.lit "desc") [] None).
  destruct (@GetTodos_accepted params d eq_refl eq_refl eq_refl) as [c [dir [_ [_ H]]]].
  rewrite H. cbn [Data Total].
  rewrite select_empty by exact E. rewrite count_empty by exact E. reflexivity.
Qed.

Lemma Node_getTodos_empty (o : Node.options) (d : Sqlite.db)
    (res : Node.pagination) :
  Sqlite.rows d = [] ->
  Node.TodoService.getTodos o d = Ok res ->
  Node.pg_data res = [] /\ Node.pg_total res = 0 /\ Node.pg_total_pages res = 0.
Proof.
  intros E H. destruct (Node_getTodos_shape _ _ H) as [c [dir [_ [_ [D [T [_ [_ P]]]]]]]].
  rewrite select_empty in D by exact E. rewrite count_empty in T by exact E.
  split; [exact D|]. split; [exact T|].
  rewrite P, T. reflexivity.
Qed.

End EmptyTable.

(** X24 (after delete-all).  Whatever the table held, after the delete-all
    operation of either backend (which in Go reports an error when there was
    nothing to delete) every List query that is answered has no todos,
    total 0 and total_pages 0, the statistics are all zero, and no id is
    found. *)
Theorem X24_after_delete_all (d : Sqlite.db) :
  let dg := snd (Go.services.DeleteAllTodos d) in
  let dn := snd (Node.TodoRepository.deleteAll d) in
  (forall params resp,
     Go.services.GetTodos params dg = Ok resp ->
     Go.models.Data resp = [] /\ Go.models.Total resp = 0 /\
     Go.models.TotalPages resp = 0) /\
  Go.services.GetTodoStats dg = Ok (Go.services.mkStats 0 0 0) /\
  (forall i t, Go.services.GetTodoByID i dg <> Ok (Some t)) /\
  (forall o res,
     Node.TodoService.getTodos o dn = Ok res ->
     Node.pg_data res = [] /\ Node.pg_total res = 0 /\
     Node.pg_total_pages res = 0) /\
  Node.TodoRepository.getStats dn = Ok (Node.TodoRepository.mkStats 0 0 0) /\
  (forall i t, Node.TodoService.getTodoById i dn <> Ok t).
Proof.
  intros dg dn.
  pose proof (Go_DeleteAllTodos_rows d) as Eg. fold dg in Eg.
  pose proof (Node_deleteAll_rows d) as En. fold dn in En.
  split; [intros params resp; apply Go_GetTodos_empty; exact Eg|].
  split; [apply Go_GetTodoStats_empty; exact Eg|].
  split.
  { intros i t. unfold Go.services.GetTodoByID, Go.repository.GetByID,
      Sqlite.select_by_id. rewrite Eg.
    destruct (i <=? 0); simpl; discriminate. }
  split; [intros o res; apply Node_getTodos_empty; exact En|].
  split.
  { unfold Node.TodoRepository.getStats. rewrite !count_empty by exact En. reflexivity. }
  intros i t. unfold Node.TodoService.getTodoById, Node.TodoRepository.findById,
    Sqlite.select_by_id. rewrite En.
  destruct (Node.TodoService.validateId i); simpl; discriminate.
Qed.
